(* ===== verification/_CoqProject ===== *)
-Q . S2P
Prelude.v
Types.v
Metrics.v
Store.v
PlayerSlice.v
SettingsSlice.v
GameCanvas.v
Config.v
Utils.v
Play.v
Progress.v
Theme.v
Display.v
Endless.v
Hooks.v
LlmProviders.v
LlmService.v
Persistence.v
Sound.v
Views.v
Shell.v
Styles.v
PageStyles.v
App.v
