(* ===== verification/Prelude.v ===== *)
(** * Typing Adventure: a verification development for the typing game

    The program is a browser typing game written in TypeScript with React
    and zustand.  Words fall down a canvas; a key press is matched against
    the next character of the first active word that expects it; a word
    typed to its end scores points multiplied by the current combo; a word
    that reaches the floor breaks the combo; a level lasts sixty seconds.
    Around this core the repository has stores for the player and the
    settings, the pages (home, level selection, level, endless mode,
    statistics, settings) behind a router and inside a layout, the
    components they share, a set of hooks, helpers and constants, and three
    services (content, storage, audio).  This development models the parts
    of the program that hold state or decide something, and what each page
    and component shows as a function of what it reads, and proves what
    makes them correct.  Paths below are relative to [src/src].

    ** The parts of the program and the files that model them

    - [Prelude] (this file): JavaScript values as the other files use them.
      A [number] is an exact rational [Q], or a [Z] where the program only
      ever stores integers; [Math.floor], [Math.ceil], [Math.round],
      [Math.max] and [Math.min] are [Math_floor] ... [Math_min]; a string is
      a [string] with [toLowerCase], [charAt] and [trim]; an array index is
      [nthZ]; an exception is [Throw e] in the monad [result], with [e] a
      [JsError]; a key event is a [KeyboardEvent.t]; [startsWith] is the
      method of strings.  The tactics [zq],
      [push_inj] and [case_qle] and the hint databases [js] and [store]
      serve the other files.
    - [Types]: [types/index.ts].  Every union type is an [Inductive], every
      interface a [Record] in a module of its name ([GameSession.t],
      [FallingWord.t], [PlayerData.t], ...).
    - [Metrics]: the calculators of [utils/index.ts] ([calculateWPM],
      [calculateAccuracy], [calculateScore], [calculateStars],
      [getLevelFromExp], [clamp], [lerp]).
    - [Store]: the game store [useGameStore] of [store/gameSlice.ts].
      [Module Session] has one function per reducer; [Class GameStore] is
      the TypeScript interface of the store and [GameStoreLaws] what its
      clients rely on; [Module Machine] is the store as a machine of
      [Action]s with [apply], [run], [reachable], the invariant [wf] and the
      lifecycle [transition] of the specification.
    - [PlayerSlice]: the player store [usePlayerStore] of the same source
      file, in the same three layers ([Module Player], [Class PlayerStore],
      [Module PlayerMachine]).
    - [SettingsSlice]: the settings store [useSettingsStore] of the same
      source file ([Module Settings], [Class SettingsStore]) and the page
      [pages/Settings/index.tsx] ([Module SettingsPage]): its local state,
      its handlers, and each control as an event on the two stores.
    - [GameCanvas]: [components/game/GameCanvas.tsx].  The refs of the
      component are [Refs.t]; [spawnWord], [gameLoop] (one animation frame:
      countdown, [spawnPhase], [movePhase]), [startLoop] (the effect that
      starts the loop) and [handleKeyPress] (with its loop [keyLoop]) are
      written against [GameStore] and make every store call of the code, in
      its order.
    - [Config]: the constants of [config/index.ts].
    - [Utils]: the other helpers of [utils/index.ts]: the random helpers,
      [shuffleArray], [formatTime], [formatNumber] (with [toFixed] and the
      rounding of a quotient to a number value, [double]), [debounce] and
      [throttle] (as machines over the calls of the wrapper and the timers
      of the browser, [Module Debounce] and [Module Throttle]) and
      [getFingerForKey].
    - [Play]: [pages/Game/index.tsx] and [components/game/TypingInput.tsx].
      [Module Words] is the level table and [generateWords];
      [Module TypingInput] the key handler; [Module Page] the handlers of
      the page ([mount], [handleGameEnd], [handleRestart]); [Module World]
      the page with its children as a transition system: [World.step] is
      what one browser event does.
    - [Progress]: [pages/LevelSelect/index.tsx] ([Module LevelSelect]: the
      table of worlds, [isLevelUnlocked], the cards of the page) and
      [pages/Stats/index.tsx] ([Module StatsPage]: the totals, the rows of
      the levels with [repeat], the achievements).
    - [Theme]: [types/theme.d.ts] and [app/providers.tsx]
      ([Module Theme]).
    - [Display]: [components/common/ProgressBar.tsx]
      ([Module ProgressBar]), [components/game/GameHUD.tsx]
      ([Module GameHUD], with [Number] of a string in [Module JsNumber]),
      [components/level/LevelResult.tsx] ([Module LevelResult]) and
      [pages/Home/index.tsx] ([Module HomePage]).
    - [Endless]: [pages/EndlessMode/index.tsx], in the same manner as
      [Play] ([Module EndlessWords], [Module EndlessPage],
      [Module EndlessWorld]).
    - [Hooks]: [hooks/useTimer.ts], [useGame.ts], [useTyping.ts] and
      [useKeyboard.ts] ([Module Timer], [Stopwatch], [GameHook],
      [TypingHook], [Keyboard]).
    - [LlmProviders]: [services/llm/types.ts] ([Class ILLMProvider],
      [Module Base], [Module PromptTemplates]), [StaticDataProvider.ts]
      ([Module StaticData]) and [OpenAIProvider.ts] ([Module OpenAI]).
    - [LlmService]: [services/llm/LLMService.ts] ([Module Service], with
      the sum [Module Provider] of the two providers, and [Module Default]).
    - [Persistence]: [services/storage/StorageService.ts]
      ([Module StorageService], with its specification as a map in
      [Module StoreSpec]).
    - [Sound]: [services/audio/AudioService.ts] ([Module AudioService],
      over the state [Howl.t] and [Howler.t] of the audio library, and
      [Module AudioDefault]).
    - [Views]: what [pages/Game/index.tsx] and
      [pages/EndlessMode/index.tsx] return ([Module GamePage],
      [Module EndlessView]), over the worlds of [Play] and [Endless].
    - [Shell]: [app/router.tsx] ([Module Router]: the route table, and the
      matching of react-router for tables of this shape; [Module Location]:
      the places and the addresses of the links),
      [components/layout/Header.tsx] and [Layout.tsx],
      [components/common/LoadingSpinner.tsx], [Button.tsx] and [Modal.tsx]
      ([Module Modal], over the listeners and the body of the document in
      [Module Dom]).
    - [Styles] and [PageStyles]: the styled components of [components/]
      and of [pages/], one module for every source file
      ([ButtonStyle], [GameHUDStyle], ..., [LevelSelectStyle], ...) and in
      it one function for every styled component, from the props and the
      theme it reads to its style sheet ([Css.t]: the declarations in their
      order, nested rules as blocks).
    - [App]: the pages behind the router.  [App.t] is the address, the
      three stores and the page that is mounted with its local state;
      [App.step] is a click on a link that is shown ([App.navigate]: the
      cleanup of the page that is left, the first render of the page of the
      address) or an event of the page ([World.step], [EndlessWorld.step],
      [SettingsPage.step]).  [Module ResetDialog] is the dialogue of the
      settings page.

    The files depend on one another as the modules of the program do: the
    pages are written against the classes [GameStore], [PlayerStore] and
    [SettingsStore], their theorems are proved from the laws of the
    classes, and the stores of the source are instances; [App] composes the
    transition systems of the pages and lifts their invariants.

    ** What the environment supplies

    [Date.now()] is an argument [now] in milliseconds.  [Math.random()] and
    [crypto.randomUUID()] are arguments too ([Draws.t], [Words.Draw], a
    function from the number of the call to the draw in [Utils], [Endless]
    and [LlmProviders]); where a theorem needs them in range it says so.
    The value [session.combo] that the key handler closes over is an
    argument of [handleKeyPress]; [World.step] passes the combo of the
    store, which is what the handler sees after a render.  The word list is
    an argument of every frame, because the pages build a new list at every
    render.  React decides when effects and frames run: the theorems about
    [World] and [EndlessWorld] hold for every order of events.  An interval
    is a sequence of ticks; a timer of [setTimeout] is an event with the
    time at which it fires.  An asynchronous method takes the time of the
    call and returns its result, the state afterwards and the time at which
    its promise settles; the network is [Env.fetch], which answers after a
    delay, fails after a delay or never answers, and [JSON.parse] is
    [Env.parse].  A failure of the key-value store is an argument of each
    method of [StorageService].

    ** What the theorems show

    - [Metrics]: each calculator on every branch, its range, and the
      examples of the specification.
    - [Store]: every reachable session satisfies [wf] (counters ordered,
      accuracy equal to the calculator); the best combo is monotone; the
      combo falls only when it is broken; the lifecycle is respected by the
      actions the specification allows, and where the code is more
      permissive ([endGame] from idle, counters after the end) a theorem
      exhibits it.
    - [PlayerSlice]: the invariant of the player data, monotone stars, and
      the result that is dropped when it earns no star more.
    - [SettingsSlice]: updates change the fields they name and compose; the
      page keeps the volumes between 0 and 1 and the name non-empty.
    - [GameCanvas]: a keystroke is a miss, a hit of the first matching
      entity, or a TypeError, and each case is characterised
      ([keyLoop_passes], [keyLoop_hits], [keyLoop_faults]); a hit changes
      one entity; completing a word scores [calculateScore]; a frame keeps
      the refs consistent ([canvas_ok]), spawns at most one word in the
      order of the list, moves the survivors, breaks the combo at the floor
      and ends a level after sixty seconds; every handler changes the
      session by a sequence of machine actions ([gameLoop_run],
      [handleKeyPress_run]), so the invariant of [Store] carries over.
    - [Config], [Utils]: where the constants agree with the literals of the
      code and where not; [shuffleArray] permutes; [formatTime] prints
      minutes and two digits of seconds; an integer of at most 53 bits is
      its own number value, and what [formatNumber] prints at the ties and
      just below a million; a debounced function runs once,
      with the arguments of the last call; a throttled function runs at
      most once per interval; every key of the layout has its finger.
    - [Play]: the generated words are never empty; a level never throws
      and keeps the invariant [inv] under every sequence of events; a level
      can only be playing or won; what a victory pays and records.
    - [Endless]: no event throws; endless mode never ends, never gets
      harder and never pays.
    - [Progress]: the unlock rule is a chain over the twelve levels; a
      victory unlocks the next level and what is unlocked stays unlocked;
      the three tables of levels agree; the statistics page renders exactly
      when the stars of the completed records are between 0 and 3, which
      they are after any play; the game page never writes the totals.
    - [Display]: the star rule of the result panel against the rule of the
      page; the bars stay within their tracks; the colour of the accuracy
      is always the red of the lowest range, although [Number] reads back
      what [toFixed(0)] prints and the rule then gives the three colours;
      the panel of a level is the panel of a victory; the summary of the
      home page counts the records.
    - [Views]: the overlay of a pause and the panel of the end of the
      endless mode are never shown; the typing input is shown exactly while
      the result is hidden.
    - [Shell]: addresses and places go round; the header marks one link at
      most; every link of the level selection opens a level of the table;
      a dialogue listens to the keyboard exactly while it is open and
      leaves the document as it found it, and Escape closes it.
    - [Styles], [PageStyles]: every colour a sheet names is a colour,
      every border ends in one and every background is a colour or a
      gradient, for all props; the sheets of the button, the bar and the
      spinner agree with what [Shell] and [Display] say of them; the
      label of a mode has the same colours on the card and on the page of
      a level; the card of a locked level takes no pointer and has no
      link.
    - [App]: no event of the application throws, on any path through the
      pages; away from the canvas the session is the initial one; a click
      on a card starts its level; the address of a locked level starts it
      too; what is unlocked stays unlocked on every path through the pages
      until the reset of the settings is confirmed; Escape closes the
      dialogue of the settings and resets nothing.
    - [Hooks]: the countdown reaches 0 and stops; the time played excludes
      the pauses; the typing hook agrees with the handler of the canvas up
      to the removal of a completed entity; hotkeys compare the modifiers.
    - [LlmProviders], [LlmService]: the cache returns what was stored until
      it expires; the static provider answers at once with words of its
      tables; every request to the service is answered, by the provider or
      by the fallback, within twice the timeout; which updates of the
      configuration reach the provider.
    - [Persistence]: the service refines a finite map from its keys to
      values ([StoreSpec], [storage_refines_map]) and leaves other prefixes
      alone, unless one prefix begins with the other; failures.
    - [Sound]: nothing is started while muted; volumes stay between 0 and
      1; where the two ways of muting and the two places of the master
      volume interfere.

    Every property with hypotheses has a closed witness that applies it to
    sample values ([GameCanvas.Sample], [Play.PlaySample],
    [Endless.EndlessSample], [LlmProviders.LlmSample], ...), with the stores
    of the source ([useGameStore], [usePlayerStore], [useSettingsStore]).

    ** Bounds and approximations

    Numbers are exact rationals, not IEEE doubles: the theorems are about
    the arithmetic the code intends, and [Math.round] on a tie rounds up as
    in JavaScript.  The one place where the binary value decides what is
    shown is [formatNumber]: its quotient is rounded to 53 significant bits
    ([Utils.double], ties to even; the range of the exponent is not
    modelled) before [toFixed] prints it, and its argument is an integer.  Characters are bytes ([ascii]); [toLowerCase] lowers
    the letters A to Z and [trim] removes the ASCII white space.  No
    definition uses fuel: the loops of the code run over lists or count
    down a number and are structural recursions; the loop that draws words
    in [StaticData.pick] is written for draws below 1, which is what
    [Math.random] returns.  A lookup in an object used as a table
    ([levelConfigs], [fingerMap], [wordSets]) is a lookup among its own
    keys: the properties of [Object.prototype] are not modelled.  A cache
    entry and a stored value are the value itself, not its JSON text.  The
    game lasts [gameDuration = 60000] milliseconds, the page asks for
    [Page.wordCount = 20] words and the endless page for 30, as in the
    source.  [toFixed0] is [toFixed(0)] on an exact rational below 10^21.
    [JsNumber.Number_] reads decimal literals with fraction and exponent,
    [Infinity] and the literals of base 16, 8 and 2; its value is exact.
    The percentage of a [ProgressBar] divides by [max], which is 60 or 100
    where the bar is used.  The matching of the router is written from the
    documentation of react-router for route tables of the shape of the
    source (one level of children, fixed segments and one parameter); the
    escapes of a URL are not decoded, so the identifier of a level is taken
    as it stands in the address.  A link leads from the page that shows it:
    the links of the page of a level lead to other pages, and [App.navigate]
    is written for those.  The identity of a callback, which React compares
    to decide whether an effect runs again, is a number.  In a style sheet
    white space within a value is one space, comments are dropped, an
    interpolated number is kept as a number with its unit, and the name
    styled-components generates for keyframes is the name of the constant;
    the element a sheet is attached to is not part of it.

    ** What is not modelled

    Drawing on the canvas and the animations of framer-motion, which are
    output only; how the browser lays a style sheet out; the address bar and the history of the browser, other than as the
    address the application is loaded at; lazy loading of the pages; the
    [persist] middleware and [localStorage]; the scheduling of React
    (represented by the events of [World], [EndlessWorld], [Modal] and
    [App]); the audio data and the HTTP transport; the layout of the
    settings page, of which the controls are modelled as events. *)

From Stdlib Require Import ZArith QArith Qround Lqa Lia Ascii String.
From stdpp Require Import base tactics option list strings.

Declare Scope js_scope.
Delimit Scope js_scope with js.

(** ** Numbers

    A JavaScript [number] is modelled as an exact rational ([Q], compared
    with [==]); values the code only ever builds from integers by [+ 1],
    [Math.round], [Math.floor], [Math.ceil] or [Date.now()] are kept in [Z]. *)

Module JsNum.

Definition Math_floor (x : Q) : Z := Qfloor x.

Definition Math_ceil (x : Q) : Z := Qceiling x.

(** [Math.round] rounds to the nearest integer, ties towards [+∞]. *)
Definition Math_round (x : Q) : Z := Qfloor (x + (1 # 2)).

Definition Qltb (a b : Q) : bool := negb (Qle_bool b a).

Definition Math_max (a b : Q) : Q := if Qle_bool a b then b else a.

Definition Math_min (a b : Q) : Q := if Qle_bool a b then a else b.

End JsNum.
Export JsNum.

Notation "a <=? b" := (Qle_bool a b) (at level 70) : js_scope.
Notation "a <? b" := (Qltb a b) (at level 70) : js_scope.
Notation "a >=? b" := (Qle_bool b a) (at level 70) : js_scope.
Notation "a >? b" := (Qltb b a) (at level 70) : js_scope.
Notation "a =? b" := (Qeq_bool a b) (at level 70) : js_scope.

(** ** Exceptions: a handler either returns or throws *)

Inductive JsError : Type :=
| TypeError                  (* a property of [undefined], a failed [fetch] *)
| SyntaxError                (* [JSON.parse] of a text that is not JSON *)
| AbortError                 (* a [fetch] whose signal was aborted *)
| RangeError                 (* [repeat] with a negative count *)
| Error_ (message : string). (* [new Error(message)] *)

Inductive result (A : Type) : Type :=
| Ok (a : A)
| Throw (e : JsError).
Arguments Ok {A} a.
Arguments Throw {A} e.

#[export] Instance result_ret : MRet result := @Ok.
#[export] Instance result_bind : MBind result :=
  λ A B f m, match m with Ok a => f a | Throw e => Throw e end.
#[export] Instance result_fmap : FMap result :=
  λ A B f m, match m with Ok a => Ok (f a) | Throw e => Throw e end.

Definition is_Ok {A} (r : result A) : Prop := ∃ a, r = Ok a.

#[export] Instance JsError_eq_dec : EqDecision JsError.
Proof. solve_decision. Defined.
#[export] Instance result_eq_dec `{EqDecision A} : EqDecision (result A).
Proof. solve_decision. Defined.
#[export] Instance is_Ok_dec {A} (r : result A) : Decision (is_Ok r).
Proof.
  destruct r as [a|e]; [left; by exists a | right; intros [a ?]; discriminate].
Defined.

(** ** Strings: UTF-16 code units are modelled as [ascii] characters *)

Module JsString.

Definition isUpper (c : ascii) : bool :=
  (Ascii.leb "A" c && Ascii.leb c "Z")%bool.

Definition lowerChar (c : ascii) : ascii :=
  if isUpper c then ascii_of_N (N_of_ascii c + 32) else c.

Fixpoint toLowerCase (s : string) : string :=
  match s with
  | EmptyString => EmptyString
  | String c s' => String (lowerChar c) (toLowerCase s')
  end.

(** [s[i]]: [None] stands for [undefined]. *)
Definition charAt (s : string) (i : nat) : option ascii := String.get i s.

Definition str1 (c : ascii) : string := String c EmptyString.

(** White space of the ASCII range: tab, line feed, vertical tab, form
    feed, carriage return and space. *)
Definition isSpace (c : ascii) : bool :=
  let n := nat_of_ascii c in
  bool_decide (n = 32 ∨ 9 ≤ n ≤ 13)%nat.

Fixpoint trimStart (s : string) : string :=
  match s with
  | String c s' => if isSpace c then trimStart s' else s
  | EmptyString => EmptyString
  end.

Fixpoint trimEnd (s : string) : string :=
  match s with
  | String c s' =>
      match trimEnd s' with
      | EmptyString => if isSpace c then EmptyString else String c EmptyString
      | t => String c t
      end
  | EmptyString => EmptyString
  end.

(** [s.trim()] *)
Definition trim (s : string) : string := trimEnd (trimStart s).

(** [key.startsWith(pre)] *)
Fixpoint startsWith (key pre : string) : bool :=
  match pre, key with
  | EmptyString, _ => true
  | String a pre', String b key' => bool_decide (a = b) && startsWith key' pre'
  | String _ _, EmptyString => false
  end.

(** [typed] is an initial segment of [word]. *)
Definition isPrefix (typed word : string) : Prop := ∃ rest, word = typed +:+ rest.

End JsString.
Export JsString.

(** ** Keyboard events

    The fields of a DOM [KeyboardEvent] the program reads. *)

Module KeyboardEvent.
Record t : Type := mk {
  key : string;
  ctrlKey : bool;
  shiftKey : bool;
  altKey : bool;
  metaKey : bool;
}.

(** A key pressed without any modifier. *)
Definition plain (k : string) : t := mk k false false false false.
End KeyboardEvent.

(** ** Arrays: [a[i]] for an integer-valued index; [None] is [undefined] *)

Definition nthZ {A} (l : list A) (i : Z) : option A :=
  if (i <? 0)%Z then None else l !! Z.to_nat i.

(** ** Automation *)

Create HintDb js discriminated.
Create Rewrite HintDb js.

Ltac qbool :=
  repeat match goal with
  | H : Qle_bool _ _ = true |- _ => apply Qle_bool_iff in H
  | H : Qle_bool ?a ?b = false |- _ =>
      assert (¬ (a <= b)%Q) by (rewrite <- Qle_bool_iff; congruence); clear H
  | |- Qle_bool _ _ = true => apply Qle_bool_iff
  | |- Qle_bool ?a ?b = false =>
      apply not_true_is_false; rewrite Qle_bool_iff
  end.

Ltac case_qle a b :=
  let E := fresh "E" in destruct (Qle_bool a b) eqn:E; qbool.

Lemma inject_Z_minus a b : (inject_Z (a - b) = inject_Z a - inject_Z b)%Q.
Proof. unfold Z.sub. by rewrite inject_Z_plus, inject_Z_opp. Qed.

(** [zq] moves integer facts to the rationals, where [lra] decides them. *)
Ltac inj_consts :=
  repeat match goal with
  | |- context [inject_Z (Zpos ?p)] => change (inject_Z (Zpos p)) with (Zpos p # 1)
  | |- context [inject_Z (Zneg ?p)] => change (inject_Z (Zneg p)) with (Zneg p # 1)
  | |- context [inject_Z Z0] => change (inject_Z Z0) with 0%Q
  | H : context [inject_Z (Zpos ?p)] |- _ =>
      change (inject_Z (Zpos p)) with (Zpos p # 1) in H
  | H : context [inject_Z (Zneg ?p)] |- _ =>
      change (inject_Z (Zneg p)) with (Zneg p # 1) in H
  | H : context [inject_Z Z0] |- _ => change (inject_Z Z0) with 0%Q in H
  end.

Ltac push_inj :=
  destruct_and?;
  repeat match goal with
  | H : (_ <= _)%Z |- _ => rewrite Zle_Qle in H
  | H : (_ < _)%Z |- _ => rewrite Zlt_Qlt in H
  | H : @eq Z _ _ |- _ => apply inject_Z_injective in H
  | |- (_ <= _)%Z => rewrite Zle_Qle
  | |- (_ < _)%Z => rewrite Zlt_Qlt
  | |- @eq Z _ _ => apply inject_Z_injective
  end;
  repeat (rewrite inject_Z_plus in * || rewrite inject_Z_mult in * ||
          rewrite inject_Z_opp in * || rewrite inject_Z_minus in *);
  inj_consts.

(** Division by a literal constant becomes a multiplication [lra] accepts. *)
Ltac qinv_consts :=
  unfold Qdiv in *;
  repeat match goal with
  | |- context [Qinv (Qmake ?n ?d)] =>
      let v := eval compute in (Qinv (Qmake n d)) in
      change (Qinv (Qmake n d)) with v
  | H : context [Qinv (Qmake ?n ?d)] |- _ =>
      let v := eval compute in (Qinv (Qmake n d)) in
      change (Qinv (Qmake n d)) with v in H
  end.

Ltac zq := push_inj; qinv_consts; lra.

(** ** Lemmas on numbers *)

Section numbers.
Local Open Scope Q_scope.
Implicit Types x y : Q.
Implicit Types z : Z.

Lemma Qltb_lt x y : Qltb x y = true ↔ x < y.
Proof.
  unfold Qltb. rewrite negb_true_iff, <- not_true_iff_false, Qle_bool_iff.
  split; [apply Qnot_le_lt | apply Qlt_not_le].
Qed.

Lemma Qltb_ge x y : Qltb x y = false ↔ y <= x.
Proof.
  unfold Qltb. rewrite negb_false_iff. apply Qle_bool_iff.
Qed.

Lemma Math_floor_spec x : inject_Z (Math_floor x) <= x < inject_Z (Math_floor x + 1).
Proof. split; [apply Qfloor_le | apply Qlt_floor]. Qed.

Lemma Math_floor_unique x z :
  inject_Z z <= x < inject_Z (z + 1) → Math_floor x = z.
Proof.
  intros [Hl Hu]. destruct (Math_floor_spec x) as [Fl Fu].
  assert (inject_Z z < inject_Z (Math_floor x + 1)) as H1 by lra.
  assert (inject_Z (Math_floor x) < inject_Z (z + 1)) as H2 by lra.
  rewrite <- Zlt_Qlt in H1, H2. lia.
Qed.

Lemma Math_floor_Z z : Math_floor (inject_Z z) = z.
Proof. apply Qfloor_Z. Qed.

Lemma Math_floor_div (n d : Z) : Math_floor (inject_Z n / inject_Z d) = (n / d)%Z.
Proof. unfold Math_floor. by rewrite Zdiv_Qdiv. Qed.

Lemma Math_floor_mono x y : x <= y → (Math_floor x <= Math_floor y)%Z.
Proof. apply Qfloor_resp_le. Qed.

Lemma Math_ceil_spec x : inject_Z (Math_ceil x - 1) < x <= inject_Z (Math_ceil x).
Proof. split; [apply Qceiling_lt | apply Qle_ceiling]. Qed.

Lemma Math_ceil_Z z : Math_ceil (inject_Z z) = z.
Proof. apply Qceiling_Z. Qed.

Lemma Math_ceil_nonpos x : (Math_ceil x <= 0)%Z ↔ x <= 0.
Proof.
  destruct (Math_ceil_spec x) as [Cl Cu]. split; intros H.
  - zq.
  - destruct (Z_le_gt_dec (Math_ceil x) 0) as [|Hgt]; [done|].
    assert (0 <= Math_ceil x - 1)%Z as H0 by lia. zq.
Qed.

Lemma Math_round_spec x :
  x - (1 # 2) < inject_Z (Math_round x) <= x + (1 # 2).
Proof.
  unfold Math_round. destruct (Math_floor_spec (x + (1 # 2))) as [Fl Fu].
  unfold Math_floor in *. zq.
Qed.

Lemma Math_round_Z z : Math_round (inject_Z z) = z.
Proof.
  apply Math_floor_unique. zq.
Qed.

Lemma Math_round_mono x y : x <= y → (Math_round x <= Math_round y)%Z.
Proof. intros H. apply Qfloor_resp_le. lra. Qed.

Lemma Math_round_nonneg x : 0 <= x → (0 <= Math_round x)%Z.
Proof.
  intros H. rewrite <- (Math_round_Z 0). by apply Math_round_mono.
Qed.

#[export] Instance Math_floor_proper : Proper (Qeq ==> eq) Math_floor.
Proof. intros x y H. by apply Qfloor_comp. Qed.

#[export] Instance Math_ceil_proper : Proper (Qeq ==> eq) Math_ceil.
Proof. intros x y H. by apply Qceiling_comp. Qed.

#[export] Instance Math_round_proper : Proper (Qeq ==> eq) Math_round.
Proof. intros x y H. apply Qfloor_comp. by rewrite H. Qed.

Lemma Math_max_spec a b : a <= Math_max a b ∧ b <= Math_max a b ∧
  (Math_max a b == a ∨ Math_max a b == b).
Proof. unfold Math_max. case_qle a b; repeat split; try lra; auto with qarith. Qed.

Lemma Math_min_spec a b : Math_min a b <= a ∧ Math_min a b <= b ∧
  (Math_min a b == a ∨ Math_min a b == b).
Proof. unfold Math_min. case_qle a b; repeat split; try lra; auto with qarith. Qed.

End numbers.

(** ** Lemmas on strings *)

Section strings.
Implicit Types s t : string.
Implicit Types c : ascii.

Lemma lowerChar_idemp c : lowerChar (lowerChar c) = lowerChar c.
Proof. destruct c as [[] [] [] [] [] [] [] []]; reflexivity. Qed.

Lemma toLowerCase_idemp s : toLowerCase (toLowerCase s) = toLowerCase s.
Proof. induction s as [|c s IH]; simpl; [done|]. by rewrite lowerChar_idemp, IH. Qed.

Lemma toLowerCase_length s : String.length (toLowerCase s) = String.length s.
Proof. induction s; simpl; congruence. Qed.

Lemma toLowerCase_str1 c : toLowerCase (str1 c) = str1 (lowerChar c).
Proof. reflexivity. Qed.

Lemma app_nil_str t : "" +:+ t = t.
Proof. reflexivity. Qed.

Lemma app_cons_str c s t : String c s +:+ t = String c (s +:+ t).
Proof. reflexivity. Qed.

Lemma app_empty_r s : s +:+ "" = s.
Proof. induction s; rewrite ?app_cons_str, ?app_nil_str; congruence. Qed.

Lemma app_assoc_str s t u : (s +:+ t) +:+ u = s +:+ (t +:+ u).
Proof. induction s; rewrite ?app_cons_str, ?app_nil_str; congruence. Qed.

Lemma app_length_str s t :
  String.length (s +:+ t) = (String.length s + String.length t)%nat.
Proof. induction s; rewrite ?app_cons_str, ?app_nil_str; simpl; congruence. Qed.

Lemma charAt_None s i : charAt s i = None ↔ (String.length s ≤ i)%nat.
Proof.
  unfold charAt. revert i. induction s as [|c s IH]; intros [|i]; simpl;
    try (split; [lia || done | lia || done]).
  rewrite IH. lia.
Qed.

Lemma charAt_Some_lt s i c : charAt s i = Some c → (i < String.length s)%nat.
Proof.
  intros H. destruct (le_lt_dec (String.length s) i) as [Hle|]; [|done].
  apply charAt_None in Hle. congruence.
Qed.

Lemma charAt_app_length s t : charAt (s +:+ t) (String.length s) = charAt t 0.
Proof. unfold charAt. induction s; rewrite ?app_cons_str, ?app_nil_str; simpl; [by destruct t | done]. Qed.

Lemma charAt_0 t c : charAt t 0 = Some c → ∃ t', t = String c t'.
Proof. destruct t as [|c' t']; simpl; [done|]. intros [= ->]. eauto. Qed.

Lemma startsWith_spec key pre : startsWith key pre = true ↔ ∃ r, key = pre +:+ r.
Proof.
  revert key. induction pre as [|a pre IH]; intros key; simpl.
  - split; [intros _; by exists key|by destruct key].
  - destruct key as [|b key]; simpl; [split; [done|intros [r Hr]; discriminate]|].
    rewrite andb_true_iff, bool_decide_eq_true, IH. split.
    + intros [-> [r ->]]. by exists r.
    + intros [r [= -> ->]]. split; [done|]. by exists r.
Qed.

Lemma trimStart_not_space s c s' : trimStart s = String c s' → isSpace c = false.
Proof.
  induction s as [|a s IH]; [done|]. simpl. destruct (isSpace a) eqn:Ha; [done|].
  by intros [= <- <-].
Qed.

Lemma trimEnd_head s c s' : trimEnd s = String c s' → ∃ r, s = String c r.
Proof. destruct s as [|a s]; [done|]. simpl. repeat case_match; naive_solver. Qed.

(** A name that [trim] returns starts with a character that is not white
    space. *)
Lemma trim_head s c s' : trim s = String c s' → isSpace c = false.
Proof. intros (r & Hr)%trimEnd_head. by eapply trimStart_not_space. Qed.

Lemma trim_blank s :
  Forall (λ c, isSpace c = true) (list_ascii_of_string s) → trim s = EmptyString.
Proof.
  unfold trim. induction s as [|a s IH]; [done|]. simpl.
  intros [Ha Hs]%Forall_cons. rewrite Ha. by apply IH.
Qed.

Lemma isPrefix_refl s : isPrefix s s.
Proof. exists ""%string. by rewrite app_empty_r. Qed.

Lemma isPrefix_empty s : isPrefix "" s.
Proof. by exists s. Qed.

Lemma isPrefix_length s t : isPrefix s t → (String.length s ≤ String.length t)%nat.
Proof. intros [r ->]. rewrite app_length_str. lia. Qed.

Lemma isPrefix_full s t :
  isPrefix s t → String.length s = String.length t → s = t.
Proof.
  intros [r ->]. rewrite app_length_str. intros H.
  destruct r; [by rewrite app_empty_r | simpl in H; lia].
Qed.

(** Appending the character of [word] at the position [length typed] keeps
    [typed] a prefix of [word]: the step of the typing invariant. *)
Lemma isPrefix_snoc typed word c :
  isPrefix typed word →
  charAt word (String.length typed) = Some c →
  isPrefix (typed +:+ str1 c) word.
Proof.
  intros [r ->] H. rewrite charAt_app_length in H.
  apply charAt_0 in H as [r' ->]. exists r'. by rewrite app_assoc_str.
Qed.

Lemma isPrefix_proper_charAt typed word :
  isPrefix typed word → typed ≠ word →
  ∃ c, charAt word (String.length typed) = Some c.
Proof.
  intros Hp Hne. destruct (charAt word (String.length typed)) as [c|] eqn:E; [eauto|].
  apply charAt_None in E. exfalso. apply Hne, isPrefix_full; [done|].
  apply isPrefix_length in Hp. lia.
Qed.

Lemma isPrefix_cons c s c' t :
  isPrefix (String c s) (String c' t) ↔ c = c' ∧ isPrefix s t.
Proof.
  split.
  - intros [r H]. rewrite app_cons_str in H. injection H as -> ->. split; [done|by exists r].
  - intros [-> [r ->]]. by exists r.
Qed.

Fixpoint isPrefixb (s t : string) : bool :=
  match s, t with
  | EmptyString, _ => true
  | String c s', String c' t' => bool_decide (c = c') && isPrefixb s' t'
  | String _ _, EmptyString => false
  end.

Lemma isPrefixb_spec s t : isPrefixb s t = true ↔ isPrefix s t.
Proof.
  revert t. induction s as [|c s IH]; intros [|c' t]; simpl.
  - split; [intros _; apply isPrefix_empty | done].
  - split; [intros _; apply isPrefix_empty | done].
  - split; [done | intros [r H]; by rewrite app_cons_str in H].
  - rewrite isPrefix_cons, andb_true_iff, bool_decide_eq_true, IH. done.
Qed.

#[export] Instance isPrefix_dec s t : Decision (isPrefix s t).
Proof.
  refine (cast_if (decide (isPrefixb s t = true))); abstract (by rewrite <- isPrefixb_spec).
Defined.

End strings.

#[export] Hint Rewrite Math_floor_Z Math_ceil_Z Math_round_Z : js.
#[export] Hint Rewrite toLowerCase_idemp toLowerCase_length app_empty_r
  app_length_str charAt_app_length : js.
#[export] Hint Resolve isPrefix_refl isPrefix_empty isPrefix_snoc : js.

(** ** Lemmas on arrays *)

Section arrays.
Context {A : Type}.
Implicit Types (l : list A) (i : Z).

Lemma nthZ_Some l i x : nthZ l i = Some x → (0 <= i < Z.of_nat (length l))%Z.
Proof.
  unfold nthZ. destruct (Z.ltb_spec i 0); [done|].
  intros Hl%lookup_lt_Some. lia.
Qed.

Lemma nthZ_is_Some l i : (0 <= i < Z.of_nat (length l))%Z → is_Some (nthZ l i).
Proof.
  intros Hi. unfold nthZ. destruct (Z.ltb_spec i 0); [lia|].
  apply lookup_lt_is_Some. lia.
Qed.

Lemma nthZ_nil i : nthZ (@nil A) i = None.
Proof. unfold nthZ. by case_match. Qed.

Lemma nthZ_of_nat l (n : nat) : nthZ l (Z.of_nat n) = l !! n.
Proof.
  unfold nthZ. destruct (Z.ltb_spec (Z.of_nat n) 0); [lia|]. by rewrite Nat2Z.id.
Qed.

Lemma nthZ_elem_of l i x : nthZ l i = Some x → x ∈ l.
Proof.
  unfold nthZ. destruct (Z.ltb_spec i 0); [done|]. apply list_elem_of_lookup_2.
Qed.

(** [Math.floor(Math.random() * n)] is an index below [n]. *)
Lemma random_index (r : Q) (n : nat) :
  (0 <= r < 1)%Q → (0 < n)%nat →
  (0 <= Math_floor (r * inject_Z (Z.of_nat n)) < Z.of_nat n)%Z.
Proof.
  intros [H0 H1] Hn.
  assert (0 < inject_Z (Z.of_nat n))%Q as Hm.
  { assert (0 < Z.of_nat n)%Z by lia. zq. }
  destruct (Math_floor_spec (r * inject_Z (Z.of_nat n))) as [Fl Fu].
  pose proof (Qmult_le_0_compat _ _ H0 (Qlt_le_weak _ _ Hm)) as Hge.
  pose proof (Qmult_lt_compat_r _ _ _ Hm H1) as Hlt.
  split.
  - rewrite <- (Math_floor_Z 0). by apply Math_floor_mono.
  - rewrite Zlt_Qlt. lra.
Qed.

(** [l[Math.floor(Math.random() * l.length)]] is an element of a list that
    is not empty. *)
Lemma nthZ_random l (r : Q) :
  (0 <= r < 1)%Q → l ≠ [] →
  ∃ x, nthZ l (Math_floor (r * inject_Z (Z.of_nat (length l)))) = Some x ∧ x ∈ l.
Proof.
  intros Hr Hl.
  destruct (nthZ_is_Some l (Math_floor (r * inject_Z (Z.of_nat (length l))))) as [x Hx].
  { apply random_index; [done|]. destruct l; [done|simpl; lia]. }
  exists x. split; [done|]. by eapply nthZ_elem_of.
Qed.

End arrays.

(** ** Lemmas on results *)

Section results.
Context {A B : Type}.
Implicit Types (m : result A) (f : A → result B).

Lemma fmap_Ok (g : A → B) m y :
  g <$> m = Ok y → ∃ x, m = Ok x ∧ g x = y.
Proof. destruct m as [x|e]; [intros [= <-]; by exists x|done]. Qed.

Lemma is_Ok_fmap (g : A → B) m : is_Ok m → is_Ok (g <$> m).
Proof. intros [x ->]. by eexists. Qed.

Lemma bind_Ok m f b :
  m ≫= f = Ok b ↔ ∃ a, m = Ok a ∧ f a = Ok b.
Proof.
  destruct m as [a|e]; simpl; split.
  - eauto.
  - by intros (a' & [= <-] & H).
  - done.
  - by intros (a' & ? & ?).
Qed.

Lemma bind_Throw m f e :
  m ≫= f = Throw e ↔ m = Throw e ∨ ∃ a, m = Ok a ∧ f a = Throw e.
Proof.
  destruct m as [a|e']; simpl; split.
  - intros H. right. eauto.
  - by intros [?|(a' & [= <-] & H)].
  - intros [= ->]. by left.
  - by intros [[= ->]|(a' & ? & ?)].
Qed.

Lemma is_Ok_Ok (a : A) : is_Ok (Ok a).
Proof. by exists a. Qed.

Lemma not_is_Ok_Throw e : ¬ is_Ok (@Throw A e).
Proof. by intros [a ?]. Qed.

End results.

#[export] Hint Resolve is_Ok_Ok : js.
