(* ===== verification/Types.v ===== *)
(** * Types: the data model of [src/types/index.ts]

    Every TypeScript union type is an [Inductive] with the source's
    constructors and every interface a [Record] in a module of its name, so
    that a field keeps its source name ([GameSession.combo],
    [FallingWord.typed]).  A [number] field is a [Z] when the program only
    ever stores integers in it and a [Q] otherwise; an optional field is an
    [option]; [Record<string, T>] is a [gmap string T]. *)

From Stdlib Require Import ZArith QArith String.
From stdpp Require Import base option list strings gmap.
From S2P Require Import Prelude.

(** ** Game core types *)

Inductive GameState : Type :=
| idle | playing | paused | victory | gameOver.

Inductive GameMode : Type :=
| gravity | runner | bubble | boss.

Inductive FingerZone : Type :=
| leftPinky | leftRing | leftMiddle | leftIndex | thumbs
| rightIndex | rightMiddle | rightRing | rightPinky.

Inductive Hand : Type := left_hand | right_hand.

Inductive KeyRow : Type := top_row | home_row | bottom_row | number_row.

Module KeyInfo.
Record t : Type := mk {
  char : string;
  finger : FingerZone;
  hand : Hand;
  row : KeyRow;
}.
End KeyInfo.

#[export] Instance GameState_eq_dec : EqDecision GameState.
Proof. solve_decision. Defined.
#[export] Instance GameMode_eq_dec : EqDecision GameMode.
Proof. solve_decision. Defined.
#[export] Instance FingerZone_eq_dec : EqDecision FingerZone.
Proof. solve_decision. Defined.

(** ** Level system *)

Inductive Difficulty : Type :=
| easy | medium | hard | boss_difficulty.

#[export] Instance Difficulty_eq_dec : EqDecision Difficulty.
Proof. solve_decision. Defined.

Module LevelReward.
Record t : Type := mk {
  exp : Z;
  coins : Z;
  stars : Z;
  unlockItems : option (list string);
}.
End LevelReward.

Module LevelConfig.
Record t : Type := mk {
  id : string;
  name : string;
  description : string;
  difficulty : Difficulty;
  mode : GameMode;
  world : Z;
  stage : Z;
  requiredKeys : list string;
  targetWPM : Z;
  targetAccuracy : Q;
  timeLimit : option Z;
  enemyCount : option Z;
  bossName : option string;
  rewards : LevelReward.t;
  prerequisites : list string;
}.
End LevelConfig.

Module LevelProgress.
Record t : Type := mk {
  levelId : string;
  completed : bool;
  stars : Z;
  bestWPM : Z;
  bestAccuracy : Q;
  attempts : Z;
  completedAt : option Z;
}.
End LevelProgress.

(** ** Game entities *)

Module Entity.
Record t : Type := mk {
  id : string;
  x : Q;
  y : Q;
  width : Q;
  height : Q;
  active : bool;
}.
End Entity.

(** A falling word of the gravity mode: [Entity] extended with the word, the
    part of it already typed, the fall speed and the points it is worth. *)
Module FallingWord.
Record t : Type := mk {
  id : string;
  x : Q;
  y : Q;
  width : Q;
  height : Q;
  active : bool;
  word : string;
  typed : string;
  speed : Q;
  color : string;
  points : Z;
}.

(** The structural upcast [FallingWord] to [Entity]. *)
Definition toEntity (e : t) : Entity.t :=
  Entity.mk (id e) (x e) (y e) (width e) (height e) (active e).

Definition set_y (v : Q) (e : t) : t :=
  mk (id e) (x e) v (width e) (height e) (active e) (word e) (typed e)
     (speed e) (color e) (points e).

Definition set_active (v : bool) (e : t) : t :=
  mk (id e) (x e) (y e) (width e) (height e) v (word e) (typed e)
     (speed e) (color e) (points e).

Definition set_typed (v : string) (e : t) : t :=
  mk (id e) (x e) (y e) (width e) (height e) (active e) (word e) v
     (speed e) (color e) (points e).
End FallingWord.

Inductive ObstacleType : Type := rock | log | enemy.

Module RunnerObstacle.
Record t : Type := mk {
  id : string;
  x : Q;
  y : Q;
  width : Q;
  height : Q;
  active : bool;
  word : string;
  typed : string;
  lane : Z;
  type : ObstacleType;
}.
End RunnerObstacle.

Module BubbleWord.
Record t : Type := mk {
  id : string;
  x : Q;
  y : Q;
  width : Q;
  height : Q;
  active : bool;
  word : string;
  typed : string;
  velocity : Q * Q;
  size : Q;
  color : string;
}.
End BubbleWord.

Inductive QuizType : Type := typing | choice.

Module QuizQuestion.
Record t : Type := mk {
  id : string;
  question : string;
  answer : string;
  options : option (list string);
  type : QuizType;
}.
End QuizQuestion.

Module Boss.
Record t : Type := mk {
  id : string;
  x : Q;
  y : Q;
  width : Q;
  height : Q;
  active : bool;
  name : string;
  currentQuestion : option QuizQuestion.t;
  health : Q;
  maxHealth : Q;
  phase : Z;
}.
End Boss.

(** ** Player data *)

Module PlayerStats.
Record t : Type := mk {
  totalWordsTyped : Z;
  totalCharactersTyped : Z;
  totalCorrectChars : Z;
  totalGamesPlayed : Z;
  totalTimePlayed : Z;
  averageWPM : Z;
  averageAccuracy : Q;
  maxCombo : Z;
  perfectLevels : Z;
}.
End PlayerStats.

Module PlayerData.
Record t : Type := mk {
  id : string;
  name : string;
  level : Z;
  exp : Z;
  coins : Z;
  stats : PlayerStats.t;
  levelProgress : gmap string LevelProgress.t;
  unlockedItems : list string;
  achievements : list string;
  createdAt : Z;
  lastPlayedAt : Z;
}.
End PlayerData.

(** ** Game settings *)

Inductive LLMProvider : Type :=
| openai | claude | local | static.

#[export] Instance LLMProvider_eq_dec : EqDecision LLMProvider.
Proof. solve_decision. Defined.

Module LLMConfig.
Record t : Type := mk {
  provider : LLMProvider;
  apiKey : string;
  baseUrl : option string;
  model : option string;
}.
End LLMConfig.

Module AudioSettings.
Record t : Type := mk {
  masterVolume : Q;
  musicVolume : Q;
  sfxVolume : Q;
  muted : bool;
}.
End AudioSettings.

Inductive Theme : Type := dark | light | auto_theme.
Inductive Language : Type := zh | en.
Inductive SettingsDifficulty : Type := set_easy | set_normal | set_hard.

Module GameSettings.
Record t : Type := mk {
  theme : Theme;
  language : Language;
  audio : AudioSettings.t;
  llm : LLMConfig.t;
  showKeyboardHints : bool;
  showFingerGuide : bool;
  difficulty : SettingsDifficulty;
}.
End GameSettings.

(** ** Runtime state of a game *)

Module GameSession.
Record t : Type := mk {
  state : GameState;
  mode : GameMode;
  levelId : option string;
  score : Q;
  combo : Z;
  maxCombo : Z;
  wpm : Z;
  accuracy : Q;
  timeRemaining : Z;
  wordsCompleted : Z;
  charactersTyped : Z;
  correctChars : Z;
  startTime : Z;
  entities : list Entity.t;
}.

Definition set_state (v : GameState) (s : t) : t :=
  mk v (mode s) (levelId s) (score s) (combo s) (maxCombo s) (wpm s)
     (accuracy s) (timeRemaining s) (wordsCompleted s) (charactersTyped s)
     (correctChars s) (startTime s) (entities s).

Definition set_score (v : Q) (s : t) : t :=
  mk (state s) (mode s) (levelId s) v (combo s) (maxCombo s) (wpm s)
     (accuracy s) (timeRemaining s) (wordsCompleted s) (charactersTyped s)
     (correctChars s) (startTime s) (entities s).

Definition set_combo (v : Z) (s : t) : t :=
  mk (state s) (mode s) (levelId s) (score s) v (maxCombo s) (wpm s)
     (accuracy s) (timeRemaining s) (wordsCompleted s) (charactersTyped s)
     (correctChars s) (startTime s) (entities s).

Definition set_maxCombo (v : Z) (s : t) : t :=
  mk (state s) (mode s) (levelId s) (score s) (combo s) v (wpm s)
     (accuracy s) (timeRemaining s) (wordsCompleted s) (charactersTyped s)
     (correctChars s) (startTime s) (entities s).

Definition set_wpm (v : Z) (s : t) : t :=
  mk (state s) (mode s) (levelId s) (score s) (combo s) (maxCombo s) v
     (accuracy s) (timeRemaining s) (wordsCompleted s) (charactersTyped s)
     (correctChars s) (startTime s) (entities s).

Definition set_accuracy (v : Q) (s : t) : t :=
  mk (state s) (mode s) (levelId s) (score s) (combo s) (maxCombo s) (wpm s)
     v (timeRemaining s) (wordsCompleted s) (charactersTyped s)
     (correctChars s) (startTime s) (entities s).

Definition set_timeRemaining (v : Z) (s : t) : t :=
  mk (state s) (mode s) (levelId s) (score s) (combo s) (maxCombo s) (wpm s)
     (accuracy s) v (wordsCompleted s) (charactersTyped s)
     (correctChars s) (startTime s) (entities s).

Definition set_wordsCompleted (v : Z) (s : t) : t :=
  mk (state s) (mode s) (levelId s) (score s) (combo s) (maxCombo s) (wpm s)
     (accuracy s) (timeRemaining s) v (charactersTyped s)
     (correctChars s) (startTime s) (entities s).

Definition set_charactersTyped (v : Z) (s : t) : t :=
  mk (state s) (mode s) (levelId s) (score s) (combo s) (maxCombo s) (wpm s)
     (accuracy s) (timeRemaining s) (wordsCompleted s) v
     (correctChars s) (startTime s) (entities s).

Definition set_correctChars (v : Z) (s : t) : t :=
  mk (state s) (mode s) (levelId s) (score s) (combo s) (maxCombo s) (wpm s)
     (accuracy s) (timeRemaining s) (wordsCompleted s) (charactersTyped s)
     v (startTime s) (entities s).

Definition set_entities (v : list Entity.t) (s : t) : t :=
  mk (state s) (mode s) (levelId s) (score s) (combo s) (maxCombo s) (wpm s)
     (accuracy s) (timeRemaining s) (wordsCompleted s) (charactersTyped s)
     (correctChars s) (startTime s) v.
End GameSession.

(** ** Game events *)

Inductive GameEventType : Type :=
| wordComplete | wordMiss | comboBreak | comboMilestone
| levelUp | ev_gameOver | ev_victory | perfect.

Module GameEvent.
Record t : Type := mk {
  type : GameEventType;
  timestamp : Z;
}.
End GameEvent.

(** ** Facts about the upcast *)

Lemma toEntity_id (e : FallingWord.t) :
  Entity.id (FallingWord.toEntity e) = FallingWord.id e.
Proof. reflexivity. Qed.

Lemma toEntity_set_typed v (e : FallingWord.t) :
  FallingWord.toEntity (FallingWord.set_typed v e) = FallingWord.toEntity e.
Proof. reflexivity. Qed.
