(* ===== verification/Metrics.v ===== *)
(** * Metrics: the pure calculators of [src/utils/index.ts]

    Words per minute, accuracy, score with combo multiplier, star rating,
    experience levels, [clamp] and [lerp], each translated line by line, with
    the theorems that fix their ranges, their guards against division by
    zero and their behaviour on the examples of the specification. *)

From Stdlib Require Import ZArith QArith Qround Lqa Lia String.
From stdpp Require Import base tactics option list.
From S2P Require Import Prelude Types.

Local Open Scope Q_scope.

Module Metrics.

(** [calculateWPM(correctChars, elapsedMs)]: five characters are one word. *)
Definition calculateWPM (correctChars elapsedMs : Q) : Z :=
  if (elapsedMs <=? 0)%js then 0%Z
  else
    let minutes := elapsedMs / 60000 in
    let words := correctChars / 5 in
    Math_round (words / minutes).

(** [calculateAccuracy(correct, total)], a percentage. *)
Definition calculateAccuracy (correct total : Q) : Q :=
  if (total =? 0)%js then 100
  else (correct / total) * 100.

(** [calculateScore(basePoints, combo)]: each combo step adds a tenth. *)
Definition calculateScore (basePoints combo : Q) : Z :=
  let comboMultiplier := 1 + combo * (1 # 10) in
  Math_floor (basePoints * comboMultiplier).

(** [calculateStars(accuracy, wpm)]: 0 to 3 stars. *)
Definition calculateStars (accuracy wpm : Q) : Z :=
  if ((accuracy >=? 95) && (wpm >=? 40))%js then 3%Z
  else if ((accuracy >=? 85) && (wpm >=? 30))%js then 2%Z
  else if (accuracy >=? 70)%js then 1%Z
  else 0%Z.

Definition calculateExpForLevel (level : Q) : Q := level * 1000.

Definition getLevelFromExp (totalExp : Q) : Z :=
  (Math_floor (totalExp / 1000) + 1)%Z.

(** [clamp(value, min, max) = Math.min(Math.max(value, min), max)]. *)
Definition clamp (value min max : Q) : Q :=
  Math_min (Math_max value min) max.

Definition lerp (start end_ t : Q) : Q :=
  start + (end_ - start) * t.

End Metrics.
Export Metrics.

(** ** Words per minute *)

Section wpm.
Implicit Types c ms : Q.

Lemma calculateWPM_nonpos c ms : ms <= 0 → calculateWPM c ms = 0%Z.
Proof. intros H. unfold calculateWPM. by case_qle ms 0. Qed.

Lemma calculateWPM_pos c ms :
  0 < ms → calculateWPM c ms = Math_round (12000 * c / ms).
Proof.
  intros H. unfold calculateWPM. case_qle ms 0; [lra|].
  apply Math_round_proper. field. lra.
Qed.

(** The result is the nearest integer to the exact rate. *)
Lemma calculateWPM_near c ms :
  0 < ms →
  12000 * c / ms - (1 # 2) < inject_Z (calculateWPM c ms) <= 12000 * c / ms + (1 # 2).
Proof. intros H. rewrite calculateWPM_pos by done. apply Math_round_spec. Qed.

Lemma calculateWPM_nonneg c ms : 0 <= c → (0 <= calculateWPM c ms)%Z.
Proof.
  intros Hc. unfold calculateWPM. case_qle ms 0; [done|].
  apply Math_round_nonneg.
  assert (0 < ms) by lra.
  apply Qle_shift_div_l; [apply Qlt_shift_div_l; lra|]. qinv_consts. lra.
Qed.

#[export] Instance calculateWPM_proper : Proper (Qeq ==> Qeq ==> eq) calculateWPM.
Proof.
  intros c c' Hc ms ms' Hms. unfold calculateWPM.
  rewrite Hms. destruct (Qle_bool ms' 0); [done|].
  apply Math_round_proper. by rewrite Hc, Hms.
Qed.

End wpm.

(** ** Accuracy *)

Section accuracy.
Implicit Types c t : Q.

Lemma calculateAccuracy_zero c t : t == 0 → calculateAccuracy c t = 100.
Proof.
  intros H. unfold calculateAccuracy. by rewrite (Qeq_eq_bool _ _ H).
Qed.

Lemma calculateAccuracy_nonzero c t :
  ¬ t == 0 → calculateAccuracy c t = c / t * 100.
Proof.
  intros H. unfold calculateAccuracy.
  destruct (Qeq_bool t 0) eqn:E; [|done]. by apply Qeq_bool_eq in E.
Qed.

Lemma Qdiv_unit_interval c t : 0 <= c <= t → 0 < t → 0 <= c / t <= 1.
Proof.
  intros [H1 H2] H3. split.
  - apply Qle_shift_div_l; lra.
  - apply Qle_shift_div_r; lra.
Qed.

Lemma calculateAccuracy_range c t :
  0 <= c <= t → 0 <= calculateAccuracy c t <= 100.
Proof.
  intros H. unfold calculateAccuracy.
  destruct (Qeq_bool t 0) eqn:E; [lra|]. apply Qeq_bool_neq in E.
  pose proof (Qdiv_unit_interval c t H) as Hu. lra.
Qed.

Lemma calculateAccuracy_perfect c t :
  0 < t → (calculateAccuracy c t == 100 ↔ c == t).
Proof.
  intros Ht. rewrite calculateAccuracy_nonzero by lra. split; intros H.
  - assert (c / t == 1) as H1 by lra.
    rewrite <- (Qmult_div_r c t) by lra. rewrite H1. lra.
  - rewrite H. field. lra.
Qed.

#[export] Instance calculateAccuracy_proper :
  Proper (Qeq ==> Qeq ==> Qeq) calculateAccuracy.
Proof.
  intros c c' Hc t t' Ht. unfold calculateAccuracy.
  rewrite Ht. destruct (Qeq_bool t' 0); [done|]. by rewrite Hc, Ht.
Qed.

End accuracy.

(** ** Score with combo *)

Section score.

(** On integers the floating formula is the integer quotient
    [basePoints * (10 + combo) / 10]. *)
Lemma calculateScore_Z (b c : Z) :
  calculateScore (inject_Z b) (inject_Z c) = ((b * (10 + c)) / 10)%Z.
Proof.
  unfold calculateScore, Math_floor. rewrite Zdiv_Qdiv. apply Qfloor_comp.
  rewrite inject_Z_mult, inject_Z_plus. inj_consts. field.
Qed.

Lemma calculateScore_no_combo (b : Z) : calculateScore (inject_Z b) 0 = b.
Proof.
  change 0 with (inject_Z 0). rewrite calculateScore_Z.
  rewrite Z.add_0_r. by apply Z.div_mul.
Qed.

Lemma calculateScore_mono_combo (b c c' : Z) :
  (0 <= b)%Z → (c <= c')%Z →
  (calculateScore (inject_Z b) (inject_Z c) <= calculateScore (inject_Z b) (inject_Z c'))%Z.
Proof.
  intros Hb Hc. rewrite !calculateScore_Z. apply Z.div_le_mono; [lia|nia].
Qed.

Lemma calculateScore_ge_base (b c : Z) :
  (0 <= b)%Z → (0 <= c)%Z → (b <= calculateScore (inject_Z b) (inject_Z c))%Z.
Proof.
  intros Hb Hc. rewrite <- (calculateScore_no_combo b) at 1.
  change 0 with (inject_Z 0). by apply calculateScore_mono_combo.
Qed.

#[export] Instance calculateScore_proper : Proper (Qeq ==> Qeq ==> eq) calculateScore.
Proof.
  intros b b' Hb c c' Hc. unfold calculateScore. apply Math_floor_proper.
  by rewrite Hb, Hc.
Qed.

End score.

(** ** Star rating *)

Section stars.
Implicit Types a w : Q.

Lemma calculateStars_range a w : (0 <= calculateStars a w <= 3)%Z.
Proof. unfold calculateStars. repeat case_match; lia. Qed.

Lemma calculateStars_3 a w : calculateStars a w = 3%Z ↔ 95 <= a ∧ 40 <= w.
Proof.
  unfold calculateStars.
  case_qle 95 a; case_qle 40 w; simpl; repeat case_match; split;
    try done; try lia; intros [? ?]; lra.
Qed.

Lemma calculateStars_0 a w : calculateStars a w = 0%Z ↔ a < 70.
Proof.
  unfold calculateStars.
  case_qle 95 a; case_qle 40 w; case_qle 85 a; case_qle 30 w; case_qle 70 a;
    simpl; split; try done; try lia; intros; lra.
Qed.

Lemma calculateStars_mono a w a' w' :
  a <= a' → w <= w' → (calculateStars a w <= calculateStars a' w')%Z.
Proof.
  intros Ha Hw. unfold calculateStars.
  case_qle 95 a; case_qle 40 w; case_qle 85 a; case_qle 30 w; case_qle 70 a;
  case_qle 95 a'; case_qle 40 w'; case_qle 85 a'; case_qle 30 w'; case_qle 70 a';
    simpl; try lia; lra.
Qed.

End stars.

(** ** Levels, clamp, lerp *)

Section misc.

Lemma getLevelFromExp_Z (e : Z) : getLevelFromExp (inject_Z e) = (e / 1000 + 1)%Z.
Proof.
  unfold getLevelFromExp, Math_floor. by rewrite Zdiv_Qdiv.
Qed.

Lemma getLevelFromExp_calculateExpForLevel (l : Z) :
  getLevelFromExp (calculateExpForLevel (inject_Z l)) = (l + 1)%Z.
Proof.
  unfold getLevelFromExp, calculateExpForLevel. f_equal.
  rewrite <- (Math_floor_Z l) at 2. apply Math_floor_proper. field.
Qed.

Lemma getLevelFromExp_mono e e' :
  e <= e' → (getLevelFromExp e <= getLevelFromExp e')%Z.
Proof.
  intros H. unfold getLevelFromExp.
  assert (Math_floor (e / 1000) <= Math_floor (e' / 1000))%Z; [|lia].
  apply Math_floor_mono. qinv_consts. lra.
Qed.

Lemma clamp_range v lo hi : lo <= hi → lo <= clamp v lo hi <= hi.
Proof.
  intros H. unfold clamp, Math_min, Math_max.
  case_qle v lo; [case_qle lo hi | case_qle v hi]; lra.
Qed.

Lemma clamp_id v lo hi : lo <= v <= hi → clamp v lo hi == v.
Proof.
  intros H. unfold clamp, Math_min, Math_max.
  case_qle v lo; [case_qle lo hi | case_qle v hi]; lra.
Qed.

(** With crossed bounds the upper bound wins, as [Math.min] is applied last. *)
Lemma clamp_crossed v lo hi : hi < lo → clamp v lo hi == hi.
Proof.
  intros H. unfold clamp, Math_min, Math_max.
  case_qle v lo; [case_qle lo hi | case_qle v hi]; lra.
Qed.

Lemma lerp_0 s e : lerp s e 0 == s.
Proof. unfold lerp. lra. Qed.

Lemma lerp_1 s e : lerp s e 1 == e.
Proof. unfold lerp. lra. Qed.

Lemma lerp_between s e t : s <= e → 0 <= t <= 1 → s <= lerp s e t <= e.
Proof. intros H [H0 H1]. unfold lerp. nra. Qed.

End misc.

(** ** The examples of the specification *)

Example calculateWPM_example : calculateWPM 75 30000 = 30%Z.
Proof. reflexivity. Qed.

Example calculateScore_example : calculateScore 30 2 = 36%Z.
Proof. reflexivity. Qed.

Example calculateStars_examples :
  calculateStars 96 42 = 3%Z ∧ calculateStars 88 31 = 2%Z ∧
  calculateStars 72 10 = 1%Z ∧ calculateStars 50 100 = 0%Z.
Proof. repeat split. Qed.

(** * Properties of the calculators *)

(** [calculateWPM] returns 0 when no time has passed, and otherwise the
    integer nearest to the rate of five-character words per minute,
    [12000 * correctChars / elapsedMs]; it is never negative. *)
Theorem calculateWPM_spec (c ms : Q) :
  0 <= c →
  (ms <= 0 → calculateWPM c ms = 0%Z) ∧
  (0 < ms →
   12000 * c / ms - (1 # 2) < inject_Z (calculateWPM c ms) <= 12000 * c / ms + (1 # 2)) ∧
  (0 <= calculateWPM c ms)%Z.
Proof.
  intros Hc. split_and!;
    [apply calculateWPM_nonpos|apply calculateWPM_near|by apply calculateWPM_nonneg].
Qed.

Lemma calculateWPM_spec_witness :
  (30000 <= 0 → calculateWPM 75 30000 = 0%Z) ∧
  (0 < 30000 →
   12000 * 75 / 30000 - (1 # 2) < inject_Z (calculateWPM 75 30000)
     <= 12000 * 75 / 30000 + (1 # 2)) ∧
  (0 <= calculateWPM 75 30000)%Z.
Proof. apply (calculateWPM_spec 75 30000). done. Defined.

(** for counts with [0 <= correct <= total] the accuracy is a percentage
    between 0 and 100; it is 100 when nothing was typed, and with something
    typed it is 100 exactly when every keystroke was correct. *)
Theorem calculateAccuracy_bounds (c t : Q) :
  0 <= c <= t →
  0 <= calculateAccuracy c t <= 100 ∧
  (t == 0 → calculateAccuracy c t = 100) ∧
  (0 < t → (calculateAccuracy c t == 100 ↔ c == t)).
Proof.
  intros Hc. split_and!;
    [by apply calculateAccuracy_range..|apply calculateAccuracy_zero
    |apply calculateAccuracy_perfect].
Qed.

Lemma calculateAccuracy_bounds_witness :
  0 <= calculateAccuracy 9 10 <= 100 ∧
  (10 == 0 → calculateAccuracy 9 10 = 100) ∧
  (0 < 10 → (calculateAccuracy 9 10 == 100 ↔ 9 == 10)).
Proof. apply (calculateAccuracy_bounds 9 10). done. Defined.

(** on integer points and combo the score is the integer quotient
    [basePoints * (10 + combo) / 10], rounded down: a tenth more per combo
    step; with a non-negative base and combo it is at least the base and
    grows with the combo. *)
Theorem calculateScore_spec (b c c' : Z) :
  (0 <= b)%Z → (0 <= c <= c')%Z →
  calculateScore (inject_Z b) (inject_Z c) = (b * (10 + c) / 10)%Z ∧
  (b <= calculateScore (inject_Z b) (inject_Z c))%Z ∧
  (calculateScore (inject_Z b) (inject_Z c) <= calculateScore (inject_Z b) (inject_Z c'))%Z.
Proof.
  intros Hb [Hc Hc']. split_and!;
    [apply calculateScore_Z|by apply calculateScore_ge_base
    |by apply calculateScore_mono_combo].
Qed.

Lemma calculateScore_spec_witness :
  calculateScore (inject_Z 35) (inject_Z 3) = (35 * (10 + 3) / 10)%Z ∧
  (35 <= calculateScore (inject_Z 35) (inject_Z 3))%Z ∧
  (calculateScore (inject_Z 35) (inject_Z 3) <= calculateScore (inject_Z 35) (inject_Z 7))%Z.
Proof. apply (calculateScore_spec 35 3 7); lia. Defined.

(** the star rating is between 0 and 3, three stars need an accuracy of
    95 and 40 words per minute, no star is given below an accuracy of 70,
    and a better accuracy and speed never earn fewer stars. *)
Theorem calculateStars_spec (a w a' w' : Q) :
  a <= a' → w <= w' →
  (0 <= calculateStars a w <= 3)%Z ∧
  (calculateStars a w = 3%Z ↔ 95 <= a ∧ 40 <= w) ∧
  (calculateStars a w = 0%Z ↔ a < 70) ∧
  (calculateStars a w <= calculateStars a' w')%Z.
Proof.
  intros Ha Hw. split_and!;
    [apply calculateStars_range..|apply calculateStars_3|apply calculateStars_0
    |by apply calculateStars_mono].
Qed.

Lemma calculateStars_spec_witness :
  (0 <= calculateStars 90 35 <= 3)%Z ∧
  (calculateStars 90 35 = 3%Z ↔ 95 <= 90 ∧ 40 <= 35) ∧
  (calculateStars 90 35 = 0%Z ↔ 90 < 70) ∧
  (calculateStars 90 35 <= calculateStars 96 41)%Z.
Proof. apply (calculateStars_spec 90 35 96 41); done. Defined.

(** the level of the experience a level needs is the next level:
    [getLevelFromExp (calculateExpForLevel l) = l + 1]; on integers the level
    is [exp / 1000 + 1], and more experience never gives a lower level. *)
Theorem level_of_experience (l e e' : Z) :
  (e <= e')%Z →
  getLevelFromExp (calculateExpForLevel (inject_Z l)) = (l + 1)%Z ∧
  getLevelFromExp (inject_Z e) = (e / 1000 + 1)%Z ∧
  (getLevelFromExp (inject_Z e) <= getLevelFromExp (inject_Z e'))%Z.
Proof.
  intros He. split_and!;
    [apply getLevelFromExp_calculateExpForLevel|apply getLevelFromExp_Z|].
  apply getLevelFromExp_mono. by rewrite <- Zle_Qle.
Qed.

Lemma level_of_experience_witness :
  getLevelFromExp (calculateExpForLevel (inject_Z 4)) = (4 + 1)%Z ∧
  getLevelFromExp (inject_Z 2999) = (2999 / 1000 + 1)%Z ∧
  (getLevelFromExp (inject_Z 2999) <= getLevelFromExp (inject_Z 3000))%Z.
Proof. apply (level_of_experience 4 2999 3000). lia. Defined.

(** [clamp] returns a value within the bounds when they are in order,
    the value itself when it already lies within them, and the upper bound
    when the bounds are crossed. *)
Theorem clamp_spec (v lo hi : Q) :
  (lo <= hi → lo <= clamp v lo hi <= hi) ∧
  (lo <= v <= hi → clamp v lo hi == v) ∧
  (hi < lo → clamp v lo hi == hi).
Proof. split_and!; [apply clamp_range..|apply clamp_id|apply clamp_crossed]. Qed.
