(* ===== verification/Store.v ===== *)
(** * Store: the game runtime store of [src/store/gameSlice.ts]

    [Module Session] holds the reducers: the body of each [set((state) => ...)]
    of [useGameStore] as a function on [GameSession.t].  [Date.now()] is an
    explicit argument [now] (milliseconds).  [Class GameStore] is the
    TypeScript [interface GameStore]: what the store offers to its clients
    (the canvas, the pages, the hooks); [GameStoreLaws] states that an
    implementation behaves as the reducers on the session it holds, and
    [useGameStore] is the implementation of the source.

    The second half is the store as a state machine: [Action]s, [apply],
    [reachable], the invariant [wf] every reachable session satisfies, and
    the lifecycle [idle -> playing <-> paused -> victory | gameOver]. *)

From Stdlib Require Import ZArith QArith Qround Lqa Lia String.
From stdpp Require Import base tactics option list strings.
From S2P Require Import Prelude Types Metrics.

Local Open Scope Q_scope.
Local Open Scope Z_scope.

Module Session.
Import GameSession.

Definition initialSession : GameSession.t :=
  {| state := idle; mode := gravity; levelId := None; score := 0%Q;
     combo := 0; maxCombo := 0; wpm := 0; accuracy := 100%Q;
     timeRemaining := 60; wordsCompleted := 0; charactersTyped := 0;
     correctChars := 0; startTime := 0; entities := [] |}.

(** [startGame]: every field from [initialSession] but the four given. *)
Definition startGame (m : GameMode) (lvl : option string) (now : Z)
    (s : GameSession.t) : GameSession.t :=
  {| state := playing; mode := m; levelId := lvl;
     score := score initialSession; combo := combo initialSession;
     maxCombo := maxCombo initialSession; wpm := wpm initialSession;
     accuracy := accuracy initialSession;
     timeRemaining := timeRemaining initialSession;
     wordsCompleted := wordsCompleted initialSession;
     charactersTyped := charactersTyped initialSession;
     correctChars := correctChars initialSession;
     startTime := now; entities := entities initialSession |}.

Definition pauseGame (s : GameSession.t) : GameSession.t :=
  if decide (state s = playing) then set_state paused s else s.

Definition resumeGame (s : GameSession.t) : GameSession.t :=
  if decide (state s = paused) then set_state playing s else s.

Definition endGame (isVictory : bool) (s : GameSession.t) : GameSession.t :=
  set_state (if isVictory then victory else gameOver) s.

Definition resetGame (s : GameSession.t) : GameSession.t := initialSession.

Definition updateScore (points : Q) (s : GameSession.t) : GameSession.t :=
  set_score (score s + points)%Q s.

Definition incrementCombo (s : GameSession.t) : GameSession.t :=
  let s1 := set_combo (combo s + 1) s in
  if decide (combo s1 > maxCombo s1) then set_maxCombo (combo s1) s1 else s1.

Definition breakCombo (s : GameSession.t) : GameSession.t := set_combo 0 s.

Definition recordKeystroke (correct : bool) (now : Z)
    (s : GameSession.t) : GameSession.t :=
  let s1 := set_charactersTyped (charactersTyped s + 1) s in
  let s2 := if correct then set_correctChars (correctChars s1 + 1) s1 else s1 in
  let s3 := set_accuracy
              (inject_Z (correctChars s2) / inject_Z (charactersTyped s2) * 100)%Q s2 in
  let elapsedMinutes := (inject_Z (now - startTime s3) / 60000)%Q in
  if (elapsedMinutes >? 0)%js
  then set_wpm (Math_round ((inject_Z (correctChars s3) / 5) / elapsedMinutes)%Q) s3
  else s3.

Definition completeWord (s : GameSession.t) : GameSession.t :=
  set_wordsCompleted (wordsCompleted s + 1) s.

Definition setTimeRemaining (time : Z) (s : GameSession.t) : GameSession.t :=
  set_timeRemaining time s.

Definition setEntities (es : list Entity.t) (s : GameSession.t) : GameSession.t :=
  set_entities es s.

Definition addEntity (e : Entity.t) (s : GameSession.t) : GameSession.t :=
  set_entities (entities s ++ [e]) s.

Definition removeEntity (id : string) (s : GameSession.t) : GameSession.t :=
  set_entities (filter (λ e, Entity.id e ≠ id) (entities s)) s.

End Session.

(** ** The store interface *)

Class GameStore (St : Type) : Type := {
  session : St → GameSession.t;
  startGame : GameMode → option string → Z → St → St;
  pauseGame : St → St;
  resumeGame : St → St;
  endGame : bool → St → St;
  resetGame : St → St;
  updateScore : Q → St → St;
  incrementCombo : St → St;
  breakCombo : St → St;
  recordKeystroke : bool → Z → St → St;
  completeWord : St → St;
  setTimeRemaining : Z → St → St;
  setEntities : list Entity.t → St → St;
  addEntity : Entity.t → St → St;
  removeEntity : string → St → St;
}.

(** What a client may rely on: each action acts on the session as its reducer. *)
Class GameStoreLaws (St : Type) `{GameStore St} : Prop := {
  session_startGame m l now (st : St) :
    session (startGame m l now st) = Session.startGame m l now (session st);
  session_pauseGame (st : St) : session (pauseGame st) = Session.pauseGame (session st);
  session_resumeGame (st : St) : session (resumeGame st) = Session.resumeGame (session st);
  session_endGame v (st : St) : session (endGame v st) = Session.endGame v (session st);
  session_resetGame (st : St) : session (resetGame st) = Session.resetGame (session st);
  session_updateScore p (st : St) :
    session (updateScore p st) = Session.updateScore p (session st);
  session_incrementCombo (st : St) :
    session (incrementCombo st) = Session.incrementCombo (session st);
  session_breakCombo (st : St) : session (breakCombo st) = Session.breakCombo (session st);
  session_recordKeystroke c now (st : St) :
    session (recordKeystroke c now st) = Session.recordKeystroke c now (session st);
  session_completeWord (st : St) :
    session (completeWord st) = Session.completeWord (session st);
  session_setTimeRemaining t (st : St) :
    session (setTimeRemaining t st) = Session.setTimeRemaining t (session st);
  session_setEntities es (st : St) :
    session (setEntities es st) = Session.setEntities es (session st);
  session_addEntity e (st : St) : session (addEntity e st) = Session.addEntity e (session st);
  session_removeEntity i (st : St) :
    session (removeEntity i st) = Session.removeEntity i (session st);
}.

(** [useGameStore]: the store of the source holds exactly one session. *)
#[export] Instance useGameStore : GameStore GameSession.t := {|
  session := id;
  startGame := Session.startGame;
  pauseGame := Session.pauseGame;
  resumeGame := Session.resumeGame;
  endGame := Session.endGame;
  resetGame := Session.resetGame;
  updateScore := Session.updateScore;
  incrementCombo := Session.incrementCombo;
  breakCombo := Session.breakCombo;
  recordKeystroke := Session.recordKeystroke;
  completeWord := Session.completeWord;
  setTimeRemaining := Session.setTimeRemaining;
  setEntities := Session.setEntities;
  addEntity := Session.addEntity;
  removeEntity := Session.removeEntity;
|}.

#[export] Instance useGameStore_laws : GameStoreLaws GameSession.t.
Proof. by split. Qed.

Create Rewrite HintDb store.
#[export] Hint Rewrite @session_startGame @session_pauseGame @session_resumeGame
  @session_endGame @session_resetGame @session_updateScore
  @session_incrementCombo @session_breakCombo @session_recordKeystroke
  @session_completeWord @session_setTimeRemaining @session_setEntities
  @session_addEntity @session_removeEntity using (exact _) : store.

(** ** The store as a state machine *)

Module Machine.
Import GameSession.

Inductive Action : Type :=
| StartGame (m : GameMode) (lvl : option string) (now : Z)
| PauseGame
| ResumeGame
| EndGame (isVictory : bool)
| ResetGame
| UpdateScore (points : Q)
| IncrementCombo
| BreakCombo
| RecordKeystroke (correct : bool) (now : Z)
| CompleteWord
| SetTimeRemaining (time : Z)
| SetEntities (es : list Entity.t)
| AddEntity (e : Entity.t)
| RemoveEntity (id : string).

Definition apply (a : Action) (s : GameSession.t) : GameSession.t :=
  match a with
  | StartGame m lvl now => Session.startGame m lvl now s
  | PauseGame => Session.pauseGame s
  | ResumeGame => Session.resumeGame s
  | EndGame v => Session.endGame v s
  | ResetGame => Session.resetGame s
  | UpdateScore p => Session.updateScore p s
  | IncrementCombo => Session.incrementCombo s
  | BreakCombo => Session.breakCombo s
  | RecordKeystroke c now => Session.recordKeystroke c now s
  | CompleteWord => Session.completeWord s
  | SetTimeRemaining t => Session.setTimeRemaining t s
  | SetEntities es => Session.setEntities es s
  | AddEntity e => Session.addEntity e s
  | RemoveEntity i => Session.removeEntity i s
  end.

Definition run (acts : list Action) (s : GameSession.t) : GameSession.t :=
  foldl (λ s a, apply a s) s acts.

(** The sessions the store can hold: any actions, in any order, from the
    initial one. *)
Inductive reachable : GameSession.t → Prop :=
| reachable_init : reachable Session.initialSession
| reachable_step s a : reachable s → reachable (apply a s).

(** The counters of a session are consistent. *)
Record wf (s : GameSession.t) : Prop := {
  wf_typed : 0 <= charactersTyped s;
  wf_correct : 0 <= correctChars s <= charactersTyped s;
  wf_combo : 0 <= combo s <= maxCombo s;
  wf_words : 0 <= wordsCompleted s;
  wf_wpm : 0 <= wpm s;
  wf_accuracy :
    (accuracy s ==
       calculateAccuracy (inject_Z (correctChars s)) (inject_Z (charactersTyped s)))%Q;
}.

(** The lifecycle of the specification (section 4.3): which changes of
    [state] are legal. *)
Inductive transition : GameState → GameState → Prop :=
| t_start s : transition s playing
| t_pause : transition playing paused
| t_resume : transition paused playing
| t_end_playing s : s = victory ∨ s = gameOver → transition playing s
| t_end_paused s : s = victory ∨ s = gameOver → transition paused s
| t_reset s : transition s idle.

(** The action is one the specification allows in the state of [s]. *)
Definition legal (a : Action) (s : GameSession.t) : Prop :=
  match a with
  | EndGame _ => state s = playing ∨ state s = paused
  | _ => True
  end.

End Machine.

(** ** Behaviour of the reducers *)

Import GameSession Machine.

(** Each reducer in closed form: the record it returns, field by field.
    The guards sit inside the fields, so that a projection of a reducer
    applied to a record always reduces. *)

Section closed_forms.
Implicit Types s : GameSession.t.

Lemma pauseGame_closed s :
  Session.pauseGame s =
  mk (if decide (state s = playing) then paused else state s) (mode s) (levelId s) (score s)
     (combo s) (maxCombo s) (wpm s) (accuracy s)
     (timeRemaining s) (wordsCompleted s) (charactersTyped s)
     (correctChars s) (startTime s) (entities s).
Proof. destruct s as [[] ?]; reflexivity. Qed.

Lemma resumeGame_closed s :
  Session.resumeGame s =
  mk (if decide (state s = paused) then playing else state s) (mode s) (levelId s) (score s)
     (combo s) (maxCombo s) (wpm s) (accuracy s)
     (timeRemaining s) (wordsCompleted s) (charactersTyped s)
     (correctChars s) (startTime s) (entities s).
Proof. destruct s as [[] ?]; reflexivity. Qed.

Lemma endGame_closed v s :
  Session.endGame v s =
  mk (if v then victory else gameOver) (mode s) (levelId s) (score s)
     (combo s) (maxCombo s) (wpm s) (accuracy s)
     (timeRemaining s) (wordsCompleted s) (charactersTyped s)
     (correctChars s) (startTime s) (entities s).
Proof. by destruct s. Qed.

Lemma updateScore_closed p s :
  Session.updateScore p s =
  mk (state s) (mode s) (levelId s) (score s + p)%Q
     (combo s) (maxCombo s) (wpm s) (accuracy s)
     (timeRemaining s) (wordsCompleted s) (charactersTyped s)
     (correctChars s) (startTime s) (entities s).
Proof. by destruct s. Qed.

Lemma incrementCombo_closed s :
  Session.incrementCombo s =
  mk (state s) (mode s) (levelId s) (score s)
     (combo s + 1) (Z.max (maxCombo s) (combo s + 1)) (wpm s) (accuracy s)
     (timeRemaining s) (wordsCompleted s) (charactersTyped s)
     (correctChars s) (startTime s) (entities s).
Proof.
  unfold Session.incrementCombo, set_maxCombo, set_combo. destruct s; cbn.
  case_decide; f_equal; lia.
Qed.

Lemma breakCombo_closed s :
  Session.breakCombo s =
  mk (state s) (mode s) (levelId s) (score s)
     0 (maxCombo s) (wpm s) (accuracy s)
     (timeRemaining s) (wordsCompleted s) (charactersTyped s)
     (correctChars s) (startTime s) (entities s).
Proof. by destruct s. Qed.

Lemma recordKeystroke_closed c now s :
  Session.recordKeystroke c now s =
  mk (state s) (mode s) (levelId s) (score s)
     (combo s) (maxCombo s) (if (inject_Z (now - startTime s) / 60000 >? 0)%js
      then Math_round ((inject_Z (correctChars s + (if c then 1 else 0)) / 5) /
                       (inject_Z (now - startTime s) / 60000))%Q
      else wpm s) (inject_Z (correctChars s + (if c then 1 else 0)) /
        inject_Z (charactersTyped s + 1) * 100)%Q
     (timeRemaining s) (wordsCompleted s) (charactersTyped s + 1)
     (correctChars s + (if c then 1 else 0)) (startTime s) (entities s).
Proof.
  unfold Session.recordKeystroke, set_wpm, set_accuracy, set_correctChars,
    set_charactersTyped.
  destruct s, c; cbn; rewrite ?Z.add_0_r; by case_match.
Qed.

Lemma completeWord_closed s :
  Session.completeWord s =
  mk (state s) (mode s) (levelId s) (score s)
     (combo s) (maxCombo s) (wpm s) (accuracy s)
     (timeRemaining s) (wordsCompleted s + 1) (charactersTyped s)
     (correctChars s) (startTime s) (entities s).
Proof. by destruct s. Qed.

Lemma setTimeRemaining_closed t s :
  Session.setTimeRemaining t s =
  mk (state s) (mode s) (levelId s) (score s)
     (combo s) (maxCombo s) (wpm s) (accuracy s)
     t (wordsCompleted s) (charactersTyped s)
     (correctChars s) (startTime s) (entities s).
Proof. by destruct s. Qed.

Lemma setEntities_closed es s :
  Session.setEntities es s =
  mk (state s) (mode s) (levelId s) (score s)
     (combo s) (maxCombo s) (wpm s) (accuracy s)
     (timeRemaining s) (wordsCompleted s) (charactersTyped s)
     (correctChars s) (startTime s) es.
Proof. by destruct s. Qed.

Lemma addEntity_closed e s :
  Session.addEntity e s =
  mk (state s) (mode s) (levelId s) (score s)
     (combo s) (maxCombo s) (wpm s) (accuracy s)
     (timeRemaining s) (wordsCompleted s) (charactersTyped s)
     (correctChars s) (startTime s) (entities s ++ [e]).
Proof. by destruct s. Qed.

Lemma removeEntity_closed i s :
  Session.removeEntity i s =
  mk (state s) (mode s) (levelId s) (score s)
     (combo s) (maxCombo s) (wpm s) (accuracy s)
     (timeRemaining s) (wordsCompleted s) (charactersTyped s)
     (correctChars s) (startTime s) (filter (λ e, Entity.id e ≠ i) (entities s)).
Proof. by destruct s. Qed.

End closed_forms.

Ltac session_projections :=
  cbn [state mode levelId score combo maxCombo wpm accuracy timeRemaining
    wordsCompleted charactersTyped correctChars startTime entities].

(** A reducer is rewritten once its argument is a variable, the session of
    a store or a record. *)
Ltac session_arg_ok s :=
  first [ is_var s
        | lazymatch s with
          | session _ => idtac
          | GameSession.mk _ _ _ _ _ _ _ _ _ _ _ _ _ _ => idtac
          end ].

Ltac reduce_step :=
  match goal with
  | |- context [Session.startGame ?m ?l ?n ?s] => unfold Session.startGame
  | |- context [Session.resetGame ?s] => unfold Session.resetGame
  | |- context [Session.initialSession] => unfold Session.initialSession
  | |- context [Session.pauseGame ?s] =>
      session_arg_ok s; rewrite (pauseGame_closed s)
  | |- context [Session.resumeGame ?s] =>
      session_arg_ok s; rewrite (resumeGame_closed s)
  | |- context [Session.endGame ?v ?s] =>
      session_arg_ok s; rewrite (endGame_closed v s)
  | |- context [Session.updateScore ?p ?s] =>
      session_arg_ok s; rewrite (updateScore_closed p s)
  | |- context [Session.incrementCombo ?s] =>
      session_arg_ok s; rewrite (incrementCombo_closed s)
  | |- context [Session.breakCombo ?s] =>
      session_arg_ok s; rewrite (breakCombo_closed s)
  | |- context [Session.recordKeystroke ?c ?n ?s] =>
      session_arg_ok s; rewrite (recordKeystroke_closed c n s)
  | |- context [Session.completeWord ?s] =>
      session_arg_ok s; rewrite (completeWord_closed s)
  | |- context [Session.setTimeRemaining ?t ?s] =>
      session_arg_ok s; rewrite (setTimeRemaining_closed t s)
  | |- context [Session.setEntities ?es ?s] =>
      session_arg_ok s; rewrite (setEntities_closed es s)
  | |- context [Session.addEntity ?e ?s] =>
      session_arg_ok s; rewrite (addEntity_closed e s)
  | |- context [Session.removeEntity ?i ?s] =>
      session_arg_ok s; rewrite (removeEntity_closed i s)
  end; session_projections.

(** Normalise the sessions of the goal to records, innermost reducer first. *)
Ltac session_norm := unfold apply; session_projections; repeat reduce_step.

(** Normalise, then split on the guards that remain. *)
Ltac reduce_session :=
  session_norm; repeat (case_decide || case_match); session_projections.

Section lifecycle.
Implicit Types s : GameSession.t.

Lemma pauseGame_state s :
  state (Session.pauseGame s) = (if decide (state s = playing) then paused else state s).
Proof. by reduce_session. Qed.

Lemma resumeGame_state s :
  state (Session.resumeGame s) = (if decide (state s = paused) then playing else state s).
Proof. by reduce_session. Qed.

Lemma pauseGame_idemp s : Session.pauseGame (Session.pauseGame s) = Session.pauseGame s.
Proof. destruct s as [[] ?]; reflexivity. Qed.

Lemma resumeGame_idemp s : Session.resumeGame (Session.resumeGame s) = Session.resumeGame s.
Proof. destruct s as [[] ?]; reflexivity. Qed.

Lemma resume_pause s : state s = playing → Session.resumeGame (Session.pauseGame s) = s.
Proof. destruct s as [[] ?]; simpl; intros; by simplify_eq. Qed.

Lemma pause_resume s : state s = paused → Session.pauseGame (Session.resumeGame s) = s.
Proof. destruct s as [[] ?]; simpl; intros; by simplify_eq. Qed.

(** Pausing and resuming touch nothing but [state]. *)
Lemma pauseGame_frame s : Session.pauseGame s = set_state (state (Session.pauseGame s)) s.
Proof. by destruct s as [[] ?]. Qed.

Lemma resumeGame_frame s : Session.resumeGame s = set_state (state (Session.resumeGame s)) s.
Proof. by destruct s as [[] ?]. Qed.

Lemma pauseGame_noop s : state s ≠ playing → Session.pauseGame s = s.
Proof. intros H. unfold Session.pauseGame. by case_decide. Qed.

Lemma resumeGame_noop s : state s ≠ paused → Session.resumeGame s = s.
Proof. intros H. unfold Session.resumeGame. by case_decide. Qed.

Lemma startGame_state m l now s : state (Session.startGame m l now s) = playing.
Proof. reflexivity. Qed.

(** [startGame] forgets the previous session entirely. *)
Lemma startGame_fresh m l now s s' :
  Session.startGame m l now s = Session.startGame m l now s'.
Proof. reflexivity. Qed.

Lemma resetGame_start m l now s :
  Session.startGame m l now (Session.resetGame s) = Session.startGame m l now s.
Proof. reflexivity. Qed.

Lemma endGame_state v s :
  state (Session.endGame v s) = (if v then victory else gameOver).
Proof. reflexivity. Qed.

End lifecycle.

Section counters.
Implicit Types s : GameSession.t.

Lemma incrementCombo_combo s : combo (Session.incrementCombo s) = combo s + 1.
Proof. by reduce_session. Qed.

Lemma incrementCombo_maxCombo s :
  maxCombo (Session.incrementCombo s) = Z.max (maxCombo s) (combo s + 1).
Proof. reduce_session; lia. Qed.

Lemma breakCombo_combo s : combo (Session.breakCombo s) = 0.
Proof. reflexivity. Qed.

Lemma breakCombo_maxCombo s : maxCombo (Session.breakCombo s) = maxCombo s.
Proof. reflexivity. Qed.

Lemma recordKeystroke_charactersTyped c now s :
  charactersTyped (Session.recordKeystroke c now s) = charactersTyped s + 1.
Proof. by reduce_session. Qed.

Lemma recordKeystroke_correctChars c now s :
  correctChars (Session.recordKeystroke c now s) =
    correctChars s + (if c then 1 else 0).
Proof. reduce_session; lia. Qed.

Lemma recordKeystroke_combo c now s :
  combo (Session.recordKeystroke c now s) = combo s ∧
  maxCombo (Session.recordKeystroke c now s) = maxCombo s ∧
  score (Session.recordKeystroke c now s) = score s ∧
  state (Session.recordKeystroke c now s) = state s ∧
  wordsCompleted (Session.recordKeystroke c now s) = wordsCompleted s ∧
  entities (Session.recordKeystroke c now s) = entities s ∧
  startTime (Session.recordKeystroke c now s) = startTime s.
Proof. by reduce_session. Qed.

(** The stored accuracy is the calculator's value on the new counters, as
    soon as the number of keystrokes so far is not negative. *)
Lemma recordKeystroke_accuracy c now s :
  0 <= charactersTyped s →
  (accuracy (Session.recordKeystroke c now s) ==
     calculateAccuracy
       (inject_Z (correctChars (Session.recordKeystroke c now s)))
       (inject_Z (charactersTyped (Session.recordKeystroke c now s))))%Q.
Proof.
  intros H. rewrite calculateAccuracy_nonzero.
  - by reduce_session.
  - rewrite recordKeystroke_charactersTyped. zq.
Qed.

(** After the clock has advanced past [startTime] the stored rate is the
    calculator's value. *)
Lemma recordKeystroke_wpm c now s :
  startTime s < now →
  wpm (Session.recordKeystroke c now s) =
    calculateWPM (inject_Z (correctChars (Session.recordKeystroke c now s)))
                 (inject_Z (now - startTime s)).
Proof.
  intros H. rewrite recordKeystroke_correctChars.
  assert (0 < inject_Z (now - startTime s))%Q as Hpos by zq.
  unfold calculateWPM. case_qle (inject_Z (now - startTime s)) 0%Q; [lra|].
  reduce_session; rewrite ?Z.add_0_r; try reflexivity;
    match goal with H : Qltb _ _ = false |- _ => apply Qltb_ge in H end;
    qinv_consts; lra.
Qed.

(** Otherwise the previous rate is kept (the calculator would return 0). *)
Lemma recordKeystroke_wpm_stale c now s :
  now <= startTime s → wpm (Session.recordKeystroke c now s) = wpm s.
Proof.
  intros H. assert (inject_Z (now - startTime s) <= 0)%Q as Hle by zq.
  reduce_session; try reflexivity;
    match goal with H : Qltb _ _ = true |- _ => apply Qltb_lt in H end;
    qinv_consts; lra.
Qed.

Lemma updateScore_score p s : score (Session.updateScore p s) = (score s + p)%Q.
Proof. reflexivity. Qed.

Lemma completeWord_wordsCompleted s :
  wordsCompleted (Session.completeWord s) = wordsCompleted s + 1.
Proof. reflexivity. Qed.

End counters.

Section entities.
Implicit Types s : GameSession.t.
Implicit Types e : Entity.t.

Lemma addEntity_entities e s : entities (Session.addEntity e s) = entities s ++ [e].
Proof. reflexivity. Qed.

Lemma removeEntity_gone i s e :
  e ∈ entities (Session.removeEntity i s) → Entity.id e ≠ i.
Proof. simpl. by intros [? ?]%list_elem_of_filter. Qed.

Lemma removeEntity_other i s e :
  e ∈ entities s → Entity.id e ≠ i → e ∈ entities (Session.removeEntity i s).
Proof. simpl. intros. by apply list_elem_of_filter. Qed.

Lemma removeEntity_length i s :
  (length (entities (Session.removeEntity i s)) ≤ length (entities s))%nat.
Proof. simpl. apply length_filter. Qed.

(** Removing the entity just added, when its id is new, restores the list. *)
Lemma removeEntity_addEntity e s :
  Forall (λ e', Entity.id e' ≠ Entity.id e) (entities s) →
  entities (Session.removeEntity (Entity.id e) (Session.addEntity e s)) = entities s.
Proof.
  intros H. simpl. rewrite filter_app, filter_cons_False, filter_nil, app_nil_r by auto.
  clear -H. induction H as [|e' es ? ? IH]; [done|].
  by rewrite filter_cons_True, IH.
Qed.

End entities.

(** ** The invariant of the counters *)

Section invariant.
Implicit Types s : GameSession.t.
Implicit Types a : Action.

Lemma wf_initialSession : wf Session.initialSession.
Proof. split; simpl; try lia. reflexivity. Qed.

Lemma wf_startGame m l now s : wf (Session.startGame m l now s).
Proof. split; simpl; try lia. reflexivity. Qed.

Lemma wf_recordKeystroke c now s : wf s → wf (Session.recordKeystroke c now s).
Proof.
  intros [Ht Hc Hk Hw Hp Ha].
  pose proof (recordKeystroke_combo c now s) as (Ec & Em & _ & _ & Ew & _).
  split.
  - rewrite recordKeystroke_charactersTyped. lia.
  - rewrite recordKeystroke_charactersTyped, recordKeystroke_correctChars.
    destruct c; lia.
  - by rewrite Ec, Em.
  - by rewrite Ew.
  - destruct (Z_lt_le_dec (startTime s) now) as [Hlt|Hle].
    + rewrite recordKeystroke_wpm by done. apply calculateWPM_nonneg.
      rewrite recordKeystroke_correctChars. destruct c; zq.
    + by rewrite recordKeystroke_wpm_stale.
  - by apply recordKeystroke_accuracy.
Qed.

Lemma wf_incrementCombo s : wf s → wf (Session.incrementCombo s).
Proof.
  intros [Ht Hc Hk Hw Hp Ha]. split;
    rewrite ?incrementCombo_combo, ?incrementCombo_maxCombo;
    try (by reduce_session); lia.
Qed.

(** Every action of the store preserves the invariant. *)
Lemma wf_apply a s : wf s → wf (apply a s).
Proof.
  intros H. destruct a; simpl;
    auto using wf_initialSession, wf_startGame, wf_recordKeystroke, wf_incrementCombo;
    destruct H as [Ht Hc Hk Hw Hp Ha]; split; reduce_session; try done; lia.
Qed.

Lemma wf_run acts s : wf s → wf (run acts s).
Proof.
  revert s. induction acts as [|a acts IH]; intros s H; [done|].
  apply IH. by apply wf_apply.
Qed.

Lemma reachable_run acts : reachable (run acts Session.initialSession).
Proof.
  induction acts as [|a acts IH] using rev_ind; [constructor|].
  unfold run. rewrite foldl_app. simpl. by constructor.
Qed.

Lemma reachable_inv s : reachable s → ∃ acts, s = run acts Session.initialSession.
Proof.
  induction 1 as [|s a _ [acts ->]]; [by exists []|].
  exists (acts ++ [a]). unfold run. by rewrite foldl_app.
Qed.

End invariant.

(** ** The lifecycle *)

Section transitions.
Implicit Types s : GameSession.t.
Implicit Types a : Action.

(** The actions that may change [state]. *)
Definition lifecycle (a : Action) : bool :=
  match a with
  | StartGame _ _ _ | PauseGame | ResumeGame | EndGame _ | ResetGame => true
  | _ => false
  end.

Lemma apply_state_frame a s : lifecycle a = false → state (apply a s) = state s.
Proof. destruct a; try done; intros _; by reduce_session. Qed.

Lemma apply_transition a s :
  legal a s → state (apply a s) = state s ∨ transition (state s) (state (apply a s)).
Proof.
  intros Hl. destruct (lifecycle a) eqn:E; [|left; by apply apply_state_frame].
  destruct a; try done; simpl.
  - right. constructor.
  - rewrite pauseGame_state. case_decide as Hs; [rewrite Hs; right; constructor|by left].
  - rewrite resumeGame_state. case_decide as Hs; [rewrite Hs; right; constructor|by left].
  - right. destruct Hl as [-> | ->]; constructor; destruct isVictory; auto.
  - right. constructor.
Qed.

(** No legal change leaves [idle] or a final state except by start or reset. *)
Lemma transition_from_rest st st' :
  transition st st' → st = idle ∨ st = victory ∨ st = gameOver →
  st' = playing ∨ st' = idle.
Proof.
  intros H Hin. destruct H; auto; by destruct Hin as [?|[?|?]].
Qed.

End transitions.

(** ** Monotonicity of the counters *)

Section monotone.
Implicit Types s : GameSession.t.
Implicit Types a : Action.

(** The actions that start a new session. *)
Definition restarts (a : Action) : bool :=
  match a with
  | StartGame _ _ _ | ResetGame => true
  | _ => false
  end.

Lemma maxCombo_apply a s : restarts a = false → maxCombo s <= maxCombo (apply a s).
Proof.
  destruct a; try done; intros _; simpl;
    rewrite ?incrementCombo_maxCombo; try (by reduce_session); lia.
Qed.

Lemma combo_apply_lt a s :
  combo (apply a s) < combo s → a = BreakCombo ∨ restarts a = true.
Proof.
  destruct a; auto; simpl; rewrite ?incrementCombo_combo;
    try (reduce_session; lia).
Qed.

Lemma reachable_wf_aux s : reachable s → wf s.
Proof. induction 1; [apply wf_initialSession | by apply wf_apply]. Qed.

Lemma wf_accuracy_range s : wf s → (0 <= accuracy s <= 100)%Q.
Proof.
  intros [Ht Hc Hk Hw Hp Ha]. rewrite Ha. apply calculateAccuracy_range. zq.
Qed.

End monotone.

(** ** Properties of the store *)

(** C2: every session the store can reach, by any sequence of its fourteen
    actions from the initial session, has consistent counters: keystrokes
    are counted from zero, the correct ones never exceed the total, the
    combo lies between zero and its running maximum, the rate is not
    negative, and the stored accuracy is the value of [calculateAccuracy]
    on the two keystroke counters. *)
Theorem reachable_wf (s : GameSession.t) : reachable s → wf s.
Proof. apply reachable_wf_aux. Qed.

Lemma reachable_wf_witness :
  wf (run [StartGame gravity None 1000; RecordKeystroke true 1500; IncrementCombo;
           RecordKeystroke false 2100; BreakCombo] Session.initialSession).
Proof. apply reachable_wf, reachable_run. Defined.

(** in every reachable session the accuracy is a percentage: it lies
    between 0 and 100. *)
Theorem reachable_accuracy_range (s : GameSession.t) :
  reachable s → (0 <= accuracy s <= 100)%Q.
Proof. intros H. by apply wf_accuracy_range, reachable_wf_aux. Qed.

Lemma reachable_accuracy_range_witness :
  (0 <= accuracy (run [StartGame gravity None 0; RecordKeystroke true 10;
                       RecordKeystroke false 20; RecordKeystroke true 30]
                      Session.initialSession) <= 100)%Q.
Proof. apply reachable_accuracy_range, reachable_run. Defined.

(** [maxCombo] never decreases within a session: along any sequence of
    actions that contains neither [startGame] nor [resetGame] the final
    [maxCombo] is at least the initial one. *)
Theorem maxCombo_monotone (acts : list Action) (s : GameSession.t) :
  Forall (λ a, restarts a = false) acts → maxCombo s <= maxCombo (run acts s).
Proof.
  revert s. induction acts as [|a acts IH]; intros s H; [done|].
  apply Forall_cons in H as [Ha H]. simpl.
  etrans; [by apply maxCombo_apply | by apply IH].
Qed.

Lemma maxCombo_monotone_witness :
  let acts := [IncrementCombo; IncrementCombo; BreakCombo; IncrementCombo] in
  maxCombo (Session.startGame gravity None 0 Session.initialSession)
    <= maxCombo (run acts (Session.startGame gravity None 0 Session.initialSession)).
Proof. apply maxCombo_monotone. repeat constructor. Defined.

(** the combo only ever drops through [breakCombo] or a new session:
    any single action after which the combo is smaller than before is
    [breakCombo], [startGame] or [resetGame]. *)
Theorem combo_drops_only_on_break (a : Action) (s : GameSession.t) :
  combo (apply a s) < combo s → a = BreakCombo ∨ restarts a = true.
Proof. apply combo_apply_lt. Qed.

Lemma combo_drops_only_on_break_witness :
  let s := run [StartGame gravity None 0; IncrementCombo] Session.initialSession in
  BreakCombo = BreakCombo ∨ restarts BreakCombo = true.
Proof.
  intros s. apply (combo_drops_only_on_break BreakCombo s). reflexivity.
Defined.

(** [incrementCombo] adds one to the combo and keeps [maxCombo] the
    running maximum of the combo. *)
Theorem incrementCombo_running_max (s : GameSession.t) :
  combo (Session.incrementCombo s) = combo s + 1 ∧
  maxCombo (Session.incrementCombo s) = Z.max (maxCombo s) (combo s + 1).
Proof. split; [apply incrementCombo_combo | apply incrementCombo_maxCombo]. Qed.

(** pausing twice is pausing once, from any state; and pausing a
    session that is not being played changes nothing. *)
Theorem pauseGame_idempotent (s : GameSession.t) :
  Session.pauseGame (Session.pauseGame s) = Session.pauseGame s ∧
  (state s ≠ playing → Session.pauseGame s = s).
Proof. split; [apply pauseGame_idemp | apply pauseGame_noop]. Qed.

(** resuming a game paused from play gives back exactly the session
    that was paused: no counter, timer or entity is touched. *)
Theorem resume_after_pause (s : GameSession.t) :
  state s = playing → Session.resumeGame (Session.pauseGame s) = s.
Proof. apply resume_pause. Qed.

Lemma resume_after_pause_witness :
  let s := Session.startGame gravity (Some "1-1") 5 Session.initialSession in
  Session.resumeGame (Session.pauseGame s) = s.
Proof. apply resume_after_pause. reflexivity. Defined.

(** C24: every action the specification allows in the current state either
    leaves [state] unchanged or follows an edge of the lifecycle
    idle, playing, paused, victory or gameOver of the specification. *)
Theorem lifecycle_respected (a : Action) (s : GameSession.t) :
  legal a s → state (apply a s) = state s ∨ transition (state s) (state (apply a s)).
Proof. apply apply_transition. Qed.

Lemma lifecycle_respected_witness :
  let s := Session.startGame gravity None 0 Session.initialSession in
  state (apply (EndGame true) s) = state s ∨
  transition (state s) (state (apply (EndGame true) s)).
Proof. apply lifecycle_respected. by left. Defined.

(** [endGame] is not guarded by the state: from the initial, idle
    session it moves to [victory], a change that is no edge of the
    specified lifecycle. *)
Theorem endGame_unguarded :
  reachable (Session.endGame true Session.initialSession) ∧
  state (Session.endGame true Session.initialSession) = victory ∧
  ¬ transition idle victory.
Proof.
  split; [apply (reachable_step _ (EndGame true)), reachable_init|].
  split; [done|]. inversion 1.
Qed.

(** the counters are not frozen when a game has ended: a keystroke
    recorded in state [victory] is still counted. *)
Theorem counters_not_frozen (s : GameSession.t) (c : bool) (now : Z) :
  let s' := Session.recordKeystroke c now (Session.endGame true s) in
  state s' = victory ∧ charactersTyped s' = charactersTyped s + 1.
Proof. split; by reduce_session. Qed.

(** once the clock has passed [startTime], the rate stored by
    [recordKeystroke] is [calculateWPM] of the updated count of correct
    characters and the time since [startTime]. *)
Theorem recordKeystroke_stores_wpm (c : bool) (now : Z) (s : GameSession.t) :
  startTime s < now →
  wpm (Session.recordKeystroke c now s) =
    calculateWPM (inject_Z (correctChars s + (if c then 1 else 0)))
                 (inject_Z (now - startTime s)).
Proof.
  intros H. rewrite recordKeystroke_wpm by done.
  by rewrite recordKeystroke_correctChars.
Qed.

Lemma recordKeystroke_stores_wpm_witness :
  let s := Session.startGame gravity None 1000 Session.initialSession in
  wpm (Session.recordKeystroke true 4000 s) =
    calculateWPM (inject_Z (correctChars s + 1)) (inject_Z (4000 - startTime s)).
Proof. apply (recordKeystroke_stores_wpm true). reflexivity. Defined.

(** when the clock has not advanced ([now <= startTime]) the previous
    rate is kept, whereas [calculateWPM] returns 0 for such an elapsed
    time: the store and the calculator disagree there. *)
Theorem recordKeystroke_wpm_not_reset (c : bool) (now : Z) (s : GameSession.t) :
  now <= startTime s →
  wpm (Session.recordKeystroke c now s) = wpm s ∧
  calculateWPM (inject_Z (correctChars s)) (inject_Z (now - startTime s)) = 0.
Proof.
  intros H. split; [by apply recordKeystroke_wpm_stale|].
  apply calculateWPM_nonpos. zq.
Qed.

Lemma recordKeystroke_wpm_not_reset_witness :
  let s := set_wpm 42 (Session.startGame gravity None 1000 Session.initialSession) in
  wpm (Session.recordKeystroke true 1000 s) = wpm s ∧
  calculateWPM (inject_Z (correctChars s)) (inject_Z (1000 - startTime s)) = 0.
Proof. apply (recordKeystroke_wpm_not_reset true). reflexivity. Defined.

(** [removeEntity] removes every entity of the given id and no other:
    an entity is in the list afterwards exactly when it was there before
    and carries a different id. *)
Theorem removeEntity_spec (i : string) (s : GameSession.t) (e : Entity.t) :
  e ∈ entities (Session.removeEntity i s) ↔ e ∈ entities s ∧ Entity.id e ≠ i.
Proof. simpl. rewrite list_elem_of_filter. tauto. Qed.
