(* ===== verification/PlayerSlice.v ===== *)
(** * PlayerSlice: the player store of [src/store/gameSlice.ts]

    [Module Player] holds the reducers of [usePlayerStore]: the body of each
    [set((state) => ...)] as a function on [PlayerData.t].  The level
    progress, a JavaScript object indexed by level id, is a [gmap]; the lists
    of unlocked items and achievements are lists, with [includes] and [push].
    [crypto.randomUUID()] and [Date.now()], evaluated once when the module
    is loaded, are the arguments of [initialPlayer].  The [persist]
    middleware (local storage) is outside the model.

    The theorems: the level follows the experience and never falls; the
    stars recorded for a level never fall; an item or achievement is held at
    most once; a reset keeps the identity of the player. *)

From Stdlib Require Import ZArith QArith Qround Lqa Lia String.
From stdpp Require Import base tactics option list strings gmap.
From S2P Require Import Prelude Types Metrics.

Local Open Scope Z_scope.

(** [Partial<PlayerData['stats']>]: the fields an update provides. *)
Module PartialStats.
Record t : Type := mk {
  totalWordsTyped : option Z;
  totalCharactersTyped : option Z;
  totalCorrectChars : option Z;
  totalGamesPlayed : option Z;
  totalTimePlayed : option Z;
  averageWPM : option Z;
  averageAccuracy : option Q;
  maxCombo : option Z;
  perfectLevels : option Z;
}.

Definition empty : t := mk None None None None None None None None None.
End PartialStats.

Module Player.
Import PlayerData.

Definition set_name (v : string) (p : PlayerData.t) : PlayerData.t :=
  mk (id p) v (level p) (exp p) (coins p) (stats p) (levelProgress p)
     (unlockedItems p) (achievements p) (createdAt p) (lastPlayedAt p).

Definition set_level (v : Z) (p : PlayerData.t) : PlayerData.t :=
  mk (id p) (name p) v (exp p) (coins p) (stats p) (levelProgress p)
     (unlockedItems p) (achievements p) (createdAt p) (lastPlayedAt p).

Definition set_exp (v : Z) (p : PlayerData.t) : PlayerData.t :=
  mk (id p) (name p) (level p) v (coins p) (stats p) (levelProgress p)
     (unlockedItems p) (achievements p) (createdAt p) (lastPlayedAt p).

Definition set_coins (v : Z) (p : PlayerData.t) : PlayerData.t :=
  mk (id p) (name p) (level p) (exp p) v (stats p) (levelProgress p)
     (unlockedItems p) (achievements p) (createdAt p) (lastPlayedAt p).

Definition set_stats (v : PlayerStats.t) (p : PlayerData.t) : PlayerData.t :=
  mk (id p) (name p) (level p) (exp p) (coins p) v (levelProgress p)
     (unlockedItems p) (achievements p) (createdAt p) (lastPlayedAt p).

Definition set_levelProgress (v : gmap string LevelProgress.t) (p : PlayerData.t)
    : PlayerData.t :=
  mk (id p) (name p) (level p) (exp p) (coins p) (stats p) v
     (unlockedItems p) (achievements p) (createdAt p) (lastPlayedAt p).

Definition set_unlockedItems (v : list string) (p : PlayerData.t) : PlayerData.t :=
  mk (id p) (name p) (level p) (exp p) (coins p) (stats p) (levelProgress p)
     v (achievements p) (createdAt p) (lastPlayedAt p).

Definition set_achievements (v : list string) (p : PlayerData.t) : PlayerData.t :=
  mk (id p) (name p) (level p) (exp p) (coins p) (stats p) (levelProgress p)
     (unlockedItems p) v (createdAt p) (lastPlayedAt p).

(** [initialPlayer]; its id and its two dates are drawn when the module is
    loaded. *)
Definition initialPlayer (uuid : string) (now : Z) : PlayerData.t :=
  {| id := uuid;
     name := "冒险者";
     level := 1;
     exp := 0;
     coins := 0;
     stats := {| PlayerStats.totalWordsTyped := 0;
                 PlayerStats.totalCharactersTyped := 0;
                 PlayerStats.totalCorrectChars := 0;
                 PlayerStats.totalGamesPlayed := 0;
                 PlayerStats.totalTimePlayed := 0;
                 PlayerStats.averageWPM := 0;
                 PlayerStats.averageAccuracy := 100;
                 PlayerStats.maxCombo := 0;
                 PlayerStats.perfectLevels := 0 |};
     levelProgress := ∅;
     unlockedItems := [];
     achievements := [];
     createdAt := now;
     lastPlayedAt := now |}.

Definition setPlayerName (name : string) (p : PlayerData.t) : PlayerData.t :=
  set_name name p.

(** [addExp]: the level is raised to the one the experience gives, one per
    thousand points; it is never lowered. *)
Definition addExp (amount : Z) (p : PlayerData.t) : PlayerData.t :=
  let p1 := set_exp (exp p + amount) p in
  let newLevel := Math_floor (inject_Z (exp p1) / 1000) + 1 in
  if bool_decide (newLevel > level p1) then set_level newLevel p1 else p1.

Definition addCoins (amount : Z) (p : PlayerData.t) : PlayerData.t :=
  set_coins (coins p + amount) p.

(** [updateLevelProgress]: the record of a level is replaced only by one
    with more stars. *)
Definition updateLevelProgress (progress : LevelProgress.t) (p : PlayerData.t)
    : PlayerData.t :=
  let existing := levelProgress p !! LevelProgress.levelId progress in
  if match existing with
     | None => true
     | Some existing =>
         bool_decide (LevelProgress.stars progress > LevelProgress.stars existing)
     end
  then set_levelProgress
         (<[LevelProgress.levelId progress := progress]> (levelProgress p)) p
  else p.

(** [Array.prototype.includes] on strings. *)
Definition includes (l : list string) (x : string) : bool := bool_decide (x ∈ l).

Definition unlockItem (itemId : string) (p : PlayerData.t) : PlayerData.t :=
  if negb (includes (unlockedItems p) itemId)
  then set_unlockedItems (unlockedItems p ++ [itemId]) p
  else p.

Definition addAchievement (achievementId : string) (p : PlayerData.t) : PlayerData.t :=
  if negb (includes (achievements p) achievementId)
  then set_achievements (achievements p ++ [achievementId]) p
  else p.

(** [Object.assign(stats, partial)]: the fields the update provides
    overwrite those of the statistics. *)
Definition assignStats (u : PartialStats.t) (s : PlayerStats.t) : PlayerStats.t :=
  {| PlayerStats.totalWordsTyped :=
       default (PlayerStats.totalWordsTyped s) (PartialStats.totalWordsTyped u);
     PlayerStats.totalCharactersTyped :=
       default (PlayerStats.totalCharactersTyped s) (PartialStats.totalCharactersTyped u);
     PlayerStats.totalCorrectChars :=
       default (PlayerStats.totalCorrectChars s) (PartialStats.totalCorrectChars u);
     PlayerStats.totalGamesPlayed :=
       default (PlayerStats.totalGamesPlayed s) (PartialStats.totalGamesPlayed u);
     PlayerStats.totalTimePlayed :=
       default (PlayerStats.totalTimePlayed s) (PartialStats.totalTimePlayed u);
     PlayerStats.averageWPM :=
       default (PlayerStats.averageWPM s) (PartialStats.averageWPM u);
     PlayerStats.averageAccuracy :=
       default (PlayerStats.averageAccuracy s) (PartialStats.averageAccuracy u);
     PlayerStats.maxCombo :=
       default (PlayerStats.maxCombo s) (PartialStats.maxCombo u);
     PlayerStats.perfectLevels :=
       default (PlayerStats.perfectLevels s) (PartialStats.perfectLevels u) |}.

Definition updateStats (u : PartialStats.t) (p : PlayerData.t) : PlayerData.t :=
  set_stats (assignStats u (stats p)) p.

(** [resetPlayer]: the initial player, with the id and the creation date of
    the current one. *)
Definition resetPlayer (uuid0 : string) (now0 : Z) (p : PlayerData.t) : PlayerData.t :=
  let i := initialPlayer uuid0 now0 in
  mk (id p) (name i) (level i) (exp i) (coins i) (stats i) (levelProgress i)
     (unlockedItems i) (achievements i) (createdAt p) (lastPlayedAt i).

End Player.

(** ** The store interface *)

(** The TypeScript [interface PlayerStore]. *)
Class PlayerStore (Pt : Type) : Type := {
  player : Pt → PlayerData.t;
  setPlayerName : string → Pt → Pt;
  addExp : Z → Pt → Pt;
  addCoins : Z → Pt → Pt;
  updateLevelProgress : LevelProgress.t → Pt → Pt;
  unlockItem : string → Pt → Pt;
  addAchievement : string → Pt → Pt;
  updateStats : PartialStats.t → Pt → Pt;
  resetPlayer : Pt → Pt;
}.

Class PlayerStoreLaws (Pt : Type) `{PlayerStore Pt} : Prop := {
  player_setPlayerName n (pt : Pt) :
    player (setPlayerName n pt) = Player.setPlayerName n (player pt);
  player_addExp a (pt : Pt) : player (addExp a pt) = Player.addExp a (player pt);
  player_addCoins a (pt : Pt) : player (addCoins a pt) = Player.addCoins a (player pt);
  player_updateLevelProgress lp (pt : Pt) :
    player (updateLevelProgress lp pt) = Player.updateLevelProgress lp (player pt);
  player_unlockItem i (pt : Pt) :
    player (unlockItem i pt) = Player.unlockItem i (player pt);
  player_addAchievement a (pt : Pt) :
    player (addAchievement a pt) = Player.addAchievement a (player pt);
  player_updateStats u (pt : Pt) :
    player (updateStats u pt) = Player.updateStats u (player pt);
  player_resetPlayer (pt : Pt) :
    ∃ uuid0 now0, player (resetPlayer pt) = Player.resetPlayer uuid0 now0 (player pt);
}.

(** [usePlayerStore]: the player, with the initial player the module built
    when it was loaded. *)
Module UsePlayerStore.
Record t : Type := mk {
  initial : PlayerData.t;
  current : PlayerData.t;
}.
End UsePlayerStore.

#[export] Instance usePlayerStore : PlayerStore UsePlayerStore.t := {|
  player := UsePlayerStore.current;
  setPlayerName n pt :=
    UsePlayerStore.mk (UsePlayerStore.initial pt)
      (Player.setPlayerName n (UsePlayerStore.current pt));
  addExp a pt :=
    UsePlayerStore.mk (UsePlayerStore.initial pt)
      (Player.addExp a (UsePlayerStore.current pt));
  addCoins a pt :=
    UsePlayerStore.mk (UsePlayerStore.initial pt)
      (Player.addCoins a (UsePlayerStore.current pt));
  updateLevelProgress lp pt :=
    UsePlayerStore.mk (UsePlayerStore.initial pt)
      (Player.updateLevelProgress lp (UsePlayerStore.current pt));
  unlockItem i pt :=
    UsePlayerStore.mk (UsePlayerStore.initial pt)
      (Player.unlockItem i (UsePlayerStore.current pt));
  addAchievement a pt :=
    UsePlayerStore.mk (UsePlayerStore.initial pt)
      (Player.addAchievement a (UsePlayerStore.current pt));
  updateStats u pt :=
    UsePlayerStore.mk (UsePlayerStore.initial pt)
      (Player.updateStats u (UsePlayerStore.current pt));
  resetPlayer pt :=
    UsePlayerStore.mk (UsePlayerStore.initial pt)
      (Player.resetPlayer (PlayerData.id (UsePlayerStore.initial pt))
         (PlayerData.createdAt (UsePlayerStore.initial pt))
         (UsePlayerStore.current pt));
|}.

#[export] Instance usePlayerStore_laws : PlayerStoreLaws UsePlayerStore.t.
Proof. split; try done. intros pt. by do 2 eexists. Qed.

Create Rewrite HintDb player.
#[export] Hint Rewrite @player_setPlayerName @player_addExp @player_addCoins
  @player_updateLevelProgress @player_unlockItem @player_addAchievement
  @player_updateStats using (exact _) : player.

(** ** The player store as a state machine *)

Module PlayerMachine.
Import PlayerData.

Inductive Action : Type :=
| SetPlayerName (name : string)
| AddExp (amount : Z)
| AddCoins (amount : Z)
| UpdateLevelProgress (progress : LevelProgress.t)
| UnlockItem (itemId : string)
| AddAchievement (achievementId : string)
| UpdateStats (u : PartialStats.t)
| ResetPlayer.

(** One action on the player; [uuid0] and [now0] are the id and the date
    of the initial player. *)
Definition apply (uuid0 : string) (now0 : Z) (a : Action) (p : PlayerData.t)
    : PlayerData.t :=
  match a with
  | SetPlayerName n => Player.setPlayerName n p
  | AddExp v => Player.addExp v p
  | AddCoins v => Player.addCoins v p
  | UpdateLevelProgress lp => Player.updateLevelProgress lp p
  | UnlockItem i => Player.unlockItem i p
  | AddAchievement i => Player.addAchievement i p
  | UpdateStats u => Player.updateStats u p
  | ResetPlayer => Player.resetPlayer uuid0 now0 p
  end.

Definition run (uuid0 : string) (now0 : Z) (acts : list Action) (p : PlayerData.t)
    : PlayerData.t :=
  foldl (λ p a, apply uuid0 now0 a p) p acts.

Inductive reachable (uuid0 : string) (now0 : Z) : PlayerData.t → Prop :=
| reachable_initial : reachable uuid0 now0 (Player.initialPlayer uuid0 now0)
| reachable_apply p a :
    reachable uuid0 now0 p → reachable uuid0 now0 (apply uuid0 now0 a p).

(** The player data is consistent: the level is at least 1 and at least the
    one the experience gives, every progress record is filed under its own
    level id, and no item or achievement is held twice. *)
Record wf (p : PlayerData.t) : Prop := {
  wf_level : 1 <= level p;
  wf_exp : exp p / 1000 + 1 <= level p;
  wf_progress : ∀ i lp, levelProgress p !! i = Some lp → LevelProgress.levelId lp = i;
  wf_items : NoDup (unlockedItems p);
  wf_achievements : NoDup (achievements p);
}.

End PlayerMachine.

Import PlayerData PlayerMachine.

(** ** Experience and level *)

Section experience.
Implicit Types (p : PlayerData.t) (a : Z).

Lemma newLevel_Z (e : Z) : Math_floor (inject_Z e / 1000) + 1 = e / 1000 + 1.
Proof. apply (getLevelFromExp_Z e). Qed.

Lemma addExp_exp a p : exp (Player.addExp a p) = exp p + a.
Proof. unfold Player.addExp. by case_bool_decide. Qed.

Lemma addExp_level a p :
  level (Player.addExp a p) = Z.max (level p) ((exp p + a) / 1000 + 1).
Proof.
  unfold Player.addExp. cbn [exp level Player.set_exp]. rewrite newLevel_Z.
  case_bool_decide; simpl; lia.
Qed.

Lemma addExp_frame a p :
  id (Player.addExp a p) = id p ∧ name (Player.addExp a p) = name p ∧
  coins (Player.addExp a p) = coins p ∧ stats (Player.addExp a p) = stats p ∧
  levelProgress (Player.addExp a p) = levelProgress p ∧
  unlockedItems (Player.addExp a p) = unlockedItems p ∧
  achievements (Player.addExp a p) = achievements p.
Proof. unfold Player.addExp. by case_bool_decide. Qed.

Lemma addCoins_coins a p : coins (Player.addCoins a p) = coins p + a.
Proof. done. Qed.

End experience.

(** ** Level progress *)

Section progress.
Implicit Types (p : PlayerData.t) (lp : LevelProgress.t).

(** The record replaces what is stored: the level is new or the stars are
    more. *)
Definition improves lp p : Prop :=
  match levelProgress p !! LevelProgress.levelId lp with
  | None => True
  | Some e => LevelProgress.stars lp > LevelProgress.stars e
  end.

#[export] Instance improves_dec lp p : Decision (improves lp p).
Proof. unfold improves. case_match; apply _. Defined.

Lemma updateLevelProgress_improves lp p :
  improves lp p →
  Player.updateLevelProgress lp p =
    Player.set_levelProgress (<[LevelProgress.levelId lp := lp]> (levelProgress p)) p.
Proof.
  unfold improves, Player.updateLevelProgress.
  destruct (levelProgress p !! _); [|done]. intros. by rewrite bool_decide_eq_true_2.
Qed.

Lemma updateLevelProgress_keeps lp p :
  ¬ improves lp p → Player.updateLevelProgress lp p = p.
Proof.
  unfold improves, Player.updateLevelProgress.
  destruct (levelProgress p !! _); [|done]. intros. by rewrite bool_decide_eq_false_2.
Qed.

Lemma updateLevelProgress_lookup lp p :
  levelProgress (Player.updateLevelProgress lp p) !! LevelProgress.levelId lp =
    if decide (improves lp p) then Some lp
    else levelProgress p !! LevelProgress.levelId lp.
Proof.
  case_decide.
  - rewrite updateLevelProgress_improves by done. apply lookup_insert_eq.
  - by rewrite updateLevelProgress_keeps.
Qed.

Lemma updateLevelProgress_other lp p i :
  i ≠ LevelProgress.levelId lp →
  levelProgress (Player.updateLevelProgress lp p) !! i = levelProgress p !! i.
Proof.
  intros Hi. destruct (decide (improves lp p)).
  - rewrite updateLevelProgress_improves by done. by apply lookup_insert_ne.
  - by rewrite updateLevelProgress_keeps.
Qed.

End progress.

(** ** Items and achievements *)

Section items.
Implicit Types (p : PlayerData.t) (i : string).

Lemma push_new_NoDup (l : list string) i :
  NoDup l → NoDup (if negb (Player.includes l i) then l ++ [i] else l).
Proof.
  intros Hl. unfold Player.includes. case_bool_decide; [done|]. simpl.
  apply NoDup_app. split_and!; [done| |apply NoDup_singleton].
  intros x Hx ->%list_elem_of_singleton. done.
Qed.

Lemma unlockItem_items i p :
  unlockedItems (Player.unlockItem i p) =
    if negb (Player.includes (unlockedItems p) i) then unlockedItems p ++ [i]
    else unlockedItems p.
Proof. unfold Player.unlockItem. by case_match. Qed.

Lemma addAchievement_achievements i p :
  achievements (Player.addAchievement i p) =
    if negb (Player.includes (achievements p) i) then achievements p ++ [i]
    else achievements p.
Proof. unfold Player.addAchievement. by case_match. Qed.

Lemma unlockItem_elem i p : i ∈ unlockedItems (Player.unlockItem i p).
Proof.
  rewrite unlockItem_items. unfold Player.includes. case_bool_decide; [done|].
  simpl. apply elem_of_app. right. by apply list_elem_of_singleton.
Qed.

Lemma unlockItem_idemp i p :
  Player.unlockItem i (Player.unlockItem i p) = Player.unlockItem i p.
Proof.
  pose proof (unlockItem_elem i p) as Hin.
  unfold Player.unlockItem at 1. unfold Player.includes.
  by rewrite bool_decide_eq_true_2.
Qed.

End items.

(** ** The invariant *)

Section player_invariant.
Implicit Types (p : PlayerData.t) (a : Action).

Lemma wf_initialPlayer uuid0 now0 : wf (Player.initialPlayer uuid0 now0).
Proof. split; simpl; try done; constructor. Qed.

Lemma wf_addExp v p : wf p → wf (Player.addExp v p).
Proof.
  intros [Hl He Hp Hi Ha]. destruct (addExp_frame v p) as (_ & _ & _ & _ & Ep & Ei & Ea).
  split; rewrite ?addExp_level, ?addExp_exp, ?Ep, ?Ei, ?Ea; try done; lia.
Qed.

Lemma wf_updateLevelProgress lp p : wf p → wf (Player.updateLevelProgress lp p).
Proof.
  intros Hwf. destruct (decide (improves lp p)) as [Him|Him];
    [|by rewrite updateLevelProgress_keeps].
  rewrite updateLevelProgress_improves by done. destruct Hwf as [Hl He Hp Hi Ha].
  split; simpl; try done. intros i x [[<- <-]|[_ Hx]]%lookup_insert_Some; [done|].
  by apply Hp.
Qed.

Lemma wf_unlockItem i p : wf p → wf (Player.unlockItem i p).
Proof.
  intros [Hl He Hp Hi Ha]. unfold Player.unlockItem.
  pose proof (push_new_NoDup _ i Hi). by case_match.
Qed.

Lemma wf_addAchievement i p : wf p → wf (Player.addAchievement i p).
Proof.
  intros [Hl He Hp Hi Ha]. unfold Player.addAchievement.
  pose proof (push_new_NoDup _ i Ha). by case_match.
Qed.

Lemma wf_player_apply uuid0 now0 a p : wf p → wf (apply uuid0 now0 a p).
Proof.
  intros Hwf. destruct a; simpl.
  - by destruct Hwf.
  - by apply wf_addExp.
  - by destruct Hwf.
  - by apply wf_updateLevelProgress.
  - by apply wf_unlockItem.
  - by apply wf_addAchievement.
  - by destruct Hwf.
  - split; simpl; try done; constructor.
Qed.

Lemma player_run_reachable uuid0 now0 acts p :
  reachable uuid0 now0 p → reachable uuid0 now0 (run uuid0 now0 acts p).
Proof.
  revert p. induction acts as [|a acts IH]; intros p Hp; [done|].
  apply IH. by constructor.
Qed.

End player_invariant.

(** * Properties of the player store *)

(** C40: whatever actions the player store has performed since it was
    created, the player data is consistent: the level is at least 1 and never
    below the level the experience gives, every progress record is filed
    under its own level id, and no item or achievement is held twice. *)
Theorem player_reachable_wf (uuid0 : string) (now0 : Z) (p : PlayerData.t) :
  reachable uuid0 now0 p → wf p.
Proof.
  induction 1 as [|p a _ IH]; [apply wf_initialPlayer|by apply wf_player_apply].
Qed.

Lemma player_reachable_wf_witness :
  wf (run "u1" 1000
        [AddExp 2500; UnlockItem "hat"; UnlockItem "hat"; AddExp (-2000); ResetPlayer;
         AddAchievement "first"]
        (Player.initialPlayer "u1" 1000)).
Proof.
  apply (player_reachable_wf "u1" 1000). apply player_run_reachable. constructor.
Defined.

(** adding experience never lowers the level, and as long as only
    non-negative amounts are added the level is the one [getLevelFromExp]
    gives for the experience: one level per thousand points, starting at 1. *)
Theorem addExp_level_follows_exp (a : Z) (p : PlayerData.t) :
  level p <= level (Player.addExp a p) ∧
  (0 <= a → level p = getLevelFromExp (inject_Z (exp p)) →
   level (Player.addExp a p) = getLevelFromExp (inject_Z (exp (Player.addExp a p)))).
Proof.
  rewrite addExp_level, addExp_exp, !getLevelFromExp_Z. split; [lia|].
  intros Ha ->. pose proof (Z.div_le_mono (exp p) (exp p + a) 1000). lia.
Qed.

Lemma addExp_level_follows_exp_witness :
  1 <= level (Player.addExp 2300 (Player.initialPlayer "u1" 1000)) ∧
  (0 <= 2300 → 1 = getLevelFromExp (inject_Z 0) →
   level (Player.addExp 2300 (Player.initialPlayer "u1" 1000)) =
     getLevelFromExp (inject_Z (exp (Player.addExp 2300 (Player.initialPlayer "u1" 1000))))).
Proof. exact (addExp_level_follows_exp 2300 (Player.initialPlayer "u1" 1000)). Defined.

(** the stars recorded for a level never fall: after any update, every
    level that had a record still has one, with at least as many stars. *)
Theorem updateLevelProgress_stars_monotone (lp e : LevelProgress.t) (i : string)
    (p : PlayerData.t) :
  levelProgress p !! i = Some e →
  ∃ e', levelProgress (Player.updateLevelProgress lp p) !! i = Some e' ∧
    LevelProgress.stars e <= LevelProgress.stars e'.
Proof.
  intros He. destruct (decide (i = LevelProgress.levelId lp)) as [->|Hi].
  - rewrite updateLevelProgress_lookup. case_decide as Him; [|by exists e].
    unfold improves in Him. rewrite He in Him. exists lp. split; [done|lia].
  - rewrite updateLevelProgress_other by done. by exists e.
Qed.

(** A player who finished level 1-1 with two stars, and two later results
    of the same level. *)
Definition two_stars : LevelProgress.t :=
  LevelProgress.mk "1-1" true 2 30 90 1 (Some 5000).

Definition three_stars : LevelProgress.t :=
  LevelProgress.mk "1-1" true 3 45 97 2 (Some 9000).

Definition faster_two_stars : LevelProgress.t :=
  LevelProgress.mk "1-1" true 2 38 92 2 (Some 9000).

Definition veteran : PlayerData.t :=
  Player.updateLevelProgress two_stars (Player.initialPlayer "u1" 1000).

Lemma updateLevelProgress_stars_monotone_witness :
  ∃ e', levelProgress (Player.updateLevelProgress three_stars veteran) !! "1-1"%string
          = Some e' ∧
    2 <= LevelProgress.stars e'.
Proof.
  exact (updateLevelProgress_stars_monotone three_stars two_stars "1-1" veteran eq_refl).
Defined.

(** a result that does not earn more stars than the record of its level
    is dropped whole: the player data is unchanged, so neither the attempt
    count nor a better speed or accuracy of that result is recorded. *)
Theorem updateLevelProgress_drops_unless_more_stars (lp e : LevelProgress.t)
    (p : PlayerData.t) :
  levelProgress p !! LevelProgress.levelId lp = Some e →
  LevelProgress.stars lp <= LevelProgress.stars e →
  Player.updateLevelProgress lp p = p.
Proof.
  intros He Hs. apply updateLevelProgress_keeps. unfold improves. rewrite He. lia.
Qed.

Lemma updateLevelProgress_drops_unless_more_stars_witness :
  Player.updateLevelProgress faster_two_stars veteran = veteran.
Proof.
  refine (updateLevelProgress_drops_unless_more_stars faster_two_stars two_stars veteran
            eq_refl _).
  simpl. lia.
Defined.

(** a reset gives the initial player with the id and the creation date
    of the current one; name, level, experience, coins, statistics, progress,
    items and achievements are those of the initial player. *)
Theorem resetPlayer_keeps_identity (uuid0 : string) (now0 : Z) (p : PlayerData.t) :
  let p' := Player.resetPlayer uuid0 now0 p in
  id p' = id p ∧ createdAt p' = createdAt p ∧
  name p' = name (Player.initialPlayer uuid0 now0) ∧
  stats p' = stats (Player.initialPlayer uuid0 now0) ∧
  level p' = 1 ∧ exp p' = 0 ∧ coins p' = 0 ∧ levelProgress p' = ∅ ∧
  unlockedItems p' = [] ∧ achievements p' = [] ∧ lastPlayedAt p' = now0.
Proof. done. Qed.
