(* ===== verification/SettingsSlice.v ===== *)
(** * SettingsSlice: the settings store and the settings page

    [Module Settings] holds the reducers of [useSettingsStore]
    ([store/gameSlice.ts]): [Object.assign] of a partial object is the
    field-wise choice between the new value and the old one.  [Class
    SettingsStore] is the TypeScript interface of the store and
    [useSettingsStore] its instance.  [Module SettingsPage] is the page of
    [pages/Settings/index.tsx]: its two pieces of local state, its two
    handlers, what each control does to the stores when it is used, and
    which controls are shown.  A slider reports an integer between its
    [min] and [max].

    The theorems: an update changes the fields it names and no others, and
    updates compose; a reset gives the initial settings; the page keeps the
    volumes between 0 and 1 and never stores an empty name; the API key
    survives a change of provider. *)

From Stdlib Require Import ZArith QArith Lqa Lia String Ascii.
From stdpp Require Import base tactics option list strings gmap.
From S2P Require Import Prelude Types PlayerSlice.

#[local] Open Scope Z_scope.

(** ** Partial objects *)

(** [Partial<GameSettings['audio']>] *)
Module PartialAudio.
Record t : Type := mk {
  masterVolume : option Q;
  musicVolume : option Q;
  sfxVolume : option Q;
  muted : option bool;
}.
Definition empty : t := mk None None None None.
End PartialAudio.

(** [Partial<GameSettings['llm']>] *)
Module PartialLLM.
Record t : Type := mk {
  provider : option LLMProvider;
  apiKey : option string;
  baseUrl : option string;
  model : option string;
}.
Definition empty : t := mk None None None None.
End PartialLLM.

(** [Partial<GameSettings>] *)
Module PartialSettings.
Record t : Type := mk {
  theme : option Theme;
  language : option Language;
  audio : option AudioSettings.t;
  llm : option LLMConfig.t;
  showKeyboardHints : option bool;
  showFingerGuide : option bool;
  difficulty : option SettingsDifficulty;
}.
Definition empty : t := mk None None None None None None None.
End PartialSettings.

(** ** The reducers *)

Module Settings.
Import GameSettings.

Definition initialSettings : GameSettings.t :=
  {| theme := dark;
     language := zh;
     audio := {| AudioSettings.masterVolume := 8 # 10;
                 AudioSettings.musicVolume := 5 # 10;
                 AudioSettings.sfxVolume := 7 # 10;
                 AudioSettings.muted := false |};
     llm := {| LLMConfig.provider := static;
               LLMConfig.apiKey := EmptyString;
               LLMConfig.baseUrl := None;
               LLMConfig.model := None |};
     showKeyboardHints := true;
     showFingerGuide := true;
     difficulty := set_normal |}.

(** [Object.assign(state.settings.audio, audio)] *)
Definition assignAudio (u : PartialAudio.t) (a : AudioSettings.t) : AudioSettings.t :=
  {| AudioSettings.masterVolume :=
       default (AudioSettings.masterVolume a) (PartialAudio.masterVolume u);
     AudioSettings.musicVolume :=
       default (AudioSettings.musicVolume a) (PartialAudio.musicVolume u);
     AudioSettings.sfxVolume :=
       default (AudioSettings.sfxVolume a) (PartialAudio.sfxVolume u);
     AudioSettings.muted := default (AudioSettings.muted a) (PartialAudio.muted u) |}.

(** [Object.assign(state.settings.llm, llm)]; an optional field that is
    assigned is defined afterwards. *)
Definition assignLLM (u : PartialLLM.t) (l : LLMConfig.t) : LLMConfig.t :=
  {| LLMConfig.provider := default (LLMConfig.provider l) (PartialLLM.provider u);
     LLMConfig.apiKey := default (LLMConfig.apiKey l) (PartialLLM.apiKey u);
     LLMConfig.baseUrl :=
       match PartialLLM.baseUrl u with Some b => Some b | None => LLMConfig.baseUrl l end;
     LLMConfig.model :=
       match PartialLLM.model u with Some m => Some m | None => LLMConfig.model l end |}.

(** [Object.assign(state.settings, newSettings)]: a nested object that is
    given replaces the old one as a whole. *)
Definition updateSettings (u : PartialSettings.t) (s : GameSettings.t) : GameSettings.t :=
  {| theme := default (theme s) (PartialSettings.theme u);
     language := default (language s) (PartialSettings.language u);
     audio := default (audio s) (PartialSettings.audio u);
     llm := default (llm s) (PartialSettings.llm u);
     showKeyboardHints := default (showKeyboardHints s) (PartialSettings.showKeyboardHints u);
     showFingerGuide := default (showFingerGuide s) (PartialSettings.showFingerGuide u);
     difficulty := default (difficulty s) (PartialSettings.difficulty u) |}.

Definition updateAudio (u : PartialAudio.t) (s : GameSettings.t) : GameSettings.t :=
  mk (theme s) (language s) (assignAudio u (audio s)) (llm s)
     (showKeyboardHints s) (showFingerGuide s) (difficulty s).

Definition updateLLM (u : PartialLLM.t) (s : GameSettings.t) : GameSettings.t :=
  mk (theme s) (language s) (audio s) (assignLLM u (llm s))
     (showKeyboardHints s) (showFingerGuide s) (difficulty s).

Definition resetSettings (s : GameSettings.t) : GameSettings.t := initialSettings.

End Settings.

(** ** The store interface *)

(** The TypeScript [interface SettingsStore]. *)
Class SettingsStore (Ss : Type) : Type := {
  settings : Ss → GameSettings.t;
  updateSettings : PartialSettings.t → Ss → Ss;
  updateAudio : PartialAudio.t → Ss → Ss;
  updateLLM : PartialLLM.t → Ss → Ss;
  resetSettings : Ss → Ss;
}.

Class SettingsStoreLaws (Ss : Type) `{SettingsStore Ss} : Prop := {
  settings_updateSettings u (ss : Ss) :
    settings (updateSettings u ss) = Settings.updateSettings u (settings ss);
  settings_updateAudio u (ss : Ss) :
    settings (updateAudio u ss) = Settings.updateAudio u (settings ss);
  settings_updateLLM u (ss : Ss) :
    settings (updateLLM u ss) = Settings.updateLLM u (settings ss);
  settings_resetSettings (ss : Ss) :
    settings (resetSettings ss) = Settings.resetSettings (settings ss);
}.

(** [useSettingsStore]: the state is the settings. *)
#[export] Instance useSettingsStore : SettingsStore GameSettings.t := {|
  settings := id;
  updateSettings := Settings.updateSettings;
  updateAudio := Settings.updateAudio;
  updateLLM := Settings.updateLLM;
  resetSettings := Settings.resetSettings;
|}.

#[export] Instance useSettingsStore_laws : SettingsStoreLaws GameSettings.t.
Proof. by split. Qed.

Create Rewrite HintDb settings.
#[export] Hint Rewrite @settings_updateSettings @settings_updateAudio
  @settings_updateLLM @settings_resetSettings : settings.

(** ** The settings page *)

Module SettingsPage.

(** The local state of the page. *)
Record t : Type := mk {
  showResetModal : bool;
  playerNameInput : string;
}.

Section page.
Context {Ss Pt : Type} `{SettingsStore Ss} `{PlayerStore Pt}.

(** The state of the first render: the input shows the name of the
    player. *)
Definition init (pt : Pt) : t := mk false (PlayerData.name (player pt)).

(** [handleSavePlayerName]: a name that is blank is not saved. *)
Definition handleSavePlayerName (pg : t) (pt : Pt) : Pt :=
  if bool_decide (trim (playerNameInput pg) ≠ EmptyString)
  then setPlayerName (trim (playerNameInput pg)) pt
  else pt.

(** [handleResetProgress] *)
Definition handleResetProgress (pg : t) (pt : Pt) : t * Pt :=
  (mk false (playerNameInput pg), resetPlayer pt).

(** The controls of the page, each with what the user enters. *)
Inductive Event : Type :=
| NameInput (value : string)       (* typing in the name field *)
| SaveName                         (* the button next to it *)
| ToggleMuted
| MasterVolume (value : Z)         (* the slider, between 0 and 100 *)
| SfxVolume (value : Z)
| ToggleKeyboardHints
| ToggleFingerGuide
| SelectDifficulty (d : SettingsDifficulty)
| SelectProvider (p : LLMProvider)
| ApiKeyInput (value : string)
| BaseUrlInput (value : string)
| ResetSettings
| OpenResetModal
| CloseResetModal
| ConfirmReset.

(** Which controls the page shows: the fields of the API key and of the
    address depend on the provider, the two buttons of the dialogue on the
    dialogue being open. *)
Definition shown (ev : Event) (pg : t) (ss : Ss) : bool :=
  let provider := LLMConfig.provider (GameSettings.llm (settings ss)) in
  match ev with
  | ApiKeyInput _ => bool_decide (provider ≠ static)
  | BaseUrlInput _ => bool_decide (provider ≠ static) && bool_decide (provider = local)
  | CloseResetModal | ConfirmReset => showResetModal pg
  | _ => true
  end.

(** What the handler of each control does. *)
Definition handle (ev : Event) (pg : t) (ss : Ss) (pt : Pt) : t * Ss * Pt :=
  let s := settings ss in
  match ev with
  | NameInput v => (mk (showResetModal pg) v, ss, pt)
  | SaveName => (pg, ss, handleSavePlayerName pg pt)
  | ToggleMuted =>
      let u := PartialAudio.mk None None None
                 (Some (negb (AudioSettings.muted (GameSettings.audio s)))) in
      (pg, updateAudio u ss, pt)
  | MasterVolume v =>
      (pg, updateAudio (PartialAudio.mk (Some (inject_Z v / 100)%Q) None None None) ss, pt)
  | SfxVolume v =>
      (pg, updateAudio (PartialAudio.mk None None (Some (inject_Z v / 100)%Q) None) ss, pt)
  | ToggleKeyboardHints =>
      let u := PartialSettings.mk None None None None
                 (Some (negb (GameSettings.showKeyboardHints s))) None None in
      (pg, updateSettings u ss, pt)
  | ToggleFingerGuide =>
      let u := PartialSettings.mk None None None None None
                 (Some (negb (GameSettings.showFingerGuide s))) None in
      (pg, updateSettings u ss, pt)
  | SelectDifficulty d =>
      (pg, updateSettings (PartialSettings.mk None None None None None None (Some d)) ss, pt)
  | SelectProvider p =>
      (pg, updateLLM (PartialLLM.mk (Some p) None None None) ss, pt)
  | ApiKeyInput v => (pg, updateLLM (PartialLLM.mk None (Some v) None None) ss, pt)
  | BaseUrlInput v => (pg, updateLLM (PartialLLM.mk None None (Some v) None) ss, pt)
  | ResetSettings => (pg, resetSettings ss, pt)
  | OpenResetModal => (mk true (playerNameInput pg), ss, pt)
  | CloseResetModal => (mk false (playerNameInput pg), ss, pt)
  | ConfirmReset => let '(pg', pt') := handleResetProgress pg pt in (pg', ss, pt')
  end.

(** An event of the page: a control that is not shown cannot be used. *)
Definition step (w : t * Ss * Pt) (ev : Event) : t * Ss * Pt :=
  let '(pg, ss, pt) := w in
  if shown ev pg ss then handle ev pg ss pt else w.

Definition run (evs : list Event) (w : t * Ss * Pt) : t * Ss * Pt := foldl step w evs.

End page.
End SettingsPage.

(** * Theorems *)

(** ** The reducers *)

Section reducers.
Import Settings GameSettings.
Implicit Types (s : GameSettings.t) (a : AudioSettings.t) (l : LLMConfig.t).

(** The later of two partial objects wins, field by field. *)
Definition mergeAudio (u1 u2 : PartialAudio.t) : PartialAudio.t :=
  {| PartialAudio.masterVolume :=
       PartialAudio.masterVolume u2 ∪ PartialAudio.masterVolume u1;
     PartialAudio.musicVolume := PartialAudio.musicVolume u2 ∪ PartialAudio.musicVolume u1;
     PartialAudio.sfxVolume := PartialAudio.sfxVolume u2 ∪ PartialAudio.sfxVolume u1;
     PartialAudio.muted := PartialAudio.muted u2 ∪ PartialAudio.muted u1 |}.

Lemma assignAudio_empty a : assignAudio PartialAudio.empty a = a.
Proof. by destruct a. Qed.

Lemma assignAudio_merge u1 u2 a :
  assignAudio u2 (assignAudio u1 a) = assignAudio (mergeAudio u1 u2) a.
Proof. destruct u1 as [[] [] [] []], u2 as [[] [] [] []]; done. Qed.

Lemma assignLLM_empty l : assignLLM PartialLLM.empty l = l.
Proof. by destruct l. Qed.

Lemma updateSettings_empty s : updateSettings PartialSettings.empty s = s.
Proof. by destruct s. Qed.

Lemma updateAudio_frame u s :
  theme (updateAudio u s) = theme s ∧ language (updateAudio u s) = language s ∧
  llm (updateAudio u s) = llm s ∧
  showKeyboardHints (updateAudio u s) = showKeyboardHints s ∧
  showFingerGuide (updateAudio u s) = showFingerGuide s ∧
  difficulty (updateAudio u s) = difficulty s.
Proof. done. Qed.

Lemma updateLLM_frame u s :
  theme (updateLLM u s) = theme s ∧ language (updateLLM u s) = language s ∧
  audio (updateLLM u s) = audio s ∧
  showKeyboardHints (updateLLM u s) = showKeyboardHints s ∧
  showFingerGuide (updateLLM u s) = showFingerGuide s ∧
  difficulty (updateLLM u s) = difficulty s.
Proof. done. Qed.

(** The volumes of the settings are between 0 and 1. *)
Record audio_ok a : Prop := {
  master_ok : (0 <= AudioSettings.masterVolume a <= 1)%Q;
  music_ok : (0 <= AudioSettings.musicVolume a <= 1)%Q;
  sfx_ok : (0 <= AudioSettings.sfxVolume a <= 1)%Q;
}.

Definition partial_ok (u : PartialAudio.t) : Prop :=
  (∀ v, PartialAudio.masterVolume u = Some v → 0 <= v <= 1)%Q ∧
  (∀ v, PartialAudio.musicVolume u = Some v → 0 <= v <= 1)%Q ∧
  (∀ v, PartialAudio.sfxVolume u = Some v → 0 <= v <= 1)%Q.

Lemma audio_ok_initial : audio_ok (audio initialSettings).
Proof. split; simpl; lra. Qed.

Lemma audio_ok_assign u a : partial_ok u → audio_ok a → audio_ok (assignAudio u a).
Proof.
  intros (Hm & Hu & Hs) [? ? ?].
  destruct u as [[m|] [mu|] [sf|] mt]; simpl in *; split; simpl; eauto.
Qed.

Lemma slider_volume (v : Z) : 0 <= v <= 100 → (0 <= inject_Z v / 100 <= 1)%Q.
Proof.
  intros Hv. assert (0 <= inject_Z v <= 100)%Q as Hq by (split; zq).
  split; [apply Qle_shift_div_l|apply Qle_shift_div_r]; lra.
Qed.

End reducers.

(** ** The page *)

Section page.
Context {Ss Pt : Type} `{SettingsStoreLaws Ss} `{PlayerStoreLaws Pt}.
Import SettingsPage.
Implicit Types (pg : SettingsPage.t) (ss : Ss) (pt : Pt) (ev : Event).

(** The events a user can produce: a slider stays within its range. *)
Definition event_ok ev : Prop :=
  match ev with
  | MasterVolume v | SfxVolume v => 0 <= v <= 100
  | _ => True
  end.

(** The invariant of the page: the volumes are in range and the name of
    the player is not empty. *)
Record page_ok (w : SettingsPage.t * Ss * Pt) : Prop := {
  ok_audio : audio_ok (GameSettings.audio (settings w.1.2));
  ok_name : PlayerData.name (player w.2) ≠ EmptyString;
}.

Lemma handleSavePlayerName_name pg pt :
  PlayerData.name (player (handleSavePlayerName pg pt)) =
    if bool_decide (trim (playerNameInput pg) ≠ EmptyString)
    then trim (playerNameInput pg) else PlayerData.name (player pt).
Proof.
  unfold handleSavePlayerName. case_bool_decide; [|done].
  by autorewrite with player.
Qed.

Lemma handle_audio ev pg ss pt :
  event_ok ev → audio_ok (GameSettings.audio (settings ss)) →
  audio_ok (GameSettings.audio (settings (handle ev pg ss pt).1.2)).
Proof.
  intros Hev Hok.
  destruct ev; simpl; try done; autorewrite with settings; simpl; try done;
    try (apply audio_ok_assign; [|done]; split_and!; simpl; intros ? [= <-];
         by apply slider_volume).
Qed.

Lemma handle_name ev pg ss pt :
  PlayerData.name (player pt) ≠ EmptyString →
  PlayerData.name (player (handle ev pg ss pt).2) ≠ EmptyString.
Proof.
  intros Hok. destruct ev; simpl; try done.
  - rewrite handleSavePlayerName_name. by case_bool_decide.
  - destruct (player_resetPlayer pt) as (u & n & ->). done.
Qed.

Lemma page_ok_step w ev : event_ok ev → page_ok w → page_ok (step w ev).
Proof.
  destruct w as [[pg ss] pt]. intros Hev [Ha Hn]. unfold step.
  destruct (shown ev pg ss); [|done].
  split; [by apply handle_audio|by apply handle_name].
Qed.

Lemma page_ok_run evs w : Forall event_ok evs → page_ok w → page_ok (run evs w).
Proof.
  intros Hevs. revert w. induction Hevs as [|ev evs Hev _ IH]; intros w Hw; [done|].
  apply IH, page_ok_step; done.
Qed.

End page.

(** ** Sample values *)

Module SettingsSample.

Definition pt0 : UsePlayerStore.t :=
  UsePlayerStore.mk (Player.initialPlayer "p1" 1000) (Player.initialPlayer "p1" 1000).

Definition w0 : SettingsPage.t * GameSettings.t * UsePlayerStore.t :=
  (SettingsPage.init pt0, Settings.initialSettings, pt0).

Definition evs : list SettingsPage.Event :=
  [SettingsPage.MasterVolume 35; SettingsPage.ToggleMuted; SettingsPage.NameInput "  Ada ";
   SettingsPage.SaveName; SettingsPage.SelectProvider openai;
   SettingsPage.ApiKeyInput "sk-1"; SettingsPage.SelectProvider static;
   SettingsPage.OpenResetModal; SettingsPage.ConfirmReset].

End SettingsSample.

(** C33: The settings page: whatever the user does with its controls, the
    volumes stored stay between 0 and 1 and the name of the player is never
    empty. *)
Theorem settings_page_invariant {Ss Pt : Type} `{SettingsStoreLaws Ss} `{PlayerStoreLaws Pt}
    (evs : list SettingsPage.Event) (w : SettingsPage.t * Ss * Pt) :
  Forall event_ok evs → page_ok w → page_ok (SettingsPage.run evs w).
Proof. apply page_ok_run. Qed.

Lemma settings_page_invariant_witness :
  page_ok (SettingsPage.run SettingsSample.evs SettingsSample.w0).
Proof.
  refine (settings_page_invariant (Ss := GameSettings.t) (Pt := UsePlayerStore.t)
            SettingsSample.evs SettingsSample.w0 _ _).
  - repeat (apply Forall_cons_2; [simpl; try done; lia|]). apply Forall_nil_2.
  - split; [apply audio_ok_initial|done].
Defined.

(** The settings page saves the name without the white space around it,
    and does not save a name that is blank. *)
Theorem save_name_trims {Pt : Type} `{PlayerStoreLaws Pt}
    (pg : SettingsPage.t) (pt : Pt) :
  let name' := PlayerData.name (player (SettingsPage.handleSavePlayerName pg pt)) in
  (trim (SettingsPage.playerNameInput pg) = EmptyString →
   name' = PlayerData.name (player pt)) ∧
  (∀ c r, trim (SettingsPage.playerNameInput pg) = String c r →
   name' = String c r ∧ isSpace c = false).
Proof.
  cbv zeta. rewrite handleSavePlayerName_name. split.
  - intros ->. by rewrite bool_decide_eq_false_2 by (intros ?; done).
  - intros c r Hc. rewrite Hc, bool_decide_eq_true_2 by done.
    split; [done|]. by eapply trim_head.
Qed.

Lemma save_name_trims_witness :
  let pg := SettingsPage.mk false "  Ada " in
  let name' := PlayerData.name
                 (UsePlayerStore.current
                    (SettingsPage.handleSavePlayerName pg SettingsSample.pt0)) in
  (trim "  Ada " = EmptyString →
   name' = PlayerData.name (UsePlayerStore.current SettingsSample.pt0)) ∧
  (∀ c r, trim "  Ada " = String c r →
   name' = String c r ∧ isSpace c = false).
Proof.
  exact (save_name_trims (Pt := UsePlayerStore.t) (SettingsPage.mk false "  Ada ")
           SettingsSample.pt0).
Defined.

(** The settings page: an API key that was entered stays in the store when
    the provider is changed, also to the static provider, where the page no
    longer shows the field of the key. *)
Theorem api_key_survives_provider_change {Ss Pt : Type}
    `{SettingsStoreLaws Ss} `{PlayerStore Pt}
    (pg : SettingsPage.t) (ss : Ss) (pt : Pt) (p : LLMProvider) :
  let '(pg', ss', pt') := SettingsPage.handle (SettingsPage.SelectProvider p) pg ss pt in
  LLMConfig.apiKey (GameSettings.llm (settings ss')) =
    LLMConfig.apiKey (GameSettings.llm (settings ss)) ∧
  LLMConfig.provider (GameSettings.llm (settings ss')) = p ∧
  (p = static → ∀ v, SettingsPage.shown (SettingsPage.ApiKeyInput v) pg' ss' = false).
Proof.
  simpl. rewrite !settings_updateLLM. simpl. split_and!; [done..|].
  by intros -> v.
Qed.

Lemma api_key_survives_provider_change_witness :
  let ss := Settings.updateLLM (PartialLLM.mk (Some openai) (Some "sk-1") None None)
              Settings.initialSettings in
  let '(pg', ss', pt') :=
    SettingsPage.handle (SettingsPage.SelectProvider static)
      (SettingsPage.init SettingsSample.pt0) ss SettingsSample.pt0 in
  LLMConfig.apiKey (GameSettings.llm ss') = "sk-1" ∧
  LLMConfig.provider (GameSettings.llm ss') = static ∧
  (static = static → ∀ v, SettingsPage.shown (SettingsPage.ApiKeyInput v) pg' ss' = false).
Proof.
  exact (api_key_survives_provider_change (Ss := GameSettings.t) (Pt := UsePlayerStore.t)
           (SettingsPage.init SettingsSample.pt0)
           (Settings.updateLLM (PartialLLM.mk (Some openai) (Some "sk-1") None None)
              Settings.initialSettings)
           SettingsSample.pt0 static).
Defined.

(** The settings page: confirming the reset of the progress closes the
    dialogue and resets the player, but the name field keeps the text it
    had, so it no longer shows the name of the player. *)
Theorem reset_progress_keeps_name_input {Ss Pt : Type}
    `{SettingsStore Ss} `{PlayerStoreLaws Pt}
    (pg : SettingsPage.t) (ss : Ss) (pt : Pt) :
  let '(pg', ss', pt') := SettingsPage.handle SettingsPage.ConfirmReset pg ss pt in
  SettingsPage.showResetModal pg' = false ∧
  SettingsPage.playerNameInput pg' = SettingsPage.playerNameInput pg ∧
  ss' = ss ∧
  ∃ uuid0 now0, PlayerData.name (player pt') =
    PlayerData.name (Player.initialPlayer uuid0 now0).
Proof.
  simpl. split_and!; try done.
  destruct (player_resetPlayer pt) as (u & n & ->). by exists u, n.
Qed.

Lemma reset_progress_keeps_name_input_witness :
  let '(pg', ss', pt') :=
    SettingsPage.handle SettingsPage.ConfirmReset (SettingsPage.mk true "Ada")
      Settings.initialSettings SettingsSample.pt0 in
  SettingsPage.showResetModal pg' = false ∧
  SettingsPage.playerNameInput pg' = "Ada" ∧
  ss' = Settings.initialSettings ∧
  ∃ uuid0 now0, PlayerData.name (UsePlayerStore.current pt') =
    PlayerData.name (Player.initialPlayer uuid0 now0).
Proof.
  exact (reset_progress_keeps_name_input (Ss := GameSettings.t) (Pt := UsePlayerStore.t)
           (SettingsPage.mk true "Ada") Settings.initialSettings SettingsSample.pt0).
Defined.

(** [resetSettings] gives the initial settings, whatever was stored. *)
Theorem resetSettings_initial {Ss : Type} `{SettingsStoreLaws Ss} (ss : Ss) :
  settings (resetSettings ss) = Settings.initialSettings.
Proof. by autorewrite with settings. Qed.

Lemma resetSettings_initial_witness :
  Settings.resetSettings
    (Settings.updateAudio (PartialAudio.mk (Some 0%Q) None None (Some true))
       Settings.initialSettings) = Settings.initialSettings.
Proof.
  exact (resetSettings_initial (Ss := GameSettings.t)
           (Settings.updateAudio (PartialAudio.mk (Some 0%Q) None None (Some true))
              Settings.initialSettings)).
Defined.
