(* ===== verification/GameCanvas.v ===== *)
(** * GameCanvas: the simulation of [src/components/game/GameCanvas.tsx]

    The component keeps its entities in React refs ([Refs.t]) and talks to
    the store through [GameStore].  Three entry points are modelled, each
    with every store call it makes, in the order the code makes them:

    - [spawnWord]: creates one falling word;
    - [gameLoop]: one animation frame (countdown, spawn, fall, floor);
    - [handleKeyPress]: one keystroke, dispatched to the first active entity
      whose next character matches.

    [Math.random()] and [crypto.randomUUID()] are inputs ([Draws.t]),
    [Date.now()] is the argument [now]; drawing on the canvas is output only
    and is left out.  A handler returns a [result]: [Throw TypeError] is the
    exception JavaScript raises on [undefined.toLowerCase()] or
    [undefined.length]. *)

From Stdlib Require Import ZArith QArith Qround Lqa Lia String Ascii.
From stdpp Require Import base tactics option list strings.
From S2P Require Import Prelude Types Metrics Store.

Local Open Scope Q_scope.
Local Open Scope Z_scope.

(** ** State and inputs of the component *)

Module Props.
Record t : Type := mk {
  words : list string;
  endless : bool;
}.
End Props.

Module Refs.
Record t : Type := mk {
  entitiesRef : list FallingWord.t;
  wordIndexRef : nat;
  lastSpawnRef : Z;
  gameStartTimeRef : Z;
  dimensions : Q * Q;
}.

Definition width (c : t) : Q := fst (dimensions c).
Definition height (c : t) : Q := snd (dimensions c).

Definition set_entitiesRef (v : list FallingWord.t) (c : t) : t :=
  mk v (wordIndexRef c) (lastSpawnRef c) (gameStartTimeRef c) (dimensions c).

Definition set_wordIndexRef (v : nat) (c : t) : t :=
  mk (entitiesRef c) v (lastSpawnRef c) (gameStartTimeRef c) (dimensions c).

Definition set_lastSpawnRef (v : Z) (c : t) : t :=
  mk (entitiesRef c) (wordIndexRef c) v (gameStartTimeRef c) (dimensions c).

Definition set_gameStartTimeRef (v : Z) (c : t) : t :=
  mk (entitiesRef c) (wordIndexRef c) (lastSpawnRef c) v (dimensions c).

Definition set_dimensions (v : Q * Q) (c : t) : t :=
  mk (entitiesRef c) (wordIndexRef c) (lastSpawnRef c) (gameStartTimeRef c) v.

(** The refs at mount: no entity, index 0, last spawn 0, 800 by 600. *)
Definition init (now : Z) : t := mk [] 0 0 now (800%Q, 600%Q).
End Refs.

(** [handleResize]: the canvas takes the size of its container, when the
    container is mounted. *)
Definition handleResize (rect : option (Q * Q)) (c : Refs.t) : Refs.t :=
  match rect with
  | Some r => Refs.set_dimensions r c
  | None => c
  end.

(** The values one call of [spawnWord] draws. *)
Module Draws.
Record t : Type := mk {
  uuid : string;
  rWord : Q;
  rX : Q;
  rSpeed : Q;
  rColor : Q;
}.

(** [Math.random()] returns a number in [0, 1). *)
Definition valid (d : t) : Prop :=
  (0 <= rWord d < 1)%Q ∧ (0 <= rX d < 1)%Q ∧ (0 <= rSpeed d < 1)%Q ∧
  (0 <= rColor d < 1)%Q.
End Draws.

Definition wordColors : list string :=
  ["#f87171"; "#fb923c"; "#fbbf24"; "#4ade80"; "#60a5fa"; "#a78bfa"; "#f472b6"]%string.

Definition gameDuration : Z := 60000.

(** ** The typing state of one entity *)

Module Typing.
Import FallingWord.

(** [entity.word[entity.typed.length]] *)
Definition nextChar (e : FallingWord.t) : option ascii :=
  charAt (word e) (String.length (typed e)).

(** [nextChar.toLowerCase() === key.toLowerCase()] *)
Definition matches (key : string) (e : FallingWord.t) : result bool :=
  match nextChar e with
  | None => Throw TypeError
  | Some c => Ok (bool_decide (toLowerCase (str1 c) = toLowerCase key))
  end.

(** [entity.typed += nextChar] *)
Definition typeChar (c : ascii) (e : FallingWord.t) : FallingWord.t :=
  set_typed (typed e +:+ str1 c) e.

(** [entity.typed === entity.word] *)
Definition complete (e : FallingWord.t) : bool := bool_decide (typed e = word e).

(** [entity.y += entity.speed] *)
Definition fall (e : FallingWord.t) : FallingWord.t := set_y (y e + speed e)%Q e.

(** [entity.y > dimensions.height - 60] *)
Definition belowFloor (h : Q) (e : FallingWord.t) : bool := (y e >? h - 60)%js.

End Typing.

Section canvas.
Context {St : Type} `{GameStore St}.
Import Refs FallingWord Typing.

(** ** [spawnWord] *)

Definition newEntity (d : Draws.t) (w : string) (c : Refs.t) : FallingWord.t :=
  let len := inject_Z (Z.of_nat (String.length w)) in
  {| id := Draws.uuid d;
     x := (Draws.rX d * (Refs.width c - 150) + 50)%Q;
     y := (-30)%Q;
     width := (len * 20 + 20)%Q;
     height := 40%Q;
     word := w;
     typed := "";
     speed := (1 + Draws.rSpeed d * (1 # 2))%Q;
     color := default "undefined"%string
                (nthZ wordColors (Math_floor (Draws.rColor d * 7)));
     points := Z.of_nat (String.length w) * 10;
     active := true |}.

Definition spawnWord (p : Props.t) (d : Draws.t) (c : Refs.t) (st : St)
    : result (Refs.t * St) :=
  if bool_decide (length (Props.words p) ≤ wordIndexRef c)%nat && negb (Props.endless p)
  then Ok (c, st)
  else
    let '(w, c1) :=
      if Props.endless p
      then (nthZ (Props.words p)
              (Math_floor (Draws.rWord d * inject_Z (Z.of_nat (length (Props.words p))))),
            c)
      else (Props.words p !! wordIndexRef c, set_wordIndexRef (S (wordIndexRef c)) c) in
    match w with
    | None => Throw TypeError
    | Some w =>
        let entity := newEntity d w c1 in
        Ok (set_entitiesRef (entitiesRef c1 ++ [entity]) c1,
            addEntity (toEntity entity) st)
    end.

(** ** [gameLoop]: one frame *)

(** The callback of [entitiesRef.current.filter]: inactive entities are
    dropped; an active one falls by its speed and, once below the floor,
    breaks the combo and is dropped. *)
Fixpoint updateEntities (h : Q) (es : list FallingWord.t) (st : St)
    : list FallingWord.t * St :=
  match es with
  | [] => ([], st)
  | entity :: rest =>
      if negb (active entity) then updateEntities h rest st
      else
        let entity' := fall entity in
        if belowFloor h entity' then updateEntities h rest (breakCombo st)
        else
          let '(kept, st') := updateEntities h rest st in
          (entity' :: kept, st')
  end.

(** [Math.max(0, Math.ceil((gameDuration - elapsedTime) / 1000))] *)
Definition remainingTime (elapsedTime : Z) : Z :=
  Z.max 0 (Math_ceil (inject_Z (gameDuration - elapsedTime) / 1000)%Q).

(** What a frame asks of its environment afterwards. *)
Inductive FrameOutcome : Type :=
| Stopped                       (* the loop returned without rescheduling *)
| GameEnded (isVictory : bool)  (* [onGameEnd] was called *)
| NextFrame.                    (* [requestAnimationFrame(gameLoop)] *)

(** The spawn step of a frame: at most one word, when more than two
    seconds have passed since the last spawn and fewer than five entities
    are on screen; [lastSpawnRef] is stamped whether or not [spawnWord]
    created an entity. *)
Definition spawnPhase (p : Props.t) (now : Z) (d : Draws.t) (c : Refs.t) (st : St)
    : result (Refs.t * St) :=
  if bool_decide (now - lastSpawnRef c > 2000) &&
     bool_decide (length (entitiesRef c) < 5)%nat
  then '(c', st') ← spawnWord p d c st; Ok (set_lastSpawnRef now c', st')
  else Ok (c, st).

(** The update step of a frame: [entitiesRef.current] is replaced by what
    the filter keeps. *)
Definition movePhase (c : Refs.t) (st : St) : Refs.t * St :=
  let '(kept, st') := updateEntities (Refs.height c) (entitiesRef c) st in
  (set_entitiesRef kept c, st').

Definition gameLoop (p : Props.t) (now : Z) (d : Draws.t) (c : Refs.t) (st : St)
    : result (FrameOutcome * Refs.t * St) :=
  if bool_decide (GameSession.state (session st) ≠ playing) then Ok (Stopped, c, st)
  else
    let elapsedTime := now - gameStartTimeRef c in
    let st1 := if Props.endless p then st
               else setTimeRemaining (remainingTime elapsedTime) st in
    if negb (Props.endless p) && bool_decide (remainingTime elapsedTime <= 0)
    then Ok (GameEnded true, c, st1)
    else
      '(c2, st2) ← spawnPhase p now d c st1;
      let '(c3, st3) := movePhase c2 st2 in
      Ok (NextFrame, c3, st3).

(** The effect that starts the loop: it runs when [session.state] is
    [playing], stamps [gameStartTimeRef] and runs the first frame. *)
Definition startLoop (p : Props.t) (now : Z) (d : Draws.t) (c : Refs.t) (st : St)
    : result (FrameOutcome * Refs.t * St) :=
  if bool_decide (GameSession.state (session st) ≠ playing) then Ok (Stopped, c, st)
  else gameLoop p now d (set_gameStartTimeRef now c) st.

(** ** [handleKeyPress]: one keystroke *)

(** [entity.points * (1 + session.combo * 0.1)] *)
Definition comboPoints (e : FallingWord.t) (session_combo : Z) : Q :=
  (inject_Z (points e) * (1 + inject_Z session_combo * (1 # 10)))%Q.

(** The [for ... of] loop: [None] when it falls through without a match,
    otherwise the entities and the store after the matching branch. *)
Fixpoint keyLoop (key : string) (session_combo now : Z)
    (es : list FallingWord.t) (st : St)
    : result (option (list FallingWord.t * St)) :=
  match es with
  | [] => Ok None
  | entity :: rest =>
      let continue :=
        r ← keyLoop key session_combo now rest st;
        Ok (match r : option (list FallingWord.t * St) with
            | Some (es', st') => Some (entity :: es', st')
            | None => None
            end) in
      if negb (active entity) then continue
      else
        match nextChar entity with
        | None => Throw TypeError
        | Some c =>
            if bool_decide (toLowerCase (str1 c) = toLowerCase key) then
              let entity1 := typeChar c entity in
              let st1 := incrementCombo (recordKeystroke true now st) in
              if complete entity1 then
                let entity2 := set_active false entity1 in
                let st2 := removeEntity (id entity2)
                             (completeWord
                                (updateScore (comboPoints entity2 session_combo) st1)) in
                Ok (Some (entity2 :: rest, st2))
              else Ok (Some (entity1 :: rest, st1))
            else continue
        end
  end.

Definition handleKeyPress (key : string) (session_combo now : Z)
    (c : Refs.t) (st : St) : result (bool * Refs.t * St) :=
  r ← keyLoop key session_combo now (entitiesRef c) st;
  match r with
  | Some (es', st') => Ok (true, set_entitiesRef es' c, st')
  | None => Ok (false, c, breakCombo (recordKeystroke false now st))
  end.

End canvas.

(** ** Well-formed entities and the three ways the scan meets an entity *)

Module Scan.
Import FallingWord Typing.

(** The typing invariant of an entity: what is typed is an initial segment of
    the word, an active entity still has a character to type, and the points
    are ten per character. *)
Record entity_ok (e : FallingWord.t) : Prop := {
  ok_prefix : isPrefix (typed e) (word e);
  ok_active : active e = true → typed e ≠ word e;
  ok_points : points e = Z.of_nat (String.length (word e)) * 10;
}.

(** The loop goes past [e]: it is inactive or its next character differs. *)
Definition passes (key : string) (e : FallingWord.t) : Prop :=
  active e = false ∨
  ∃ c, nextChar e = Some c ∧ toLowerCase (str1 c) ≠ toLowerCase key.

(** [e] takes the keystroke: it is active and its next character is [c],
    equal to the key up to case. *)
Definition hits (key : string) (e : FallingWord.t) (c : ascii) : Prop :=
  active e = true ∧ nextChar e = Some c ∧
  toLowerCase (str1 c) = toLowerCase key.

(** [e] is active with nothing left to type: [nextChar] is [undefined]. *)
Definition faults (e : FallingWord.t) : Prop :=
  active e = true ∧ nextChar e = None.

#[export] Instance passes_dec key e : Decision (passes key e).
Proof.
  unfold passes. destruct (active e); [|left; by left].
  destruct (nextChar e) as [c|].
  - destruct (decide (toLowerCase (str1 c) = toLowerCase key)).
    + right. intros [?|(c' & [= <-] & ?)]; done.
    + left. right. eauto.
  - right. intros [?|(c' & ? & ?)]; done.
Defined.

#[export] Instance faults_dec e : Decision (faults e).
Proof. unfold faults. apply _. Defined.

(** The entity after it took the keystroke [c]. *)
Definition advance (c : ascii) (e : FallingWord.t) : FallingWord.t :=
  let e1 := typeChar c e in
  if complete e1 then set_active false e1 else e1.

End Scan.

(** ** Sample values

    A level of two words, the draws of one spawn, and the entity and refs
    they produce.  The closed examples of this file evaluate the handlers on
    them, with the store [useGameStore]. *)
Module Sample.

Definition props : Props.t := Props.mk ["cat"; "dog"]%string false.

Definition draws : Draws.t := Draws.mk "id1" 0 (1 # 2) (1 # 2) (1 # 7).

Definition session0 : GameSession.t :=
  Session.startGame gravity None 1000 Session.initialSession.

(** The word "cat", as [spawnWord] creates it. *)
Definition cat : FallingWord.t := newEntity draws "cat" (Refs.init 1000).

(** The word "cat" with "ca" typed. *)
Definition cat2 : FallingWord.t := FallingWord.set_typed "ca" cat.

(** An entity made from the empty word. *)
Definition blank : FallingWord.t := newEntity draws EmptyString (Refs.init 1000).

Definition refs (es : list FallingWord.t) : Refs.t :=
  Refs.set_entitiesRef es (Refs.init 1000).

End Sample.
Export Scan.

Section scan_lemmas.
Import FallingWord Typing.
Implicit Types (e : FallingWord.t) (es : list FallingWord.t) (key : string).

Lemma passes_hits_excl key e c : passes key e → hits key e c → False.
Proof.
  intros [Hi|(c' & Hc' & Hne)] (Ha & Hc & Heq); [congruence|].
  rewrite Hc in Hc'. by simplify_eq.
Qed.

Lemma passes_faults_excl key e : passes key e → faults e → False.
Proof. intros [Hi|(c' & Hc' & Hne)] (Ha & Hc); congruence. Qed.

Lemma entity_cases key e :
  passes key e ∨ (∃ c, hits key e c) ∨ faults e.
Proof.
  unfold passes, hits, faults. destruct (active e); [|by left; left].
  destruct (nextChar e) as [c|]; [|by right; right].
  destruct (decide (toLowerCase (str1 c) = toLowerCase key)); [right; left|left; right]; eauto.
Qed.

(** A well-formed entity never faults. *)
Lemma entity_ok_no_fault e : entity_ok e → ¬ faults e.
Proof.
  intros [Hp Ha _] [Hact Hn].
  destruct (isPrefix_proper_charAt _ _ Hp (Ha Hact)) as [c Hc].
  unfold nextChar in Hn. congruence.
Qed.

Lemma typeChar_typed c e : typed (typeChar c e) = typed e +:+ str1 c.
Proof. reflexivity. Qed.

Lemma advance_word c e : word (advance c e) = word e.
Proof. unfold advance. by case_match. Qed.

Lemma advance_id c e : id (advance c e) = id e.
Proof. unfold advance. by case_match. Qed.

Lemma advance_typed c e : typed (advance c e) = typed e +:+ str1 c.
Proof. unfold advance. by case_match. Qed.

Lemma advance_points c e : points (advance c e) = points e.
Proof. unfold advance. by case_match. Qed.

Lemma advance_active c e :
  active (advance c e) = active e && negb (complete (typeChar c e)).
Proof. unfold advance. case_match; simpl; [by rewrite andb_false_r|by rewrite andb_true_r]. Qed.

(** Taking a keystroke preserves the typing invariant. *)
Lemma advance_ok c e : entity_ok e → nextChar e = Some c → entity_ok (advance c e).
Proof.
  intros [Hp Ha Hpt] Hc. split.
  - rewrite advance_typed, advance_word. by apply isPrefix_snoc.
  - rewrite advance_active, advance_typed, advance_word.
    intros [_ Hn%negb_true_iff]%andb_true_iff.
    unfold complete in Hn. by apply bool_decide_eq_false in Hn.
  - by rewrite advance_points, advance_word.
Qed.

End scan_lemmas.

(** ** The keystroke loop, case by case *)

Section keyLoop_lemmas.
Context {St : Type} `{GameStoreLaws St}.
Import FallingWord Refs Typing.
Implicit Types (e : FallingWord.t) (es pre post : list FallingWord.t).
Implicit Types (key : string) (st : St).

(** The store after entity [e] took the keystroke [c]. *)
Definition hitStore (e : FallingWord.t) (c : ascii) (session_combo now : Z)
    (st : St) : St :=
  let st1 := incrementCombo (recordKeystroke true now st) in
  if complete (typeChar c e)
  then removeEntity (id e)
         (completeWord (updateScore (comboPoints e session_combo) st1))
  else st1.

Lemma keyLoop_skip key sc now e es st :
  passes key e →
  keyLoop key sc now (e :: es) st =
    r ← keyLoop key sc now es st;
    Ok (match r with Some (es', st') => Some (e :: es', st') | None => None end).
Proof.
  intros Hp. change (keyLoop key sc now (e :: es) st) with
    (let continue :=
       r ← keyLoop key sc now es st;
       Ok (match r with Some (es', st') => Some (e :: es', st') | None => None end) in
     if negb (active e) then continue
     else match nextChar e with
          | None => Throw TypeError
          | Some c =>
              if bool_decide (toLowerCase (str1 c) = toLowerCase key)
              then
                (let entity1 := typeChar c e in
                 let st1 := incrementCombo (recordKeystroke true now st) in
                 if complete entity1
                 then Ok (Some (set_active false entity1 :: es,
                          removeEntity (id (set_active false entity1))
                            (completeWord
                               (updateScore
                                  (comboPoints (set_active false entity1) sc) st1))))
                 else Ok (Some (entity1 :: es, st1)))
              else continue
          end).
  cbv zeta. destruct Hp as [->|(c & -> & Hne)]; [done|].
  rewrite bool_decide_eq_false_2 by done. by destruct (active e).
Qed.

Lemma keyLoop_passes key sc now es st :
  Forall (passes key) es → keyLoop key sc now es st = Ok None.
Proof.
  induction 1 as [|e es Hp _ IH]; [done|]. by rewrite keyLoop_skip, IH.
Qed.

Lemma keyLoop_hits key sc now pre e post c st :
  Forall (passes key) pre → hits key e c →
  keyLoop key sc now (pre ++ e :: post) st =
    Ok (Some (pre ++ advance c e :: post, hitStore e c sc now st)).
Proof.
  intros Hpre (Ha & Hc & Heq).
  induction Hpre as [|e0 pre Hp _ IH].
  - cbn [app keyLoop]. rewrite Ha, Hc. cbn [negb]. rewrite bool_decide_eq_true_2 by done.
    unfold advance, hitStore. by destruct (complete (typeChar c e)).
  - rewrite <- app_comm_cons, keyLoop_skip by done. by rewrite IH.
Qed.

Lemma keyLoop_faults key sc now pre e post st :
  Forall (passes key) pre → faults e →
  keyLoop key sc now (pre ++ e :: post) st = Throw TypeError.
Proof.
  intros Hpre (Ha & Hc).
  induction Hpre as [|e0 pre Hp _ IH].
  - cbn [app keyLoop]. by rewrite Ha, Hc.
  - rewrite <- app_comm_cons, keyLoop_skip by done. by rewrite IH.
Qed.

(** Every list of entities is in exactly one of the three situations. *)
Lemma scan_cases key es :
  Forall (passes key) es ∨
  (∃ pre e post c, es = pre ++ e :: post ∧ Forall (passes key) pre ∧ hits key e c) ∨
  (∃ pre e post, es = pre ++ e :: post ∧ Forall (passes key) pre ∧ faults e).
Proof.
  induction es as [|e es IH]; [by left|].
  destruct (entity_cases key e) as [Hp|[[c Hh]|Hf]].
  - destruct IH as [IH|[(pre & e' & post & c & -> & Hpre & Hh)|(pre & e' & post & -> & Hpre & Hf)]].
    + left. by constructor.
    + right; left. exists (e :: pre), e', post, c. split_and!; [done|by constructor|done].
    + right; right. exists (e :: pre), e', post. split_and!; [done|by constructor|done].
  - right; left. by exists [], e, es, c.
  - right; right. by exists [], e, es.
Qed.

Lemma keyLoop_Ok_None key sc now es st :
  keyLoop key sc now es st = Ok None ↔ Forall (passes key) es.
Proof.
  split; [|apply keyLoop_passes]. intros HN.
  destruct (scan_cases key es) as [?|[(pre & e & post & c & -> & Hpre & Hh)|(pre & e & post & -> & Hpre & Hf)]];
    [done| |].
  - by rewrite (keyLoop_hits _ _ _ _ _ _ c) in HN.
  - by rewrite keyLoop_faults in HN.
Qed.

Lemma keyLoop_Ok_Some key sc now es st es' st' :
  keyLoop key sc now es st = Ok (Some (es', st')) →
  ∃ pre e post c, es = pre ++ e :: post ∧ Forall (passes key) pre ∧ hits key e c ∧
    es' = pre ++ advance c e :: post ∧ st' = hitStore e c sc now st.
Proof.
  intros HS.
  destruct (scan_cases key es) as [Hp|[(pre & e & post & c & -> & Hpre & Hh)|(pre & e & post & -> & Hpre & Hf)]].
  - by rewrite keyLoop_passes in HS.
  - rewrite (keyLoop_hits _ _ _ _ _ _ c) in HS by done. simplify_eq. eauto 10.
  - by rewrite keyLoop_faults in HS.
Qed.

Lemma keyLoop_Throw key sc now es st err :
  keyLoop key sc now es st = Throw err →
  ∃ pre e post, es = pre ++ e :: post ∧ Forall (passes key) pre ∧ faults e.
Proof.
  intros HT.
  destruct (scan_cases key es) as [Hp|[(pre & e & post & c & -> & Hpre & Hh)|?]]; [| |done].
  - by rewrite keyLoop_passes in HT.
  - by rewrite (keyLoop_hits _ _ _ _ _ _ c) in HT.
Qed.

(** With well-formed entities the loop never throws. *)
Lemma keyLoop_safe key sc now es st :
  Forall entity_ok es → is_Ok (keyLoop key sc now es st).
Proof.
  intros Hok. destruct (keyLoop key sc now es st) as [r|err] eqn:E; [by eexists|].
  apply keyLoop_Throw in E as (pre & e & post & -> & _ & Hf).
  apply Forall_app in Hok as [_ [He _]%Forall_cons].
  by destruct (entity_ok_no_fault e).
Qed.

Lemma keyLoop_ok key sc now es st es' st' :
  Forall entity_ok es → keyLoop key sc now es st = Ok (Some (es', st')) →
  Forall entity_ok es'.
Proof.
  intros Hok (pre & e & post & c & -> & _ & (_ & Hc & _) & -> & _)%keyLoop_Ok_Some.
  apply Forall_app in Hok as [Hpre [He Hpost]%Forall_cons].
  apply Forall_app. split; [done|]. constructor; [by apply advance_ok|done].
Qed.

End keyLoop_lemmas.

(** ** [handleKeyPress]: what a keystroke does to the session *)

Section handleKeyPress_lemmas.
Context {St : Type} `{GameStoreLaws St}.
Import FallingWord Refs Typing GameSession.
Implicit Types (e : FallingWord.t) (es pre post : list FallingWord.t).
Implicit Types (key : string) (st : St) (c : Refs.t).

Lemma session_hitStore e ch sc now st :
  session (hitStore e ch sc now st) =
    let s1 := Session.incrementCombo (Session.recordKeystroke true now (session st)) in
    if complete (typeChar ch e)
    then Session.removeEntity (id e)
           (Session.completeWord (Session.updateScore (comboPoints e sc) s1))
    else s1.
Proof. unfold hitStore. case_match; by autorewrite with store. Qed.

Lemma session_missStore now st :
  session (breakCombo (recordKeystroke false now st)) =
    Session.breakCombo (Session.recordKeystroke false now (session st)).
Proof. by autorewrite with store. Qed.

Lemma handleKeyPress_passes key sc now c st :
  Forall (passes key) (entitiesRef c) →
  handleKeyPress key sc now c st =
    Ok (false, c, breakCombo (recordKeystroke false now st)).
Proof. intros Hp. unfold handleKeyPress. by rewrite keyLoop_passes. Qed.

Lemma handleKeyPress_hits key sc now c st pre e post ch :
  entitiesRef c = pre ++ e :: post → Forall (passes key) pre → hits key e ch →
  handleKeyPress key sc now c st =
    Ok (true, set_entitiesRef (pre ++ advance ch e :: post) c, hitStore e ch sc now st).
Proof.
  intros Heq Hp Hh. unfold handleKeyPress.
  by rewrite Heq, (keyLoop_hits _ _ _ _ _ _ ch).
Qed.

Lemma handleKeyPress_faults key sc now c st pre e post :
  entitiesRef c = pre ++ e :: post → Forall (passes key) pre → faults e →
  handleKeyPress key sc now c st = Throw TypeError.
Proof. intros Heq Hp Hf. unfold handleKeyPress. by rewrite Heq, keyLoop_faults. Qed.

(** Inversion: a call that returns did one of the first two. *)
Lemma handleKeyPress_inv key sc now c st b c' st' :
  handleKeyPress key sc now c st = Ok (b, c', st') →
  (b = false ∧ c' = c ∧ st' = breakCombo (recordKeystroke false now st) ∧
   Forall (passes key) (entitiesRef c)) ∨
  (b = true ∧ ∃ pre e post ch,
     entitiesRef c = pre ++ e :: post ∧ Forall (passes key) pre ∧ hits key e ch ∧
     c' = set_entitiesRef (pre ++ advance ch e :: post) c ∧
     st' = hitStore e ch sc now st).
Proof.
  unfold handleKeyPress. intros (r & Hr & Hm)%bind_Ok.
  destruct r as [[es1 st1]|]; simplify_eq.
  - right. split; [done|].
    apply keyLoop_Ok_Some in Hr as (pre & e & post & ch & ? & ? & ? & -> & ->).
    eauto 10.
  - left. by apply keyLoop_Ok_None in Hr.
Qed.

Lemma hit_counters e ch sc now st :
  let s := session st in
  let s' := session (hitStore e ch sc now st) in
  charactersTyped s' = charactersTyped s + 1 ∧
  correctChars s' = correctChars s + 1 ∧
  combo s' = combo s + 1 ∧
  maxCombo s' = Z.max (maxCombo s) (combo s + 1) ∧
  state s' = state s.
Proof.
  cbv zeta. rewrite session_hitStore. cbv zeta.
  generalize (session st) (complete (typeChar ch e)) (comboPoints e sc) (id e).
  clear. intros s b p i. destruct b; reduce_session; split_and!; try done; lia.
Qed.

Lemma miss_counters now st :
  let s := session st in
  let s' := session (breakCombo (recordKeystroke false now st)) in
  charactersTyped s' = charactersTyped s + 1 ∧
  correctChars s' = correctChars s ∧
  combo s' = 0 ∧
  maxCombo s' = maxCombo s ∧
  score s' = score s ∧
  wordsCompleted s' = wordsCompleted s ∧
  state s' = state s.
Proof.
  cbv zeta. rewrite session_missStore. generalize (session st). clear.
  intros s. reduce_session; split_and!; try done; lia.
Qed.


Lemma incomplete_counters e ch sc now st :
  complete (typeChar ch e) = false →
  let s := session st in
  let s' := session (hitStore e ch sc now st) in
  score s' = score s ∧ wordsCompleted s' = wordsCompleted s ∧
  entities s' = entities s.
Proof.
  intros Hc. cbv zeta. rewrite session_hitStore, Hc. cbv zeta.
  generalize (session st). clear. intros s. by reduce_session.
Qed.


End handleKeyPress_lemmas.

(** ** The countdown *)

Section countdown.
Implicit Types elapsed : Z.

Lemma remainingTime_Z elapsed :
  remainingTime elapsed = Z.max 0 (- ((elapsed - gameDuration) / 1000)).
Proof.
  unfold remainingTime, Math_ceil, Qceiling. f_equal. f_equal.
  rewrite Zdiv_Qdiv. apply Qfloor_comp. unfold gameDuration. push_inj. field.
Qed.

Lemma remainingTime_nonneg elapsed : 0 <= remainingTime elapsed.
Proof. unfold remainingTime. lia. Qed.

Lemma remainingTime_zero elapsed :
  remainingTime elapsed <= 0 ↔ gameDuration <= elapsed.
Proof.
  rewrite remainingTime_Z. unfold gameDuration.
  pose proof (Z.div_mod (elapsed - 60000) 1000 ltac:(done)).
  pose proof (Z.mod_pos_bound (elapsed - 60000) 1000 ltac:(done)). lia.
Qed.

Lemma remainingTime_upper elapsed : 0 <= elapsed → remainingTime elapsed <= 60.
Proof.
  intros H. rewrite remainingTime_Z. unfold gameDuration.
  pose proof (Z.div_mod (elapsed - 60000) 1000 ltac:(done)).
  pose proof (Z.mod_pos_bound (elapsed - 60000) 1000 ltac:(done)). lia.
Qed.

Lemma remainingTime_mono elapsed elapsed' :
  elapsed <= elapsed' → remainingTime elapsed' <= remainingTime elapsed.
Proof.
  intros H. rewrite !remainingTime_Z.
  assert ((elapsed - gameDuration) / 1000 <= (elapsed' - gameDuration) / 1000)
    by (apply Z.div_le_mono; lia). lia.
Qed.

(** Whole seconds: the display shows the number of seconds still to run,
    rounded up. *)
Lemma remainingTime_seconds elapsed :
  0 <= elapsed < gameDuration →
  1000 * (remainingTime elapsed - 1) < gameDuration - elapsed
    <= 1000 * remainingTime elapsed.
Proof.
  intros H. rewrite remainingTime_Z. unfold gameDuration in *.
  pose proof (Z.div_mod (elapsed - 60000) 1000 ltac:(done)).
  pose proof (Z.mod_pos_bound (elapsed - 60000) 1000 ltac:(done)). lia.
Qed.

End countdown.

(** ** Falling and the floor *)

Section falling.
Context {St : Type} `{GameStoreLaws St}.
Import FallingWord Refs Typing.
Implicit Types (e : FallingWord.t) (es : list FallingWord.t) (st : St) (h : Q).

(** An active entity that is still above the floor after its fall. *)
Definition survives (h : Q) (e : FallingWord.t) : Prop :=
  active e = true ∧ belowFloor h (fall e) = false.

(** An active entity whose fall takes it below the floor. *)
Definition crashes (h : Q) (e : FallingWord.t) : Prop :=
  active e = true ∧ belowFloor h (fall e) = true.

#[export] Instance survives_dec h e : Decision (survives h e).
Proof. unfold survives. apply _. Defined.

#[export] Instance crashes_dec h e : Decision (crashes h e).
Proof. unfold crashes. apply _. Defined.

Lemma updateEntities_cons h e es st :
  updateEntities h (e :: es) st =
    if decide (survives h e)
    then (fall e :: (updateEntities h es st).1, (updateEntities h es st).2)
    else if decide (crashes h e) then updateEntities h es (breakCombo st)
    else updateEntities h es st.
Proof.
  cbn [updateEntities].
  destruct (decide (survives h e)) as [[Ha Hb]|Hns].
  { rewrite Ha, Hb. simpl. by destruct (updateEntities h es st). }
  destruct (decide (crashes h e)) as [[Ha Hb]|Hnc]; [by rewrite Ha, Hb|].
  unfold survives, crashes in *. destruct (active e); [|done].
  destruct (belowFloor h (fall e)); [by destruct Hnc | by destruct Hns].
Qed.

Lemma updateEntities_kept h es st :
  (updateEntities h es st).1 = fall <$> filter (survives h) es.
Proof.
  revert st. induction es as [|e es IH]; intros st; [done|].
  rewrite updateEntities_cons, filter_cons.
  repeat case_decide; simpl; by rewrite ?IH.
Qed.

Lemma updateEntities_store h es st :
  (updateEntities h es st).2 =
    Nat.iter (length (filter (crashes h) es)) breakCombo st.
Proof.
  revert st. induction es as [|e es IH]; intros st; [done|].
  rewrite updateEntities_cons, filter_cons.
  destruct (decide (survives h e)) as [[Ha Hb]|Hns];
    destruct (decide (crashes h e)) as [[Ha' Hb']|Hnc]; simpl; rewrite ?IH;
    try done; [congruence|by rewrite Nat.iter_swap].
Qed.

Lemma session_iter_breakCombo n st :
  session (Nat.iter n breakCombo st) =
    if n is O then session st else Session.breakCombo (session st).
Proof.
  induction n as [|n IH]; [done|]. simpl. rewrite session_breakCombo, IH.
  by destruct n.
Qed.

(** The store after the frame's filter: the combo is broken exactly when
    some active entity went below the floor; nothing else changes. *)
Lemma updateEntities_session h es st :
  session (updateEntities h es st).2 =
    if decide (Exists (crashes h) es) then Session.breakCombo (session st)
    else session st.
Proof.
  rewrite updateEntities_store, session_iter_breakCombo.
  destruct (filter (crashes h) es) as [|e l] eqn:E; simpl.
  - rewrite decide_False; [done|]. rewrite Exists_exists. intros (e & Hin & Hc).
    assert (e ∈ filter (crashes h) es) as Hf by by apply list_elem_of_filter.
    rewrite E in Hf. by apply not_elem_of_nil in Hf.
  - rewrite decide_True; [done|]. rewrite Exists_exists. exists e.
    assert (e ∈ filter (crashes h) es) as Hf by (rewrite E; left).
    apply list_elem_of_filter in Hf as [? ?]. done.
Qed.

(** Every entity kept by the frame is active and not below the floor. *)
Lemma updateEntities_above h es st :
  Forall (λ e, active e = true ∧ (y e <= h - 60)%Q) (updateEntities h es st).1.
Proof.
  rewrite updateEntities_kept. apply Forall_fmap, Forall_forall.
  intros e [[Ha Hb] _]%list_elem_of_filter. split; [done|].
  unfold belowFloor in Hb. by apply Qltb_ge in Hb.
Qed.

Lemma updateEntities_length h es st :
  (length (updateEntities h es st).1 ≤ length es)%nat.
Proof. rewrite updateEntities_kept, length_fmap. apply length_filter. Qed.

Lemma fall_ok e : entity_ok e → entity_ok (fall e).
Proof. by intros [? ? ?]. Qed.

Lemma updateEntities_ok h es st :
  Forall entity_ok es → Forall entity_ok (updateEntities h es st).1.
Proof.
  intros Hok. rewrite updateEntities_kept. apply Forall_fmap.
  apply Forall_forall. intros e [_ Hin]%list_elem_of_filter.
  apply fall_ok. by eapply Forall_forall in Hok.
Qed.

(** Falling is the only change: the kept entities are, in order, the
    surviving ones moved down by their speed. *)
Lemma updateEntities_ids h es st :
  id <$> (updateEntities h es st).1 = id <$> filter (survives h) es.
Proof. rewrite updateEntities_kept, <- list_fmap_compose. by apply list_fmap_ext. Qed.

End falling.

(** ** Spawning *)

Section spawning.
Context {St : Type} `{GameStoreLaws St}.
Import FallingWord Refs Typing.
Implicit Types (p : Props.t) (d : Draws.t) (c : Refs.t) (st : St) (w : string).

(** Every word of the level has at least one character. *)
Definition words_ok (p : Props.t) : Prop :=
  Forall (λ w, w ≠ ""%string) (Props.words p).

Lemma newEntity_ok d w c : w ≠ ""%string → entity_ok (newEntity d w c).
Proof.
  intros Hw. split; simpl; [apply isPrefix_empty|by intros _|done].
Qed.

Lemma newEntity_fresh d w c :
  active (newEntity d w c) = true ∧ typed (newEntity d w c) = ""%string ∧
  word (newEntity d w c) = w ∧ id (newEntity d w c) = Draws.uuid d ∧
  y (newEntity d w c) = (-30)%Q.
Proof. done. Qed.

(** The fall speed of a new entity lies in [1, 1.5). *)
Lemma newEntity_speed d w c :
  Draws.valid d → (1 <= speed (newEntity d w c) < 3 # 2)%Q.
Proof. intros (_ & _ & [? ?] & _). simpl. lra. Qed.

(** Level mode, words left: the next word of the list is spawned. *)
Lemma spawnWord_level p d c st w :
  Props.endless p = false → Props.words p !! wordIndexRef c = Some w →
  spawnWord p d c st =
    (let c1 := set_wordIndexRef (S (wordIndexRef c)) c in
     Ok (set_entitiesRef (entitiesRef c ++ [newEntity d w c1]) c1,
         addEntity (toEntity (newEntity d w c1)) st)).
Proof.
  intros He Hw. unfold spawnWord. rewrite He, Hw.
  apply lookup_lt_Some in Hw. rewrite bool_decide_eq_false_2 by lia. done.
Qed.

(** Level mode, list exhausted: nothing happens. *)
Lemma spawnWord_exhausted p d c st :
  Props.endless p = false → (length (Props.words p) ≤ wordIndexRef c)%nat →
  spawnWord p d c st = Ok (c, st).
Proof.
  intros He Hl. unfold spawnWord. by rewrite He, bool_decide_eq_true_2.
Qed.

(** Endless mode: a word of the list, chosen by the draw. *)
Lemma spawnWord_endless p d c st :
  Props.endless p = true → Draws.valid d → Props.words p ≠ [] →
  ∃ w, w ∈ Props.words p ∧
    spawnWord p d c st =
      Ok (set_entitiesRef (entitiesRef c ++ [newEntity d w c]) c,
          addEntity (toEntity (newEntity d w c)) st).
Proof.
  intros He (Hr & _) Hne. unfold spawnWord. rewrite He, andb_false_r.
  destruct (nthZ_is_Some (Props.words p)
    (Math_floor (Draws.rWord d * inject_Z (Z.of_nat (length (Props.words p))))))
    as [w Hw].
  { apply random_index; [done|]. destruct (Props.words p); [done|simpl; lia]. }
  exists w. rewrite Hw. split; [by eapply nthZ_elem_of|done].
Qed.

(** Endless mode with an empty list: [words[...]] is [undefined] and
    [word.length] throws. *)
Lemma spawnWord_endless_empty p d c st :
  Props.endless p = true → Props.words p = [] →
  spawnWord p d c st = Throw TypeError.
Proof.
  intros He Hw. unfold spawnWord. by rewrite He, Hw, andb_false_r, nthZ_nil.
Qed.

(** What a successful call leaves behind. *)
Lemma spawnWord_inv p d c st c' st' :
  spawnWord p d c st = Ok (c', st') →
  (c' = c ∧ st' = st) ∨
  ∃ w, w ∈ Props.words p ∧
    entitiesRef c' = entitiesRef c ++ [newEntity d w c'] ∧
    lastSpawnRef c' = lastSpawnRef c ∧ gameStartTimeRef c' = gameStartTimeRef c ∧
    dimensions c' = dimensions c ∧
    (wordIndexRef c ≤ wordIndexRef c' ≤ S (wordIndexRef c))%nat ∧
    (Props.endless p = false →
       wordIndexRef c' = S (wordIndexRef c) ∧ Props.words p !! wordIndexRef c = Some w) ∧
    st' = addEntity (toEntity (newEntity d w c')) st.
Proof.
  unfold spawnWord. case_match; [intros [= <- <-]; by left|].
  destruct (Props.endless p) eqn:He.
  - destruct (nthZ _ _) as [w|] eqn:Hw; [|done]. intros [= <- <-]. right.
    exists w. split; [by eapply nthZ_elem_of|]. simpl. split_and!; try done; lia.
  - destruct (Props.words p !! wordIndexRef c) as [w|] eqn:Hw; [|done].
    intros [= <- <-]. right. exists w.
    split; [by eapply list_elem_of_lookup_2|]. simpl. split_and!; try done; lia.
Qed.

Lemma spawnWord_index p d c st c' st' :
  spawnWord p d c st = Ok (c', st') →
  (wordIndexRef c ≤ length (Props.words p))%nat →
  (wordIndexRef c' ≤ length (Props.words p))%nat.
Proof.
  unfold spawnWord. case_match; [by intros [= <- <-]|].
  destruct (Props.endless p) eqn:He.
  - destruct (nthZ _ _); [|done]. by intros [= <- <-].
  - destruct (Props.words p !! wordIndexRef c) as [w|] eqn:Hw; [|done].
    intros [= <- <-] _. simpl. apply lookup_lt_Some in Hw. lia.
Qed.

Lemma spawnWord_safe_level p d c st :
  Props.endless p = false → is_Ok (spawnWord p d c st).
Proof.
  intros He.
  destruct (le_lt_dec (length (Props.words p)) (wordIndexRef c)) as [Hl|Hl].
  - rewrite spawnWord_exhausted by done. by eexists.
  - apply lookup_lt_is_Some in Hl as [w Hw].
    rewrite (spawnWord_level _ _ _ _ w) by done. by eexists.
Qed.

Lemma spawnWord_safe p d c st :
  Props.endless p = false ∨ (Draws.valid d ∧ Props.words p ≠ []) →
  is_Ok (spawnWord p d c st).
Proof.
  intros Hp. destruct (Props.endless p) eqn:He; [|by apply spawnWord_safe_level].
  destruct Hp as [?|[Hd Hne]]; [done|].
  destruct (spawnWord_endless p d c st He Hd Hne) as (w & _ & ->). by eexists.
Qed.

End spawning.

(** ** One frame *)

Section frame.
Context {St : Type} `{GameStoreLaws St}.
Import FallingWord Refs Typing.
Implicit Types (p : Props.t) (d : Draws.t) (c : Refs.t) (st : St).

(** The refs are consistent with the props: well-formed entities, at most
    five of them, and a word index within the list. *)
Record canvas_ok (p : Props.t) (c : Refs.t) : Prop := {
  cok_entities : Forall entity_ok (entitiesRef c);
  cok_cap : (length (entitiesRef c) ≤ 5)%nat;
  cok_index : (wordIndexRef c ≤ length (Props.words p))%nat;
}.

Lemma canvas_ok_init p now : canvas_ok p (Refs.init now).
Proof. split; simpl; [constructor|lia|lia]. Qed.

Lemma spawnPhase_inv p now d c st c' st' :
  spawnPhase p now d c st = Ok (c', st') →
  (c' = c ∧ st' = st) ∨
  (now - lastSpawnRef c > 2000 ∧ (length (entitiesRef c) < 5)%nat ∧
   ∃ c1, spawnWord p d c st = Ok (c1, st') ∧ c' = set_lastSpawnRef now c1).
Proof.
  unfold spawnPhase. destruct (bool_decide (now - lastSpawnRef c > 2000)) eqn:E1;
    [|intros [= <- <-]; by left].
  destruct (bool_decide (length (entitiesRef c) < 5)%nat) eqn:E2;
    [|intros [= <- <-]; by left].
  apply bool_decide_eq_true in E1, E2. cbn [andb].
  intros ([c1 st1] & Hs & [= <- <-])%bind_Ok. right. eauto.
Qed.

Lemma spawnPhase_ok p now d c st c' st' :
  words_ok p → canvas_ok p c → spawnPhase p now d c st = Ok (c', st') →
  canvas_ok p c'.
Proof.
  intros Hw [Hes Hcap Hidx] [[-> ->]|(Ht & Hn & c1 & Hs & ->)]%spawnPhase_inv; [done|].
  pose proof (spawnWord_index _ _ _ _ _ _ Hs Hidx) as Hidx'.
  apply spawnWord_inv in Hs as [[-> ->]|(w & Hin & He & _)]; [done|].
  split; cbn [entitiesRef wordIndexRef set_lastSpawnRef]; [| |done].
  - rewrite He. apply Forall_app. split; [done|]. constructor; [|done].
    apply newEntity_ok. by eapply Forall_forall in Hw.
  - rewrite He, length_app. simpl. lia.
Qed.

Lemma movePhase_ok p c st :
  canvas_ok p c → canvas_ok p (movePhase c st).1.
Proof.
  intros [Hes Hcap Hidx]. unfold movePhase.
  pose proof (updateEntities_ok (Refs.height c) _ st Hes).
  pose proof (updateEntities_length (Refs.height c) (entitiesRef c) st).
  destruct (updateEntities _ _ _) as [kept st']. split; simpl in *; [done|lia|done].
Qed.

Lemma movePhase_spec c st :
  movePhase c st =
    (set_entitiesRef (fall <$> filter (survives (Refs.height c)) (entitiesRef c)) c,
     (updateEntities (Refs.height c) (entitiesRef c) st).2).
Proof.
  unfold movePhase. rewrite <- (updateEntities_kept _ _ st). by destruct (updateEntities _ _ _).
Qed.

(** The three ways a frame ends. *)
Lemma gameLoop_inv p now d c st o c' st' :
  gameLoop p now d c st = Ok (o, c', st') →
  (GameSession.state (session st) ≠ playing ∧ o = Stopped ∧ c' = c ∧ st' = st) ∨
  (GameSession.state (session st) = playing ∧ Props.endless p = false ∧
   gameDuration <= now - gameStartTimeRef c ∧
   o = GameEnded true ∧ c' = c ∧ st' = setTimeRemaining 0 st) ∨
  (GameSession.state (session st) = playing ∧ o = NextFrame ∧
   (Props.endless p = false → now - gameStartTimeRef c < gameDuration) ∧
   ∃ c2 st2,
     spawnPhase p now d c
       (if Props.endless p then st
        else setTimeRemaining (remainingTime (now - gameStartTimeRef c)) st)
       = Ok (c2, st2) ∧
     (c', st') = movePhase c2 st2).
Proof.
  unfold gameLoop. case_bool_decide as Hs; [intros [= <- <- <-]; by left|].
  destruct (Props.endless p) eqn:He; cbn [negb andb].
  - intros ([c2 st2] & Hsp & Hm)%bind_Ok. right; right.
    destruct (movePhase c2 st2) as [c3 st3] eqn:Em. simplify_eq. split_and!; [done..|eauto].
  - case_bool_decide as Ht.
    + intros [= <- <- <-]. right; left. split_and!; try done.
      * by apply remainingTime_zero.
      * f_equal. pose proof (remainingTime_nonneg (now - gameStartTimeRef c)). lia.
    + intros ([c2 st2] & Hsp & Hm)%bind_Ok. right; right.
      destruct (movePhase c2 st2) as [c3 st3] eqn:Em. simplify_eq.
      split_and!; try done; [|eauto].
      intros _. rewrite remainingTime_zero in Ht. lia.
Qed.

(** A frame preserves the consistency of the refs. *)
Lemma gameLoop_ok p now d c st o c' st' :
  words_ok p → canvas_ok p c → gameLoop p now d c st = Ok (o, c', st') →
  canvas_ok p c'.
Proof.
  intros Hw Hc [(_ & _ & -> & _)|[(_ & _ & _ & _ & -> & _)|(_ & _ & _ & c2 & st2 & Hsp & Hm)]]%gameLoop_inv;
    [done|done|].
  apply spawnPhase_ok in Hsp; [|done..].
  replace c' with (movePhase c2 st2).1 by by rewrite <- Hm.
  by apply movePhase_ok.
Qed.

(** A frame never throws in level mode, nor in endless mode with words to
    draw from. *)
Lemma gameLoop_safe p now d c st :
  Props.endless p = false ∨ (Draws.valid d ∧ Props.words p ≠ []) →
  is_Ok (gameLoop p now d c st).
Proof.
  intros Hp. unfold gameLoop. case_bool_decide; [by eexists|].
  case_match; [by eexists|].
  assert (∀ st1, is_Ok (spawnPhase p now d c st1)) as Hsp.
  { intros st1. unfold spawnPhase. case_match; [|by eexists].
    destruct (spawnWord_safe p d c st1 Hp) as [[c1 st'] ->]. by eexists. }
  match goal with |- is_Ok (spawnPhase _ _ _ _ ?s ≫= _) => destruct (Hsp s) as [[c2 st2] ->] end.
  simpl. destruct (movePhase c2 st2). by eexists.
Qed.

Lemma gameLoop_not_playing p now d c st :
  GameSession.state (session st) ≠ playing →
  gameLoop p now d c st = Ok (Stopped, c, st).
Proof. intros Hs. unfold gameLoop. by rewrite bool_decide_eq_true_2. Qed.

Lemma gameLoop_timeout p now d c st :
  GameSession.state (session st) = playing → Props.endless p = false →
  gameDuration <= now - gameStartTimeRef c →
  gameLoop p now d c st = Ok (GameEnded true, c, setTimeRemaining 0 st).
Proof.
  intros Hs He Ht. unfold gameLoop.
  rewrite bool_decide_eq_false_2 by (by rewrite Hs; intros ?).
  rewrite He. cbn [negb andb].
  rewrite bool_decide_eq_true_2 by by apply remainingTime_zero.
  do 3 f_equal. apply remainingTime_zero in Ht.
  pose proof (remainingTime_nonneg (now - gameStartTimeRef c)). lia.
Qed.

End frame.

(** ** The store calls of a handler, as actions of the machine

    Every handler changes the session by a sequence of store actions, so
    what the machine of [Store] proves of reachable sessions holds after any
    handler. *)

Section traces.
Context {St : Type} `{GameStoreLaws St}.
Import FallingWord Refs Typing Machine.
Implicit Types (p : Props.t) (d : Draws.t) (c : Refs.t) (st : St).

(** The actions of a keystroke that entity [e] takes. *)
Definition hitTrace (e : FallingWord.t) (ch : ascii) (sc now : Z) : list Action :=
  [RecordKeystroke true now; IncrementCombo] ++
  (if complete (typeChar ch e)
   then [UpdateScore (comboPoints e sc); CompleteWord; RemoveEntity (id e)]
   else []).

(** The actions of a keystroke that no entity takes. *)
Definition missTrace (now : Z) : list Action := [RecordKeystroke false now; BreakCombo].

Lemma hitStore_run e ch sc now st :
  session (hitStore e ch sc now st) = run (hitTrace e ch sc now) (session st).
Proof.
  rewrite session_hitStore. unfold hitTrace, run.
  case_match; cbn [app foldl apply]; reflexivity.
Qed.

Lemma missStore_run now st :
  session (breakCombo (recordKeystroke false now st)) = run (missTrace now) (session st).
Proof. rewrite session_missStore. reflexivity. Qed.

Lemma handleKeyPress_run key sc now c st b c' st' :
  handleKeyPress key sc now c st = Ok (b, c', st') →
  ∃ acts, session st' = run acts (session st).
Proof.
  intros [(_ & _ & -> & _)|(_ & pre & e & post & ch & _ & _ & _ & _ & ->)]%handleKeyPress_inv.
  - eexists. apply missStore_run.
  - eexists. apply hitStore_run.
Qed.

Lemma iter_breakCombo_run n st :
  session (Nat.iter n breakCombo st) = run (replicate n BreakCombo) (session st).
Proof.
  revert st. induction n as [|n IH]; intros st; [done|].
  rewrite Nat.iter_succ_r, IH. simpl. by autorewrite with store.
Qed.

Lemma movePhase_run c st :
  ∃ acts, session (movePhase c st).2 = run acts (session st).
Proof.
  rewrite movePhase_spec. cbn [snd]. rewrite updateEntities_store.
  eexists. apply iter_breakCombo_run.
Qed.

Lemma spawnPhase_run p now d c st c' st' :
  spawnPhase p now d c st = Ok (c', st') →
  ∃ acts, session st' = run acts (session st).
Proof.
  intros [[_ ->]|(_ & _ & c1 & Hs & _)]%spawnPhase_inv; [by exists []|].
  apply spawnWord_inv in Hs as [[_ ->]|(w & _ & _ & _ & _ & _ & _ & _ & ->)];
    [by exists []|].
  eexists [AddEntity _]. simpl. by autorewrite with store.
Qed.

Lemma run_app acts1 acts2 s : run (acts1 ++ acts2) s = run acts2 (run acts1 s).
Proof. apply foldl_app. Qed.

Lemma gameLoop_run p now d c st o c' st' :
  gameLoop p now d c st = Ok (o, c', st') →
  ∃ acts, session st' = run acts (session st).
Proof.
  intros [(_ & _ & _ & ->)|[(_ & _ & _ & _ & _ & ->)|(_ & _ & _ & c2 & st2 & Hsp & Hm)]]%gameLoop_inv.
  - by exists [].
  - exists [SetTimeRemaining 0]. simpl. by autorewrite with store.
  - apply spawnPhase_run in Hsp as [acts1 H1].
    destruct (movePhase_run c2 st2) as [acts2 H2].
    rewrite <- Hm in H2. cbn [snd] in H2. rewrite H2, H1.
    destruct (Props.endless p).
    + exists (acts1 ++ acts2). by rewrite run_app.
    + eexists (SetTimeRemaining _ :: acts1 ++ acts2).
      change (run (?a :: ?l) ?s) with (run l (apply a s)).
      rewrite run_app. cbn [apply]. by autorewrite with store.
Qed.

Lemma run_reachable acts s : reachable s → reachable (run acts s).
Proof.
  revert s. induction acts as [|a acts IH]; intros s Hs; [done|].
  apply IH. by constructor.
Qed.

End traces.

(** * Properties of a keystroke *)

Section keystroke_properties.
Context {St : Type} `{GameStoreLaws St}.
Import FallingWord Refs Typing GameSession.
Implicit Types (e : FallingWord.t) (pre post : list FallingWord.t).
Implicit Types (key : string) (st : St) (c : Refs.t).



Lemma handleKeyPress_safe key sc now c st :
  Forall entity_ok (entitiesRef c) → is_Ok (handleKeyPress key sc now c st).
Proof.
  intros Hok. unfold handleKeyPress.
  destruct (keyLoop_safe key sc now (entitiesRef c) st Hok) as [r ->].
  destruct r as [[es' st']|]; by eexists.
Qed.

Lemma handleKeyPress_ok key sc now c st b c' st' :
  Forall entity_ok (entitiesRef c) → handleKeyPress key sc now c st = Ok (b, c', st') →
  Forall entity_ok (entitiesRef c').
Proof.
  intros Hok. unfold handleKeyPress. intros (r & Hr & Hm)%bind_Ok.
  destruct r as [[es1 st1]|]; simplify_eq; [|done]. by eapply keyLoop_ok.
Qed.

Lemma handleKeyPress_frame key sc now c st b c' st' :
  handleKeyPress key sc now c st = Ok (b, c', st') →
  id <$> entitiesRef c' = id <$> entitiesRef c ∧
  word <$> entitiesRef c' = word <$> entitiesRef c ∧
  wordIndexRef c' = wordIndexRef c ∧ lastSpawnRef c' = lastSpawnRef c ∧
  gameStartTimeRef c' = gameStartTimeRef c ∧ dimensions c' = dimensions c ∧
  state (session st') = state (session st).
Proof.
  intros [(_ & -> & -> & _)|(_ & pre & e & post & ch & Heq & _ & _ & -> & ->)]%handleKeyPress_inv.
  { split_and!; try done. by destruct (miss_counters now st) as (_ & _ & _ & _ & _ & _ & ?). }
  cbn [entitiesRef wordIndexRef lastSpawnRef gameStartTimeRef dimensions set_entitiesRef].
  rewrite Heq, !fmap_app, !fmap_cons, advance_id, advance_word.
  split_and!; try done. by destruct (hit_counters e ch sc now st) as (_ & _ & _ & _ & ?).
Qed.

(** C5: a key that no active entity expects is a miss: [handleKeyPress]
    returns [false] and leaves every entity as it was; the store counts one
    more character typed and no more correct ones, the combo falls to 0, and
    the best combo, the score and the number of completed words stay. *)
Theorem keystroke_miss key sc now c st :
  Forall (passes key) (entitiesRef c) →
  ∃ st', handleKeyPress key sc now c st = Ok (false, c, st') ∧
    charactersTyped (session st') = charactersTyped (session st) + 1 ∧
    correctChars (session st') = correctChars (session st) ∧
    combo (session st') = 0 ∧
    maxCombo (session st') = maxCombo (session st) ∧
    score (session st') = score (session st) ∧
    wordsCompleted (session st') = wordsCompleted (session st).
Proof.
  intros Hp. eexists. split; [by apply handleKeyPress_passes|].
  by destruct (miss_counters now st) as (? & ? & ? & ? & ? & ? & ?).
Qed.

(** C3: the first active entity whose next character is the key, whatever
    the case of either, takes the keystroke: it alone gains the character,
    entities before and after it are untouched (also those that expect the
    same character), and the store counts one more character typed, one more
    correct, a combo one longer and the best combo raised to it. *)
Theorem keystroke_first_match key sc now c st pre e post ch :
  entitiesRef c = pre ++ e :: post → Forall (passes key) pre → hits key e ch →
  ∃ st', handleKeyPress key sc now c st =
           Ok (true, set_entitiesRef (pre ++ advance ch e :: post) c, st') ∧
    typed (advance ch e) = typed e +:+ str1 ch ∧
    charactersTyped (session st') = charactersTyped (session st) + 1 ∧
    correctChars (session st') = correctChars (session st) + 1 ∧
    combo (session st') = combo (session st) + 1 ∧
    maxCombo (session st') = Z.max (maxCombo (session st)) (combo (session st) + 1).
Proof.
  intros Heq Hp Hh. eexists. split; [by eapply handleKeyPress_hits|].
  split; [apply advance_typed|].
  by destruct (hit_counters e ch sc now st) as (? & ? & ? & ? & ?).
Qed.


(** C23: a keystroke changes at most one entity and creates or drops none:
    the entities keep their number, ids and words, all but one position of
    the list are as before, and the spawn index and the two time stamps are
    untouched. *)
Theorem keystroke_changes_one_entity key sc now c st b c' st' :
  handleKeyPress key sc now c st = Ok (b, c', st') →
  id <$> entitiesRef c' = id <$> entitiesRef c ∧
  word <$> entitiesRef c' = word <$> entitiesRef c ∧
  wordIndexRef c' = wordIndexRef c ∧ lastSpawnRef c' = lastSpawnRef c ∧
  gameStartTimeRef c' = gameStartTimeRef c ∧
  ∃ k, ∀ i, i ≠ k → entitiesRef c' !! i = entitiesRef c !! i.
Proof.
  intros Hk. destruct (handleKeyPress_frame _ _ _ _ _ _ _ _ Hk) as (? & ? & ? & ? & ? & _).
  split_and!; try done.
  apply handleKeyPress_inv in Hk
    as [(_ & -> & _)|(_ & pre & e & post & ch & Heq & _ & _ & -> & _)]; [by exists 0%nat|].
  cbn [entitiesRef set_entitiesRef]. rewrite Heq. exists (length pre). intros i Hi.
  replace (pre ++ advance ch e :: post)
    with (<[length pre + 0 := advance ch e]> (pre ++ e :: post))%nat
    by (by rewrite insert_app_r).
  apply list_lookup_insert_ne. lia.
Qed.

(** when every entity is well formed (what is typed is a proper start
    of the word while the entity is active), a keystroke never throws, and
    the entities are well formed after it. *)
Theorem keystroke_safe key sc now c st :
  Forall entity_ok (entitiesRef c) →
  ∃ b c' st', handleKeyPress key sc now c st = Ok (b, c', st') ∧
    Forall entity_ok (entitiesRef c').
Proof.
  intros Hok. destruct (handleKeyPress_safe key sc now c st Hok) as [[[b c'] st'] Hk].
  exists b, c', st'. split; [done|]. by eapply handleKeyPress_ok.
Qed.

(** C7: an active entity with nothing left to type (one made from the empty
    word is such an entity from the start) makes the handler throw as soon
    as the scan reaches it: its next character is [undefined], and
    [undefined.toLowerCase()] is a TypeError; no store action is performed. *)
Theorem keystroke_throws key sc now c st pre e post :
  entitiesRef c = pre ++ e :: post → Forall (passes key) pre →
  active e = true → typed e = word e →
  handleKeyPress key sc now c st = Throw TypeError.
Proof.
  intros Heq Hp Ha Ht. eapply handleKeyPress_faults; [done..|].
  split; [done|]. unfold nextChar. rewrite Ht. by apply charAt_None.
Qed.

End keystroke_properties.

(** ** The keystroke properties on the sample values *)

Section keystroke_witnesses.
Import FallingWord Refs Typing GameSession Sample.
Local Open Scope string_scope.

Lemma cat_ok : entity_ok cat.
Proof. apply newEntity_ok. discriminate. Qed.

Lemma cat2_ok : entity_ok cat2.
Proof. split; [by exists "t"|discriminate|reflexivity]. Qed.

Lemma cat_passes_x : passes "x" cat.
Proof. right. exists "c"%char. split; [reflexivity|discriminate]. Qed.

Lemma cat_passes_a : passes "a" cat.
Proof. right. exists "c"%char. split; [reflexivity|discriminate]. Qed.

Lemma cat_hits_C : hits "C" cat "c"%char.
Proof. by split_and!. Qed.


Lemma keystroke_miss_witness :
  ∃ st', handleKeyPress "x" 0 2000 (refs [cat]) session0 = Ok (false, refs [cat], st') ∧
    charactersTyped st' = 1 ∧ correctChars st' = 0 ∧ combo st' = 0 ∧
    maxCombo st' = 0 ∧ score st' = 0%Q ∧ wordsCompleted st' = 0.
Proof.
  refine (keystroke_miss (St := GameSession.t) "x" 0 2000 (refs [cat]) session0 _).
  constructor; [exact cat_passes_x|constructor].
Defined.

Lemma keystroke_first_match_witness :
  ∃ st', handleKeyPress "C" 0 2000 (refs [set_active false cat; cat; cat]) session0 =
           Ok (true, refs [set_active false cat; set_typed "c" cat; cat], st') ∧
    typed (advance "c" cat) = "c" ∧
    charactersTyped st' = 1 ∧ correctChars st' = 1 ∧ combo st' = 1 ∧ maxCombo st' = 1.
Proof.
  refine (keystroke_first_match (St := GameSession.t) "C" 0 2000
           (refs [set_active false cat; cat; cat]) session0
           [set_active false cat] cat [cat] "c"%char _ _ _).
  - reflexivity.
  - constructor; [by left|constructor].
  - exact cat_hits_C.
Defined.


Lemma keystroke_changes_one_entity_witness :
  ∃ b c' st', handleKeyPress "c" 0 2000 (refs [cat; cat2]) session0 = Ok (b, c', st') ∧
    (id <$> entitiesRef c' = ["id1"; "id1"] ∧ word <$> entitiesRef c' = ["cat"; "cat"] ∧
     wordIndexRef c' = 0%nat ∧ lastSpawnRef c' = 0 ∧ gameStartTimeRef c' = 1000 ∧
     ∃ k, ∀ i, i ≠ k → entitiesRef c' !! i = [cat; cat2] !! i).
Proof.
  assert (∃ b c' st', handleKeyPress "c" 0 2000 (refs [cat; cat2]) session0 = Ok (b, c', st'))
    as (b & c' & st' & E) by (do 3 eexists; vm_compute; reflexivity).
  exists b, c', st'. split; [exact E|].
  exact (keystroke_changes_one_entity (St := GameSession.t) _ _ _ _ _ _ _ _ E).
Defined.

Lemma keystroke_safe_witness :
  ∃ b c' st', handleKeyPress "a" 1 2000 (refs [cat2; cat]) session0 = Ok (b, c', st') ∧
    Forall entity_ok (entitiesRef c').
Proof.
  refine (keystroke_safe (St := GameSession.t) "a" 1 2000 (refs [cat2; cat]) session0 _).
  constructor; [exact cat2_ok|constructor; [exact cat_ok|constructor]].
Defined.

Lemma keystroke_throws_witness :
  handleKeyPress "a" 0 2000 (refs [cat; blank; cat2]) session0 = Throw TypeError.
Proof.
  refine (keystroke_throws (St := GameSession.t) "a" 0 2000 (refs [cat; blank; cat2]) session0
           [cat] blank [cat2] _ _ _ _).
  - reflexivity.
  - constructor; [exact cat_passes_a|constructor].
  - reflexivity.
  - reflexivity.
Defined.

End keystroke_witnesses.

(** ** What a frame leaves alone *)

Section frame_frames.
Context {St : Type} `{GameStoreLaws St}.
Import FallingWord Refs Typing GameSession.
Implicit Types (p : Props.t) (d : Draws.t) (c : Refs.t) (st : St).

(** The session fields that adding an entity or breaking the combo cannot
    change. *)
Record same_clock (s s' : GameSession.t) : Prop := {
  sc_state : state s' = state s;
  sc_time : timeRemaining s' = timeRemaining s;
  sc_score : score s' = score s;
  sc_words : wordsCompleted s' = wordsCompleted s;
  sc_typed : charactersTyped s' = charactersTyped s;
  sc_correct : correctChars s' = correctChars s;
  sc_max : maxCombo s' = maxCombo s;
}.

#[export] Instance same_clock_refl : Reflexive same_clock.
Proof. by intros s. Qed.

#[export] Instance same_clock_trans : Transitive same_clock.
Proof. intros s1 s2 s3 [] []. split; congruence. Qed.

Lemma same_clock_addEntity e s : same_clock s (Session.addEntity e s).
Proof. split; by reduce_session. Qed.

Lemma same_clock_breakCombo s : same_clock s (Session.breakCombo s).
Proof. split; by reduce_session. Qed.

Lemma spawnPhase_frame p now d c st c' st' :
  spawnPhase p now d c st = Ok (c', st') →
  gameStartTimeRef c' = gameStartTimeRef c ∧ dimensions c' = dimensions c ∧
  same_clock (session st) (session st') ∧
  combo (session st') = combo (session st).
Proof.
  intros [[-> ->]|(_ & _ & c1 & Hs & ->)]%spawnPhase_inv; [done|].
  apply spawnWord_inv in Hs as [[-> ->]|(w & _ & _ & _ & ? & ? & _ & _ & ->)]; [done|].
  autorewrite with store. split_and!; [done..|apply same_clock_addEntity|].
  by reduce_session.
Qed.

Lemma movePhase_frame c st :
  gameStartTimeRef (movePhase c st).1 = gameStartTimeRef c ∧
  dimensions (movePhase c st).1 = dimensions c ∧
  wordIndexRef (movePhase c st).1 = wordIndexRef c ∧
  lastSpawnRef (movePhase c st).1 = lastSpawnRef c ∧
  same_clock (session st) (session (movePhase c st).2) ∧
  entities (session (movePhase c st).2) = entities (session st).
Proof.
  rewrite movePhase_spec. cbn [fst snd]. rewrite updateEntities_session.
  split_and!; try done; case_decide; try reflexivity.
  apply same_clock_breakCombo.
Qed.

Lemma gameLoop_state p now d c st o c' st' :
  gameLoop p now d c st = Ok (o, c', st') →
  state (session st') = state (session st) ∧ dimensions c' = dimensions c.
Proof.
  assert (∀ (b : bool) t, state (session (if b then st else setTimeRemaining t st))
                          = state (session st)) as Htick.
  { intros [] t; [done|]. autorewrite with store. by reduce_session. }
  intros [(_ & _ & -> & ->)|[(_ & _ & _ & _ & -> & ->)|(_ & _ & _ & c2 & st2 & Hsp & Hm)]]%gameLoop_inv;
    [done|split; [apply (Htick false)|done]|].
  apply spawnPhase_frame in Hsp as (_ & Hd & [Hs] & _).
  destruct (movePhase_frame c2 st2) as (_ & Hd' & _ & _ & [Hs'] & _).
  rewrite <- Hm in Hs', Hd'. cbn [fst snd] in Hs', Hd'.
  split; [by rewrite Hs', Hs, Htick|congruence].
Qed.

End frame_frames.

(** * Properties of a frame *)

Section frame_properties.
Context {St : Type} `{GameStoreLaws St}.
Import FallingWord Refs Typing GameSession.
Implicit Types (p : Props.t) (d : Draws.t) (c : Refs.t) (st : St).

(** while the session is not playing (idle, paused or ended) a frame
    does nothing: no entity moves, nothing is spawned, the store is not
    called and no further frame is requested. *)
Theorem frame_stops_unless_playing p now d c st :
  state (session st) ≠ playing →
  gameLoop p now d c st = Ok (Stopped, c, st).
Proof. apply gameLoop_not_playing. Qed.

(** C8: in a level, once sixty seconds have passed since the loop started,
    the frame shows 0 seconds, reports the end of the game as a victory and
    does nothing else: no entity moves and no further frame is requested. *)
Theorem frame_timeout p now d c st :
  state (session st) = playing → Props.endless p = false →
  gameDuration <= now - gameStartTimeRef c →
  ∃ st', gameLoop p now d c st = Ok (GameEnded true, c, st') ∧
    session st' = Session.setTimeRemaining 0 (session st) ∧
    timeRemaining (session st') = 0.
Proof.
  intros Hs He Ht. eexists. split; [by apply gameLoop_timeout|].
  autorewrite with store. split; [done|]. by reduce_session.
Qed.

(** C6: a frame keeps the refs consistent: every entity well formed, at
    most five of them, the spawn index within the word list; and after a
    frame that moved the entities, every entity left is active and not below
    the floor line, 60 pixels above the bottom of the canvas. *)
Theorem frame_invariant p now d c st o c' st' :
  words_ok p → canvas_ok p c → gameLoop p now d c st = Ok (o, c', st') →
  canvas_ok p c' ∧
  (o = NextFrame →
   Forall (λ e, active e = true ∧ (y e <= Refs.height c - 60)%Q) (entitiesRef c')).
Proof.
  intros Hw Hc Hg. split; [by eapply gameLoop_ok|]. intros ->.
  apply gameLoop_inv in Hg as [(_ & ? & _)|[(_ & _ & _ & ? & _)|(_ & _ & _ & c2 & st2 & Hsp & Hm)]];
    [done..|].
  apply spawnPhase_frame in Hsp as (_ & Hd & _).
  replace c' with (movePhase c2 st2).1 by by rewrite <- Hm.
  unfold Refs.height. rewrite <- Hd, movePhase_spec. cbn [fst entitiesRef set_entitiesRef].
  rewrite <- (updateEntities_kept _ _ st2). apply updateEntities_above.
Qed.

(** a frame never throws in a level, whatever the word list, nor in
    endless mode when the list is not empty. *)
Theorem frame_safe p now d c st :
  Props.endless p = false ∨ (Draws.valid d ∧ Props.words p ≠ []) →
  is_Ok (gameLoop p now d c st).
Proof. apply gameLoop_safe. Qed.

(** C36: in endless mode with an empty word list the first frame that is
    due to spawn throws: the word drawn is [undefined] and [word.length] is a
    TypeError. *)
Theorem frame_endless_empty_throws p now d c st :
  state (session st) = playing → Props.endless p = true → Props.words p = [] →
  now - lastSpawnRef c > 2000 → (length (entitiesRef c) < 5)%nat →
  gameLoop p now d c st = Throw TypeError.
Proof.
  intros Hs He Hw Ht Hn. unfold gameLoop, spawnPhase.
  rewrite bool_decide_eq_false_2 by (by rewrite Hs; intros ?).
  rewrite He. cbn [negb andb]. rewrite !bool_decide_eq_true_2 by done. cbn [andb].
  by rewrite spawnWord_endless_empty.
Qed.

Lemma spawnPhase_rate p now d c st c' st' :
  spawnPhase p now d c st = Ok (c', st') →
  (length (entitiesRef c') ≤ length (entitiesRef c) + 1)%nat ∧
  (now - lastSpawnRef c <= 2000 ∨ (5 ≤ length (entitiesRef c))%nat → c' = c ∧ st' = st).
Proof.
  intros [[-> ->]|(Ht & Hn & c1 & Hs & ->)]%spawnPhase_inv; [split; [lia|done]|].
  split; [|intros [?|?]; lia]. cbn [entitiesRef set_lastSpawnRef].
  apply spawnWord_inv in Hs as [[-> ->]|(w & _ & -> & _)]; [lia|].
  rewrite length_app. simpl. lia.
Qed.

Lemma movePhase_entitiesRef c st :
  entitiesRef (movePhase c st).1 =
    fall <$> filter (survives (Refs.height c)) (entitiesRef c).
Proof. by rewrite movePhase_spec. Qed.

Lemma movePhase_length c st :
  (length (entitiesRef (movePhase c st).1) ≤ length (entitiesRef c))%nat.
Proof.
  rewrite movePhase_spec. cbn [fst entitiesRef set_entitiesRef].
  rewrite length_fmap. apply length_filter.
Qed.

Lemma tick_entities (b : bool) t st :
  entities (session (if b then st else setTimeRemaining t st)) = entities (session st).
Proof. destruct b; [done|]. autorewrite with store. by reduce_session. Qed.

(** a frame spawns at most one entity, and none unless more than two
    seconds have passed since the last spawn and fewer than five entities
    are on screen. *)
Theorem frame_spawn_rate p now d c st o c' st' :
  gameLoop p now d c st = Ok (o, c', st') →
  (length (entitiesRef c') ≤ length (entitiesRef c) + 1)%nat ∧
  (now - lastSpawnRef c <= 2000 ∨ (5 ≤ length (entitiesRef c))%nat →
   (length (entitiesRef c') ≤ length (entitiesRef c))%nat ∧
   entities (session st') = entities (session st) ∧
   lastSpawnRef c' = lastSpawnRef c).
Proof.
  intros [(_ & _ & -> & ->)|[(_ & _ & _ & _ & -> & ->)|(_ & _ & _ & c2 & st2 & Hsp & Hm)]]%gameLoop_inv.
  1,2: split; [lia|intros _; split_and!; [lia| |done]].
  { done. }
  { apply (tick_entities false). }
  destruct (movePhase_frame c2 st2) as (_ & _ & _ & Hl & _ & He).
  pose proof (movePhase_length c2 st2) as Hlen.
  rewrite <- Hm in Hl, He, Hlen. cbn [fst snd] in Hl, He, Hlen.
  apply spawnPhase_rate in Hsp as [Hle Hsame]. split; [lia|].
  intros [-> ->]%Hsame. by rewrite He, tick_entities.
Qed.

End frame_properties.

(** * Properties of the floor, the countdown and the spawn order *)

Section floor_properties.
Context {St : Type} `{GameStoreLaws St}.
Import FallingWord Refs Typing GameSession.
Implicit Types (p : Props.t) (d : Draws.t) (c : Refs.t) (st : St).

(** C10: the update step breaks the combo exactly when an active entity falls
    below the floor line; otherwise it leaves the session as it is.  The
    best combo, the score and the other counters are never touched. *)
Theorem floor_breaks_combo c st :
  session (movePhase c st).2 =
    (if decide (Exists (crashes (Refs.height c)) (entitiesRef c))
     then Session.breakCombo (session st) else session st) ∧
  same_clock (session st) (session (movePhase c st).2).
Proof.
  split; [|apply movePhase_frame].
  rewrite movePhase_spec. cbn [snd]. apply updateEntities_session.
Qed.

(** the entities the update step keeps are the active ones that stay
    above the floor, in their order, each moved down by its speed. *)
Theorem movePhase_keeps_survivors c st :
  entitiesRef (movePhase c st).1 =
    fall <$> filter (survives (Refs.height c)) (entitiesRef c).
Proof. apply movePhase_entitiesRef. Qed.

(** C11: an entity that falls below the floor leaves the list of the canvas
    but not the list of the store: the update step never calls
    [removeEntity], so [session.entities] keeps every fallen entity. *)
Theorem floor_entity_stays_in_store c st :
  Exists (crashes (Refs.height c)) (entitiesRef c) →
  (length (entitiesRef (movePhase c st).1) < length (entitiesRef c))%nat ∧
  entities (session (movePhase c st).2) = entities (session st).
Proof.
  intros (e & Hin & [Ha Hb])%Exists_exists. split; [|apply movePhase_frame].
  rewrite movePhase_entitiesRef, length_fmap.
  apply (length_filter_lt _ _ e); [done|]. intros [_ Hs]. congruence.
Qed.

End floor_properties.

Section countdown_properties.
Context {St : Type} `{GameStoreLaws St}.
Import FallingWord Refs Typing GameSession.
Implicit Types (p : Props.t) (d : Draws.t) (c : Refs.t) (st : St).

Lemma remainingTime_start : remainingTime 0 = 60.
Proof. by rewrite remainingTime_Z. Qed.

Lemma gameLoop_timeRemaining p now d c st o c' st' :
  Props.endless p = false → state (session st) = playing →
  gameLoop p now d c st = Ok (o, c', st') →
  timeRemaining (session st') = remainingTime (now - gameStartTimeRef c) ∧
  gameStartTimeRef c' = gameStartTimeRef c.
Proof.
  intros He Hs [(? & _)|[(_ & _ & Ht & _ & -> & ->)|(_ & _ & _ & c2 & st2 & Hsp & Hm)]]%gameLoop_inv;
    [done| |].
  - autorewrite with store. split; [|done].
    apply remainingTime_zero in Ht. pose proof (remainingTime_nonneg (now - gameStartTimeRef c)).
    reduce_session. lia.
  - rewrite He in Hsp. apply spawnPhase_frame in Hsp as (Hg & _ & [] & _).
    destruct (movePhase_frame c2 st2) as (Hg' & _ & _ & _ & [] & _).
    rewrite <- Hm in *. cbn [fst snd] in *. split; [|congruence].
    autorewrite with store in *. etrans; [done|]. etrans; [done|]. by reduce_session.
Qed.

(** the seconds shown are the time left of the sixty seconds, rounded
    up to whole seconds: never negative, never more than 60 once the loop
    has started, and 0 exactly from the sixtieth second on. *)
Theorem countdown_seconds elapsed :
  0 <= elapsed →
  0 <= remainingTime elapsed <= 60 ∧
  (remainingTime elapsed = 0 ↔ gameDuration <= elapsed) ∧
  (elapsed < gameDuration →
   1000 * (remainingTime elapsed - 1) < gameDuration - elapsed
     <= 1000 * remainingTime elapsed).
Proof.
  intros He. pose proof (remainingTime_nonneg elapsed).
  pose proof (remainingTime_upper elapsed He).
  pose proof (remainingTime_zero elapsed).
  split_and!; [done..|lia|]. intros Hlt. by apply remainingTime_seconds.
Qed.

(** during a level every frame shows the seconds left since the loop
    was started, computed from the clock and not from a count of frames. *)
Theorem frame_shows_remaining_time p now d c st o c' st' :
  Props.endless p = false → state (session st) = playing →
  gameLoop p now d c st = Ok (o, c', st') →
  timeRemaining (session st') = remainingTime (now - gameStartTimeRef c).
Proof. intros He Hs Hg. by eapply gameLoop_timeRemaining. Qed.

(** C9: whenever the loop is started again while playing (after a pause,
    or when a value the loop depends on changes), the countdown starts again
    from 60 seconds: the time already played is forgotten. *)
Theorem countdown_restarts p now d c st o c' st' :
  Props.endless p = false → state (session st) = playing →
  startLoop p now d c st = Ok (o, c', st') →
  timeRemaining (session st') = 60 ∧ gameStartTimeRef c' = now ∧ o = NextFrame.
Proof.
  intros He Hs. unfold startLoop.
  rewrite bool_decide_eq_false_2 by (by rewrite Hs; intros ?). intros Hg.
  destruct (gameLoop_timeRemaining _ _ _ _ _ _ _ _ He Hs Hg) as [Ht Hr].
  cbn [gameStartTimeRef set_gameStartTimeRef] in Ht, Hr.
  rewrite Z.sub_diag, remainingTime_start in Ht. split_and!; [done..|].
  apply gameLoop_inv in Hg as [(? & _)|[(_ & _ & Hd & _)|(_ & ? & _)]]; [done| |done].
  cbn [gameStartTimeRef set_gameStartTimeRef] in Hd. unfold gameDuration in Hd. lia.
Qed.

End countdown_properties.

Section spawn_properties.
Context {St : Type} `{GameStoreLaws St}.
Import FallingWord Refs Typing GameSession.
Implicit Types (p : Props.t) (d : Draws.t) (c : Refs.t) (st : St).

(** in a level the words are spawned in the order of the list: the
    spawn takes the word at the spawn index and advances the index; the new
    entity is active, has nothing typed, starts above the canvas and is worth
    ten points per character; it is appended to the entities of the canvas
    and of the store. *)
Theorem spawn_in_order p d c st w :
  Props.endless p = false → Props.words p !! wordIndexRef c = Some w →
  ∃ e c' st', spawnWord p d c st = Ok (c', st') ∧
    entitiesRef c' = entitiesRef c ++ [e] ∧
    wordIndexRef c' = S (wordIndexRef c) ∧
    word e = w ∧ typed e = EmptyString ∧ active e = true ∧ y e = (-30)%Q ∧
    points e = Z.of_nat (String.length w) * 10 ∧
    entities (session st') = entities (session st) ++ [toEntity e].
Proof.
  intros He Hw. do 3 eexists. split; [by apply spawnWord_level|].
  cbn [entitiesRef wordIndexRef set_entitiesRef set_wordIndexRef].
  split_and!; try done. autorewrite with store. by reduce_session.
Qed.

(** in a level, once every word of the list has been spawned, spawning
    does nothing. *)
Theorem spawn_exhausted p d c st :
  Props.endless p = false → (length (Props.words p) ≤ wordIndexRef c)%nat →
  spawnWord p d c st = Ok (c, st).
Proof. apply spawnWord_exhausted. Qed.

End spawn_properties.

(** ** The frame properties on the sample values *)

Section frame_witnesses.
Import FallingWord Refs Typing GameSession Sample.
Local Open Scope string_scope.

Lemma props_ok : words_ok props.
Proof. repeat constructor; discriminate. Qed.

(** "cat" one step above the floor line of a canvas 600 pixels high. *)
Definition low_cat : FallingWord.t := set_y 540 cat.

Lemma low_cat_crashes : crashes (Refs.height (refs [low_cat])) low_cat.
Proof. by split. Qed.

Lemma frame_stops_unless_playing_witness :
  gameLoop props 5000 draws (refs [cat]) (Session.pauseGame session0) =
    Ok (Stopped, refs [cat], Session.pauseGame session0).
Proof.
  refine (frame_stops_unless_playing (St := GameSession.t) props 5000 draws (refs [cat])
            (Session.pauseGame session0) _).
  discriminate.
Defined.

Lemma frame_timeout_witness :
  ∃ st', gameLoop props 61000 draws (refs [cat]) session0 = Ok (GameEnded true, refs [cat], st') ∧
    st' = Session.setTimeRemaining 0 session0 ∧ timeRemaining st' = 0.
Proof.
  refine (frame_timeout (St := GameSession.t) props 61000 draws (refs [cat]) session0 _ _ _);
    [reflexivity|reflexivity|discriminate].
Defined.

Lemma frame_invariant_witness :
  ∃ o c' st', gameLoop props 3500 draws (Refs.init 1000) session0 = Ok (o, c', st') ∧
    canvas_ok props c' ∧
    (o = NextFrame →
     Forall (λ e, active e = true ∧ (y e <= Refs.height (Refs.init 1000) - 60)%Q)
       (entitiesRef c')).
Proof.
  assert (∃ o c' st', gameLoop props 3500 draws (Refs.init 1000) session0 = Ok (o, c', st'))
    as (o & c' & st' & E) by (do 3 eexists; vm_compute; reflexivity).
  exists o, c', st'. split; [exact E|].
  exact (frame_invariant (St := GameSession.t) _ _ _ _ _ _ _ _
           props_ok (canvas_ok_init props 1000) E).
Defined.

Lemma frame_safe_witness :
  is_Ok (gameLoop props 3500 draws (Refs.init 1000) session0).
Proof.
  exact (frame_safe (St := GameSession.t) props 3500 draws (Refs.init 1000) session0
           (or_introl eq_refl)).
Defined.

Lemma frame_endless_empty_throws_witness :
  gameLoop (Props.mk [] true) 3500 draws (Refs.init 1000) session0 = Throw TypeError.
Proof.
  refine (frame_endless_empty_throws (St := GameSession.t) (Props.mk [] true) 3500 draws
            (Refs.init 1000) session0 _ _ _ _ _);
    [reflexivity..|reflexivity|simpl; lia].
Defined.

Lemma frame_spawn_rate_witness :
  ∃ o c' st', gameLoop props 1500 draws (refs [cat]) session0 = Ok (o, c', st') ∧
    (length (entitiesRef c') ≤ 1 + 1)%nat ∧
    (1500 - 0 <= 2000 ∨ (5 ≤ 1)%nat →
     (length (entitiesRef c') ≤ 1)%nat ∧ entities st' = [] ∧ lastSpawnRef c' = 0).
Proof.
  assert (∃ o c' st', gameLoop props 1500 draws (refs [cat]) session0 = Ok (o, c', st'))
    as (o & c' & st' & E) by (do 3 eexists; vm_compute; reflexivity).
  exists o, c', st'. split; [exact E|].
  exact (frame_spawn_rate (St := GameSession.t) _ _ _ _ _ _ _ _ E).
Defined.

Lemma floor_breaks_combo_witness :
  (movePhase (refs [low_cat]) (Session.incrementCombo session0)).2 =
    (if decide (Exists (crashes (Refs.height (refs [low_cat]))) [low_cat])
     then Session.breakCombo (Session.incrementCombo session0)
     else Session.incrementCombo session0) ∧
  same_clock (Session.incrementCombo session0)
    (movePhase (refs [low_cat]) (Session.incrementCombo session0)).2.
Proof.
  exact (floor_breaks_combo (St := GameSession.t) (refs [low_cat])
           (Session.incrementCombo session0)).
Defined.

Lemma movePhase_keeps_survivors_witness :
  entitiesRef (movePhase (refs [cat; low_cat; set_active false cat]) session0).1 =
    fall <$> filter (survives (Refs.height (refs [cat; low_cat; set_active false cat])))
               [cat; low_cat; set_active false cat].
Proof.
  exact (movePhase_keeps_survivors (St := GameSession.t)
           (refs [cat; low_cat; set_active false cat]) session0).
Defined.

Lemma floor_entity_stays_in_store_witness :
  (length (entitiesRef (movePhase (refs [low_cat]) (Session.addEntity (toEntity low_cat) session0)).1)
     < 1)%nat ∧
  entities (movePhase (refs [low_cat]) (Session.addEntity (toEntity low_cat) session0)).2
    = [toEntity low_cat].
Proof.
  refine (floor_entity_stays_in_store (St := GameSession.t) (refs [low_cat])
            (Session.addEntity (toEntity low_cat) session0) _).
  apply Exists_cons_hd. exact low_cat_crashes.
Defined.

Lemma countdown_seconds_witness :
  0 <= remainingTime 30500 <= 60 ∧
  (remainingTime 30500 = 0 ↔ gameDuration <= 30500) ∧
  (30500 < gameDuration →
   1000 * (remainingTime 30500 - 1) < gameDuration - 30500 <= 1000 * remainingTime 30500).
Proof. apply (countdown_seconds 30500). lia. Defined.

Lemma frame_shows_remaining_time_witness :
  ∃ o c' st', gameLoop props 31500 draws (refs [cat]) session0 = Ok (o, c', st') ∧
    timeRemaining st' = 30.
Proof.
  assert (∃ o c' st', gameLoop props 31500 draws (refs [cat]) session0 = Ok (o, c', st'))
    as (o & c' & st' & E) by (do 3 eexists; vm_compute; reflexivity).
  exists o, c', st'. split; [exact E|].
  exact (frame_shows_remaining_time (St := GameSession.t) props 31500 draws (refs [cat])
           session0 _ _ _ eq_refl eq_refl E).
Defined.

Lemma countdown_restarts_witness :
  ∃ o c' st', startLoop props 45000 draws (refs [cat]) (Session.setTimeRemaining 20 session0)
                = Ok (o, c', st') ∧
    timeRemaining st' = 60 ∧ gameStartTimeRef c' = 45000 ∧ o = NextFrame.
Proof.
  assert (∃ o c' st', startLoop props 45000 draws (refs [cat])
                        (Session.setTimeRemaining 20 session0) = Ok (o, c', st'))
    as (o & c' & st' & E) by (do 3 eexists; vm_compute; reflexivity).
  exists o, c', st'. split; [exact E|].
  exact (countdown_restarts (St := GameSession.t) props 45000 draws (refs [cat])
           (Session.setTimeRemaining 20 session0) _ _ _ eq_refl eq_refl E).
Defined.

Lemma spawn_in_order_witness :
  ∃ e c' st', spawnWord props draws (Refs.init 1000) session0 = Ok (c', st') ∧
    entitiesRef c' = [e] ∧ wordIndexRef c' = 1%nat ∧
    word e = "cat" ∧ typed e = EmptyString ∧ active e = true ∧ y e = (-30)%Q ∧
    points e = 30 ∧ entities st' = [toEntity e].
Proof.
  exact (spawn_in_order (St := GameSession.t) props draws (Refs.init 1000) session0 "cat"
           eq_refl eq_refl).
Defined.

Lemma spawn_exhausted_witness :
  spawnWord props draws (set_wordIndexRef 2 (Refs.init 1000)) session0 =
    Ok (set_wordIndexRef 2 (Refs.init 1000), session0).
Proof.
  refine (spawn_exhausted (St := GameSession.t) props draws
            (set_wordIndexRef 2 (Refs.init 1000)) session0 eq_refl _).
  simpl. lia.
Defined.

End frame_witnesses.
