(* ===== verification/Config.v ===== *)
(** * Config: the constants of [config/index.ts]

    [GAME_CONFIG], [KEYBOARD_LAYOUT] and [MODE_CONFIG] as records and
    association lists with the values of the source; the texts of
    [MODE_CONFIG] are the bytes of the source file.  No module of the program
    imports these constants: the canvas, the store and the helpers write the
    numbers out.  The theorems compare the constants with those numbers, via
    the definitions of [Metrics], [Store] and [GameCanvas], and show where
    they differ. *)

From Stdlib Require Import ZArith QArith Lqa Lia String Ascii.
From stdpp Require Import base tactics option list strings.
From S2P Require Import Prelude Types Metrics Store PlayerSlice GameCanvas.

#[local] Open Scope Z_scope.
#[local] Open Scope string_scope.

(** ** [GAME_CONFIG] *)

Record StarThresholds : Type := mkStarThresholds {
  accuracy : list Q;
  wpm : list Q;
}.

Record GameConfig : Type := mkGameConfig {
  GAME_DURATION : Z;
  SPAWN_INTERVAL : Z;
  MIN_SPAWN_INTERVAL : Z;
  MAX_WORDS_ON_SCREEN : nat;
  WORD_FALL_SPEED : Q;
  WORD_POINTS_PER_CHAR : Z;
  COMBO_MULTIPLIER : Q;
  DIFFICULTY_SCALE_FACTOR : Q;
  STAR_THRESHOLDS : StarThresholds;
  EXP_PER_LEVEL : Z;
  INITIAL_COINS : Z;
  CANVAS_PADDING : Z;
  DANGER_ZONE_HEIGHT : Z;
}.

Definition GAME_CONFIG : GameConfig := {|
  GAME_DURATION := 60;
  SPAWN_INTERVAL := 2000;
  MIN_SPAWN_INTERVAL := 800;
  MAX_WORDS_ON_SCREEN := 5;
  WORD_FALL_SPEED := 3 # 2;
  WORD_POINTS_PER_CHAR := 10;
  COMBO_MULTIPLIER := 1 # 10;
  DIFFICULTY_SCALE_FACTOR := 1 # 10;
  STAR_THRESHOLDS := {| accuracy := [70; 85; 95]%Q; wpm := [20; 30; 40]%Q |};
  EXP_PER_LEVEL := 1000;
  INITIAL_COINS := 0;
  CANVAS_PADDING := 50;
  DANGER_ZONE_HEIGHT := 60;
|}.

(** ** [KEYBOARD_LAYOUT] *)

Inductive Finger : Type :=
  | leftPinky | leftRing | leftMiddle | leftIndex | thumbs
  | rightIndex | rightMiddle | rightRing | rightPinky.

#[export] Instance Finger_eq_dec : EqDecision Finger.
Proof. solve_decision. Defined.

Definition fingers : list Finger :=
  [leftPinky; leftRing; leftMiddle; leftIndex; thumbs;
   rightIndex; rightMiddle; rightRing; rightPinky].

(** The name of a finger, as the key of [fingerMap] and the result of
    [getFingerForKey]. *)
Definition fingerName (f : Finger) : string :=
  match f with
  | leftPinky => "leftPinky" | leftRing => "leftRing" | leftMiddle => "leftMiddle"
  | leftIndex => "leftIndex" | thumbs => "thumbs" | rightIndex => "rightIndex"
  | rightMiddle => "rightMiddle" | rightRing => "rightRing" | rightPinky => "rightPinky"
  end.

(** The key of the backslash. *)
Definition backslash : string := String (ascii_of_nat 92) EmptyString.

Record KeyboardLayout : Type := mkKeyboardLayout {
  rows : list (list string);
  homeRow : list string;
  fingerMap : Finger → list string;
}.

Definition KEYBOARD_LAYOUT : KeyboardLayout := {|
  rows :=
    [ ["`"; "1"; "2"; "3"; "4"; "5"; "6"; "7"; "8"; "9"; "0"; "-"; "="];
      ["q"; "w"; "e"; "r"; "t"; "y"; "u"; "i"; "o"; "p"; "["; "]"; "\"];
      ["a"; "s"; "d"; "f"; "g"; "h"; "j"; "k"; "l"; ";"; "'"];
      ["z"; "x"; "c"; "v"; "b"; "n"; "m"; ","; "."; "/"] ];
  homeRow := ["a"; "s"; "d"; "f"; "j"; "k"; "l"; ";"];
  fingerMap := λ f,
    match f with
    | leftPinky => ["`"; "1"; "q"; "a"; "z"]
    | leftRing => ["2"; "w"; "s"; "x"]
    | leftMiddle => ["3"; "e"; "d"; "c"]
    | leftIndex => ["4"; "5"; "r"; "t"; "f"; "g"; "v"; "b"]
    | thumbs => [" "]
    | rightIndex => ["6"; "7"; "y"; "u"; "h"; "j"; "n"; "m"]
    | rightMiddle => ["8"; "i"; "k"; ","]
    | rightRing => ["9"; "o"; "l"; "."]
    | rightPinky => ["0"; "-"; "="; "p"; "["; "]"; "\"; ";"; "'"; "/"]
    end;
|}.

(** ** [MODE_CONFIG] *)

Record ModeInfo : Type := mkModeInfo {
  name : string;
  description : string;
  icon : string;
  color : string;
}.

Definition MODE_CONFIG : list (GameMode * ModeInfo) :=
  [
    (gravity,
     {| name := "é‡åŠ›ä¸‹è½";
        description := "å•è¯ä»ä¸Šæ–¹æ‰è½ï¼Œåœ¨å®ƒä»¬åˆ°è¾¾åº•éƒ¨å‰è¾“å…¥ï¼";
        icon := "â¬‡ï¸";
        color := "#ef4444" |});
    (runner,
     {| name := "æ¨ªå‘è·‘é…·";
        description := "éšœç¢ç‰©ä»å³ä¾§é€¼è¿‘ï¼Œå¿«é€Ÿè¾“å…¥æ¥èº²é¿ï¼";
        icon := "ğŸƒ";
        color := "#22c55e" |});
    (bubble,
     {| name := "æ°”æ³¡ä¸Šå‡";
        description := "æ°”æ³¡ä»ä¸‹æ–¹å‡èµ·ï¼Œåœ¨å®ƒä»¬é£˜èµ°å‰æˆ³ç ´ï¼";
        icon := "ğŸ«§";
        color := "#3b82f6" |});
    (boss,
     {| name := "BOSSé—®ç­”";
        description := "å›ç­”BOSSçš„é—®é¢˜æ¥å‡»è´¥å®ƒï¼";
        icon := "ğŸ‘¹";
        color := "#a855f7" |})
  ].

(** [MODE_CONFIG[mode]] *)
Definition modeInfo (m : GameMode) : option ModeInfo :=
  snd <$> List.find (λ e, bool_decide (e.1 = m)) MODE_CONFIG.

(** * The constants and the numbers of the program *)

Section constants.
Import Metrics FallingWord Typing.
#[local] Open Scope Q_scope.

(** The canvas plays [GAME_DURATION] seconds, spawns when more than
    [SPAWN_INTERVAL] milliseconds have passed and fewer than
    [MAX_WORDS_ON_SCREEN] words fall, pays [WORD_POINTS_PER_CHAR] points for
    a character with [COMBO_MULTIPLIER] per combo, keeps [CANVAS_PADDING] to
    the left of a word and breaks the combo [DANGER_ZONE_HEIGHT] above the
    bottom. *)
Lemma canvas_uses_config {St : Type} `{GameStore St}
    (p : Props.t) (now : Z) (d : Draws.t) (c : Refs.t) (st : St)
    (w : string) (e : FallingWord.t) (sc : Z) (h : Q) :
  gameDuration = (GAME_DURATION GAME_CONFIG * 1000)%Z ∧
  spawnPhase p now d c st =
    (if bool_decide (now - Refs.lastSpawnRef c > SPAWN_INTERVAL GAME_CONFIG)%Z &&
        bool_decide (length (Refs.entitiesRef c) < MAX_WORDS_ON_SCREEN GAME_CONFIG)%nat
     then '(c', st') ← spawnWord p d c st; Ok (Refs.set_lastSpawnRef now c', st')
     else Ok (c, st)) ∧
  points (newEntity d w c) =
    (Z.of_nat (String.length w) * WORD_POINTS_PER_CHAR GAME_CONFIG)%Z ∧
  comboPoints e sc =
    inject_Z (points e) * (1 + inject_Z sc * COMBO_MULTIPLIER GAME_CONFIG) ∧
  belowFloor h e = (y e >? h - inject_Z (DANGER_ZONE_HEIGHT GAME_CONFIG))%js ∧
  (0 <= Draws.rX d → 150 <= Refs.width c →
   inject_Z (CANVAS_PADDING GAME_CONFIG) <= x (newEntity d w c)).
Proof.
  split_and!; try reflexivity. intros Hr Hw.
  cbn [x newEntity CANVAS_PADDING GAME_CONFIG]. change (inject_Z 50) with 50.
  assert (0 <= Draws.rX d * (Refs.width c - 150)) by (apply Qmult_le_0_compat; lra).
  lra.
Qed.

(** The helpers and the stores count [EXP_PER_LEVEL] experience points for
    a level and start a player with [INITIAL_COINS] coins; the accuracies
    of [STAR_THRESHOLDS] are those of [calculateStars]. *)
Lemma helpers_use_config (exp : Z) (uuid : string) (now : Z) (a wpm_ : Q) :
  getLevelFromExp (inject_Z exp) = (exp / EXP_PER_LEVEL GAME_CONFIG + 1)%Z ∧
  PlayerData.coins (Player.initialPlayer uuid now) = INITIAL_COINS GAME_CONFIG ∧
  (40 <= wpm_ →
   calculateStars a wpm_ =
     Z.of_nat (length (List.filter (λ t, Qle_bool t a)
                         (accuracy (STAR_THRESHOLDS GAME_CONFIG))))).
Proof.
  split_and!; [apply getLevelFromExp_Z|done|]. intros Hw.
  unfold calculateStars. cbn [accuracy STAR_THRESHOLDS GAME_CONFIG].
  cbn [List.filter].
  case_qle 95 a; case_qle 85 a; case_qle 70 a; case_qle 40 wpm_; case_qle 30 wpm_;
    simpl; try done; lra.
Qed.

(** Two constants the program does not follow: a word never falls as fast
    as [WORD_FALL_SPEED], and the first star needs no speed at all, where
    [STAR_THRESHOLDS] asks twenty words per minute. *)
Lemma config_not_followed (d : Draws.t) (w : string) (c : Refs.t) (a : Q) :
  (0 <= Draws.rSpeed d < 1 →
   1 <= speed (newEntity d w c) < WORD_FALL_SPEED GAME_CONFIG) ∧
  (70 <= a → (1 <= calculateStars a 0)%Z) ∧
  head (wpm (STAR_THRESHOLDS GAME_CONFIG)) = Some 20.
Proof.
  split_and!; [|intros Ha|done].
  - intros Hr. simpl. unfold WORD_FALL_SPEED, GAME_CONFIG. lra.
  - destruct (Z.eq_dec (calculateStars a 0) 0%Z) as [H0%calculateStars_0|]; [lra|].
    pose proof (calculateStars_range a 0). lia.
Qed.

End constants.

(** ** The layout *)

Section layout.

(** The home row is part of the third row of keys. *)
Lemma homeRow_in_third_row :
  homeRow KEYBOARD_LAYOUT ⊆ default [] (rows KEYBOARD_LAYOUT !! 2%nat).
Proof.
  intros k Hk. simpl in *.
  repeat (apply elem_of_cons in Hk as [->|Hk]; [by repeat constructor|]).
  by apply elem_of_nil in Hk.
Qed.

(** Every mode has its entry, and the colours differ. *)
Lemma modeInfo_total m : is_Some (modeInfo m).
Proof. destruct m; by eexists. Qed.

Lemma modeInfo_color_inj m1 m2 i1 i2 :
  modeInfo m1 = Some i1 → modeInfo m2 = Some i2 → color i1 = color i2 → m1 = m2.
Proof.
  destruct m1, m2; intros H1 H2 Hc; try done;
    vm_compute in H1, H2; simplify_eq; vm_compute in Hc; discriminate.
Qed.

End layout.
