(* ===== verification/Utils.v ===== *)
(** * Utils: the helpers of [utils/index.ts] that are not formulas

    The random helpers ([generateRandomWord], [shuffleArray],
    [getRandomItem]) take [Math.random] as a function of the number of the
    call; [formatTime] and [formatNumber] print integers with stdpp's
    [pretty], the quotient of [formatNumber] rounded to the nearest number of
    53 significant bits before [toFixed] prints it; [debounce] and
    [throttle] are machines over the calls of the wrapper and the timers of
    the browser; [getFingerForKey] is the lookup in the table of the source.
    The formulas of the same file are in [Metrics]. *)

From Stdlib Require Import ZArith QArith Qround Qabs Qpower Lqa Lia String Ascii Sorted.
From stdpp Require Import base tactics option list strings pretty.
From S2P Require Import Prelude Config.

#[local] Open Scope Z_scope.
#[local] Open Scope string_scope.

(** ** Random helpers *)

(** [Math.floor(Math.random() * n)] *)
Definition randomIndex (r : Q) (n : nat) : Z :=
  Math_floor (r * inject_Z (Z.of_nat n)).

(** [array[Math.floor(Math.random() * array.length)]]; [None] is
    [undefined]. *)
Definition getRandomItem {T : Type} (r : Q) (array : list T) : option T :=
  nthZ array (randomIndex r (length array)).

(** The loop of [generateRandomWord]: [n] more characters, the next draw
    being the [k]-th; an undefined element is appended as its name. *)
Fixpoint generateRandomWord_loop (random : nat → Q) (chars : list string)
    (n k : nat) (word : string) : string :=
  match n with
  | O => word
  | S n' =>
      generateRandomWord_loop random chars n' (S k)
        (word +:+ default "undefined" (nthZ chars (randomIndex (random k) (length chars))))
  end.

Definition generateRandomWord (random : nat → Q) (chars : list string)
    (length : Z) : string :=
  generateRandomWord_loop random chars (Z.to_nat length) 0 EmptyString.

(** [[shuffled[i], shuffled[j]] = [shuffled[j], shuffled[i]]] for indices
    of the array. *)
Definition swap {T : Type} (i j : nat) (l : list T) : list T :=
  match l !! i, l !! j with
  | Some a, Some b => <[i := b]> (<[j := a]> l)
  | _, _ => l
  end.

(** The loop of [shuffleArray] from index [i] down to 1, the next draw being
    the [k]-th. *)
Fixpoint shuffleArray_loop {T : Type} (random : nat → Q) (i k : nat)
    (shuffled : list T) : list T :=
  match i with
  | O => shuffled
  | S i' =>
      let j := Z.to_nat (randomIndex (random k) (i + 1)) in
      shuffleArray_loop random i' (S k) (swap i j shuffled)
  end.

Definition shuffleArray {T : Type} (random : nat → Q) (array : list T) : list T :=
  shuffleArray_loop random (length array - 1) 0 array.

(** [crypto.randomUUID()], the identifier being an input. *)
Definition generateId (randomUUID : string) : string := randomUUID.

(** ** Printing *)

(** [s.padStart(n, c)] for a one-character filler. *)
Definition padStart (n : nat) (c : ascii) (s : string) : string :=
  string_of_list_ascii (replicate (n - String.length s) c) +:+ s.

(** [formatTime(seconds)] on integers: [%] has the sign of the dividend. *)
Definition formatTime (seconds : Z) : string :=
  let mins := Math_floor (inject_Z seconds / 60) in
  let secs := Z.rem seconds 60 in
  pretty mins +:+ ":" +:+ padStart 2 "0" (pretty secs).

(** ** Number values and [formatNumber] *)

(** [q * 2^e] *)
Definition scale (q : Q) (e : Z) : Q :=
  if (0 <=? e)%Z then q * inject_Z (2 ^ e) else q / inject_Z (2 ^ (- e)).

(** The integer nearest to [q], a tie to the even one. *)
Definition roundEven (q : Q) : Z :=
  let f := Math_floor q in
  let r := (q - inject_Z f)%Q in
  if Qltb r (1 # 2) then f
  else if Qltb (1 # 2) r then f + 1
  else if Z.even f then f else f + 1.

(** The exponent [e] of a positive number: [2^e <= q < 2^(e+1)]. *)
Definition exponent (q : Q) : Z :=
  let e := Z.log2 (Qnum q) - Z.log2 (Z.pos (Qden q)) in
  if Qle_bool 1 (scale q (- e)) then e else e - 1.

(** The number value of a rational: the nearest number with 53 significant
    bits, a tie to the even one.  The range of the exponent is not
    modelled. *)
Definition double (q : Q) : Q :=
  if Qeq_bool q 0 then 0%Q
  else
    let a := Qabs q in
    let e := exponent a - 52 in
    let v := scale (inject_Z (roundEven (scale a (- e)))) e in
    if Qle_bool 0 q then v else (- v)%Q.

(** [x.toFixed(f)] for numbers below 10^21: the integer nearest to
    [|x| * 10^f], a tie away from zero, printed with at least [f + 1]
    digits and a point before the last [f]. *)
Definition toFixed (f : nat) (x : Q) : string :=
  let neg := negb (Qle_bool 0 x) in
  let n := Math_floor ((if neg then - x else x) * inject_Z (10 ^ Z.of_nat f) + (1 # 2)) in
  let m := padStart (S f) "0" (pretty n) in
  let k := String.length m in
  (if neg then "-" else "") +:+
  (if bool_decide (f = 0%nat) then m
   else substring 0 (k - f) m +:+ "." +:+ substring (k - f) f m).

(** [formatNumber(num)] on integers. *)
Definition formatNumber (num : Z) : string :=
  if (1000000 <=? num)%Z then toFixed 1 (double (inject_Z num / 1000000)) +:+ "M"
  else if (1000 <=? num)%Z then toFixed 1 (double (inject_Z num / 1000)) +:+ "K"
  else pretty num.

(** ** [debounce] and [throttle] *)

Module Debounce.
Section debounce.
Context {A : Type}.

(** The closure's [timeoutId], the timers of the browser that are armed
    (identifier, time due, arguments), the next identifier, and the
    arguments [func] was called with, oldest first. *)
Record t : Type := mk {
  timeoutId : option nat;
  timers : list (nat * Z * A);
  next : nat;
  called : list A;
}.

Definition init : t := mk None [] 1 [].

(** [clearTimeout(id)] *)
Definition clearTimeout (id : nat) (ts : list (nat * Z * A)) : list (nat * Z * A) :=
  List.filter (λ e, negb (bool_decide (e.1.1 = id))) ts.

(** A call of the wrapper at time [now]. *)
Definition call (wait now : Z) (args : A) (s : t) : t :=
  let ts := match timeoutId s with
            | Some id => clearTimeout id (timers s)
            | None => timers s
            end in
  mk (Some (next s)) (ts ++ [(next s, now + wait, args)]) (S (next s)) (called s).

(** The browser at time [now]: the timers that are due run [func]. *)
Definition fire (now : Z) (s : t) : t :=
  let due := List.filter (λ e, bool_decide (e.1.2 <= now)) (timers s) in
  let rest := List.filter (λ e, negb (bool_decide (e.1.2 <= now))) (timers s) in
  mk (timeoutId s) rest (next s) (called s ++ (snd <$> due)).

Inductive Event : Type :=
| Call (now : Z) (args : A)
| Fire (now : Z).

Definition step (wait : Z) (s : t) (ev : Event) : t :=
  match ev with
  | Call now args => call wait now args s
  | Fire now => fire now s
  end.

Definition run (wait : Z) (evs : list Event) (s : t) : t := foldl (step wait) s evs.

End debounce.
Arguments t : clear implicits.
Arguments Event : clear implicits.
End Debounce.

Module Throttle.
Section throttle.
Context {A : Type}.

(** The closure's [inThrottle], the times at which the armed timers reset
    it, and the arguments [func] was called with, oldest first. *)
Record t : Type := mk {
  inThrottle : bool;
  timers : list Z;
  called : list (Z * A);
}.

Definition init : t := mk false [] [].

(** A call of the wrapper at time [now]. *)
Definition call (limit now : Z) (args : A) (s : t) : t :=
  if negb (inThrottle s)
  then mk true (timers s ++ [now + limit]) (called s ++ [(now, args)])
  else s.

(** The browser at time [now]: a timer that is due resets the flag. *)
Definition fire (now : Z) (s : t) : t :=
  let due := List.filter (λ d, bool_decide (d <= now)) (timers s) in
  let rest := List.filter (λ d, negb (bool_decide (d <= now))) (timers s) in
  mk (if due is [] then inThrottle s else false) rest (called s).

Inductive Event : Type :=
| Call (now : Z) (args : A)
| Fire (now : Z).

Definition step (limit : Z) (s : t) (ev : Event) : t :=
  match ev with
  | Call now args => call limit now args s
  | Fire now => fire now s
  end.

Definition run (limit : Z) (evs : list Event) (s : t) : t := foldl (step limit) s evs.

End throttle.
Arguments t : clear implicits.
Arguments Event : clear implicits.
End Throttle.

(** ** [getFingerForKey] *)

(** The table of [getFingerForKey], in the order of the source. *)
Definition fingerMap : list (string * string) :=
  [ ("`", "leftPinky"); ("1", "leftPinky"); ("q", "leftPinky"); ("a", "leftPinky");
    ("z", "leftPinky");
    ("2", "leftRing"); ("w", "leftRing"); ("s", "leftRing"); ("x", "leftRing");
    ("3", "leftMiddle"); ("e", "leftMiddle"); ("d", "leftMiddle"); ("c", "leftMiddle");
    ("4", "leftIndex"); ("5", "leftIndex"); ("r", "leftIndex"); ("t", "leftIndex");
    ("f", "leftIndex"); ("g", "leftIndex"); ("v", "leftIndex"); ("b", "leftIndex");
    (" ", "thumbs");
    ("6", "rightIndex"); ("7", "rightIndex"); ("y", "rightIndex"); ("u", "rightIndex");
    ("h", "rightIndex"); ("j", "rightIndex"); ("n", "rightIndex"); ("m", "rightIndex");
    ("8", "rightMiddle"); ("i", "rightMiddle"); ("k", "rightMiddle"); (",", "rightMiddle");
    ("9", "rightRing"); ("o", "rightRing"); ("l", "rightRing"); (".", "rightRing");
    ("0", "rightPinky"); ("-", "rightPinky"); ("=", "rightPinky");
    ("p", "rightPinky"); ("[", "rightPinky"); ("]", "rightPinky"); (backslash, "rightPinky");
    (";", "rightPinky"); ("'", "rightPinky"); ("/", "rightPinky") ].

(** [table[key]] for the keys the table itself defines. *)
Fixpoint assoc (key : string) (table : list (string * string)) : option string :=
  match table with
  | [] => None
  | (k, v) :: rest => if bool_decide (k = key) then Some v else assoc key rest
  end.

(** [fingerMap[key.toLowerCase()] || 'unknown'] *)
Definition getFingerForKey (key : string) : string :=
  match assoc (toLowerCase key) fingerMap with
  | Some f => if bool_decide (f = EmptyString) then "unknown" else f
  | None => "unknown"
  end.

(** * Theorems *)

(** ** Random helpers *)

Section random.
Context (random : nat → Q) (Hrandom : ∀ k, (0 <= random k < 1)%Q).

Lemma randomIndex_range (r : Q) (n : nat) :
  (0 <= r < 1)%Q → (0 < n)%nat → 0 <= randomIndex r n < Z.of_nat n.
Proof. apply random_index. Qed.

(** [getRandomItem] gives an element of an array that is not empty, and
    [undefined] on the empty array. *)
Lemma getRandomItem_elem {T} (r : Q) (array : list T) :
  (0 <= r < 1)%Q →
  match getRandomItem r array with
  | Some x => x ∈ array
  | None => array = []
  end.
Proof.
  intros Hr. destruct array as [|a l]; [unfold getRandomItem; by rewrite (nthZ_nil (A := T))|].
  destruct (nthZ_random (a :: l) r Hr) as (x & Hx & Hin); [done|].
  unfold getRandomItem, randomIndex. by rewrite Hx.
Qed.

Lemma generateRandomWord_loop_length chars n k word :
  chars ≠ [] → Forall (λ c, String.length c = 1%nat) chars →
  String.length (generateRandomWord_loop random chars n k word) =
    (String.length word + n)%nat.
Proof.
  intros Hne Hch. revert k word. induction n as [|n IH]; intros k word; simpl; [lia|].
  destruct (nthZ_random chars (random k) (Hrandom k) Hne) as (c & Hc & Hin).
  unfold randomIndex. rewrite IH, Hc. simpl. rewrite app_length_str.
  eapply Forall_forall in Hch; [|done]. lia.
Qed.

(** Without characters to choose from, every step appends the name of
    [undefined]. *)
Lemma generateRandomWord_loop_no_chars n k word :
  generateRandomWord_loop random [] n k word =
    word +:+ String.concat EmptyString (replicate n "undefined").
Proof.
  revert k word. induction n as [|n IH]; intros k word;
    cbn [generateRandomWord_loop replicate].
  - simpl. by rewrite app_empty_r.
  - rewrite IH, (nthZ_nil (A := string)). cbn [default].
    rewrite app_assoc_str. f_equal. simpl. by destruct n.
Qed.

Lemma swap_Permutation {T} i j (l : list T) : swap i j l ≡ₚ l.
Proof.
  unfold swap. destruct (l !! i) as [a|] eqn:Hi, (l !! j) as [b|] eqn:Hj; try done.
  by apply Permutation_insert_swap.
Qed.

Lemma swap_length {T} i j (l : list T) : length (swap i j l) = length l.
Proof. apply Permutation_length, swap_Permutation. Qed.

(** A swap of the loop exchanges two elements of the array. *)
Lemma swap_in_range {T} i k (l : list T) :
  (i < length l)%nat →
  let j := Z.to_nat (randomIndex (random k) (i + 1)) in
  (j ≤ i)%nat ∧ ∃ a b, l !! i = Some a ∧ l !! j = Some b ∧
    swap i j l = <[i := b]> (<[j := a]> l).
Proof.
  intros Hi j. assert (j ≤ i)%nat as Hj.
  { pose proof (randomIndex_range (random k) (i + 1) (Hrandom k)). lia. }
  split; [done|].
  destruct (lookup_lt_is_Some_2 l i Hi) as [a Ha].
  destruct (lookup_lt_is_Some_2 l j ltac:(lia)) as [b Hb].
  exists a, b. unfold swap. by rewrite Ha, Hb.
Qed.

Lemma shuffleArray_loop_Permutation {T} i k (l : list T) :
  shuffleArray_loop random i k l ≡ₚ l.
Proof.
  revert k l. induction i as [|i IH]; intros k l; simpl; [done|].
  by rewrite IH, swap_Permutation.
Qed.

End random.

(** [generateRandomWord] builds a word of [length] characters from single
    characters. *)
Theorem generateRandomWord_length (random : nat → Q) (chars : list string) (len : Z) :
  (∀ k, (0 <= random k < 1)%Q) → chars ≠ [] →
  Forall (λ c, String.length c = 1%nat) chars →
  String.length (generateRandomWord random chars len) = Z.to_nat len.
Proof. intros Hr Hne Hch. unfold generateRandomWord. by rewrite generateRandomWord_loop_length. Qed.

Lemma generateRandomWord_length_witness :
  String.length (generateRandomWord (λ k, if Nat.even k then 0 else 3 # 4)%Q
                   ["a"; "s"; "d"; "f"] 5) = 5%nat.
Proof.
  refine (generateRandomWord_length _ ["a"; "s"; "d"; "f"] 5 _ _ _).
  - intros k. destruct (Nat.even k); lra.
  - discriminate.
  - repeat (apply Forall_cons_2; [reflexivity|]). apply Forall_nil_2.
Defined.

(** [generateRandomWord] on an empty array of characters does not give an
    empty word but the text of [undefined], once per position. *)
Theorem generateRandomWord_no_chars (random : nat → Q) (len : Z) :
  generateRandomWord random [] len =
    String.concat EmptyString (replicate (Z.to_nat len) "undefined").
Proof. unfold generateRandomWord. by rewrite generateRandomWord_loop_no_chars. Qed.

(** [shuffleArray] returns a rearrangement of the array: the same elements,
    each as often as before. *)
Theorem shuffleArray_Permutation {T : Type} (random : nat → Q) (array : list T) :
  (∀ k, (0 <= random k < 1)%Q) → shuffleArray random array ≡ₚ array.
Proof. intros _. apply shuffleArray_loop_Permutation. Qed.

Lemma shuffleArray_Permutation_witness :
  shuffleArray (λ k, if Nat.even k then 0 else 3 # 4)%Q ["a"; "b"; "c"; "d"] ≡ₚ
    ["a"; "b"; "c"; "d"].
Proof.
  refine (shuffleArray_Permutation _ ["a"; "b"; "c"; "d"] _).
  intros k. destruct (Nat.even k); lra.
Defined.

(** ** Printing *)

Section printing.

Lemma length_string_of_list_ascii l :
  String.length (string_of_list_ascii l) = length l.
Proof. induction l as [|a l IH]; simpl; by f_equal. Qed.

Lemma padStart_short n c s :
  (String.length s < n)%nat →
  padStart n c s = string_of_list_ascii (replicate (n - String.length s) c) +:+ s ∧
  String.length (padStart n c s) = n.
Proof.
  intros Hn. split; [done|]. unfold padStart.
  rewrite app_length_str, length_string_of_list_ascii, length_replicate. lia.
Qed.

Lemma padStart_long n c s : (n ≤ String.length s)%nat → padStart n c s = s.
Proof.
  intros Hn. unfold padStart. by replace (n - String.length s)%nat with 0%nat by lia.
Qed.

Lemma pretty_digit (z : Z) :
  0 <= z < 10 → String.length (pretty z) = 1%nat.
Proof.
  intros Hz.
  assert (z ∈ (Z.of_nat <$> seq 0 10)) as Hin.
  { apply list_elem_of_fmap. exists (Z.to_nat z). split; [lia|].
    apply elem_of_seq. lia. }
  simpl in Hin. repeat (apply elem_of_cons in Hin as [->|Hin]; [done|]).
  by apply elem_of_nil in Hin.
Qed.

Lemma pretty_two_digits (z : Z) :
  10 <= z < 100 → String.length (pretty z) = 2%nat.
Proof.
  intros Hz. destruct z as [|p|p]; try lia.
  change (pretty (Z.pos p)) with (pretty (N.pos p)). unfold pretty, pretty_N.
  rewrite decide_False by done.
  rewrite pretty_N_go_step by lia. rewrite pretty_N_go_step by (apply N.div_str_pos; lia).
  rewrite N.Div0.div_div, N.div_small by lia. by rewrite pretty_N_go_0.
Qed.

End printing.

(** [formatTime] prints the minutes, a colon and the seconds of the minute
    with two digits. *)
Theorem formatTime_spec (seconds : Z) :
  0 <= seconds →
  formatTime seconds =
    pretty (seconds / 60) +:+ ":" +:+
    (if decide (seconds mod 60 < 10) then "0" +:+ pretty (seconds mod 60)
     else pretty (seconds mod 60)) ∧
  String.length (formatTime seconds) = (String.length (pretty (seconds / 60)%Z) + 3)%nat.
Proof.
  intros Hs. unfold formatTime.
  change (Math_floor _) with (Math_floor (inject_Z seconds / inject_Z 60)).
  rewrite Math_floor_div.
  rewrite Z.rem_mod_nonneg by lia.
  pose proof (Z.mod_pos_bound seconds 60 ltac:(lia)) as Hm.
  case_decide.
  - destruct (padStart_short 2 "0" (pretty (seconds `mod` 60))) as [-> _];
      rewrite ?(pretty_digit (seconds `mod` 60)) by lia; [lia|]. split; [done|].
    rewrite !app_length_str, (pretty_digit (seconds `mod` 60)) by lia.
    rewrite length_string_of_list_ascii, length_replicate.
    change (String.length ":") with 1%nat. change (String.length "0") with 1%nat. lia.
  - assert (String.length (pretty (seconds `mod` 60)) = 2%nat) as Hl
      by (apply pretty_two_digits; lia).
    rewrite padStart_long by (rewrite Hl; lia). split; [done|].
    rewrite !app_length_str, Hl. change (String.length ":") with 1%nat. lia.
Qed.

Lemma formatTime_spec_witness :
  formatTime 125 =
    pretty (125 / 60) +:+ ":" +:+
    (if decide (125 mod 60 < 10) then "0" +:+ pretty (125 mod 60)
     else pretty (125 mod 60)) ∧
  String.length (formatTime 125) = (String.length (pretty (125 / 60)%Z) + 3)%nat.
Proof. refine (formatTime_spec 125 _). lia. Defined.

(** [formatTime] of a negative number of seconds: the minutes are rounded
    down and the seconds keep their sign. *)
Example formatTime_negative : formatTime (-5) = "-1:-5" ∧ formatTime 3725 = "62:05".
Proof. by vm_compute. Qed.

(** ** Number values and [formatNumber] *)

Section numbers.
#[local] Open Scope Q_scope.

Lemma scale_Qpower q e : scale q e == q * 2 ^ e.
Proof.
  unfold scale. destruct (Z.leb_spec 0 e) as [He|He].
  - by rewrite Zpower_Qpower.
  - rewrite Zpower_Qpower by lia. rewrite Qpower_opp. unfold Qdiv. by rewrite Qinv_involutive.
Qed.

Lemma scale_inverse q e : scale (scale q (- e)) e == q.
Proof.
  rewrite !scale_Qpower, Qpower_opp. field. apply Qpower_not_0. lra.
Qed.

Lemma scale_Qeq q q' e : q == q' → scale q e == scale q' e.
Proof. intros Hq. by rewrite !scale_Qpower, Hq. Qed.

Lemma roundEven_integer q k : q == inject_Z k → roundEven q = k.
Proof.
  intros Hq. unfold roundEven.
  assert (Math_floor q = k) as -> by (unfold Math_floor; by rewrite Hq, Qfloor_Z).
  rewrite (proj2 (Qltb_lt _ _)); [done|]. lra.
Qed.

Lemma exponent_integer (n : Z) : (0 < n)%Z → exponent (inject_Z n) = Z.log2 n.
Proof.
  intros Hn. unfold exponent. simpl. rewrite Z.sub_0_r.
  rewrite (proj2 (Qle_bool_iff _ _)); [done|].
  rewrite scale_Qpower, Qpower_opp. change 2 with (inject_Z 2).
  rewrite <-Zpower_Qpower by apply Z.log2_nonneg.
  pose proof (Z.log2_spec n Hn) as [Hl _]. rewrite Zle_Qle in Hl.
  assert (0 < inject_Z (2 ^ Z.log2 n)) as Hp.
  { rewrite <-(Zlt_Qlt 0). apply Z.pow_pos_nonneg; [lia|apply Z.log2_nonneg]. }
  apply (Qle_shift_div_l 1 _ _ Hp). by rewrite Qmult_1_l.
Qed.

(** An integer of at most 53 bits is a number value. *)
Lemma double_integer (z : Z) : (Z.abs z < 2 ^ 53)%Z → double (inject_Z z) == inject_Z z.
Proof.
  intros Hz. unfold double. destruct (Qeq_bool (inject_Z z) 0) eqn:E0.
  { symmetry. by apply Qeq_bool_eq. }
  assert (z ≠ 0%Z) as Hne by (intros ->; done).
  change (Qabs (inject_Z z)) with (inject_Z (Z.abs z)).
  rewrite exponent_integer by lia.
  assert (Z.log2 (Z.abs z) < 53)%Z as Hl by (apply Z.log2_lt_pow2; lia).
  set (e := (Z.log2 (Z.abs z) - 52)%Z).
  assert (scale (inject_Z (Z.abs z)) (- e) == inject_Z (Z.abs z * 2 ^ (- e))) as Hk.
  { unfold scale. rewrite (proj2 (Z.leb_le _ _)) by lia. by rewrite inject_Z_mult. }
  rewrite (roundEven_integer _ _ Hk).
  destruct (Qle_bool 0 (inject_Z z)) eqn:E; qbool;
    rewrite <-(scale_Qeq _ _ e Hk), scale_inverse; rewrite <-(Zle_Qle 0) in *.
  - by rewrite Z.abs_eq.
  - rewrite Z.abs_neq, inject_Z_opp by lia. ring.
Qed.

End numbers.

(** The quotient is rounded to a number value before it is printed, so 1150
    is shown as 1.1K; and from 999950 the thousands are shown as 1000.0K. *)
Example formatNumber_examples :
  formatNumber <$> [999; 1000; 1150; 1250; 999949; 999950; 1000000; 1950000; -2000]
  = ["999"; "1.0K"; "1.1K"; "1.3K"; "999.9K"; "1000.0K"; "1.0M"; "1.9M"; "-2000"].
Proof. by vm_compute. Qed.

(** ** [debounce] *)

Section debounce.
Context {A : Type} (wait : Z).
Import Debounce.
Implicit Types (s : Debounce.t A) (args : A).

(** At most one timer is armed, and it is the one [timeoutId] names. *)
Definition armed s : Prop :=
  match timers s with
  | [] => True
  | [(id, _, _)] => timeoutId s = Some id
  | _ => False
  end.

Lemma armed_init : armed (@init A).
Proof. done. Qed.

Lemma call_spec now args s :
  armed s →
  timers (call wait now args s) = [(next s, now + wait, args)] ∧
  called (call wait now args s) = called s ∧ armed (call wait now args s).
Proof.
  unfold armed, call. destruct s as [tid [|[[id d] a] [|? ?]] n cs]; simpl; try done.
  - by destruct tid.
  - intros ->. simpl. by rewrite bool_decide_eq_true_2.
Qed.

Lemma fire_armed now s : armed s → armed (fire now s).
Proof.
  unfold armed, fire. destruct s as [tid [|[[id d] a] [|? ?]] n cs]; simpl; try done.
  by case_bool_decide.
Qed.

Lemma fire_due now id args s :
  timers s = [(id, now, args)] →
  called (fire now s) = (called s ++ [args])%list ∧ timers (fire now s) = [].
Proof. intros Hs. unfold fire. rewrite Hs. simpl. by rewrite bool_decide_eq_true_2 by lia. Qed.

Lemma fire_early now id due args s :
  timers s = [(id, due, args)] → now < due → fire now s = s.
Proof.
  intros Hs Hlt. unfold fire. rewrite Hs. simpl.
  rewrite bool_decide_eq_false_2 by lia. simpl. rewrite app_nil_r, <- Hs. by destruct s.
Qed.

Lemma armed_step s ev : armed s → armed (step wait s ev).
Proof. destruct ev; simpl; [apply call_spec|apply fire_armed]. Qed.

Lemma armed_run evs s : armed s → armed (run wait evs s).
Proof.
  revert s. induction evs as [|ev evs IH]; intros s Hs; [done|].
  apply IH, armed_step, Hs.
Qed.

(** Calls alone never run [func]. *)
Lemma calls_called (calls : list (Z * A)) s :
  armed s → called (run wait ((λ c, Call c.1 c.2) <$> calls) s) = called s.
Proof.
  revert s. induction calls as [|[t a] calls IH]; intros s Hs; [done|].
  destruct (call_spec t a s Hs) as (_ & Hc & Ha).
  change (called (run wait ((λ c, Call c.1 c.2) <$> calls) (call wait t a s)) = called s).
  by rewrite IH, Hc.
Qed.

End debounce.

(** [debounce]: of a burst of calls, whatever their times, only the last
    one runs [func], once, [wait] milliseconds after it was made; until
    then nothing runs. *)
Theorem debounce_runs_last_call {A : Type} (wait : Z) (calls : list (Z * A))
    (now : Z) (args : A) (early : Z) :
  early < now + wait →
  let s := Debounce.call wait now args
             (Debounce.run wait ((λ c, Debounce.Call c.1 c.2) <$> calls) Debounce.init) in
  Debounce.called (Debounce.fire early s) = [] ∧
  Debounce.called (Debounce.fire (now + wait) s) = [args] ∧
  Debounce.timers (Debounce.fire (now + wait) s) = [].
Proof.
  intros Hearly s.
  pose proof (armed_run wait ((λ c, Debounce.Call c.1 c.2) <$> calls)
                Debounce.init armed_init) as Ha.
  destruct (call_spec wait now args _ Ha) as (Ht & Hc & _). fold s in Ht, Hc.
  rewrite calls_called in Hc by apply armed_init. split.
  - by rewrite (fire_early early _ _ _ s Ht Hearly), Hc.
  - destruct (fire_due (now + wait) _ args s Ht) as [-> ->]. by rewrite Hc.
Qed.

Lemma debounce_runs_last_call_witness :
  let s := Debounce.call 300 1250 "c"
             (Debounce.run 300 ((λ c, Debounce.Call c.1 c.2) <$> [(1000, "a"); (1100, "b")])
                Debounce.init) in
  Debounce.called (Debounce.fire 1400 s) = [] ∧
  Debounce.called (Debounce.fire (1250 + 300) s) = ["c"] ∧
  Debounce.timers (Debounce.fire (1250 + 300) s) = [].
Proof.
  refine (debounce_runs_last_call 300 [(1000, "a"); (1100, "b")] 1250 "c" 1400 _). lia.
Defined.

(** ** [throttle] *)

Section throttle.
Context {A : Type} (limit : Z).
Import Throttle.
Implicit Types (s : Throttle.t A) (args : A).

Definition time (ev : Event A) : Z :=
  match ev with Call now _ => now | Fire now => now end.

(** Any two calls of [func] are at least [limit] apart. *)
Definition spaced (cs : list (Z * A)) : Prop :=
  ∀ i j ci cj, (i < j)%nat → cs !! i = Some ci → cs !! j = Some cj → ci.1 + limit <= cj.1.

(** The invariant at time [c]: the calls of [func] are spaced; while
    throttled, the one timer resets the flag [limit] after the latest call;
    otherwise every call is at least [limit] old. *)
Record inv (c : Z) s : Prop := {
  inv_spaced : spaced (called s);
  inv_past : Forall (λ e, e.1 <= c) (called s);
  inv_flag :
    if inThrottle s
    then ∃ pre t a, called s = (pre ++ [(t, a)])%list ∧ timers s = [t + limit]
    else timers s = [] ∧ Forall (λ e, e.1 + limit <= c) (called s);
}.

Lemma throttle_inv_init c : inv c (@init A).
Proof. split; simpl; [intros i j ci cj _ Hi; by rewrite lookup_nil in Hi|done..]. Qed.

Lemma spaced_snoc cs now a :
  spaced cs → Forall (λ e, e.1 + limit <= now) cs → spaced (cs ++ [(now, a)])%list.
Proof.
  intros Hs Hall i j ci cj Hij Hi Hj.
  apply lookup_snoc_Some in Hj as [[Hlt Hj]|[-> <-]].
  - rewrite lookup_app_l in Hi by lia. exact (Hs i j ci cj Hij Hi Hj).
  - rewrite lookup_app_l in Hi by lia. exact (Forall_lookup_1 _ _ _ _ Hall Hi).
Qed.

Lemma throttle_inv_call c now args s :
  0 <= limit → c <= now → inv c s → inv now (call limit now args s).
Proof.
  intros Hl Hc [Hs Hp Hf]. unfold call. destruct (inThrottle s) eqn:Ht; simpl.
  - split; [done|eapply Forall_impl; [done|simpl; lia]|by rewrite Ht].
  - destruct Hf as [Htm Hold]. split; simpl.
    + apply spaced_snoc; [done|]. eapply Forall_impl; [exact Hold|simpl; lia].
    + apply Forall_app. split; [eapply Forall_impl; [exact Hp|simpl; lia]|].
      by apply Forall_singleton.
    + exists (called s), now, args. by rewrite Htm.
Qed.

Lemma throttle_inv_fire c now s :
  0 <= limit → c <= now → inv c s → inv now (fire now s).
Proof.
  intros Hl Hc [Hs Hp Hf]. unfold fire.
  assert (Forall (λ e, e.1 <= now) (called s)) as Hp'
    by (eapply Forall_impl; [done|simpl; lia]).
  destruct (inThrottle s) eqn:Ht.
  - destruct Hf as (pre & t & a & Hcs & Htm). rewrite Htm. simpl.
    case_bool_decide; simpl; split; simpl; try done; [|by eauto].
    split; [done|]. rewrite Hcs. apply Forall_app. split; [|by apply Forall_singleton].
    apply Forall_lookup_2. intros i e He.
    assert (e.1 + limit <= (t, a).1); [|simpl in *; lia].
    apply (Hs i (length pre) e (t, a)).
    + by apply lookup_lt_Some in He.
    + rewrite Hcs. by apply lookup_app_l_Some.
    + rewrite Hcs. by rewrite list_lookup_middle.
  - destruct Hf as [Htm Hold]. rewrite Htm. simpl. split; simpl; try done.
    split; [done|]. eapply Forall_impl; [exact Hold|simpl; lia].
Qed.

(** A run of events in the order of their times. *)
Lemma throttle_inv_run evs c s :
  0 <= limit → Sorted Z.le (c :: (time <$> evs)) → inv c s →
  ∃ c', inv c' (run limit evs s).
Proof.
  intros Hl. revert c s. induction evs as [|ev evs IH]; intros c s Hso Hi; [by exists c|].
  rewrite fmap_cons in Hso. apply Sorted_inv in Hso as [Hso Hhd].
  apply HdRel_inv in Hhd.
  change (run limit (ev :: evs) s) with (run limit evs (step limit s ev)).
  apply (IH (time ev)); [done|].
  destruct ev; simpl; [by apply (throttle_inv_call c)|by apply (throttle_inv_fire c)].
Qed.

End throttle.

(** [throttle]: whatever the calls of the wrapper and the timers of the
    browser, in the order of their times, two calls of [func] are never less
    than [limit] milliseconds apart. *)
Theorem throttle_spacing {A : Type} (limit : Z) (evs : list (Throttle.Event A))
    (i j : nat) (ci cj : Z * A) :
  0 <= limit → Sorted Z.le (time <$> evs) → (i < j)%nat →
  Throttle.called (Throttle.run limit evs Throttle.init) !! i = Some ci →
  Throttle.called (Throttle.run limit evs Throttle.init) !! j = Some cj →
  ci.1 + limit <= cj.1.
Proof.
  intros Hl Hso. destruct evs as [|ev evs]; [intros _ Hi; simpl in Hi; by rewrite lookup_nil in Hi|].
  destruct (throttle_inv_run limit (ev :: evs) (time ev) Throttle.init Hl) as [c Hc];
    [|apply throttle_inv_init|apply (inv_spaced limit c _ Hc)].
  rewrite fmap_cons in *. constructor; [done|]. constructor. lia.
Qed.

Lemma throttle_spacing_witness :
  (1000, "a").1 + 200 <= (1250, "d").1.
Proof.
  refine (throttle_spacing 200
            [Throttle.Call 1000 "a"; Throttle.Call 1100 "b"; Throttle.Fire 1150;
             Throttle.Call 1190 "c"; Throttle.Fire 1200; Throttle.Call 1250 "d"]
            0 1 (1000, "a") (1250, "d") _ _ _ eq_refl eq_refl); [lia| |lia].
  repeat (constructor; try (simpl; lia)).
Defined.

(** [throttle]: a call made while throttled is dropped, not deferred. *)
Lemma throttle_drops_calls {A : Type} (limit now : Z) (args : A) (s : Throttle.t A) :
  Throttle.inThrottle s = true → Throttle.call limit now args s = s.
Proof. intros Hs. unfold Throttle.call. by rewrite Hs. Qed.

(** ** [getFingerForKey] *)

Section fingers.

Lemma assoc_Some key table v : assoc key table = Some v → (key, v) ∈ table.
Proof.
  induction table as [|[k w] table IH]; [done|]. simpl. case_bool_decide.
  - intros [= ->]. subst. by left.
  - intros Hv. right. by apply IH.
Qed.

Lemma fingerName_inj : Inj (=) (=) fingerName.
Proof. intros f g. by destruct f, g. Qed.

Lemma fingerName_not_unknown f : fingerName f ≠ "unknown" ∧ fingerName f ≠ EmptyString.
Proof. by destruct f. Qed.

(** The table gives every key of the layout its finger. *)
Lemma getFingerForKey_layout f k :
  k ∈ Config.fingerMap KEYBOARD_LAYOUT f → getFingerForKey k = fingerName f.
Proof.
  destruct f; simpl; intros Hk;
    repeat (apply elem_of_cons in Hk as [->|Hk]; [by vm_compute|]);
    by apply elem_of_nil in Hk.
Qed.

(** An entry of the table is an entry of the layout. *)
Lemma fingerMap_layout key v :
  (key, v) ∈ fingerMap → ∃ f, v = fingerName f ∧ key ∈ Config.fingerMap KEYBOARD_LAYOUT f.
Proof.
  unfold fingerMap. intros Hin.
  repeat (apply elem_of_cons in Hin as [[= -> ->]|Hin];
          [first [ exists leftPinky; split; [reflexivity|by repeat constructor]
                 | exists leftRing; split; [reflexivity|by repeat constructor]
                 | exists leftMiddle; split; [reflexivity|by repeat constructor]
                 | exists leftIndex; split; [reflexivity|by repeat constructor]
                 | exists thumbs; split; [reflexivity|by repeat constructor]
                 | exists rightIndex; split; [reflexivity|by repeat constructor]
                 | exists rightMiddle; split; [reflexivity|by repeat constructor]
                 | exists rightRing; split; [reflexivity|by repeat constructor]
                 | exists rightPinky; split; [reflexivity|by repeat constructor] ]|]).
  by apply elem_of_nil in Hin.
Qed.

End fingers.

(** [getFingerForKey] and [KEYBOARD_LAYOUT.fingerMap] are the same
    assignment: the helper names finger [f] for a key exactly when the key,
    in lower case, is one of the keys the layout lists for [f]. *)
Theorem getFingerForKey_agrees_with_layout (key : string) (f : Finger) :
  getFingerForKey key = fingerName f ↔
  toLowerCase key ∈ Config.fingerMap KEYBOARD_LAYOUT f.
Proof.
  split.
  - unfold getFingerForKey. destruct (assoc _ _) as [v|] eqn:Hv.
    + apply assoc_Some, fingerMap_layout in Hv as (g & -> & Hin).
      rewrite bool_decide_eq_false_2 by apply fingerName_not_unknown.
      by intros ->%fingerName_inj.
    + intros Hu. symmetry in Hu. by apply fingerName_not_unknown in Hu.
  - intros Hin. apply getFingerForKey_layout in Hin as <-.
    unfold getFingerForKey. by rewrite toLowerCase_idemp.
Qed.

(** Every key of the rows of the layout has a finger, and so has the
    space bar; the keys are looked up whatever their case. *)
Theorem layout_keys_have_fingers (row : list string) (key : string) :
  row ∈ rows KEYBOARD_LAYOUT → key ∈ row → ∃ f, getFingerForKey key = fingerName f.
Proof.
  simpl. intros Hrow Hkey.
  repeat (apply elem_of_cons in Hrow as [->|Hrow];
          [repeat (apply elem_of_cons in Hkey as [->|Hkey];
                   [first [by exists leftPinky | by exists leftRing | by exists leftMiddle
                          | by exists leftIndex | by exists rightIndex
                          | by exists rightMiddle | by exists rightRing
                          | by exists rightPinky]|]);
           by apply elem_of_nil in Hkey|]).
  by apply elem_of_nil in Hrow.
Qed.

Lemma layout_keys_have_fingers_witness : ∃ f, getFingerForKey "j" = fingerName f.
Proof.
  refine (layout_keys_have_fingers ["a"; "s"; "d"; "f"; "g"; "h"; "j"; "k"; "l"; ";"; "'"]
            "j" _ _); by repeat constructor.
Defined.

Example getFingerForKey_examples :
  getFingerForKey "J" = "rightIndex" ∧ getFingerForKey " " = "thumbs" ∧
  getFingerForKey "Enter" = "unknown" ∧ getFingerForKey backslash = "rightPinky".
Proof. by vm_compute. Qed.
