(* ===== verification/Play.v ===== *)
(** * Play: a level, from the page to the store

    The page [src/pages/Game/index.tsx] mounts the canvas and the typing
    input and owns what ends and restarts a game.  This file models

    - [Module Words]: the level table and [generateWords];
    - [Module TypingInput]: the key handler of
      [src/components/game/TypingInput.tsx];
    - [Module Page]: the handlers of [GamePage], each with every store call
      it makes;
    - [Module World]: the state of a level in play (the refs of the canvas,
      the two stores, the input line, the result flag) and [step], what one
      browser event does to it.

    An event carries what the browser supplies with it: the clock, the
    random draws, and the word list of the latest render (the page builds a
    new list at every render).  The theorems hold for every sequence of
    events. *)

From Stdlib Require Import ZArith QArith Qround Lqa Lia String Ascii.
From stdpp Require Import base tactics option list strings gmap.
From S2P Require Import Prelude Types Metrics Store PlayerSlice GameCanvas.

Import KeyboardEvent.

Local Open Scope Z_scope.

(** ** The level table and the practice words *)

Module Words.

Record LevelEntry : Type := mkEntry {
  name : string;
  mode : GameMode;
  keys : list string;
}.

(** ["abc".split('')] *)
Fixpoint split (s : string) : list string :=
  match s with
  | EmptyString => []
  | String c s' => str1 c :: split s'
  end.

Definition levelConfigs : list (string * LevelEntry) :=
  [ ("1-1", mkEntry "左手入门" gravity ["a"; "s"; "d"; "f"]);
    ("1-2", mkEntry "右手入门" gravity ["j"; "k"; "l"; ";"]);
    ("1-3", mkEntry "双手配合" gravity ["a"; "s"; "d"; "f"; "j"; "k"; "l"; ";"]);
    ("2-1", mkEntry "上方字母" runner ["q"; "w"; "e"; "r"; "t"; "y"; "u"; "i"; "o"; "p"]);
    ("2-2", mkEntry "下方字母" runner ["z"; "x"; "c"; "v"; "b"; "n"; "m"]);
    ("2-3", mkEntry "全字母综合" runner (split "abcdefghijklmnopqrstuvwxyz"));
    ("3-1", mkEntry "数字世界" bubble ["1"; "2"; "3"; "4"; "5"; "6"; "7"; "8"; "9"; "0"]);
    ("3-2", mkEntry "符号天地" bubble ["!"; "@"; "#"; "$"; "%"; "^"; "&"; "*"; "("; ")"]);
    ("3-3", mkEntry "综合训练" bubble (split "abcdefghijklmnopqrstuvwxyz1234567890"));
    ("4-1", mkEntry "初级BOSS" boss (split "abcdefghijklmnopqrstuvwxyz"));
    ("4-2", mkEntry "中级BOSS" boss (split "abcdefghijklmnopqrstuvwxyz"));
    ("4-3", mkEntry "终极BOSS" boss (split "abcdefghijklmnopqrstuvwxyz")) ]%string.

(** [levelConfigs[levelId]] *)
Fixpoint lookup (levelId : string) (table : list (string * LevelEntry))
    : option LevelEntry :=
  match table with
  | [] => None
  | (k, v) :: rest => if bool_decide (k = levelId) then Some v else lookup levelId rest
  end.

(** What one iteration of [generateWords] draws: the pattern, the order the
    randomised sort leaves the keys in, and the key of the fourth pattern. *)
Record Draw : Type := mkDraw {
  rPattern : Q;
  shuffle : list string → list string;
  rKey : Q;
}.

Definition valid (d : Draw) : Prop :=
  (0 <= rPattern d < 1)%Q ∧ (0 <= rKey d < 1)%Q ∧ ∀ l, shuffle d l ≡ₚ l.

(** [k.slice(0, n).join('')] *)
Definition joinFirst (n : nat) (k : list string) : string :=
  foldr String.append EmptyString (take n k).

(** The four word patterns; the last doubles a key chosen at random. *)
Definition wordPatterns : list (Draw → list string → result string) :=
  [ (λ _ k, Ok (joinFirst 2 k));
    (λ _ k, Ok (joinFirst 3 k));
    (λ _ k, Ok (joinFirst 4 k));
    (λ d k,
       match nthZ k (Math_floor (rKey d * inject_Z (Z.of_nat (length k)))) with
       | Some s => Ok (s +:+ s)
       | None => Throw TypeError
       end) ].

(** One iteration of the loop of [generateWords]. *)
Definition generateWord (keys : list string) (d : Draw) : result string :=
  match nthZ wordPatterns (Math_floor (rPattern d * 4)) with
  | None => Throw TypeError
  | Some pattern => pattern d (shuffle d keys)
  end.

(** [generateWords(keys, count)], with the draws of its [count] iterations. *)
Fixpoint generateWords (keys : list string) (draws : list Draw) : result (list string) :=
  match draws with
  | [] => Ok []
  | d :: rest =>
      w ← generateWord keys d;
      ws ← generateWords keys rest;
      Ok (w :: ws)
  end.

End Words.

(** ** The typing input *)

Module TypingInput.

(** [prev.slice(0, -1)] *)
Fixpoint dropLast (s : string) : string :=
  match s with
  | EmptyString => EmptyString
  | String c EmptyString => EmptyString
  | String c s' => String c (dropLast s')
  end.

Section handler.
Context {St : Type} `{GameStore St}.

(** [handleKeyDown]: modifier chords are ignored; a key of one character
    goes to the handler of the canvas and, when it was a hit, is appended to
    the input line; Backspace removes the last character of the line. *)
Definition handleKeyDown (e : KeyboardEvent.t) (session_combo now : Z)
    (currentInput : string) (c : Refs.t) (st : St)
    : result (string * Refs.t * St) :=
  if ctrlKey e || altKey e || metaKey e then Ok (currentInput, c, st)
  else
    '(input1, c1, st1) ←
      (if bool_decide (String.length (key e) = 1%nat)
       then
         '(success, c', st') ← handleKeyPress (key e) session_combo now c st;
         Ok (if success : bool then currentInput +:+ key e else currentInput, c', st')
       else Ok (currentInput, c, st));
    Ok (if bool_decide (key e = "Backspace"%string) then dropLast input1 else input1,
        c1, st1).

End handler.
End TypingInput.

(** ** The handlers of the page *)

Module Page.
Import GameSession.

(** The number of practice words the page asks for. *)
Definition wordCount : nat := 20.

(** [levelId ? levelConfigs[levelId] : null] *)
Definition levelConfig (levelId : option string) : option Words.LevelEntry :=
  match levelId with
  | Some i => if bool_decide (i = EmptyString) then None
              else Words.lookup i Words.levelConfigs
  | None => None
  end.

(** [levelId || null] *)
Definition orNull (levelId : option string) : option string :=
  match levelId with
  | Some i => if bool_decide (i = EmptyString) then None else Some i
  | None => None
  end.

(** The stars the page awards: by accuracy alone, and never fewer than one. *)
Definition pageStars (accuracy : Q) : Z :=
  if (accuracy >=? 95)%js then 3 else if (accuracy >=? 85)%js then 2 else 1.

Section handlers.
Context {St Pt : Type} `{GameStore St} `{PlayerStore Pt}.

(** [usePlayerStore.getState().player.levelProgress[levelId]] *)
Definition stored (levelId : string) (pt : Pt) : option LevelProgress.t :=
  PlayerData.levelProgress (player pt) !! levelId.

(** The record the page files for a victory; [seen] is the session the
    handler closed over. *)
Definition result (levelId : string) (seen : GameSession.t) (now : Z) (pt : Pt)
    : LevelProgress.t :=
  {| LevelProgress.levelId := levelId;
     LevelProgress.completed := true;
     LevelProgress.stars := pageStars (accuracy seen);
     LevelProgress.bestWPM :=
       Z.max (wpm seen) (default 0 (LevelProgress.bestWPM <$> stored levelId pt));
     LevelProgress.bestAccuracy :=
       Math_max (accuracy seen)
         (default 0%Q (LevelProgress.bestAccuracy <$> stored levelId pt));
     LevelProgress.attempts :=
       default 0 (LevelProgress.attempts <$> stored levelId pt) + 1;
     LevelProgress.completedAt := Some now |}.

(** [handleGameEnd(victory)], the flag being [isVictory] here: ends the game in the store; for a victory in
    a level, files the result and pays experience and coins; shows the
    result panel. *)
Definition handleGameEnd (levelId : option string) (seen : GameSession.t)
    (isVictory : bool) (now : Z) (st : St) (pt : Pt) : St * Pt * bool :=
  let st1 := endGame isVictory st in
  let pt1 :=
    match orNull levelId with
    | Some i =>
        if isVictory then
          let stars := pageStars (accuracy seen) in
          addCoins (50 * stars)
            (addExp (100 * stars) (updateLevelProgress (result i seen now pt) pt))
        else pt
    | None => pt
    end in
  (st1, pt1, true).

(** The effect that starts the game when the page is mounted. *)
Definition mount (levelId : option string) (now : Z) (st : St) : St :=
  match levelConfig levelId with
  | Some cfg => startGame (Words.mode cfg) (orNull levelId) now st
  | None => st
  end.

(** [handleRestart]: hides the result, resets the store and starts again. *)
Definition handleRestart (levelId : option string) (now : Z) (st : St) : St * bool :=
  let st1 := resetGame st in
  (match levelConfig levelId with
   | Some cfg => startGame (Words.mode cfg) (orNull levelId) now st1
   | None => st1
   end, false).

End handlers.
End Page.

(** ** A level in play *)

Module World.
Import GameSession TypingInput.

Record t {St Pt : Type} : Type := mk {
  canvas : Refs.t;
  game : St;
  playerStore : Pt;
  currentInput : string;
  showResult : bool;
}.
Arguments t : clear implicits.
Arguments mk {St Pt}.

(** What the browser delivers. *)
Inductive Event : Type :=
| AnimationFrame (now : Z) (d : Draws.t) (words : list string)
| LoopEffect (now : Z) (d : Draws.t) (words : list string)
| KeyDown (e : KeyboardEvent.t) (now : Z)
| ClickResume
| ClickRestart (now : Z)
| WindowResize (rect : option (Q * Q)).

Section step.
Context {St Pt : Type} `{GameStore St} `{PlayerStore Pt}.
Context (levelId : option string).

(** The world when the page has been mounted at [now]. *)
Definition init (now : Z) (st : St) (pt : Pt) : t St Pt :=
  mk (Refs.init now) (Page.mount levelId now st) pt EmptyString false.

(** The typing input is mounted while the session is playing; unmounted, it
    loses its input line. *)
Definition render (w : t St Pt) : t St Pt :=
  if bool_decide (state (session (game w)) = playing) then w
  else mk (canvas w) (game w) (playerStore w) EmptyString (showResult w).

(** What follows a frame: the loop goes on, or the page ends the game. *)
Definition afterFrame (seen : GameSession.t) (now : Z) (w : t St Pt)
    (r : FrameOutcome * Refs.t * St) : t St Pt :=
  let '(o, c, st) := r in
  match o with
  | GameEnded isVictory =>
      let '(st', pt', sr) :=
        Page.handleGameEnd levelId seen isVictory now st (playerStore w) in
      mk c st' pt' (currentInput w) sr
  | _ => mk c st (playerStore w) (currentInput w) (showResult w)
  end.

Definition step (ev : Event) (w : t St Pt) : result (t St Pt) :=
  render <$>
  match ev with
  | AnimationFrame now d ws =>
      r ← gameLoop (Props.mk ws false) now d (canvas w) (game w);
      Ok (afterFrame (session (game w)) now w r)
  | LoopEffect now d ws =>
      r ← startLoop (Props.mk ws false) now d (canvas w) (game w);
      Ok (afterFrame (session (game w)) now w r)
  | KeyDown e now =>
      if bool_decide (state (session (game w)) = playing) then
        '(input, c, st) ←
          handleKeyDown e (combo (session (game w))) now (currentInput w)
            (canvas w) (game w);
        Ok (mk c st (playerStore w) input (showResult w))
      else Ok w
  | ClickResume =>
      if bool_decide (state (session (game w)) = paused)
      then Ok (mk (canvas w) (resumeGame (game w)) (playerStore w)
                 (currentInput w) (showResult w))
      else Ok w
  | ClickRestart now =>
      if showResult w then
        let '(st, sr) := Page.handleRestart levelId now (game w) in
        Ok (mk (canvas w) st (playerStore w) (currentInput w) sr)
      else Ok w
  | WindowResize rect =>
      Ok (mk (handleResize rect (canvas w)) (game w) (playerStore w)
            (currentInput w) (showResult w))
  end.

(** A run: the events in order, stopping at the first exception. *)
Fixpoint steps (evs : list Event) (w : t St Pt) : result (t St Pt) :=
  match evs with
  | [] => Ok w
  | ev :: rest => w' ← step ev w; steps rest w'
  end.

(** The worlds a mounted level can be in. *)
Inductive reachable : t St Pt → Prop :=
| reachable_mount now st pt : reachable (init now st pt)
| reachable_next ev w w' : reachable w → step ev w = Ok w' → reachable w'.

End step.
End World.

Import GameSession.

(** ** The practice words *)

Section words.
Import Words.
Implicit Types (k keys : list string) (d : Draw).

(** Keys as the level table has them: at least four, each one character. *)
Definition keys_ok keys : Prop :=
  (4 ≤ length keys)%nat ∧ Forall (λ s, String.length s = 1%nat) keys.

#[export] Instance keys_ok_dec keys : Decision (keys_ok keys).
Proof. unfold keys_ok. apply _. Defined.

Lemma joinFirst_length n k :
  Forall (λ s, String.length s = 1%nat) k → (n ≤ length k)%nat →
  String.length (joinFirst n k) = n.
Proof.
  unfold joinFirst. revert n. induction k as [|s k IH]; intros [|n] Hk Hn;
    simpl in *; try done; [lia|].
  apply Forall_cons in Hk as [Hs Hk]. rewrite app_length_str, Hs, IH; [done..|lia].
Qed.

Lemma keys_ok_perm keys k : keys_ok keys → k ≡ₚ keys → keys_ok k.
Proof. intros [Hl Hf] Hp. split; by rewrite Hp. Qed.

Lemma levelConfigs_keys_ok :
  Forall (λ kv, keys_ok (keys kv.2)) levelConfigs.
Proof. apply (bool_decide_unpack _). by vm_compute. Qed.

Lemma lookup_elem levelId table cfg :
  lookup levelId table = Some cfg → (levelId, cfg) ∈ table.
Proof.
  induction table as [|[k v] table IH]; simpl; [done|].
  case_bool_decide as Hk; [intros [= ->]; subst; left|right; auto].
Qed.

Lemma levelConfig_keys_ok levelId cfg :
  Page.levelConfig levelId = Some cfg → keys_ok (keys cfg).
Proof.
  unfold Page.levelConfig. destruct levelId as [i|]; [|done]. case_bool_decide; [done|].
  intros Hin%lookup_elem. by eapply Forall_forall in Hin; [|apply levelConfigs_keys_ok].
Qed.

Lemma generateWord_ok keys d :
  keys_ok keys → valid d →
  ∃ w, generateWord keys d = Ok w ∧ (2 ≤ String.length w ≤ 4)%nat.
Proof.
  intros Hk (Hp & Hr & Hs). apply (keys_ok_perm _ (shuffle d keys)) in Hk; [|done].
  destruct Hk as [Hl Hf]. unfold generateWord.
  destruct (nthZ_random wordPatterns (rPattern d)) as (pat & Hi & Hpat); [done..|].
  change (inject_Z (Z.of_nat (length wordPatterns))) with 4%Q in Hi. rewrite Hi.
  unfold wordPatterns in Hpat.
  repeat (apply elem_of_cons in Hpat as [->|Hpat]); [..|by apply elem_of_nil in Hpat].
  1-3: eexists; split; [done|]; rewrite joinFirst_length; [lia|done|lia].
  destruct (nthZ_random (shuffle d keys) (rKey d)) as (s & Hj & Hs');
    [done|intros E; rewrite E in Hl; simpl in Hl; lia|]. cbv beta. rewrite Hj.
  eexists. split; [done|]. rewrite app_length_str.
  eapply Forall_forall in Hf; [|done]. lia.
Qed.

Lemma generateWords_ok keys draws :
  keys_ok keys → Forall valid draws →
  ∃ ws, generateWords keys draws = Ok ws ∧ length ws = length draws ∧
    Forall (λ w, (2 ≤ String.length w ≤ 4)%nat) ws.
Proof.
  intros Hk. induction 1 as [|d draws Hd _ (ws & Hws & Hl & Hf)]; [by exists []|].
  destruct (generateWord_ok keys d Hk Hd) as (w & Hw & Hlen).
  exists (w :: ws). simpl. rewrite Hw, Hws. simpl. split_and!; [done|by f_equal|by constructor].
Qed.

End words.

(** ** The typing input *)

Section typing_input.
Context {St : Type} `{GameStoreLaws St}.
Import TypingInput Refs.
Implicit Types (e : KeyboardEvent.t) (c : Refs.t) (st : St) (input : string).

(** A key the input passes to the canvas: one character, no modifier. *)
Definition printable e : Prop :=
  ctrlKey e = false ∧ altKey e = false ∧ metaKey e = false ∧
  String.length (key e) = 1%nat.

Lemma handleKeyDown_modifier e sc now input c st :
  ctrlKey e || altKey e || metaKey e = true →
  handleKeyDown e sc now input c st = Ok (input, c, st).
Proof. intros Hm. unfold handleKeyDown. by rewrite Hm. Qed.

Lemma handleKeyDown_printable e sc now input c st :
  printable e →
  handleKeyDown e sc now input c st =
    '(success, c', st') ← handleKeyPress (key e) sc now c st;
    Ok (if success : bool then input +:+ key e else input, c', st').
Proof.
  unfold handleKeyDown. intros (-> & -> & -> & Hl). cbn [orb].
  rewrite (bool_decide_eq_true_2 (String.length (key e) = 1%nat)) by done.
  rewrite (bool_decide_eq_false_2 (key e = "Backspace"%string))
    by (intros E; by rewrite E in Hl).
  destruct (handleKeyPress _ _ _ _ _) as [[[b c'] st']|]; done.
Qed.

Lemma handleKeyDown_other e sc now input c st :
  String.length (key e) ≠ 1%nat →
  handleKeyDown e sc now input c st =
    Ok (if bool_decide (key e = "Backspace"%string) then
          if ctrlKey e || altKey e || metaKey e then input else dropLast input
        else input, c, st).
Proof.
  intros Hl. unfold handleKeyDown. destruct (_ || _ || _); [by case_bool_decide|].
  by rewrite (bool_decide_eq_false_2 (String.length (key e) = 1%nat)).
Qed.

(** Whatever the key, the canvas and the store change as [handleKeyPress]
    changes them, or not at all. *)
Lemma handleKeyDown_inv e sc now input c st input' c' st' :
  handleKeyDown e sc now input c st = Ok (input', c', st') →
  (c' = c ∧ st' = st) ∨
  ∃ b, handleKeyPress (key e) sc now c st = Ok (b, c', st').
Proof.
  unfold handleKeyDown. destruct (_ || _ || _); [intros ?; simplify_eq; by left|].
  destruct (bool_decide (String.length (key e) = 1%nat));
    [|simpl; intros ?; simplify_eq; by left].
  destruct (handleKeyPress _ _ _ _ _) as [[[b c1] st1]|]; [|done].
  simpl. intros ?; simplify_eq. right. by exists b.
Qed.

Lemma handleKeyDown_safe e sc now input c st :
  Forall entity_ok (entitiesRef c) → is_Ok (handleKeyDown e sc now input c st).
Proof.
  intros Hok. unfold handleKeyDown. destruct (_ || _ || _); [by eexists|].
  destruct (bool_decide (String.length (key e) = 1%nat)); [|by eexists].
  destruct (handleKeyPress_safe (key e) sc now c st Hok) as [[[b c'] st'] ->]. by eexists.
Qed.

End typing_input.

(** ** The invariant of a level in play *)

Section world.
Context {St Pt : Type} `{GameStoreLaws St} `{PlayerStoreLaws Pt}.
Context (levelId : option string) (cfg : Words.LevelEntry).
Context (Hcfg : Page.levelConfig levelId = Some cfg).
Import World Refs.
Implicit Types (w : World.t St Pt) (ev : Event).

(** The word lists a render can pass to the canvas. *)
Definition words_fit (ws : list string) : Prop :=
  length ws = Page.wordCount ∧ Forall (λ x, x ≠ EmptyString) ws.

Definition event_ok ev : Prop :=
  match ev with
  | AnimationFrame _ _ ws | LoopEffect _ _ ws => words_fit ws
  | _ => True
  end.

Record inv w : Prop := {
  inv_entities : Forall entity_ok (entitiesRef (canvas w));
  inv_cap : (length (entitiesRef (canvas w)) ≤ 5)%nat;
  inv_index : (wordIndexRef (canvas w) ≤ Page.wordCount)%nat;
  inv_session : Machine.wf (session (game w));
  inv_state :
    (state (session (game w)) = playing ∧ showResult w = false) ∨
    (state (session (game w)) = victory ∧ showResult w = true);
}.

Lemma inv_canvas_ok w ws : inv w → words_fit ws → canvas_ok (Props.mk ws false) (canvas w).
Proof.
  intros [He Hc Hi _ _] [Hl _]. split; [exact He|exact Hc|].
  cbn [Props.words]. by rewrite Hl.
Qed.

Lemma render_game w : game (render w) = game w ∧ canvas (render w) = canvas w ∧
  showResult (render w) = showResult w ∧ playerStore (render w) = playerStore w.
Proof. unfold render. by case_bool_decide. Qed.

Lemma inv_render w : inv w → inv (render w).
Proof.
  intros []. destruct (render_game w) as (Eg & Ec & Es & _).
  split; by rewrite ?Eg, ?Ec, ?Es.
Qed.

Lemma mount_session now st :
  session (Page.mount levelId now st) =
    Session.startGame (Words.mode cfg) (Page.orNull levelId) now (session st).
Proof. unfold Page.mount. rewrite Hcfg. by autorewrite with store. Qed.

Lemma handleRestart_session now st :
  session (Page.handleRestart levelId now st).1 =
    Session.startGame (Words.mode cfg) (Page.orNull levelId) now Session.initialSession.
Proof.
  unfold Page.handleRestart. rewrite Hcfg. cbn [fst]. autorewrite with store. reflexivity.
Qed.

Lemma inv_init now st pt : inv (World.init levelId now st pt).
Proof.
  split; cbn [World.init canvas game showResult Refs.init entitiesRef wordIndexRef];
    rewrite ?mount_session; [constructor|simpl; lia|lia|apply wf_startGame|by left].
Qed.

(** After a frame of the loop. *)
Lemma inv_afterFrame ws now d w r :
  words_fit ws → inv w →
  gameLoop (Props.mk ws false) now d (canvas w) (game w) = Ok r →
  inv (afterFrame levelId (session (game w)) now w r).
Proof.
  intros Hws Hw Hg. destruct r as [[o c] st].
  pose proof (gameLoop_ok (Props.mk ws false) _ _ _ _ _ _ _
                (proj2 Hws) (inv_canvas_ok w ws Hw Hws) Hg) as [He Hc Hi].
  destruct (gameLoop_run _ _ _ _ _ _ _ _ Hg) as [acts Hr].
  destruct (gameLoop_state _ _ _ _ _ _ _ _ Hg) as [Hs _].
  pose proof (wf_run acts _ (inv_session w Hw)) as Hwf. rewrite <- Hr in Hwf.
  simpl in Hi. rewrite (proj1 Hws) in Hi.
  apply gameLoop_inv in Hg as [(Hn & -> & _)|[(_ & _ & _ & -> & _)|(_ & -> & _)]].
  - split; simpl; try done. rewrite Hs. apply Hw.
  - unfold afterFrame, Page.handleGameEnd.
    split; cbn [canvas game showResult]; autorewrite with store; try done.
    + by apply wf_apply with (a := Machine.EndGame true).
    + right. split; [|done]. by reduce_session.
  - split; simpl; try done. rewrite Hs. apply Hw.
Qed.

(** The world with the start of the loop stamped, as the loop effect does
    before its first frame. *)
Definition stamped (now : Z) w : World.t St Pt :=
  World.mk (set_gameStartTimeRef now (canvas w)) (game w) (playerStore w)
     (currentInput w) (showResult w).

Lemma inv_stamped now w : inv w → inv (stamped now w).
Proof. by intros []. Qed.

Lemma startLoop_stamped ws now d w :
  startLoop (Props.mk ws false) now d (canvas w) (game w) =
    if bool_decide (state (session (game w)) ≠ playing)
    then Ok (Stopped, canvas w, game w)
    else gameLoop (Props.mk ws false) now d (canvas (stamped now w)) (game (stamped now w)).
Proof. done. Qed.

Lemma inv_afterEffect ws now d w r :
  words_fit ws → inv w →
  startLoop (Props.mk ws false) now d (canvas w) (game w) = Ok r →
  inv (afterFrame levelId (session (game w)) now w r).
Proof.
  intros Hws Hw. rewrite startLoop_stamped. case_bool_decide as Hs.
  - intros [= <-]. by destruct Hw.
  - intros Hg.
    exact (inv_afterFrame ws now d (stamped now w) r Hws (inv_stamped now w Hw) Hg).
Qed.

Lemma inv_keyDown e now w r :
  inv w →
  TypingInput.handleKeyDown e (combo (session (game w))) now (currentInput w)
    (canvas w) (game w) = Ok r →
  inv (World.mk r.1.2 r.2 (playerStore w) r.1.1 (showResult w)).
Proof.
  intros Hw. destruct r as [[input c] st]. cbn [fst snd].
  intros [[-> ->]|[b Hk]]%handleKeyDown_inv; [by destruct Hw|].
  pose proof (handleKeyPress_ok _ _ _ _ _ _ _ _ (inv_entities w Hw) Hk) as Hok.
  destruct (handleKeyPress_frame _ _ _ _ _ _ _ _ Hk) as (Hid & _ & Hi & _ & _ & _ & Hs).
  destruct (handleKeyPress_run _ _ _ _ _ _ _ _ Hk) as [acts Hr].
  apply (f_equal length) in Hid. rewrite !length_fmap in Hid.
  destruct Hw as [He Hc Hix Hwf Hst].
  split; cbn [canvas game showResult]; rewrite ?Hid, ?Hi, ?Hs; try done.
  rewrite Hr. by apply wf_run.
Qed.

(** Every event keeps the invariant. *)
Lemma inv_step ev w w' : event_ok ev → inv w → step levelId ev w = Ok w' → inv w'.
Proof.
  intros Hev Hw. unfold step. intros (w1 & Hstep & <-)%fmap_Ok. apply inv_render.
  destruct ev as [now d ws|now d ws|e now| |now|rect]; simpl in Hev.
  - apply bind_Ok in Hstep as (r & Hg & [= <-]). by eapply inv_afterFrame.
  - apply bind_Ok in Hstep as (r & Hg & [= <-]). by eapply inv_afterEffect.
  - case_bool_decide; [|by simplify_eq].
    apply bind_Ok in Hstep as ([[input c] st] & Hk & [= <-]).
    by apply (inv_keyDown e now w (input, c, st)).
  - case_bool_decide as Hp; [|by simplify_eq]. exfalso.
    destruct (inv_state w Hw) as [[? _]|[? _]]; congruence.
  - destruct (showResult w) eqn:Hr; [|by simplify_eq].
    destruct (Page.handleRestart levelId now (game w)) as [st sr] eqn:E.
    pose proof (handleRestart_session now (game w)) as Hs. rewrite E in Hs.
    assert (sr = false) as -> by (by unfold Page.handleRestart in E; simplify_eq).
    simplify_eq. destruct Hw as [He Hc Hix Hwf Hst].
    split; cbn [canvas game showResult fst] in *; rewrite ?Hs; try done.
    by left.
  - simplify_eq. destruct Hw. split; try done; by destruct rect.
Qed.

(** No event throws in a world that satisfies the invariant. *)
Lemma step_safe ev w : event_ok ev → inv w → is_Ok (step levelId ev w).
Proof.
  intros Hev Hw. unfold step. apply is_Ok_fmap.
  destruct ev as [now d ws|now d ws|e now| |now|rect]; simpl in Hev.
  - destruct (gameLoop_safe (Props.mk ws false) now d (canvas w) (game w)) as [r ->];
      [by left|by eexists].
  - rewrite startLoop_stamped. case_bool_decide; [by eexists|].
    destruct (gameLoop_safe (Props.mk ws false) now d (canvas (stamped now w))
                (game (stamped now w))) as [r ->]; [by left|by eexists].
  - case_bool_decide; [|by eexists].
    destruct (handleKeyDown_safe e (combo (session (game w))) now (currentInput w)
                (canvas w) (game w) (inv_entities w Hw)) as [[[input c] st] ->].
    by eexists.
  - case_bool_decide; by eexists.
  - destruct (showResult w); [|by eexists].
    destruct (Page.handleRestart levelId now (game w)). by eexists.
  - by eexists.
Qed.

End world.

(** ** What the page files and pays *)

Section page_lemmas.
Context {St Pt : Type} `{GameStoreLaws St} `{PlayerStoreLaws Pt}.
Import Page.
Implicit Types (st : St) (pt : Pt) (seen : GameSession.t).

Lemma pageStars_range a : 1 <= pageStars a <= 3.
Proof. unfold pageStars. repeat case_match; lia. Qed.

Lemma pageStars_ge_calculateStars a wpm : calculateStars a wpm <= pageStars a.
Proof.
  unfold pageStars, calculateStars.
  destruct (a >=? 95)%js, (a >=? 85)%js, (a >=? 70)%js, (wpm >=? 40)%js, (wpm >=? 30)%js;
    simpl; lia.
Qed.

(** A progress record as the page builds them: one to three stars, and no
    more attempts than stars. *)
Definition progress_ok (lp : LevelProgress.t) : Prop :=
  1 <= LevelProgress.stars lp <= 3 ∧
  1 <= LevelProgress.attempts lp <= LevelProgress.stars lp.

Definition player_ok (p : PlayerData.t) : Prop :=
  map_Forall (λ _ lp, progress_ok lp) (PlayerData.levelProgress p).

(** The player after a victory in level [i]. *)
Lemma handleGameEnd_victory_player i seen now st pt :
  i ≠ EmptyString →
  player (handleGameEnd (Some i) seen true now st pt).1.2 =
    Player.addCoins (50 * pageStars (accuracy seen))
      (Player.addExp (100 * pageStars (accuracy seen))
         (Player.updateLevelProgress (result i seen now pt) (player pt))).
Proof.
  intros Hi. unfold handleGameEnd, orNull. rewrite bool_decide_eq_false_2 by done.
  cbn [fst snd]. by autorewrite with player.
Qed.

Lemma handleGameEnd_other_player levelId seen v now st pt :
  orNull levelId = None ∨ v = false →
  (handleGameEnd levelId seen v now st pt).1.2 = pt.
Proof.
  unfold handleGameEnd. intros [->| ->]; [done|]. cbn [fst snd]. by case_match.
Qed.

Lemma handleGameEnd_session levelId seen v now st pt :
  session (handleGameEnd levelId seen v now st pt).1.1 = Session.endGame v (session st) ∧
  (handleGameEnd levelId seen v now st pt).2 = true.
Proof. unfold handleGameEnd. cbn [fst snd]. by autorewrite with store. Qed.

Lemma result_improves_ok i seen now pt :
  player_ok (player pt) → improves (result i seen now pt) (player pt) →
  progress_ok (result i seen now pt).
Proof.
  intros Hp. unfold improves, progress_ok, result, stored. simpl.
  pose proof (pageStars_range (accuracy seen)).
  destruct (PlayerData.levelProgress (player pt) !! i) as [e|] eqn:He; simpl; [|lia].
  apply Hp in He as [? ?]. lia.
Qed.

Lemma player_ok_updateLevelProgress lp p :
  player_ok p → (improves lp p → progress_ok lp) →
  player_ok (Player.updateLevelProgress lp p).
Proof.
  intros Hp Hlp. destruct (decide (improves lp p)) as [Him|Him];
    [|by rewrite updateLevelProgress_keeps].
  rewrite updateLevelProgress_improves by done. apply map_Forall_insert_2; auto.
Qed.

Lemma player_ok_handleGameEnd levelId seen v now st pt :
  player_ok (player pt) →
  player_ok (player (handleGameEnd levelId seen v now st pt).1.2).
Proof.
  intros Hp. destruct (orNull levelId) as [i|] eqn:Hl, v;
    try (rewrite handleGameEnd_other_player by auto; done).
  unfold handleGameEnd. rewrite Hl. cbn [fst snd]. autorewrite with player.
  unfold player_ok, Player.addCoins. cbn [PlayerData.levelProgress Player.set_coins].
  rewrite (proj1 (proj2 (proj2 (proj2 (proj2 (addExp_frame _ _)))))).
  apply player_ok_updateLevelProgress; [done|]. by apply result_improves_ok.
Qed.

End page_lemmas.

(** ** Runs of events *)

Section runs.
Context {St Pt : Type} `{GameStoreLaws St} `{PlayerStoreLaws Pt}.
Context (levelId : option string) (cfg : Words.LevelEntry).
Context (Hcfg : Page.levelConfig levelId = Some cfg).
Import World.
Implicit Types (w : World.t St Pt) (ev : Event) (evs : list Event).

Lemma steps_inv evs w :
  Forall event_ok evs → inv w → ∃ w', steps levelId evs w = Ok w' ∧ inv w'.
Proof.
  intros Hevs. revert w. induction Hevs as [|ev evs Hev _ IH]; intros w Hw; [by exists w|].
  destruct (step_safe levelId ev w Hev Hw) as [w1 Hw1]. simpl. rewrite Hw1. simpl.
  apply IH. by eapply inv_step.
Qed.

(** What holds of the player and is kept by [handleGameEnd] is kept by
    every event: no other handler of the page writes to the player store. *)
Section player_invariant.
Context (P : PlayerData.t → Prop).
Context (HP : ∀ seen v now (st : St) (pt : Pt),
  P (player pt) → P (player (Page.handleGameEnd levelId seen v now st pt).1.2)).

Lemma afterFrame_player seen now w r :
  P (player (playerStore w)) →
  P (player (playerStore (afterFrame levelId seen now w r))).
Proof.
  intros Hp. destruct r as [[[|v|] c] st]; cbn [afterFrame]; try done.
  pose proof (HP seen v now st (playerStore w) Hp) as Hp'.
  by destruct (Page.handleGameEnd _ _ _ _ _ _) as [[st' pt'] sr].
Qed.

Lemma step_player ev w w' :
  P (player (playerStore w)) → step levelId ev w = Ok w' →
  P (player (playerStore w')).
Proof.
  intros Hp. unfold step. intros (w1 & Hstep & <-)%fmap_Ok.
  rewrite (proj2 (proj2 (proj2 (render_game w1)))).
  destruct ev as [now d ws|now d ws|e now| |now|rect]; simpl in Hstep.
  - apply bind_Ok in Hstep as (r & _ & [= <-]). by apply afterFrame_player.
  - apply bind_Ok in Hstep as (r & _ & [= <-]). by apply afterFrame_player.
  - case_bool_decide; [|by simplify_eq].
    by apply bind_Ok in Hstep as ([[input c] st] & _ & [= <-]).
  - case_bool_decide; by simplify_eq.
  - destruct (showResult w); by simplify_eq.
  - by simplify_eq.
Qed.

Lemma steps_player evs w w' :
  P (player (playerStore w)) → steps levelId evs w = Ok w' →
  P (player (playerStore w')).
Proof.
  revert w. induction evs as [|ev evs IH]; intros w Hp; [by intros [= <-]|].
  simpl. intros (w1 & Hw1 & Hs)%bind_Ok. eapply IH; [|done]. by eapply step_player.
Qed.

End player_invariant.

Lemma steps_player_ok evs w w' :
  player_ok (player (playerStore w)) → steps levelId evs w = Ok w' →
  player_ok (player (playerStore w')).
Proof.
  apply steps_player. intros seen v now st pt. apply player_ok_handleGameEnd.
Qed.

End runs.

(** * Properties of a level in play *)

Section play_properties.
Context {St Pt : Type} `{GameStoreLaws St} `{PlayerStoreLaws Pt}.
Import World.
Implicit Types (w : World.t St Pt) (evs : list Event) (levelId : option string).

(** C1: a level of the table, played with word lists of twenty non-empty
    words, never throws: whatever frames, effect runs, key presses, clicks
    and resizes arrive, in whatever order, each handler returns; and after
    them the entities are well formed, at most five are on screen, at most
    twenty words have been spawned and the counters of the session are
    consistent. *)
Theorem level_play_safe levelId cfg now (st : St) (pt : Pt) evs :
  Page.levelConfig levelId = Some cfg → Forall event_ok evs →
  ∃ w', steps levelId evs (World.init levelId now st pt) = Ok w' ∧ inv w'.
Proof.
  intros Hcfg Hevs. eapply steps_inv; [done..|]. by eapply inv_init.
Qed.

(** C12: a level in play is either playing, with the result panel hidden, or
    won, with the panel shown: no sequence of events pauses the game, loses
    it or returns it to idle. *)
Theorem level_never_lost levelId cfg now (st : St) (pt : Pt) evs w' :
  Page.levelConfig levelId = Some cfg → Forall event_ok evs →
  steps levelId evs (World.init levelId now st pt) = Ok w' →
  (state (session (game w')) = playing ∧ showResult w' = false) ∨
  (state (session (game w')) = victory ∧ showResult w' = true).
Proof.
  intros Hcfg Hevs Hs.
  destruct (steps_inv levelId cfg Hcfg evs _ Hevs (inv_init levelId cfg Hcfg now st pt))
    as (w1 & Hw1 & Hinv).
  rewrite Hs in Hw1. simplify_eq. apply Hinv.
Qed.

(** C38: every progress record the page files has one to three stars and no
    more attempts than stars: a result is kept only when it has more stars
    than the record it replaces, so the attempts count the improvements of a
    level and not the times it was played. *)
Theorem attempts_bounded_by_stars levelId now (st : St) (pt : Pt) evs w' :
  player_ok (player pt) →
  steps levelId evs (World.init levelId now st pt) = Ok w' →
  player_ok (player (playerStore w')).
Proof. intros Hp. by apply steps_player_ok. Qed.

(** C37: restarting a finished level resets the session and hides the result
    panel but leaves the canvas as it was: the entities of the finished game
    are still on screen though the store lists none, and the spawn index is
    not rewound, so the words already spawned are not offered again. *)
Theorem restart_keeps_canvas levelId cfg now w :
  Page.levelConfig levelId = Some cfg → showResult w = true →
  ∃ w', step levelId (ClickRestart now) w = Ok w' ∧
    canvas w' = canvas w ∧
    session (game w') =
      Session.startGame (Words.mode cfg) (Page.orNull levelId) now Session.initialSession ∧
    entities (session (game w')) = [] ∧ showResult w' = false.
Proof.
  intros Hcfg Hr. unfold step. rewrite Hr.
  pose proof (handleRestart_session levelId cfg Hcfg now (game w)) as Hs.
  destruct (Page.handleRestart levelId now (game w)) as [st sr] eqn:E.
  assert (sr = false) as -> by (by unfold Page.handleRestart in E; simplify_eq).
  eexists. split; [done|]. destruct (render_game (World.mk (canvas w) st (playerStore w)
    (currentInput w) false)) as (-> & -> & -> & _).
  cbn [canvas game showResult fst] in *. by rewrite Hs.
Qed.

(** C39: a victory in a level always pays: the result is offered to the
    progress records, and the player gains a hundred experience points and
    fifty coins per star.  The stars depend on the accuracy alone and are
    never fewer than one, nor fewer than [calculateStars] would give. *)
Theorem victory_rewards (i : string) (seen : GameSession.t) now (st : St) (pt : Pt) :
  i ≠ EmptyString →
  let stars := Page.pageStars (accuracy seen) in
  let p' := player (Page.handleGameEnd (Some i) seen true now st pt).1.2 in
  PlayerData.exp p' = PlayerData.exp (player pt) + 100 * stars ∧
  PlayerData.coins p' = PlayerData.coins (player pt) + 50 * stars ∧
  1 <= stars <= 3 ∧ calculateStars (accuracy seen) (inject_Z (wpm seen)) <= stars ∧
  session (Page.handleGameEnd (Some i) seen true now st pt).1.1
    = Session.endGame true (session st).
Proof.
  intros Hi. cbv zeta. rewrite handleGameEnd_victory_player by done.
  rewrite addCoins_coins. unfold Player.addCoins. cbn [PlayerData.exp Player.set_coins].
  rewrite addExp_exp. destruct (addExp_frame (100 * Page.pageStars (accuracy seen))
    (Player.updateLevelProgress (Page.result i seen now pt) (player pt))) as (_ & _ & -> & _).
  split_and!; [| |apply pageStars_range..|apply pageStars_ge_calculateStars
               |apply handleGameEnd_session].
  - f_equal. unfold Player.updateLevelProgress. by repeat case_match.
  - f_equal. unfold Player.updateLevelProgress. by repeat case_match.
Qed.

(** a key of one character pressed without Ctrl, Alt or Meta goes to the
    canvas exactly once, and the input line gains the key exactly when the
    canvas reports a hit; with well-formed entities the handler returns. *)
Theorem typing_line_follows_hits (e : KeyboardEvent.t) sc now input c (st : St) :
  printable e → Forall entity_ok (Refs.entitiesRef c) →
  ∃ b c' st', handleKeyPress (KeyboardEvent.key e) sc now c st = Ok (b, c', st') ∧
    TypingInput.handleKeyDown e sc now input c st =
      Ok (if b then input +:+ KeyboardEvent.key e else input, c', st').
Proof.
  intros He Hok.
  destruct (handleKeyPress_safe (KeyboardEvent.key e) sc now c st Hok) as [[[b c'] st'] Hk].
  exists b, c', st'. split; [done|]. rewrite handleKeyDown_printable by done. by rewrite Hk.
Qed.

(** a key pressed with Ctrl, Alt or Meta, or a key whose name is longer
    than one character, never reaches the canvas: the refs and the store are
    unchanged, and only Backspace without a modifier edits the input line. *)
Theorem typing_ignores_other_keys (e : KeyboardEvent.t) sc now input c (st : St) :
  ¬ printable e →
  ∃ input', TypingInput.handleKeyDown e sc now input c st = Ok (input', c, st) ∧
    (input' = input ∨
     (KeyboardEvent.key e = "Backspace"%string ∧ input' = TypingInput.dropLast input)).
Proof.
  intros Hn. unfold TypingInput.handleKeyDown.
  destruct (_ || _ || _) eqn:Hm; [eexists; split; [done|by left]|].
  apply orb_false_elim in Hm as [[? ?]%orb_false_elim ?].
  rewrite (bool_decide_eq_false_2 (String.length (KeyboardEvent.key e) = 1%nat))
    by (intros ?; by apply Hn). simpl.
  case_bool_decide; eexists; (split; [done|]); [by right|by left].
Qed.

End play_properties.

(** the words the page generates for a level of the table, with draws
    in [0, 1) and a sort that permutes the keys, are twenty words of two to
    four characters, none of them empty: the generator never throws and its
    words keep the canvas safe. *)
Theorem practice_words_fit (levelId : option string) (cfg : Words.LevelEntry)
    (draws : list Words.Draw) :
  Page.levelConfig levelId = Some cfg → Forall Words.valid draws →
  length draws = Page.wordCount →
  ∃ ws, Words.generateWords (Words.keys cfg) draws = Ok ws ∧ words_fit ws ∧
    Forall (λ x, (2 ≤ String.length x ≤ 4)%nat) ws.
Proof.
  intros Hcfg Hd Hl.
  destruct (generateWords_ok (Words.keys cfg) draws) as (ws & Hws & Hlen & Hf);
    [by eapply levelConfig_keys_ok|done|].
  exists ws. split; [done|]. split; [|done]. split; [by rewrite Hlen|].
  eapply Forall_impl; [done|]. intros x Hx ->. simpl in Hx. lia.
Qed.

(** ** The properties on a sample level

    Level 1-1 with the store of the source, a new player, twenty times the
    word "as", and a run of a frame, two key presses, the frame that ends
    the game and a restart. *)

Module PlaySample.
Import World TypingInput.

Definition levelId : option string := Some "1-1"%string.

Definition cfg : Words.LevelEntry :=
  Words.mkEntry "左手入门" gravity ["a"; "s"; "d"; "f"]%string.

Definition words : list string := replicate 20 "as"%string.

Definition pt0 : UsePlayerStore.t :=
  UsePlayerStore.mk (Player.initialPlayer "u1" 0) (Player.initialPlayer "u1" 0).

Definition w0 : World.t GameSession.t UsePlayerStore.t :=
  World.init levelId 1000 Session.initialSession pt0.

Definition press (k : string) : KeyboardEvent.t := KeyboardEvent.plain k.

Definition evs : list Event :=
  [ AnimationFrame 3500 Sample.draws words;
    KeyDown (press "a") 3600;
    KeyDown (press "x") 3700;
    AnimationFrame 61500 Sample.draws words;
    ClickRestart 70000 ].

(** The sort that leaves the keys in their order. *)
Definition draw : Words.Draw := Words.mkDraw (1 # 2) (λ l, l) (1 # 4).

End PlaySample.

Section play_witnesses.
Import World TypingInput PlaySample.

Lemma words_sample_fit : words_fit words.
Proof. split; [done|]. by apply Forall_replicate. Qed.

Lemma evs_ok : Forall event_ok evs.
Proof.
  unfold evs.
  repeat first [apply Forall_nil_2
               |apply Forall_cons_2; [first [exact words_sample_fit|exact I]|]].
Qed.

Lemma draw_valid : Words.valid draw.
Proof. split_and!; done. Qed.

Lemma press_printable : printable (press "c").
Proof. by split_and!. Qed.

Lemma level_play_safe_witness :
  ∃ w', steps levelId evs w0 = Ok w' ∧ inv w'.
Proof.
  exact (level_play_safe (St := GameSession.t) (Pt := UsePlayerStore.t)
           levelId cfg 1000 Session.initialSession pt0 evs eq_refl evs_ok).
Defined.

Lemma level_never_lost_witness :
  ∃ w', steps levelId evs w0 = Ok w' ∧
    ((state (game w') = playing ∧ showResult w' = false) ∨
     (state (game w') = victory ∧ showResult w' = true)).
Proof.
  assert (∃ w', steps levelId evs w0 = Ok w') as [w' E]
    by (eexists; vm_compute; reflexivity).
  exists w'. split; [exact E|].
  exact (level_never_lost (St := GameSession.t) (Pt := UsePlayerStore.t)
           levelId cfg 1000 Session.initialSession pt0 evs w' eq_refl evs_ok E).
Defined.

Lemma attempts_bounded_by_stars_witness :
  ∃ w', steps levelId evs w0 = Ok w' ∧ player_ok (UsePlayerStore.current (playerStore w')).
Proof.
  assert (∃ w', steps levelId evs w0 = Ok w') as [w' E]
    by (eexists; vm_compute; reflexivity).
  exists w'. split; [exact E|].
  exact (attempts_bounded_by_stars (St := GameSession.t) (Pt := UsePlayerStore.t)
           levelId 1000 Session.initialSession pt0 evs w' (map_Forall_empty _) E).
Defined.

Lemma restart_keeps_canvas_witness :
  ∃ w', step levelId (ClickRestart 70000)
          (World.mk (Sample.refs [Sample.cat]) (Session.endGame true Sample.session0)
             pt0 EmptyString true) = Ok w' ∧
    canvas w' = Sample.refs [Sample.cat] ∧
    game w' = Session.startGame gravity (Some "1-1"%string) 70000 Session.initialSession ∧
    entities (game w') = [] ∧ showResult w' = false.
Proof.
  exact (restart_keeps_canvas (St := GameSession.t) (Pt := UsePlayerStore.t)
           levelId cfg 70000
           (World.mk (Sample.refs [Sample.cat]) (Session.endGame true Sample.session0)
              pt0 EmptyString true) eq_refl eq_refl).
Defined.

Lemma victory_rewards_witness :
  let p' := UsePlayerStore.current
              (Page.handleGameEnd (Some "1-1"%string) Sample.session0 true 5000
                 Sample.session0 pt0).1.2 in
  PlayerData.exp p' = 0 + 100 * 3 ∧ PlayerData.coins p' = 0 + 50 * 3 ∧
  1 <= 3 <= 3 ∧ calculateStars 100 (inject_Z 0) <= 3 ∧
  (Page.handleGameEnd (Some "1-1"%string) Sample.session0 true 5000 Sample.session0 pt0).1.1
    = Session.endGame true Sample.session0.
Proof.
  refine (victory_rewards (St := GameSession.t) (Pt := UsePlayerStore.t)
            "1-1" Sample.session0 5000 Sample.session0 pt0 _).
  discriminate.
Defined.

Lemma typing_line_follows_hits_witness :
  ∃ b c' st', handleKeyPress "c" 0 2000 (Sample.refs [Sample.cat]) Sample.session0
                = Ok (b, c', st') ∧
    handleKeyDown (press "c") 0 2000 "xy" (Sample.refs [Sample.cat]) Sample.session0 =
      Ok (if b then "xy" +:+ "c" else "xy", c', st')%string.
Proof.
  refine (typing_line_follows_hits (St := GameSession.t) (press "c") 0 2000 "xy"
            (Sample.refs [Sample.cat]) Sample.session0 press_printable _).
  constructor; [exact cat_ok|constructor].
Defined.

Lemma typing_ignores_other_keys_witness :
  ∃ input', handleKeyDown (press "Backspace") 0 2000 "xy" (Sample.refs [Sample.cat])
              Sample.session0 = Ok (input', Sample.refs [Sample.cat], Sample.session0) ∧
    (input' = "xy"%string ∨
     ("Backspace" = "Backspace" ∧ input' = dropLast "xy")%string).
Proof.
  refine (typing_ignores_other_keys (St := GameSession.t) (press "Backspace") 0 2000 "xy"
            (Sample.refs [Sample.cat]) Sample.session0 _).
  intros (_ & _ & _ & Hl). discriminate Hl.
Defined.

Lemma practice_words_fit_witness :
  ∃ ws, Words.generateWords ["a"; "s"; "d"; "f"]%string (replicate 20 draw) = Ok ws ∧
    words_fit ws ∧ Forall (λ x, (2 ≤ String.length x ≤ 4)%nat) ws.
Proof.
  refine (practice_words_fit levelId cfg (replicate 20 draw) eq_refl _ eq_refl).
  apply Forall_replicate. exact draw_valid.
Defined.

End play_witnesses.
