(* ===== verification/Progress.v ===== *)
(** * Progress: the level selection and the statistics page

    [Module LevelSelect] is [pages/LevelSelect/index.tsx]: the table of
    worlds and levels, the rule that unlocks a level, and the cards the page
    shows.  [Module StatsPage] is [pages/Stats/index.tsx]: its tables, its
    own [formatTime], and the rows of the level progress with their star
    display.  Both pages read the player store and write nothing; a render
    is a function of the player that returns what is shown, or the exception
    that [prevLevel.id] on a missing level or [repeat] with a negative count
    throws.

    The theorems: the unlock rule is the chain of the levels in the order of
    the table; the tables of the three pages agree; a render of either page
    does not throw on the records the game files; a victory unlocks the next
    level, and what is unlocked stays unlocked while a level is played; the
    statistics of the player are never written by the game page. *)

From Stdlib Require Import ZArith QArith Qround Lqa Lia String Ascii.
From stdpp Require Import base tactics option list strings gmap pretty.
From S2P Require Import Prelude Types Metrics Store PlayerSlice GameCanvas Play.

#[local] Open Scope Z_scope.
#[local] Open Scope string_scope.

(** ** Printing *)

(** [x.toFixed(0)], for numbers below 10^21: the nearest integer, a tie
    away from zero. *)
Definition toFixed0 (x : Q) : string :=
  if Qle_bool 0 x then pretty (Math_floor (x + (1 # 2)))
  else "-" +:+ pretty (Math_floor (- x + (1 # 2))).

(** ** The level selection *)

Module LevelInfo.
Record t : Type := mk {
  id : string;
  name : string;
  description : string;
  mode : GameMode;
}.
End LevelInfo.

Module WorldInfo.
Record t : Type := mk {
  id : Z;
  name : string;
  icon : string;
  description : string;
  levels : list LevelInfo.t;
}.
End WorldInfo.

Module LevelSelect.

Definition worlds : list WorldInfo.t :=
  [ WorldInfo.mk 1 "键盘森林" "🌲" "学习基础键位 (ASDF JKL;)"
      [ LevelInfo.mk "1-1" "左手入门" "学习左手指法 (ASDF)" gravity;
        LevelInfo.mk "1-2" "右手入门" "学习右手指法 (JKL;)" gravity;
        LevelInfo.mk "1-3" "双手配合" "基础键位综合练习" gravity ];
    WorldInfo.mk 2 "字母山谷" "⛰️" "掌握全部字母键位"
      [ LevelInfo.mk "2-1" "上方字母" "QWERTYUIOP 练习" runner;
        LevelInfo.mk "2-2" "下方字母" "ZXCVBNM,. 练习" runner;
        LevelInfo.mk "2-3" "全字母综合" "所有字母键位混合" runner ];
    WorldInfo.mk 3 "数字海洋" "🌊" "挑战数字与符号"
      [ LevelInfo.mk "3-1" "数字世界" "1234567890 练习" bubble;
        LevelInfo.mk "3-2" "符号天地" "常用符号练习" bubble;
        LevelInfo.mk "3-3" "综合训练" "字母+数字+符号" bubble ];
    WorldInfo.mk 4 "BOSS城堡" "🏰" "终极挑战"
      [ LevelInfo.mk "4-1" "初级BOSS" "简单词汇挑战" boss;
        LevelInfo.mk "4-2" "中级BOSS" "句子打字挑战" boss;
        LevelInfo.mk "4-3" "终极BOSS" "综合能力测试" boss ] ].

Definition modeLabels (mode : GameMode) : string :=
  match mode with
  | gravity => "重力下落"
  | runner => "横向跑酷"
  | bubble => "气泡上升"
  | boss => "BOSS问答"
  end.

(** [worlds.find((w) => w.id === worldId)] *)
Definition findWorld (worldId : Z) : option WorldInfo.t :=
  List.find (λ w, bool_decide (WorldInfo.id w = worldId)) worlds.

(** [player.levelProgress[levelId]?.completed || false] *)
Definition completedOf (player : PlayerData.t) (levelId : string) : bool :=
  match PlayerData.levelProgress player !! levelId with
  | Some progress => LevelProgress.completed progress
  | None => false
  end.

(** [level.id] of an element of [levels]; an element that is not there has
    no [id]. *)
Definition completedAt (player : PlayerData.t) (levels : list LevelInfo.t) (index : Z)
    : result bool :=
  match nthZ levels index with
  | Some level => Ok (completedOf player (LevelInfo.id level))
  | None => Throw TypeError
  end.

(** [isLevelUnlocked(worldId, levelIndex)] *)
Definition isLevelUnlocked (player : PlayerData.t) (worldId levelIndex : Z) : result bool :=
  if bool_decide (worldId = 1) && bool_decide (levelIndex = 0) then Ok true
  else
    match (if bool_decide (levelIndex > 0) then findWorld worldId else None) with
    | Some prevWorld => completedAt player (WorldInfo.levels prevWorld) (levelIndex - 1)
    | None =>
        match (if bool_decide (worldId > 1) then findWorld (worldId - 1) else None) with
        | Some prevWorld =>
            completedAt player (WorldInfo.levels prevWorld)
              (Z.of_nat (length (WorldInfo.levels prevWorld)) - 1)
        | None => Ok false
        end
    end.

(** [getLevelProgress(levelId)] *)
Definition getLevelProgress (player : PlayerData.t) (levelId : string)
    : option LevelProgress.t :=
  PlayerData.levelProgress player !! levelId.

(** What a card of a level shows: the link is there when the level is
    unlocked. *)
Record Card : Type := mkCard {
  level : LevelInfo.t;
  unlocked : bool;
  completed : bool;
  link : option string;
  label : string;
  bestWPM : Z;
  stars : list bool;
}.

(** The card of the level at [index] of a world. *)
Definition card (player : PlayerData.t) (world : WorldInfo.t) (index : Z)
    (level : LevelInfo.t) : result Card :=
  unlocked ← isLevelUnlocked player (WorldInfo.id world) index;
  let progress := getLevelProgress player (LevelInfo.id level) in
  let completed := default false (LevelProgress.completed <$> progress) in
  let shown := default 0 (LevelProgress.stars <$> progress) in
  Ok {| level := level;
        unlocked := unlocked;
        completed := completed;
        link := if unlocked then Some ("/game/" +:+ LevelInfo.id level) else None;
        label := modeLabels (LevelInfo.mode level);
        bestWPM := default 0 (LevelProgress.bestWPM <$> progress);
        stars := (λ star, bool_decide (star <= shown)) <$> [1; 2; 3] |}.

(** [world.levels.map((level, index) => ...)] from [index] on. *)
Fixpoint cards (player : PlayerData.t) (world : WorldInfo.t) (index : Z)
    (levels : list LevelInfo.t) : result (list Card) :=
  match levels with
  | [] => Ok []
  | level :: rest =>
      c ← card player world index level;
      cs ← cards player world (index + 1) rest;
      Ok (c :: cs)
  end.

(** [worlds.map((world) => ...)] *)
Fixpoint sections (player : PlayerData.t) (ws : list WorldInfo.t)
    : result (list (WorldInfo.t * list Card)) :=
  match ws with
  | [] => Ok []
  | world :: rest =>
      cs ← cards player world 0 (WorldInfo.levels world);
      ss ← sections player rest;
      Ok ((world, cs) :: ss)
  end.

(** The page. *)
Definition render (player : PlayerData.t) : result (list (WorldInfo.t * list Card)) :=
  sections player worlds.

End LevelSelect.

(** ** The statistics page *)

Module Achievement.
Record t : Type := mk {
  id : string;
  name : string;
  icon : string;
}.
End Achievement.

Module StatsPage.

Definition allAchievements : list Achievement.t :=
  [ Achievement.mk "first_win" "初次胜利" "🏆";
    Achievement.mk "combo_10" "连击新手" "🔥";
    Achievement.mk "combo_50" "连击达人" "💥";
    Achievement.mk "combo_100" "连击大师" "⚡";
    Achievement.mk "speed_30" "速度达人" "💨";
    Achievement.mk "speed_50" "键盘飞人" "🚀";
    Achievement.mk "accuracy_100" "完美准确" "🎯";
    Achievement.mk "level_5" "冒险新手" "⭐";
    Achievement.mk "level_10" "冒险高手" "🌟";
    Achievement.mk "all_levels" "通关大师" "👑" ].

(** The entries of [levelNames], in the order of [Object.entries]. *)
Definition levelNames : list (string * string) :=
  [ ("1-1", "左手入门");
    ("1-2", "右手入门");
    ("1-3", "双手配合");
    ("2-1", "上方字母");
    ("2-2", "下方字母");
    ("2-3", "全字母综合");
    ("3-1", "数字世界");
    ("3-2", "符号天地");
    ("3-3", "综合训练");
    ("4-1", "初级BOSS");
    ("4-2", "中级BOSS");
    ("4-3", "终极BOSS") ].

(** The [formatTime] of the page: hours and minutes. *)
Definition formatTime (seconds : Z) : string :=
  let hours := Math_floor (inject_Z seconds / 3600) in
  let minutes := Math_floor (inject_Z (Z.rem seconds 3600) / 60) in
  if bool_decide (hours > 0)
  then pretty hours +:+ "小时" +:+ pretty minutes +:+ "分钟"
  else pretty minutes +:+ "分钟".

(** [s.repeat(count)] for an integer count. *)
Definition repeat (s : string) (count : Z) : result string :=
  if bool_decide (count < 0) then Throw RangeError
  else Ok (String.concat EmptyString (replicate (Z.to_nat count) s)).

(** [completed ? '⭐'.repeat(stars) + '☆'.repeat(3 - stars) : '🔒'] *)
Definition starDisplay (completed : bool) (stars : Z) : result string :=
  if completed then
    filled ← repeat "⭐" stars;
    hollow ← repeat "☆" (3 - stars);
    Ok (filled +:+ hollow)
  else Ok "🔒".

(** A row of the level progress: the name, the stars, and for a completed
    level the best speed and accuracy. *)
Record Row : Type := mkRow {
  name : string;
  display : string;
  details : option (Z * string);
}.

Definition row (player : PlayerData.t) (entry : string * string) : result Row :=
  let '(levelId, name) := entry in
  let progress := PlayerData.levelProgress player !! levelId in
  let stars := default 0 (LevelProgress.stars <$> progress) in
  let completed := default false (LevelProgress.completed <$> progress) in
  display ← starDisplay completed stars;
  Ok {| name := name;
        display := display;
        details :=
          if completed then
            (λ p, (LevelProgress.bestWPM p, toFixed0 (LevelProgress.bestAccuracy p)))
              <$> progress
          else None |}.

Fixpoint rows (player : PlayerData.t) (entries : list (string * string))
    : result (list Row) :=
  match entries with
  | [] => Ok []
  | entry :: rest =>
      r ← row player entry;
      rs ← rows player rest;
      Ok (r :: rs)
  end.

(** The eight numbers of the first grid, in the order of the page. *)
Definition grid (player : PlayerData.t) : list string :=
  let s := PlayerData.stats player in
  [ pretty (PlayerStats.totalWordsTyped s);
    pretty (PlayerStats.totalCharactersTyped s);
    pretty (PlayerStats.averageWPM s);
    toFixed0 (PlayerStats.averageAccuracy s) +:+ "%";
    pretty (PlayerStats.maxCombo s);
    pretty (PlayerStats.totalGamesPlayed s);
    formatTime (PlayerStats.totalTimePlayed s);
    pretty (PlayerStats.perfectLevels s) ].

(** The achievements, each with whether the player has it. *)
Definition achievementCards (player : PlayerData.t) : list (Achievement.t * bool) :=
  (λ a, (a, Player.includes (PlayerData.achievements player) (Achievement.id a)))
    <$> allAchievements.

(** The page. *)
Definition render (player : PlayerData.t)
    : result (list string * list Row * list (Achievement.t * bool)) :=
  rs ← rows player levelNames;
  Ok (grid player, rs, achievementCards player).

End StatsPage.

(** * Theorems *)

(** ** The unlock rule *)

Section unlock.
Import LevelSelect.
Implicit Types (player p : PlayerData.t) (n : nat) (worldId index : Z)
  (level : LevelInfo.t).

(** The levels in the order of the table, each with the arguments the page
    passes to [isLevelUnlocked] for it. *)
Definition allLevels : list (Z * Z * LevelInfo.t) :=
  w ← worlds;
  imap (λ i level, (WorldInfo.id w, Z.of_nat i, level)) (WorldInfo.levels w).

(** The level before position [n] is completed; the first level has none
    before it. *)
Definition previousCompleted player n : bool :=
  match n with
  | O => true
  | S k =>
      match allLevels !! k with
      | Some (_, _, level) => completedOf player (LevelInfo.id level)
      | None => false
      end
  end.

Lemma isLevelUnlocked_chain player n worldId index level :
  allLevels !! n = Some (worldId, index, level) →
  isLevelUnlocked player worldId index = Ok (previousCompleted player n).
Proof.
  intros Hn. do 12 (destruct n as [|n]; [by simplify_eq/=|]). done.
Qed.

Lemma cards_length player world index levels cs :
  cards player world index levels = Ok cs → length cs = length levels.
Proof.
  revert index cs. induction levels as [|level rest IH]; intros index cs; simpl;
    [by intros [= <-]|].
  intros (c & _ & (cs' & Hcs & [= <-])%bind_Ok)%bind_Ok. simpl. f_equal. by eapply IH.
Qed.

Lemma render_Ok player : is_Ok (render player).
Proof. by eexists. Qed.

(** A record of the level keeps [completedOf] when it is replaced by a
    completed one or left alone. *)
Lemma completedOf_updateLevelProgress player lp i :
  LevelProgress.completed lp = true → completedOf player i = true →
  completedOf (Player.updateLevelProgress lp player) i = true.
Proof.
  intros Hlp Hi. unfold completedOf in *.
  destruct (decide (i = LevelProgress.levelId lp)) as [->|Hne].
  - rewrite updateLevelProgress_lookup. by case_decide.
  - by rewrite updateLevelProgress_other.
Qed.

Lemma completedOf_improved player lp :
  LevelProgress.completed lp = true →
  (∀ e, PlayerData.levelProgress player !! LevelProgress.levelId lp = Some e →
        LevelProgress.completed e = true) →
  completedOf (Player.updateLevelProgress lp player) (LevelProgress.levelId lp) = true.
Proof.
  intros Hlp He. unfold completedOf. rewrite updateLevelProgress_lookup.
  case_decide as Him; [done|]. unfold improves in Him.
  destruct (PlayerData.levelProgress player !! _) as [e|] eqn:E; [by apply He|].
  by destruct Him.
Qed.

End unlock.

(** ** The game page and the two pages *)

Section pages.
Context {St Pt : Type} `{GameStoreLaws St} `{PlayerStoreLaws Pt}.
Import LevelSelect Page.
Implicit Types (pt : Pt) (st : St) (seen : GameSession.t) (i : string).

(** Every record is one of a completed level. *)
Definition all_completed (p : PlayerData.t) : Prop :=
  map_Forall (λ _ lp, LevelProgress.completed lp = true) (PlayerData.levelProgress p).

(** What [handleGameEnd] leaves alone in the player: everything but the
    experience, the level, the coins and the progress. *)
Lemma handleGameEnd_player_frame levelId seen v now st pt :
  let p' := player (handleGameEnd levelId seen v now st pt).1.2 in
  PlayerData.stats p' = PlayerData.stats (player pt) ∧
  PlayerData.achievements p' = PlayerData.achievements (player pt) ∧
  PlayerData.name p' = PlayerData.name (player pt).
Proof.
  destruct (orNull levelId) as [i|] eqn:Hl, v;
    try (rewrite handleGameEnd_other_player by auto; done).
  unfold handleGameEnd. rewrite Hl. cbn [fst snd]. autorewrite with player.
  pose proof (addExp_frame (100 * pageStars (GameSession.accuracy seen))
                (Player.updateLevelProgress (result i seen now pt) (player pt)))
    as (_ & Hn & _ & Hs & _ & _ & Ha).
  unfold Player.addCoins. cbn [PlayerData.stats PlayerData.achievements PlayerData.name
    Player.set_coins]. rewrite Hn, Hs, Ha.
  unfold Player.updateLevelProgress. by case_match.
Qed.

Lemma handleGameEnd_levelProgress i seen now st pt :
  PlayerData.levelProgress (player (handleGameEnd (Some i) seen true now st pt).1.2) =
  if bool_decide (i = EmptyString) then PlayerData.levelProgress (player pt)
  else PlayerData.levelProgress
         (Player.updateLevelProgress (result i seen now pt) (player pt)).
Proof.
  case_bool_decide as Hi.
  - by rewrite handleGameEnd_other_player by (left; unfold orNull; by rewrite Hi).
  - rewrite handleGameEnd_victory_player by done.
    unfold Player.addCoins. cbn [PlayerData.levelProgress Player.set_coins].
    apply (addExp_frame (100 * pageStars (GameSession.accuracy seen))).
Qed.

(** A level that counts as completed still does after the end of a game. *)
Lemma completedOf_handleGameEnd levelId seen v now st pt i :
  completedOf (player pt) i = true →
  completedOf (player (handleGameEnd levelId seen v now st pt).1.2) i = true.
Proof.
  intros Hi. destruct levelId as [j|], v;
    try (rewrite handleGameEnd_other_player by auto; done).
  unfold completedOf. rewrite handleGameEnd_levelProgress. case_bool_decide; [done|].
  by apply completedOf_updateLevelProgress.
Qed.

Lemma all_completed_handleGameEnd levelId seen v now st pt :
  all_completed (player pt) →
  all_completed (player (handleGameEnd levelId seen v now st pt).1.2).
Proof.
  intros Hp. destruct levelId as [j|], v;
    try (rewrite handleGameEnd_other_player by auto; done).
  unfold all_completed. rewrite handleGameEnd_levelProgress.
  case_bool_decide; [done|].
  destruct (decide (improves (result j seen now pt) (player pt))) as [Him|Him];
    [|by rewrite updateLevelProgress_keeps].
  rewrite updateLevelProgress_improves by done. by apply map_Forall_insert_2.
Qed.

End pages.

(** ** Properties of the two pages *)

(** C17: The unlock rule is a chain: in the order of the table, the first level
    is always unlocked and every other level is unlocked exactly when the
    level before it is completed, across the worlds; the two cases of the
    code (the level before in the same world, the last level of the world
    before) never miss a level and never look outside the table. *)
Theorem unlock_rule_is_chain (player : PlayerData.t) (n : nat) (worldId index : Z)
    (level : LevelInfo.t) :
  allLevels !! n = Some (worldId, index, level) →
  LevelSelect.isLevelUnlocked player worldId index = Ok (previousCompleted player n).
Proof. apply isLevelUnlocked_chain. Qed.

Lemma unlock_rule_is_chain_witness :
  LevelSelect.isLevelUnlocked (Player.initialPlayer "u1" 0) 2 0 =
    Ok (previousCompleted (Player.initialPlayer "u1" 0) 3).
Proof.
  exact (unlock_rule_is_chain (Player.initialPlayer "u1" 0) 3 2 0
           (LevelInfo.mk "2-1" "上方字母" "QWERTYUIOP 练习" runner) eq_refl).
Defined.

(** The level selection never throws and shows twelve cards in four
    worlds, whatever the player store holds; for a new player only the
    first level has a link. *)
Theorem level_select_renders (player : PlayerData.t) :
  ∃ ss, LevelSelect.render player = Ok ss ∧
    (λ s, length s.2) <$> ss = [3; 3; 3; 3]%nat ∧
    (player = Player.initialPlayer (PlayerData.id player) (PlayerData.createdAt player) →
     LevelSelect.link <$> (ss ≫= snd) = Some "/game/1-1" :: replicate 11 None).
Proof.
  eexists. split; [reflexivity|]. split; [done|]. by intros ->.
Qed.

(** The three pages agree on the levels: the level selection, the level
    table of the game page and the names of the statistics page list the
    same twelve levels in the same order, with the same names and modes. *)
Theorem level_tables_agree :
  (λ '(_, _, l), (LevelInfo.id l, (LevelInfo.name l, LevelInfo.mode l))) <$> allLevels =
    (λ e, (e.1, (Words.name e.2, Words.mode e.2))) <$> Words.levelConfigs ∧
  (λ '(_, _, l), (LevelInfo.id l, LevelInfo.name l)) <$> allLevels = StatsPage.levelNames ∧
  length allLevels = 12%nat.
Proof. done. Qed.

Section page_properties.
Context {St Pt : Type} `{GameStoreLaws St} `{PlayerStoreLaws Pt}.
Import World.
Implicit Types (pt : Pt) (st : St) (levelId : option string).

Lemma allLevels_id n worldId index level :
  allLevels !! n = Some (worldId, index, level) → LevelInfo.id level ≠ EmptyString.
Proof. intros Hn. do 12 (destruct n as [|n]; [by simplify_eq/=|]). done. Qed.

(** C16: A victory unlocks the next level: when the game page has filed the
    victory in a level, the level after it in the table is unlocked,
    provided the records of the player are those of completed levels (so
    that a record the new result does not replace counts as well). *)
Theorem victory_unlocks_next (n : nat) (w w' i i' : Z) (level next : LevelInfo.t)
    (seen : GameSession.t) (now : Z) st pt :
  allLevels !! n = Some (w, i, level) → allLevels !! S n = Some (w', i', next) →
  all_completed (player pt) →
  LevelSelect.isLevelUnlocked
    (player (Page.handleGameEnd (Some (LevelInfo.id level)) seen true now st pt).1.2)
    w' i' = Ok true.
Proof.
  intros Hn Hn' Hp. rewrite (isLevelUnlocked_chain _ _ _ _ _ Hn').
  cbn [previousCompleted]. rewrite Hn. f_equal. unfold LevelSelect.completedOf.
  rewrite handleGameEnd_levelProgress.
  rewrite bool_decide_eq_false_2 by by eapply allLevels_id.
  apply (completedOf_improved (player pt)
           (Page.result (LevelInfo.id level) seen now pt)); [done|].
  intros e He. by apply Hp in He.
Qed.

(** What is unlocked stays unlocked while a level is played: no event of
    the game page locks a level of the table again. *)
Theorem unlocked_stays_unlocked levelId (evs : list Event) (now : Z) st pt
    (wd : World.t St Pt) (n : nat) (w i : Z) (level : LevelInfo.t) :
  steps levelId evs (World.init levelId now st pt) = Ok wd →
  allLevels !! n = Some (w, i, level) →
  LevelSelect.isLevelUnlocked (player pt) w i = Ok true →
  LevelSelect.isLevelUnlocked (player (playerStore wd)) w i = Ok true.
Proof.
  intros Hs Hn. rewrite !(isLevelUnlocked_chain _ _ _ _ _ Hn).
  destruct n as [|k]; [done|]. cbn [previousCompleted].
  destruct (allLevels !! k) as [[[? ?] l]|]; [|done]. intros [= Hl]. f_equal.
  refine (steps_player levelId (λ p, LevelSelect.completedOf p (LevelInfo.id l) = true)
            _ evs (World.init levelId now st pt) wd Hl Hs).
  intros seen v now' st' pt'. apply completedOf_handleGameEnd.
Qed.

(** The game page never writes the statistics, the achievements or the
    name of the player: whatever is played, the first grid and the
    achievements of the statistics page show what they showed before. *)
Theorem stats_never_written levelId (evs : list Event) (now : Z) st pt
    (wd : World.t St Pt) :
  steps levelId evs (World.init levelId now st pt) = Ok wd →
  StatsPage.grid (player (playerStore wd)) = StatsPage.grid (player pt) ∧
  StatsPage.achievementCards (player (playerStore wd)) =
    StatsPage.achievementCards (player pt).
Proof.
  intros Hs.
  assert (PlayerData.stats (player (playerStore wd)) = PlayerData.stats (player pt) ∧
          PlayerData.achievements (player (playerStore wd)) =
            PlayerData.achievements (player pt)) as [Hst Ha].
  { refine (steps_player levelId (λ p, PlayerData.stats p = PlayerData.stats (player pt) ∧
              PlayerData.achievements p = PlayerData.achievements (player pt))
              _ evs (World.init levelId now st pt) wd (conj eq_refl eq_refl) Hs).
    intros seen v now' st' pt' [<- <-].
    by destruct (handleGameEnd_player_frame levelId seen v now' st' pt') as (? & ? & _). }
  unfold StatsPage.grid, StatsPage.achievementCards. by rewrite Hst, Ha.
Qed.

End page_properties.

(** ** The statistics page *)

Section stats.
Import StatsPage.
Implicit Types (p : PlayerData.t) (entry : string * string) (stars count : Z).

Lemma repeat_Ok_iff s count : is_Ok (repeat s count) ↔ 0 <= count.
Proof.
  unfold repeat. case_bool_decide; split; try done; try lia.
  - by intros ?%not_is_Ok_Throw.
  - intros _. apply is_Ok_Ok.
Qed.

Lemma repeat_Throw s count e : repeat s count = Throw e → e = RangeError.
Proof. unfold repeat. case_bool_decide; by intros [= <-]. Qed.

Lemma starDisplay_Ok_iff completed stars :
  is_Ok (starDisplay completed stars) ↔ (completed = true → 0 <= stars <= 3).
Proof.
  unfold starDisplay, repeat. destruct completed; [|split; [done|intros _; apply is_Ok_Ok]].
  repeat case_bool_decide; simpl;
    (split; [intros Hok _|intros Hs; specialize (Hs eq_refl)]);
    first [lia|apply is_Ok_Ok|by apply not_is_Ok_Throw in Hok].
Qed.

Lemma starDisplay_Throw completed stars e :
  starDisplay completed stars = Throw e → e = RangeError.
Proof.
  unfold starDisplay. destruct completed; [|done].
  destruct (repeat "⭐" stars) as [a|e1] eqn:E1; simpl;
    [|intros [= <-]; by eapply repeat_Throw].
  destruct (repeat "☆" (3 - stars)) as [b|e2] eqn:E2; simpl; [done|].
  intros [= <-]. by eapply repeat_Throw.
Qed.

(** A level whose record, if it is one of a completed level, has at most
    three stars. *)
Definition showable p (levelId : string) : Prop :=
  ∀ lp, PlayerData.levelProgress p !! levelId = Some lp →
        LevelProgress.completed lp = true → 0 <= LevelProgress.stars lp <= 3.

Lemma row_Ok_iff p entry : is_Ok (row p entry) ↔ showable p entry.1.
Proof.
  destruct entry as [levelId name]. unfold row, showable. simpl.
  pose proof (starDisplay_Ok_iff
    (default false (LevelProgress.completed <$> PlayerData.levelProgress p !! levelId))
    (default 0 (LevelProgress.stars <$> PlayerData.levelProgress p !! levelId))) as Hd.
  destruct (starDisplay _ _) as [d|e]; simpl.
  - split; [intros _ lp Hlp Hc|intros _; apply is_Ok_Ok].
    rewrite Hlp in Hd. simpl in Hd. apply Hd; [apply is_Ok_Ok|done].
  - split; [by intros ?%not_is_Ok_Throw|]. intros Hs.
    destruct (not_is_Ok_Throw (A := string) e). apply Hd.
    destruct (PlayerData.levelProgress p !! levelId) as [lp|]; simpl; [by apply Hs|done].
Qed.

Lemma row_Throw p entry e : row p entry = Throw e → e = RangeError.
Proof.
  destruct entry as [levelId name]. unfold row.
  destruct (starDisplay _ _) as [d|e'] eqn:E; simpl; [done|].
  intros [= <-]. by eapply starDisplay_Throw.
Qed.

Lemma rows_Ok_iff p entries : is_Ok (rows p entries) ↔ Forall (λ e, showable p e.1) entries.
Proof.
  induction entries as [|entry rest IH]; simpl; [split; [constructor|intros _; apply is_Ok_Ok]|].
  rewrite Forall_cons, <- IH, <- row_Ok_iff.
  destruct (row p entry) as [r|e]; simpl;
    [|split; [by intros ?%not_is_Ok_Throw|by intros [?%not_is_Ok_Throw _]]].
  destruct (rows p rest) as [rs|e]; simpl.
  - split; [intros _; split; apply is_Ok_Ok|intros _; apply is_Ok_Ok].
  - split; [by intros ?%not_is_Ok_Throw|by intros [_ ?%not_is_Ok_Throw]].
Qed.

Lemma rows_Throw p entries e : rows p entries = Throw e → e = RangeError.
Proof.
  induction entries as [|entry rest IH]; simpl; [done|].
  destruct (row p entry) as [r|e'] eqn:E; simpl; [|intros [= <-]; by eapply row_Throw].
  destruct (rows p rest) as [rs|e']; simpl; [done|]. intros [= <-]. by apply IH.
Qed.

End stats.

Lemma render_Ok_iff (p : PlayerData.t) :
  is_Ok (StatsPage.render p) ↔
  ∀ levelId name, (levelId, name) ∈ StatsPage.levelNames → showable p levelId.
Proof.
  unfold StatsPage.render.
  transitivity (is_Ok (StatsPage.rows p StatsPage.levelNames)).
  - destruct (StatsPage.rows p _) as [rs|e]; simpl;
      [split; intros _; apply is_Ok_Ok|split; by intros ?%not_is_Ok_Throw].
  - rewrite rows_Ok_iff, Forall_forall. split.
    + intros Hs levelId name Hin. by apply (Hs (levelId, name)).
    + intros Hs [levelId name] Hin. by apply (Hs levelId name).
Qed.

(** C28: The statistics page renders exactly when every level of its list whose
    record is one of a completed level has between 0 and 3 stars there;
    otherwise [repeat] is called with a negative count and the render throws
    a RangeError. *)
Theorem stats_page_renders_iff (p : PlayerData.t) :
  (is_Ok (StatsPage.render p) ↔
   ∀ levelId name, (levelId, name) ∈ StatsPage.levelNames → showable p levelId) ∧
  (¬ is_Ok (StatsPage.render p) → StatsPage.render p = Throw RangeError).
Proof.
  split; [apply render_Ok_iff|]. unfold StatsPage.render.
  destruct (StatsPage.rows p _) as [rs|e] eqn:E; simpl.
  - intros Hn. destruct Hn. apply is_Ok_Ok.
  - intros _. f_equal. by eapply rows_Throw.
Qed.

(** A record with four stars, which the player store accepts, makes the
    statistics page throw. *)
Example stats_page_throws :
  let lp := LevelProgress.mk "1-1" true 4 40 100 1 None in
  StatsPage.render (Player.updateLevelProgress lp (Player.initialPlayer "u1" 0)) =
    Throw RangeError.
Proof. done. Qed.

(** The statistics page never throws on what the game page files: after any
    events of a level, from a player whose records have one to three stars,
    the page renders. *)
Theorem stats_page_safe_after_play {St Pt : Type} `{GameStoreLaws St} `{PlayerStoreLaws Pt}
    (levelId : option string) (evs : list World.Event) (now : Z) (st : St) (pt : Pt)
    (wd : World.t St Pt) :
  player_ok (player pt) →
  World.steps levelId evs (World.init levelId now st pt) = Ok wd →
  is_Ok (StatsPage.render (player (World.playerStore wd))).
Proof.
  intros Hp Hs. apply render_Ok_iff. intros i name _ lp Hlp _.
  pose proof (steps_player_ok levelId evs (World.init levelId now st pt) wd Hp Hs) as Hok.
  apply Hok in Hlp as [? _]. lia.
Qed.

(** ** The properties at the sample level *)

Section progress_witnesses.
Import World PlaySample.

Lemma victory_unlocks_next_witness :
  LevelSelect.isLevelUnlocked
    (player (Page.handleGameEnd (Some "1-1") Session.initialSession true 61500
               Session.initialSession pt0).1.2) 1 1 = Ok true.
Proof.
  exact (victory_unlocks_next (St := GameSession.t) (Pt := UsePlayerStore.t) 0 1 1 0 1
           (LevelInfo.mk "1-1" "左手入门" "学习左手指法 (ASDF)" gravity)
           (LevelInfo.mk "1-2" "右手入门" "学习右手指法 (JKL;)" gravity)
           Session.initialSession 61500 Session.initialSession pt0 eq_refl eq_refl
           (map_Forall_empty _)).
Defined.

Lemma sample_run : ∃ wd, steps levelId evs w0 = Ok wd.
Proof. eexists. vm_compute. reflexivity. Defined.

Lemma unlocked_stays_unlocked_witness :
  ∃ wd, steps levelId evs w0 = Ok wd ∧
    LevelSelect.isLevelUnlocked (player (playerStore wd)) 1 0 = Ok true.
Proof.
  destruct sample_run as [wd E]. exists wd. split; [exact E|].
  exact (unlocked_stays_unlocked (St := GameSession.t) (Pt := UsePlayerStore.t)
           levelId evs 1000 Session.initialSession pt0 wd 0 1 0
           (LevelInfo.mk "1-1" "左手入门" "学习左手指法 (ASDF)" gravity) E eq_refl eq_refl).
Defined.

Lemma stats_never_written_witness :
  ∃ wd, steps levelId evs w0 = Ok wd ∧
    StatsPage.grid (player (playerStore wd)) = StatsPage.grid (player pt0) ∧
    StatsPage.achievementCards (player (playerStore wd)) =
      StatsPage.achievementCards (player pt0).
Proof.
  destruct sample_run as [wd E]. exists wd. split; [exact E|].
  exact (stats_never_written (St := GameSession.t) (Pt := UsePlayerStore.t)
           levelId evs 1000 Session.initialSession pt0 wd E).
Defined.

Lemma stats_page_safe_after_play_witness :
  ∃ wd, steps levelId evs w0 = Ok wd ∧ is_Ok (StatsPage.render (player (playerStore wd))).
Proof.
  destruct sample_run as [wd E]. exists wd. split; [exact E|].
  exact (stats_page_safe_after_play (St := GameSession.t) (Pt := UsePlayerStore.t)
           levelId evs 1000 Session.initialSession pt0 wd (map_Forall_empty _) E).
Defined.

(** After the sample run, in which the level 1-1 is won, the level 1-2 is
    unlocked and the level 1-3 is not. *)
Example sample_run_unlocks :
  ∃ wd, steps levelId evs w0 = Ok wd ∧
    LevelSelect.isLevelUnlocked (player (playerStore wd)) 1 1 = Ok true ∧
    LevelSelect.isLevelUnlocked (player (playerStore wd)) 1 2 = Ok false.
Proof. eexists. split; [vm_compute; reflexivity|]. by vm_compute. Qed.

End progress_witnesses.
