(* ===== verification/Theme.v ===== *)
(** * Theme: the theme of the application

    [Module Theme] has the shape of the theme as [types/theme.d.ts] declares
    it, one record for every object type of the declaration, and the theme
    [app/providers.tsx] gives to every component.  The components read their
    colours from it; what they read is part of [Display] and [Shell].

    The lemmas: every colour of the theme is a colour of six hexadecimal
    digits, and the colours have the names the components look them up
    by. *)

From Stdlib Require Import String Ascii List.
From stdpp Require Import base tactics list strings.
From S2P Require Import Prelude.

#[local] Open Scope string_scope.

Module Theme.

(** [colors.primary] and [colors.secondary] *)
Module Shade.
Record t : Type := mk { main : string; light : string; dark : string }.
End Shade.

(** [colors.accent] *)
Module Accent.
Record t : Type := mk { main : string; light : string }.
End Accent.

(** [colors.status] *)
Module Status.
Record t : Type := mk { danger : string; success : string; warning : string }.
End Status.

(** [colors.background] *)
Module Background.
Record t : Type := mk {
  primary : string; secondary : string; tertiary : string; card : string;
}.
End Background.

(** [colors.text] *)
Module Text.
Record t : Type := mk { primary : string; secondary : string; muted : string }.
End Text.

(** [colors.game] *)
Module Game.
Record t : Type := mk {
  health : string; mana : string; exp : string; gold : string; combo : string;
}.
End Game.

Module Colors.
Record t : Type := mk {
  primary : Shade.t;
  secondary : Shade.t;
  accent : Accent.t;
  status : Status.t;
  background : Background.t;
  text : Text.t;
  game : Game.t;
}.
End Colors.

(** [spacing]; [xl2] is the key ['2xl']. *)
Module Spacing.
Record t : Type := mk {
  xs : string; sm : string; md : string; lg : string; xl : string; xl2 : string;
}.
End Spacing.

Module BorderRadius.
Record t : Type := mk {
  sm : string; md : string; lg : string; xl : string; full : string;
}.
End BorderRadius.

Module Shadows.
Record t : Type := mk {
  sm : string; md : string; lg : string; xl : string; glow : string;
}.
End Shadows.

Module Transitions.
Record t : Type := mk { fast : string; normal : string; slow : string }.
End Transitions.

Module Fonts.
Record t : Type := mk { sans : string; mono : string }.
End Fonts.

(** [interface Theme] *)
Record t : Type := mk {
  colors : Colors.t;
  spacing : Spacing.t;
  borderRadius : BorderRadius.t;
  shadows : Shadows.t;
  transitions : Transitions.t;
  fonts : Fonts.t;
}.

(** [const theme] of the providers. *)
Definition theme : t :=
  {| colors :=
       {| Colors.primary := Shade.mk "#4f46e5" "#818cf8" "#3730a3";
          Colors.secondary := Shade.mk "#10b981" "#34d399" "#059669";
          Colors.accent := Accent.mk "#f59e0b" "#fbbf24";
          Colors.status := Status.mk "#ef4444" "#22c55e" "#f59e0b";
          Colors.background := Background.mk "#0f172a" "#1e293b" "#334155" "#1e293b";
          Colors.text := Text.mk "#f8fafc" "#94a3b8" "#64748b";
          Colors.game := Game.mk "#ef4444" "#3b82f6" "#a855f7" "#fbbf24" "#f97316" |};
     spacing := Spacing.mk "0.25rem" "0.5rem" "1rem" "1.5rem" "2rem" "3rem";
     borderRadius := BorderRadius.mk "0.25rem" "0.5rem" "1rem" "1.5rem" "9999px";
     shadows :=
       Shadows.mk "0 1px 2px 0 rgb(0 0 0 / 0.05)" "0 4px 6px -1px rgb(0 0 0 / 0.1)"
         "0 10px 15px -3px rgb(0 0 0 / 0.1)" "0 20px 25px -5px rgb(0 0 0 / 0.1)"
         "0 0 20px rgba(79, 70, 229, 0.5)";
     transitions := Transitions.mk "150ms ease" "250ms ease" "350ms ease";
     fonts :=
       Fonts.mk "'Nunito', -apple-system, BlinkMacSystemFont, 'Segoe UI', Roboto, sans-serif"
         "'Fira Code', 'Consolas', monospace" |}.

(** [<ThemeProvider theme={theme}>]: what a component finds as
    [props.theme]. *)
Definition Providers : t := theme.

(** The colours of a theme, in the order of the declaration. *)
Definition palette (th : t) : list string :=
  let c := colors th in
  [ Shade.main (Colors.primary c); Shade.light (Colors.primary c);
    Shade.dark (Colors.primary c);
    Shade.main (Colors.secondary c); Shade.light (Colors.secondary c);
    Shade.dark (Colors.secondary c);
    Accent.main (Colors.accent c); Accent.light (Colors.accent c);
    Status.danger (Colors.status c); Status.success (Colors.status c);
    Status.warning (Colors.status c);
    Background.primary (Colors.background c); Background.secondary (Colors.background c);
    Background.tertiary (Colors.background c); Background.card (Colors.background c);
    Text.primary (Colors.text c); Text.secondary (Colors.text c); Text.muted (Colors.text c);
    Game.health (Colors.game c); Game.mana (Colors.game c); Game.exp (Colors.game c);
    Game.gold (Colors.game c); Game.combo (Colors.game c) ].

End Theme.

(** * Lemmas *)

(** A colour written as [#] and six hexadecimal digits. *)
Definition isHexDigit (c : ascii) : bool :=
  let n := nat_of_ascii c in
  ((48 <=? n) && (n <=? 57) || (97 <=? n) && (n <=? 102) || (65 <=? n) && (n <=? 70))%nat.

Definition isHexColor (s : string) : bool :=
  match s with
  | String "#" rest =>
      Nat.eqb (String.length rest) 6 && forallb isHexDigit (list_ascii_of_string rest)
  | _ => false
  end.

Lemma theme_palette_hex : forallb isHexColor (Theme.palette Theme.theme) = true.
Proof. reflexivity. Qed.

(** The status colour of danger is the colour of health, the colour of a
    warning the main accent, the light accent the gold of the game. *)
Lemma theme_shared_colours :
  let c := Theme.colors Theme.theme in
  Theme.Status.danger (Theme.Colors.status c) = Theme.Game.health (Theme.Colors.game c) ∧
  Theme.Status.warning (Theme.Colors.status c) = Theme.Accent.main (Theme.Colors.accent c) ∧
  Theme.Accent.light (Theme.Colors.accent c) = Theme.Game.gold (Theme.Colors.game c).
Proof. done. Qed.
