(* ===== verification/Display.v ===== *)
(** * Display: what the game shows of a session and of the player

    [Module ProgressBar] is the arithmetic of
    [components/common/ProgressBar.tsx]; [Module GameHUD] is
    [components/game/GameHUD.tsx], the numbers above the canvas;
    [Module LevelResult] is [components/level/LevelResult.tsx], the panel at
    the end of a level, with the stars it computes itself; [Module HomePage]
    is the summary of [pages/Home/index.tsx].  A component is a function from
    what it reads to a record of what it shows; the style sheets are in
    [Styles] and [PageStyles].

    The theorems: the star rule of the panel is the one of [Metrics] and not
    the one the game page files results with, so the panel never shows more
    stars than are filed and often fewer; the bars of the display stay within
    their tracks for every session the store can reach; the panel of a
    level is always the one of a victory; the summary counts at most the
    levels that have a record; [Number] reads what [pretty] and
    [toFixed(0)] print as the number printed, so the colour of the accuracy
    would follow the rule without the percent sign, and is red with it. *)

From Stdlib Require Import ZArith QArith Qround Lqa Lia String Ascii.
From stdpp Require Import base tactics option list strings gmap pretty.
From S2P Require Import Prelude Types Metrics Store PlayerSlice GameCanvas Utils Play Progress Theme.

#[local] Open Scope Z_scope.
#[local] Open Scope string_scope.

(** ** [ProgressBar] *)

Module ProgressBar.

Inductive Variant : Type := default_ | health | mana | exp | combo | timer.

Inductive Size : Type := sm | md | lg.

Record Props : Type := mkProps {
  value : Q;
  max : Q;
  variant : Variant;
  showLabel : bool;
  label : option string;
  size : Size;
  animated : bool;
}.

(** The props with the defaults of the component for what is not given. *)
Definition props (value : Q) (max : option Q) (variant : option Variant)
    (size : option Size) : Props :=
  mkProps value (default (100 : Q) max) (default default_ variant) false None
    (default md size) false.

(** [--bar-height] of the container. *)
Definition barHeight (size : Size) : string :=
  match size with
  | sm => "6px"
  | lg => "16px"
  | md => "10px"
  end.

(** The width of the fill, in percent of the track. *)
Definition width (percentage : Q) : Q := Math_min 100 (Math_max 0 percentage).

(** The background of the fill. *)
Definition background (variant : Variant) (theme : Theme.t) : string :=
  match variant with
  | health => "linear-gradient(90deg, #ef4444, #f87171)"
  | mana => "linear-gradient(90deg, #3b82f6, #60a5fa)"
  | exp => "linear-gradient(90deg, #a855f7, #c084fc)"
  | combo => "linear-gradient(90deg, #f97316, #fb923c)"
  | timer => "linear-gradient(90deg, #10b981, #34d399)"
  | default_ =>
      "linear-gradient(90deg, " +:+
      Theme.Shade.main (Theme.Colors.primary (Theme.colors theme)) +:+ ", " +:+
      Theme.Shade.light (Theme.Colors.primary (Theme.colors theme)) +:+ ")"
  end.

(** [(value / max) * 100], for a [max] that is not 0. *)
Definition percentage (value max : Q) : Q := (value / max) * 100.

(** What the bar shows: the height of its track, the row of the label with
    the value and the maximum when it is asked for, and the fill with the
    percentage it is given, its variant and whether it shimmers. *)
Record t : Type := mk {
  height : string;
  labelRow : option (option string * Q * Q);
  fill : Q;
  fillVariant : Variant;
  fillAnimated : bool;
}.

Definition render (p : Props) : t :=
  {| height := barHeight (size p);
     labelRow := if showLabel p then Some (label p, value p, max p) else None;
     fill := percentage (value p) (max p);
     fillVariant := variant p;
     fillAnimated := animated p |}.

End ProgressBar.

(** ** [Number] of a string

    The numeric value of a string as [Number] computes it: white space
    around the literal is dropped, the empty string is 0, a literal is a
    decimal number with an optional sign, fraction and exponent, [Infinity]
    with an optional sign, or digits in base 16, 8 or 2 after [0x], [0o] or
    [0b]; anything else is [NaN].  The value is exact. *)

Module JsNumber.

Inductive t : Type := Num (q : Q) | Infinity (negative : bool) | NaN.

(** The value of a digit in a base up to 36. *)
Definition digit (base : Z) (c : ascii) : option Z :=
  let n := Z.of_nat (nat_of_ascii c) in
  v ← (if (48 <=? n)%Z && (n <=? 57)%Z then Some (n - 48)
       else if (97 <=? n)%Z && (n <=? 122)%Z then Some (n - 87)
       else if (65 <=? n)%Z && (n <=? 90)%Z then Some (n - 55)
       else None);
  if (v <? base)%Z then Some v else None.

(** The digits at the head of a string: their value after [acc], how many
    there are after [n], and what follows them. *)
Fixpoint digits (base : Z) (s : string) (acc : Z) (n : nat) : Z * nat * string :=
  match s with
  | String c s' =>
      match digit base c with
      | Some d => digits base s' (acc * base + d) (S n)
      | None => (acc, n, s)
      end
  | EmptyString => (acc, n, s)
  end.

(** The string after a first character [c]. *)
Definition eat (c : ascii) (s : string) : option string :=
  match s with
  | String a s' => if bool_decide (a = c) then Some s' else None
  | EmptyString => None
  end.

(** An optional sign: whether it is [-], and what follows. *)
Definition sign (s : string) : bool * string :=
  match eat "-" s, eat "+" s with
  | Some r, _ => (true, r)
  | None, Some r => (false, r)
  | None, None => (false, s)
  end.

(** An unsigned decimal literal that takes the whole string. *)
Definition decimal (s : string) : option Q :=
  let '(i, ni, r1) := digits 10 s 0 0 in
  let '(f, nf, r2) :=
    match eat "." r1 with
    | Some r => digits 10 r 0 0
    | None => (0, 0%nat, r1)
    end in
  if (ni + nf =? 0)%nat then None
  else
    let m := (inject_Z i + inject_Z f / inject_Z (10 ^ Z.of_nat nf))%Q in
    match r2 with
    | EmptyString => Some m
    | String c r3 =>
        if bool_decide (c = "e"%char ∨ c = "E"%char) then
          let '(neg, r4) := sign r3 in
          let '(e, ne, r5) := digits 10 r4 0 0 in
          if (ne =? 0)%nat || negb (bool_decide (r5 = EmptyString)) then None
          else Some (m * Qpower 10 (if neg then - e else e))%Q
        else None
    end.

(** A literal in base 16, 8 or 2 that takes the whole string. *)
Definition radix (s : string) : option Z :=
  match s with
  | String z (String p r) =>
      base ← (if negb (bool_decide (z = "0"%char)) then None
              else if bool_decide (p = "x"%char ∨ p = "X"%char) then Some 16
              else if bool_decide (p = "o"%char ∨ p = "O"%char) then Some 8
              else if bool_decide (p = "b"%char ∨ p = "B"%char) then Some 2
              else None);
      let '(v, n, r') := digits base r 0 0 in
      if (n =? 0)%nat || negb (bool_decide (r' = EmptyString)) then None else Some v
  | _ => None
  end.

(** [Number(s)] *)
Definition Number_ (s : string) : t :=
  let s := trim s in
  if bool_decide (s = EmptyString) then Num 0
  else
    match radix s with
    | Some v => Num (inject_Z v)
    | None =>
        let '(neg, r) := sign s in
        if bool_decide (r = "Infinity") then Infinity neg
        else
          match decimal r with
          | Some q => Num (if neg then - q else q)%Q
          | None => NaN
          end
    end.

(** [x >= n]: false for [NaN]. *)
Definition ge (x : t) (n : Q) : bool :=
  match x with
  | Num q => (q >=? n)%js
  | Infinity negative => negb negative
  | NaN => false
  end.

End JsNumber.

(** ** [GameHUD] *)

Module GameHUD.
Import GameSession.

(** [formatAccuracy] *)
Definition formatAccuracy (accuracy : Q) : string := toFixed0 accuracy +:+ "%".

(** The variant of the accuracy bar. *)
Definition accuracyVariant (accuracy : Q) : ProgressBar.Variant :=
  if (accuracy >=? 90)%js then ProgressBar.default_
  else if (accuracy >=? 70)%js then ProgressBar.combo
  else ProgressBar.health.

(** The colour of [AccuracyValue], from the text it is given. *)
Definition accuracyColor (children : string) : string :=
  let value := JsNumber.Number_ children in
  if JsNumber.ge value 95 then "#4ade80"
  else if JsNumber.ge value 85 then "#fbbf24"
  else "#f87171".

(** The six cards, in the order of the component. *)
Record t : Type := mk {
  time : string;
  timeBar : ProgressBar.t;
  score : Z;
  combo : string;
  comboActive : bool;
  maxCombo : string;
  wpm : string;
  accuracy : string;
  accuracyColour : string;
  accuracyBar : ProgressBar.t;
  words : Z;
}.

Definition render (session : GameSession.t) : t :=
  {| time := pretty (timeRemaining session) +:+ "s";
     timeBar :=
       ProgressBar.render
         (ProgressBar.props (inject_Z (timeRemaining session)) (Some (60 : Q))
            (Some ProgressBar.timer) (Some ProgressBar.sm));
     score := Math_floor (GameSession.score session);
     combo := pretty (GameSession.combo session) +:+ "x";
     comboActive := bool_decide (GameSession.combo session > 0);
     maxCombo := pretty (GameSession.maxCombo session) +:+ "x";
     wpm := pretty (GameSession.wpm session) +:+ " WPM";
     accuracy := formatAccuracy (GameSession.accuracy session);
     accuracyColour := accuracyColor (formatAccuracy (GameSession.accuracy session));
     accuracyBar :=
       ProgressBar.render
         (ProgressBar.props (GameSession.accuracy session) (Some (100 : Q))
            (Some (accuracyVariant (GameSession.accuracy session))) (Some ProgressBar.sm));
     words := wordsCompleted session |}.

End GameHUD.

(** ** [LevelResult] *)

Module LevelResult.

Record Props : Type := mkProps {
  victory : bool;
  score : Q;
  wpm : Z;
  accuracy : Q;
  maxCombo : Z;
  wordsCompleted : Z;
}.

(** The [calculateStars] of the component. *)
Definition calculateStars (accuracy wpm : Q) : Z :=
  if ((accuracy >=? 95) && (wpm >=? 40))%js then 3
  else if ((accuracy >=? 85) && (wpm >=? 30))%js then 2
  else if (accuracy >=? 70)%js then 1
  else 0.

(** [victory ? calculateStars(accuracy, wpm) : 0] *)
Definition stars (p : Props) : Z :=
  if victory p then calculateStars (accuracy p) (inject_Z (wpm p)) else 0.

(** What the panel shows; the row of stars is there for a victory only. *)
Record t : Type := mk {
  title : string;
  subtitle : string;
  starRating : option (list string);
  shownScore : Z;
  shownWpm : Z;
  shownAccuracy : string;
  shownMaxCombo : string;
}.

Definition render (p : Props) : t :=
  {| title := if victory p then "🎉 胜利！" else "💀 失败";
     subtitle := if victory p then "恭喜你完成了这个关卡！" else "别灰心，再试一次吧！";
     starRating :=
       if victory p
       then Some ((λ i, if bool_decide (i <= stars p) then "⭐" else "☆") <$> [1; 2; 3])
       else None;
     shownScore := Math_floor (score p);
     shownWpm := wpm p;
     shownAccuracy := toFixed0 (accuracy p) +:+ "%";
     shownMaxCombo := pretty (maxCombo p) +:+ "x" |}.

(** The props the game page passes. *)
Definition ofSession (session : GameSession.t) : Props :=
  {| victory := bool_decide (GameSession.state session = Types.victory);
     score := GameSession.score session;
     wpm := GameSession.wpm session;
     accuracy := GameSession.accuracy session;
     maxCombo := GameSession.maxCombo session;
     wordsCompleted := GameSession.wordsCompleted session |}.

(** [{showResult && <LevelResult ... />}] *)
Definition panel (showResult : bool) (session : GameSession.t) : option t :=
  if showResult then Some (render (ofSession session)) else None.

End LevelResult.

(** ** The summary of the home page *)

Module HomePage.

Record Feature : Type := mkFeature {
  icon : string;
  title : string;
  description : string;
}.

Definition features : list Feature :=
  [ mkFeature "🎮" "趣味游戏模式"
      "四种独特的游戏模式：重力下落、横向跑酷、气泡上升、BOSS问答，让打字练习不再枯燥！";
    mkFeature "⌨️" "专业指法训练"
      "从基础键位开始，循序渐进掌握正确的十指打字姿势，建立肌肉记忆。";
    mkFeature "🏆" "丰富关卡系统"
      "12个精心设计的关卡，三个世界等待探索，每关都有独特的挑战和奖励。";
    mkFeature "🤖" "AI智能生成"
      "支持AI动态生成练习内容，根据你的水平智能调整难度，实现个性化学习。" ].

(** [Object.values(player.levelProgress).filter((p) => p.completed).length] *)
Definition completedLevels (player : PlayerData.t) : nat :=
  length (List.filter LevelProgress.completed
            (map_to_list (PlayerData.levelProgress player)).*2).

(** What the page shows: the two lines under the title, the two links with
    their targets, the four numbers of the summary and the feature cards. *)
Record t : Type := mk {
  subtitle : list string;
  links : list (string * string);
  level : string;
  completed : string;
  averageWPM : string;
  averageAccuracy : string;
  featureCards : list Feature;
}.

Definition render (player : PlayerData.t) : t :=
  {| subtitle :=
       [ "通过RPG冒险游戏学习打字，从指法入门到盲打高手。";
         "和 " +:+ PlayerData.name player +:+ " 一起踏上这段精彩的键盘之旅吧！" ];
     links := [ ("/levels", "开始冒险"); ("/endless", "无尽模式") ];
     level := "Lv." +:+ pretty (PlayerData.level player);
     completed := pretty (Z.of_nat (completedLevels player)) +:+ "/12";
     averageWPM := pretty (PlayerStats.averageWPM (PlayerData.stats player));
     averageAccuracy :=
       toFixed0 (PlayerStats.averageAccuracy (PlayerData.stats player)) +:+ "%";
     featureCards := features |}.

End HomePage.

(** * Theorems *)

(** ** The stars of the result panel *)

Section panel.
Import LevelResult.
Implicit Types (s : GameSession.t) (p : Props) (a w : Q).

Lemma calculateStars_copy a w : calculateStars a w = Metrics.calculateStars a w.
Proof. reflexivity. Qed.

Lemma stars_range p : 0 <= stars p <= 3.
Proof.
  unfold stars, calculateStars. destruct (victory p); [|lia]. repeat case_match; lia.
Qed.

Lemma stars_le_pageStars s :
  stars (ofSession s) <= Page.pageStars (GameSession.accuracy s).
Proof.
  unfold stars, ofSession. cbn [victory accuracy wpm].
  pose proof (pageStars_range (GameSession.accuracy s)).
  case_bool_decide; [|lia]. rewrite calculateStars_copy. apply pageStars_ge_calculateStars.
Qed.

(** The filled stars of the row are the stars of the panel. *)
Lemma starRating_filled p row :
  starRating (render p) = Some row →
  victory p = true ∧ length row = 3%nat ∧
  Z.of_nat (length (List.filter (λ x, bool_decide (x = "⭐")) row)) = stars p.
Proof.
  unfold render. cbn [starRating]. destruct (victory p) eqn:Hv; [|done].
  intros [= <-]. split; [done|]. split; [done|].
  pose proof (stars_range p) as Hr. revert Hr. generalize (stars p). intros n Hn.
  assert (n = 0 ∨ n = 1 ∨ n = 2 ∨ n = 3) as [->|[->|[->| ->]]] by lia; reflexivity.
Qed.

End panel.

(** C27: The star rule of the result panel is [calculateStars] of the helpers,
    copied into the component.  The game page files its results by another
    rule, the accuracy alone: so the panel never shows more stars than are
    filed and paid, and for a victory it shows as many exactly when the
    speed reaches what the accuracy asks for (40 words per minute from an
    accuracy of 95, 30 from 85) and the accuracy is at least 70. *)
Theorem result_panel_stars (s : GameSession.t) :
  let a := GameSession.accuracy s in
  let w := inject_Z (GameSession.wpm s) in
  LevelResult.calculateStars a w = Metrics.calculateStars a w ∧
  0 <= LevelResult.stars (LevelResult.ofSession s) <= Page.pageStars a ∧
  (GameSession.state s = victory →
   (LevelResult.stars (LevelResult.ofSession s) = Page.pageStars a ↔
    (95 <= a ∧ 40 <= w)%Q ∨ (85 <= a < 95 ∧ 30 <= w)%Q ∨ (70 <= a < 85)%Q)).
Proof.
  intros a w. split; [reflexivity|]. split.
  { split; [apply stars_range|apply stars_le_pageStars]. }
  intros Hv. unfold LevelResult.stars, LevelResult.ofSession, Page.pageStars,
    LevelResult.calculateStars.
  cbn [LevelResult.victory LevelResult.accuracy LevelResult.wpm].
  rewrite bool_decide_eq_true_2 by done. fold a w. clearbody a w.
  destruct (a >=? 95)%js eqn:E1, (a >=? 85)%js eqn:E2, (a >=? 70)%js eqn:E3,
    (w >=? 40)%js eqn:E4, (w >=? 30)%js eqn:E5; qbool; cbn [andb];
    (split; [intros Heq|intros [?|[?|?]]]);
    first [lia|lra|left; lra|right; left; lra|right; right; lra].
Qed.

(** An accurate but slow player: the page files three stars and pays for
    three, the panel shows one. *)
Example result_panel_shows_one_of_three :
  let s := GameSession.set_state victory
             (GameSession.set_wpm 10 (GameSession.set_accuracy 100 Session.initialSession)) in
  LevelResult.stars (LevelResult.ofSession s) = 1 ∧
  Page.pageStars (GameSession.accuracy s) = 3.
Proof. done. Qed.

(** ** The display above the canvas *)

Section hud.
Import GameHUD.
Implicit Types (s : GameSession.t).

Lemma percentage_range value max :
  (0 < max)%Q → (0 <= value <= max)%Q → (0 <= ProgressBar.percentage value max <= 100)%Q.
Proof.
  intros Hm [H0 H1]. unfold ProgressBar.percentage.
  assert (0 <= value / max <= 1)%Q as [? ?]; [|lra].
  split; [apply Qle_shift_div_l; lra|apply Qle_shift_div_r; lra].
Qed.

Lemma accuracyVariant_spec a :
  match accuracyVariant a with
  | ProgressBar.default_ => (90 <= a)%Q
  | ProgressBar.combo => (70 <= a < 90)%Q
  | ProgressBar.health => (a < 70)%Q
  | _ => False
  end.
Proof.
  unfold accuracyVariant.
  destruct (a >=? 90)%js eqn:E1; [by qbool|].
  destruct (a >=? 70)%js eqn:E2; qbool; lra.
Qed.

End hud.

(** ** The number of a text that ends in a percent sign *)

Section number.
Import JsNumber.
Implicit Types (s r u : string) (c a : ascii).

(** [s] ends in a percent sign. *)
Definition endsPercent s : Prop := ∃ u, s = u +:+ "%".

Lemma endsPercent_tail a s : endsPercent (String a s) → a ≠ "%"%char → endsPercent s.
Proof.
  intros [[|b u] Hu] Hne; rewrite ?app_cons_str, ?app_nil_str in Hu; simplify_eq.
  by exists u.
Qed.

Lemma endsPercent_nonempty s : endsPercent s → s ≠ EmptyString.
Proof. by intros [[|b u] ->]; rewrite ?app_cons_str, ?app_nil_str. Qed.

Lemma digit_percent base : digit base "%" = None.
Proof. reflexivity. Qed.

Lemma digits_endsPercent base s acc n :
  endsPercent s → endsPercent (digits base s acc n).2.
Proof.
  induction s as [|a s IH] in acc, n |- *; intros Hl; [done|]. simpl.
  destruct (digit base a) eqn:Ha; [|done]. apply IH, (endsPercent_tail a); [done|].
  intros ->. by rewrite digit_percent in Ha.
Qed.

Lemma eat_endsPercent a s r :
  eat a s = Some r → a ≠ "%"%char → endsPercent s → endsPercent r.
Proof.
  destruct s as [|b s]; [done|]. simpl. case_bool_decide; [|done].
  intros [= <-] Hne Hl. subst. by apply (endsPercent_tail a).
Qed.

Lemma sign_endsPercent s : endsPercent s → endsPercent (sign s).2.
Proof.
  intros Hl. unfold sign.
  destruct (eat "-" s) eqn:E1; [by eapply eat_endsPercent|].
  destruct (eat "+" s) eqn:E2; [by eapply eat_endsPercent|done].
Qed.

Lemma decimal_endsPercent s : endsPercent s → decimal s = None.
Proof.
  intros Hl. unfold decimal.
  pose proof (digits_endsPercent 10 s 0 0 Hl) as H1.
  destruct (digits 10 s 0 0) as [[i ni] r1]. simpl in H1.
  assert (endsPercent (match eat "." r1 with
                       | Some r => digits 10 r 0 0
                       | None => (0, 0%nat, r1)
                       end).2) as H2.
  { destruct (eat "." r1) eqn:E; [|done].
    by eapply digits_endsPercent, eat_endsPercent. }
  destruct (match eat "." r1 with Some r => _ | None => _ end) as [[f nf] r2].
  simpl in H2. case_match; [done|].
  destruct r2 as [|c r3]; [by apply endsPercent_nonempty in H2|].
  case_bool_decide as Hc; [|done].
  assert (endsPercent r3) as H3 by (apply (endsPercent_tail c); [done|by intros ->; destruct Hc]).
  pose proof (sign_endsPercent r3 H3) as H4. destruct (sign r3) as [neg r4].
  pose proof (digits_endsPercent 10 r4 0 0 H4) as H5.
  destruct (digits 10 r4 0 0) as [[e ne] r5]. simpl in H5.
  apply endsPercent_nonempty in H5. rewrite (bool_decide_eq_false_2 _ H5).
  by rewrite orb_true_r.
Qed.

Lemma radix_endsPercent s : endsPercent s → radix s = None.
Proof.
  intros Hl. unfold radix. destruct s as [|z [|p r]]; [done..|].
  case_bool_decide as Ez; [subst z|done].
  apply (endsPercent_tail "0") in Hl; [|done].
  destruct (decide (p = "%"%char)) as [->|Hp]; [done|].
  apply (endsPercent_tail p) in Hl; [|done]. cbn [negb].
  destruct (if bool_decide (p = "x"%char ∨ p = "X"%char) then Some 16 else _) as [base|];
    [|done].
  simpl. pose proof (digits_endsPercent base r 0 0 Hl) as H1.
  destruct (digits base r 0 0) as [[v n] r']. simpl in H1.
  apply endsPercent_nonempty in H1. rewrite (bool_decide_eq_false_2 _ H1).
  by rewrite orb_true_r.
Qed.

Lemma trimStart_endsPercent u : endsPercent (trimStart (u +:+ "%")).
Proof.
  induction u as [|a u IH]; [by exists EmptyString|]. rewrite app_cons_str. simpl.
  destruct (isSpace a); [done|]. exists (String a u). by rewrite app_cons_str.
Qed.

Lemma trimEnd_endsPercent s : endsPercent s → trimEnd s = s.
Proof.
  intros [u ->]. induction u as [|a u IH]; [done|]. rewrite app_cons_str. simpl.
  rewrite IH. by destruct u; rewrite ?app_cons_str, ?app_nil_str.
Qed.

Lemma trim_endsPercent u : endsPercent (trim (u +:+ "%")).
Proof.
  unfold trim. pose proof (trimStart_endsPercent u) as Hl.
  by rewrite trimEnd_endsPercent.
Qed.

(** A text that ends in a percent sign is not a number. *)
Lemma Number_percent u : Number_ (u +:+ "%") = NaN.
Proof.
  unfold Number_. pose proof (trim_endsPercent u) as Hl. revert Hl.
  generalize (trim (u +:+ "%")). intros s Hl.
  rewrite bool_decide_eq_false_2 by by apply endsPercent_nonempty.
  rewrite radix_endsPercent by done.
  pose proof (sign_endsPercent s Hl) as Hr. destruct (sign s) as [neg r]. simpl in Hr.
  rewrite bool_decide_eq_false_2; [by rewrite decimal_endsPercent|].
  intros ->. by destruct Hr as [[|? [|? [|? [|? [|? [|? [|? [|? [|? ?]]]]]]]]] ?].
Qed.

End number.

(** ** Reading what is printed *)

Section print_parse.
Import JsNumber.
Implicit Types (s : string) (x : N) (c : ascii).

(** A string of decimal digits. *)
Definition decimalDigits s : Prop :=
  Forall (λ c, is_Some (digit 10 c)) (list_ascii_of_string s).

Lemma digit_pretty_N_char x : (x < 10)%N → digit 10 (pretty_N_char x) = Some (Z.of_N x).
Proof.
  intros Hx.
  assert (x = 0 ∨ x = 1 ∨ x = 2 ∨ x = 3 ∨ x = 4 ∨ x = 5 ∨ x = 6 ∨ x = 7 ∨ x = 8 ∨ x = 9)%N
    as H by lia.
  by repeat destruct H as [->|H]; subst.
Qed.

Lemma digit_not_space c : is_Some (digit 10 c) → isSpace c = false.
Proof.
  intros [d Hd]. apply bool_decide_eq_false_2. intros Hs. revert Hd. unfold digit.
  repeat case_match; try done; lia.
Qed.

(** Reading what [pretty] prints gives the number back, after what was read
    before it. *)
Lemma digits_pretty_go x s acc n :
  ∃ k, digits 10 (pretty_N_go x s) acc n
       = digits 10 s (acc * 10 ^ Z.of_nat k + Z.of_N x) (n + k)%nat ∧
       ((0 < x)%N → (0 < k)%nat).
Proof.
  revert s. induction (N.lt_wf_0 x) as [x _ IH]; intros s.
  destruct (decide (x = 0%N)) as [->|Hx].
  { exists 0%nat. rewrite pretty_N_go_0. split; [f_equal; lia|lia]. }
  rewrite pretty_N_go_step by lia.
  destruct (IH (x `div` 10)%N) with (s := String (pretty_N_char (x `mod` 10)) s)
    as (k & -> & _); [apply N.div_lt; lia|].
  exists (S k). cbn [digits]. rewrite digit_pretty_N_char by (by apply N.mod_lt).
  split; [|lia]. rewrite Nat2Z.inj_succ, Z.pow_succ_r, N2Z.inj_div, N2Z.inj_mod by lia.
  pose proof (Z.div_mod (Z.of_N x) 10 ltac:(lia)). generalize (10 ^ Z.of_nat k).
  intros P. f_equal; [nia|lia].
Qed.

Lemma decimalDigits_pretty_go x s : decimalDigits s → decimalDigits (pretty_N_go x s).
Proof.
  revert s. induction (N.lt_wf_0 x) as [x _ IH]; intros s Hs.
  destruct (decide (x = 0%N)) as [->|Hx]; [done|].
  rewrite pretty_N_go_step by lia. apply IH; [apply N.div_lt; lia|].
  apply Forall_cons. split; [|done]. by rewrite digit_pretty_N_char by (by apply N.mod_lt).
Qed.

Lemma trim_cons c s :
  isSpace c = false → trimEnd s = s → trim (String c s) = String c s.
Proof. intros Hc Hs. unfold trim. simpl. rewrite Hc. simpl. rewrite Hs, Hc. by destruct s. Qed.

Lemma trimEnd_cons c s :
  isSpace c = false → trimEnd s = s → trimEnd (String c s) = String c s.
Proof. intros Hc Hs. simpl. rewrite Hs, Hc. by destruct s. Qed.

Lemma trimEnd_decimalDigits s : decimalDigits s → trimEnd s = s.
Proof.
  induction s as [|c s IH]; [done|]. intros [Hc Hs]%Forall_cons.
  apply trimEnd_cons; [by apply digit_not_space|by apply IH].
Qed.

Lemma radix_decimalDigits s : decimalDigits s → radix s = None.
Proof.
  destruct s as [|z [|p r]]; [done..|]. intros [_ [[d Hd] _]%Forall_cons]%Forall_cons.
  unfold radix. case_bool_decide; [|done]. cbn [negb].
  by repeat case_bool_decide; destruct_or?; simplify_eq.
Qed.

Lemma decimal_decimalDigits s v k :
  digits 10 s 0 0 = (v, S k, "") → ∃ q, decimal s = Some q ∧ (q == inject_Z v)%Q.
Proof.
  intros Hd. unfold decimal. rewrite Hd. eexists. split; [done|].
  change (inject_Z (10 ^ Z.of_nat 0)) with 1%Q. field.
Qed.

(** [Number] of a string of digits, with or without a minus sign. *)
Lemma Number_decimalDigits (neg : bool) s v k :
  decimalDigits s → digits 10 s 0 0 = (v, S k, "") →
  ∃ q, Number_ ((if neg then "-" else "") +:+ s) = Num (if neg then - q else q)%Q ∧
       (q == inject_Z v)%Q.
Proof.
  intros Hs Hd. destruct (decimal_decimalDigits s v k Hd) as (q & Hq & Hv).
  exists q. split; [|done]. destruct s as [|c s]; [done|].
  pose proof Hs as [Hc Hs']%Forall_cons. unfold Number_.
  assert (c ≠ "-" ∧ c ≠ "+" ∧ c ≠ "I")%char as (H1 & H2 & H3)
    by (by split_and!; intros ->; destruct Hc).
  destruct neg; rewrite ?app_cons_str, ?app_nil_str.
  - rewrite trim_cons by (by rewrite ?trimEnd_decimalDigits).
    rewrite bool_decide_eq_false_2 by done.
    change (radix _) with (@None Z). change (sign _) with (true, String c s). cbv beta iota zeta.
    rewrite bool_decide_eq_false_2 by (by intros [=]). by rewrite Hq.
  - rewrite trim_cons by auto using digit_not_space, trimEnd_decimalDigits.
    rewrite bool_decide_eq_false_2 by done. rewrite radix_decimalDigits by done.
    unfold sign, eat. rewrite !bool_decide_eq_false_2 by done. cbv beta iota zeta.
    rewrite bool_decide_eq_false_2 by (by intros [=]). by rewrite Hq.
Qed.

(** What [pretty] prints of a natural number is its digits. *)
Lemma pretty_digits (z : Z) :
  (0 ≤ z)%Z → ∃ k, decimalDigits (pretty z) ∧ digits 10 (pretty z) 0 0 = (z, S k, "").
Proof.
  destruct z as [|p|p]; [by exists 0%nat; split; [repeat constructor|]| |lia]. intros _.
  unfold pretty, pretty_Z, pretty, pretty_positive, pretty, pretty_N.
  rewrite decide_False by done.
  destruct (digits_pretty_go (N.pos p) "" 0 0) as (k & Hk & Hpos).
  exists (pred k). split; [apply decimalDigits_pretty_go, Forall_nil_2|].
  rewrite Hk. specialize (Hpos ltac:(lia)). simpl. do 2 f_equal; lia.
Qed.

(** Printing an integer and reading it gives it back. *)
Lemma Number_pretty (z : Z) : ∃ q, Number_ (pretty z) = Num q ∧ (q == inject_Z z)%Q.
Proof.
  destruct (Z.neg_nonneg_cases z) as [Hz|Hz].
  - destruct z as [|p|p]; try lia.
    destruct (pretty_digits (Z.pos p)) as (k & Hs & Hd); [lia|].
    destruct (Number_decimalDigits true _ _ _ Hs Hd) as (q & Hq & Hv).
    exists (- q)%Q. split; [done|]. by rewrite Hv.
  - destruct (pretty_digits z Hz) as (k & Hs & Hd).
    apply (Number_decimalDigits false _ _ _ Hs Hd).
Qed.

(** The integer that [toFixed(0)] prints. *)
Definition nearest (x : Q) : Z :=
  if Qle_bool 0 x then Math_floor (x + (1 # 2)) else - Math_floor (- x + (1 # 2)).

(** Reading what [toFixed(0)] prints gives the nearest integer. *)
Lemma Number_toFixed0 (x : Q) :
  ∃ q, Number_ (toFixed0 x) = Num q ∧ (q == inject_Z (nearest x))%Q.
Proof.
  unfold toFixed0, nearest. destruct (Qle_bool 0 x) eqn:Hx; [apply Number_pretty|].
  assert (0 ≤ Math_floor (- x + (1 # 2)))%Z as Hn.
  { apply (Math_floor_mono 0). qbool. lra. }
  destruct (pretty_digits _ Hn) as (k & Hs & Hd).
  destruct (Number_decimalDigits true _ _ _ Hs Hd) as (q & Hq & Hv).
  exists (- q)%Q. split; [done|]. by rewrite Hv, inject_Z_opp.
Qed.

Lemma ge_integer (q : Q) (z n : Z) :
  (q == inject_Z z)%Q → ge (Num q) (n # 1) = (n <=? z)%Z.
Proof.
  intros Hq. unfold ge. change (n # 1) with (inject_Z n). apply eq_true_iff_eq.
  by rewrite Qle_bool_iff, Hq, <-Zle_Qle, Z.leb_le.
Qed.

Lemma accuracyColor_toFixed0 (a : Q) :
  GameHUD.accuracyColor (toFixed0 a) =
    if (95 <=? nearest a)%Z then "#4ade80"
    else if (85 <=? nearest a)%Z then "#fbbf24" else "#f87171".
Proof.
  unfold GameHUD.accuracyColor. destruct (Number_toFixed0 a) as (q & -> & Hq).
  by rewrite (ge_integer q _ 95 Hq), (ge_integer q _ 85 Hq).
Qed.

Lemma pretty_nonempty (z : Z) : (0 ≤ z)%Z → (1 ≤ String.length (pretty z))%nat.
Proof.
  intros (k & _ & Hd)%pretty_digits. destruct (pretty z); [done|simpl; lia].
Qed.

(** [toFixed0] is [toFixed] without digits after the point. *)
Lemma toFixed_zero (x : Q) : toFixed 0 x = toFixed0 x.
Proof.
  unfold toFixed, toFixed0. rewrite bool_decide_eq_true_2 by done.
  assert (∀ y : Q, (0 <= y)%Q →
    padStart 1 "0" (pretty (Math_floor (y * inject_Z (10 ^ Z.of_nat 0) + (1 # 2))))
    = pretty (Math_floor (y + (1 # 2)))) as Hy.
  { intros y Hy.
    assert (y * inject_Z (10 ^ Z.of_nat 0)%Z + (1 # 2) == y + (1 # 2))%Q as ->
      by (change (inject_Z _) with 1%Q; ring).
    apply padStart_long, pretty_nonempty, (Math_floor_mono 0). lra. }
  destruct (Qle_bool 0 x) eqn:Hx; qbool; simpl negb; cbv iota; rewrite Hy by lra; done.
Qed.

End print_parse.

(** [Number] on the texts a card can hold. *)
Example Number_samples :
  JsNumber.Number_ "95" = JsNumber.Num 95 ∧
  JsNumber.Number_ " 1.5e1 " = JsNumber.Num (150 # 10) ∧
  JsNumber.Number_ "0x1F" = JsNumber.Num 31 ∧
  JsNumber.Number_ "" = JsNumber.Num 0 ∧
  JsNumber.Number_ "-Infinity" = JsNumber.Infinity true ∧
  JsNumber.Number_ "1.2.3" = JsNumber.NaN ∧
  JsNumber.Number_ "95%" = JsNumber.NaN.
Proof. vm_compute. done. Qed.

(** C29: The accuracy of the display is meant to be green from 95 percent and
    yellow from 85; the colour is computed from the text of the card, which
    ends in a percent sign and is no number, so the accuracy is shown in red
    whatever it is.  Given the number as it is printed without the sign, the
    same rule gives the three colours by the nearest integer. *)
Theorem accuracy_always_red (s : GameSession.t) (a : Q) :
  GameHUD.accuracyColour (GameHUD.render s) = "#f87171" ∧
  GameHUD.accuracyColor (toFixed0 a) =
    if (95 <=? nearest a)%Z then "#4ade80"
    else if (85 <=? nearest a)%Z then "#fbbf24" else "#f87171".
Proof.
  split; [|apply accuracyColor_toFixed0].
  unfold GameHUD.render, GameHUD.accuracyColor, GameHUD.formatAccuracy.
  cbn [GameHUD.accuracyColour]. by rewrite Number_percent.
Qed.

(** The fill of a bar is never wider than its track, whatever the value,
    and as wide as its percentage when that is between 0 and 100. *)
Theorem bar_width_clamped (p : ProgressBar.Props) :
  let w := ProgressBar.width (ProgressBar.fill (ProgressBar.render p)) in
  (0 <= w <= 100)%Q ∧
  ((0 <= ProgressBar.fill (ProgressBar.render p) <= 100)%Q →
   (w == ProgressBar.fill (ProgressBar.render p))%Q).
Proof.
  simpl. generalize (ProgressBar.percentage (ProgressBar.value p) (ProgressBar.max p)).
  intros x. unfold ProgressBar.width, Math_min, Math_max.
  destruct (Qle_bool 0 x) eqn:E1; [destruct (Qle_bool 100 x) eqn:E2|]; simpl;
    try rewrite E1; qbool; repeat split; intros; lra.
Qed.

(** The display of a session the store can reach, with a countdown between
    0 and 60: both bars are filled to between 0 and 100 percent of their
    track, the accuracy bar has the variant of its thresholds (90 and 70),
    and the score shown is the score rounded down. *)
Theorem hud_bars_in_track (s : GameSession.t) :
  Machine.wf s → 0 <= GameSession.timeRemaining s <= 60 →
  let h := GameHUD.render s in
  (0 <= ProgressBar.fill (GameHUD.timeBar h) <= 100)%Q ∧
  (0 <= ProgressBar.fill (GameHUD.accuracyBar h) <= 100)%Q ∧
  (ProgressBar.fill (GameHUD.accuracyBar h) == GameSession.accuracy s)%Q ∧
  (inject_Z (GameHUD.score h) <= GameSession.score s < inject_Z (GameHUD.score h) + 1)%Q ∧
  (ProgressBar.fillVariant (GameHUD.accuracyBar h) = ProgressBar.default_ ↔
   (90 <= GameSession.accuracy s)%Q).
Proof.
  intros Hwf Ht. pose proof (wf_accuracy_range s Hwf) as Ha. simpl.
  split; [|split; [|split; [|split]]].
  - apply percentage_range; [lra|]. split; zq.
  - apply percentage_range; [lra|done].
  - unfold ProgressBar.percentage. field.
  - pose proof (Math_floor_spec (GameSession.score s)) as Hf.
    rewrite inject_Z_plus in Hf. exact Hf.
  - pose proof (accuracyVariant_spec (GameSession.accuracy s)) as Hv.
    destruct (GameHUD.accuracyVariant _); split; intros; try done; lra.
Qed.

Lemma hud_bars_in_track_witness :
  let h := GameHUD.render (Machine.run [Machine.StartGame gravity None 0;
                                        Machine.RecordKeystroke true 10;
                                        Machine.RecordKeystroke false 20]
                             Session.initialSession) in
  (0 <= ProgressBar.fill (GameHUD.timeBar h) <= 100)%Q ∧
  (0 <= ProgressBar.fill (GameHUD.accuracyBar h) <= 100)%Q.
Proof.
  pose proof (hud_bars_in_track
    (Machine.run [Machine.StartGame gravity None 0; Machine.RecordKeystroke true 10;
                  Machine.RecordKeystroke false 20] Session.initialSession)
    (wf_run _ _ wf_initialSession) ltac:(vm_compute; split; discriminate)) as (H1 & H2 & _).
  exact (conj H1 H2).
Defined.

(** ** The display of a level in play *)

(** While a level is played, whatever the events, the accuracy bar of the
    display stays within its track; the result panel is hidden while the
    game is playing, and when it is shown it is the panel of a victory, with
    a row of three stars of which [LevelResult.stars] are filled: the panel
    of a defeat is never shown. *)
Theorem display_of_level {St Pt : Type} `{GameStoreLaws St} `{PlayerStoreLaws Pt}
    (levelId : option string) (cfg : Words.LevelEntry) (now : Z) (st : St) (pt : Pt)
    (evs : list World.Event) (w' : World.t St Pt) :
  Page.levelConfig levelId = Some cfg → Forall event_ok evs →
  World.steps levelId evs (World.init levelId now st pt) = Ok w' →
  let s := session (World.game w') in
  (0 <= ProgressBar.fill (GameHUD.accuracyBar (GameHUD.render s)) <= 100)%Q ∧
  match LevelResult.panel (World.showResult w') s with
  | None => GameSession.state s = playing
  | Some v =>
      GameSession.state s = victory ∧ v = LevelResult.render (LevelResult.ofSession s) ∧
      LevelResult.title v = "🎉 胜利！" ∧
      ∃ row, LevelResult.starRating v = Some row ∧ length row = 3%nat ∧
        Z.of_nat (length (List.filter (λ x, bool_decide (x = "⭐")) row)) =
          LevelResult.stars (LevelResult.ofSession s)
  end.
Proof.
  intros Hcfg Hevs Hs.
  destruct (steps_inv levelId cfg Hcfg evs _ Hevs (inv_init levelId cfg Hcfg now st pt))
    as (w1 & Hw1 & Hinv).
  rewrite Hs in Hw1. simplify_eq. destruct Hinv as [_ _ _ Hwf Hst]. split.
  - simpl. apply percentage_range; [lra|]. by apply wf_accuracy_range.
  - unfold LevelResult.panel. destruct Hst as [[Hp ->]|[Hv ->]]; [done|].
    split; [done|]. split; [done|].
    assert (LevelResult.victory (LevelResult.ofSession (session (World.game w1))) = true)
      as Hvic by (simpl; by rewrite bool_decide_eq_true_2).
    split; [unfold LevelResult.render; cbn [LevelResult.title]; by rewrite Hvic|].
    destruct (LevelResult.starRating (LevelResult.render _)) as [row|] eqn:Er.
    + exists row. split; [done|]. by apply starRating_filled in Er as (_ & ? & ?).
    + unfold LevelResult.render in Er. cbn [LevelResult.starRating] in Er.
      by rewrite Hvic in Er.
Qed.

Lemma display_of_level_witness :
  ∃ w', World.steps PlaySample.levelId PlaySample.evs PlaySample.w0 = Ok w' ∧
    (0 <= ProgressBar.fill
            (GameHUD.accuracyBar (GameHUD.render (session (World.game w')))) <= 100)%Q.
Proof.
  destruct sample_run as [w' E]. exists w'. split; [exact E|].
  exact (proj1 (display_of_level (St := GameSession.t) (Pt := UsePlayerStore.t)
           PlaySample.levelId PlaySample.cfg 1000 Session.initialSession PlaySample.pt0
           PlaySample.evs w' eq_refl evs_ok E)).
Defined.

(** ** The summary of the home page *)

Section home.
Import HomePage.
Implicit Types (p : PlayerData.t).

(** The identifiers of the levels of the table. *)
Definition levelIds : list string := (λ '(_, _, l), LevelInfo.id l) <$> allLevels.

(** Every record of the player belongs to a level of the table. *)
Definition records_in_table p : Prop :=
  ∀ k, is_Some (PlayerData.levelProgress p !! k) → k ∈ levelIds.

Lemma completedLevels_le_size p :
  (completedLevels p ≤ size (PlayerData.levelProgress p))%nat.
Proof.
  unfold completedLevels. etrans; [apply List.filter_length_le|].
  by rewrite length_fmap, length_map_to_list.
Qed.

Lemma completedLevels_all p :
  all_completed p → completedLevels p = size (PlayerData.levelProgress p).
Proof.
  intros Hp. unfold completedLevels.
  rewrite <- length_map_to_list, <- (length_fmap snd).
  f_equal. apply List.forallb_filter_id, List.forallb_forall.
  intros lp ([k lp'] & -> & Hin%elem_of_map_to_list)%list_elem_of_In%list_elem_of_fmap.
  exact (Hp k lp' Hin).
Qed.

Lemma levelIds_NoDup : NoDup levelIds.
Proof. apply (bool_decide_unpack _). by vm_compute. Qed.

Lemma records_in_table_size p :
  records_in_table p → (size (PlayerData.levelProgress p) ≤ 12)%nat.
Proof.
  intros Hp. rewrite <- size_dom.
  etrans; [apply (subseteq_size _ (list_to_set levelIds : gset string))|].
  - intros k Hk%elem_of_dom. apply elem_of_list_to_set. by apply Hp.
  - by rewrite size_list_to_set by apply levelIds_NoDup.
Qed.

Lemma levelConfig_in_table levelId cfg :
  Page.levelConfig levelId = Some cfg → ∃ i, Page.orNull levelId = Some i ∧ i ∈ levelIds.
Proof.
  unfold Page.levelConfig, Page.orNull. destruct levelId as [i|]; [|done].
  case_bool_decide; [done|]. intros Hl%lookup_elem. exists i. split; [done|].
  change levelIds with (Words.levelConfigs.*1). apply list_elem_of_fmap. by exists (i, cfg).
Qed.

End home.

(** The summary of the home page counts the records of completed levels:
    never more than there are records, all of them when every record is one
    of a completed level, and at most the twelve of its text when every
    record belongs to a level of the table. *)
Theorem home_counts_completed (p : PlayerData.t) :
  (HomePage.completedLevels p ≤ size (PlayerData.levelProgress p))%nat ∧
  (all_completed p → HomePage.completedLevels p = size (PlayerData.levelProgress p)) ∧
  (records_in_table p → (HomePage.completedLevels p ≤ 12)%nat).
Proof.
  split; [apply completedLevels_le_size|]. split; [apply completedLevels_all|].
  intros Hp. etrans; [apply completedLevels_le_size|by apply records_in_table_size].
Qed.

(** Playing levels of the table keeps the summary true: from a player
    whose records are of completed levels of the table, after any events of
    a level of the table, the number shown is the number of records and at
    most 12. *)
Theorem home_summary_after_play {St Pt : Type} `{GameStoreLaws St} `{PlayerStoreLaws Pt}
    (levelId : option string) (cfg : Words.LevelEntry) (now : Z) (st : St) (pt : Pt)
    (evs : list World.Event) (w' : World.t St Pt) :
  Page.levelConfig levelId = Some cfg →
  all_completed (player pt) → records_in_table (player pt) →
  World.steps levelId evs (World.init levelId now st pt) = Ok w' →
  let p' := player (World.playerStore w') in
  HomePage.completedLevels p' = size (PlayerData.levelProgress p') ∧
  (HomePage.completedLevels p' ≤ 12)%nat.
Proof.
  intros Hcfg Hc Ht Hs. destruct (levelConfig_in_table levelId cfg Hcfg) as (i & Hi & Hin).
  assert (all_completed (player (World.playerStore w')) ∧
          records_in_table (player (World.playerStore w'))) as [Hc' Ht'].
  { refine (steps_player levelId (λ p, all_completed p ∧ records_in_table p)
              _ evs (World.init levelId now st pt) w' (conj Hc Ht) Hs).
    intros seen v now' st' pt' [Hc1 Ht1]. split; [by apply all_completed_handleGameEnd|].
    intros k Hk. destruct v; [|rewrite handleGameEnd_other_player in Hk by auto; auto].
    destruct levelId as [j|]; [|done]. rewrite handleGameEnd_levelProgress in Hk.
    unfold Page.orNull in Hi. case_bool_decide; [auto|]. simplify_eq.
    destruct (decide (k = i)) as [->|Hne]; [done|].
    rewrite updateLevelProgress_other in Hk by done. auto. }
  split; [by apply completedLevels_all|].
  etrans; [apply completedLevels_le_size|by apply records_in_table_size].
Qed.

Lemma home_summary_after_play_witness :
  ∃ w', World.steps PlaySample.levelId PlaySample.evs PlaySample.w0 = Ok w' ∧
    (HomePage.completedLevels (player (World.playerStore w')) ≤ 12)%nat.
Proof.
  destruct sample_run as [w' E]. exists w'. split; [exact E|].
  refine (proj2 (home_summary_after_play (St := GameSession.t) (Pt := UsePlayerStore.t)
            PlaySample.levelId PlaySample.cfg 1000 Session.initialSession PlaySample.pt0
            PlaySample.evs w' eq_refl (map_Forall_empty _) _ E)).
  intros k [lp Hlp]. destruct (lookup_empty_Some (M := gmap string) k lp Hlp).
Defined.

(** The text of the home page speaks of twelve levels in three worlds; the
    level selection has the twelve levels in four. *)
Example home_text_three_worlds :
  (∃ f, HomePage.features !! 2%nat = Some f ∧
        String.index 0 "三个世界" (HomePage.description f) ≠ None) ∧
  length LevelSelect.worlds = 4%nat ∧ length levelIds = 12%nat.
Proof. split; [eexists; split; [reflexivity|by vm_compute]|done]. Qed.
