(* ===== verification/Endless.v ===== *)
(** * Endless: the endless mode page ([pages/EndlessMode/index.tsx])

    [Module EndlessWords] is [generateEndlessWords]: thirty words of random
    letters, longer with the difficulty.  [Module EndlessPage] holds the
    three pieces of state of the page and its handlers.  [Module
    EndlessWorld] is the page with the canvas (in endless mode), the typing
    input and the two stores, as a transition system over the events of the
    browser, in the manner of [Play.World]: a frame and a start of the loop
    carry the time, the draws of the canvas and the words of the latest
    render, which the page generates anew at every render from draws of its
    own.

    The theorems: the words have the length the difficulty asks for; no
    event throws; and since the canvas never reports the end of a game in
    endless mode, the difficulty stays at one, the game-over panel is never
    shown and the player is never rewarded. *)

From Stdlib Require Import ZArith QArith Qround Lqa Lia String Ascii.
From stdpp Require Import base tactics option list strings gmap.
From S2P Require Import Prelude Types Metrics Store PlayerSlice GameCanvas Utils Play.

#[local] Open Scope Z_scope.

(** ** [generateEndlessWords] *)

Module EndlessWords.

(** ['abcdefghijklmnopqrstuvwxyz'.split('')] *)
Definition allKeys : list string :=
  (λ c, String c EmptyString) <$> list_ascii_of_string "abcdefghijklmnopqrstuvwxyz".

(** [Math.min(3 + Math.floor(difficulty / 5), 8)] *)
Definition wordLength (difficulty : Z) : Z :=
  Z.min (3 + Math_floor (inject_Z difficulty / 5)) 8.

Definition wordCount : nat := 30.

(** The outer loop: [n] more words, the next draw being the [k]-th.  The
    inner loop is the one of [Utils.generateRandomWord]. *)
Fixpoint words_loop (random : nat → Q) (len : nat) (n k : nat) : list string :=
  match n with
  | O => []
  | S n' =>
      generateRandomWord_loop random allKeys len k EmptyString
        :: words_loop random len n' (k + len)
  end.

Definition generateEndlessWords (random : nat → Q) (difficulty : Z) : list string :=
  words_loop random (Z.to_nat (wordLength difficulty)) wordCount 0.

End EndlessWords.

(** ** The page *)

Module EndlessPage.

Record t : Type := mk {
  difficulty : Z;
  isStarted : bool;
  isGameOver : bool;
}.

Definition init : t := mk 1 false false.

Section handlers.
Context {St Pt : Type} `{GameStore St} `{PlayerStore Pt}.

(** [handleStart] *)
Definition handleStart (now : Z) (pg : t) (st : St) : t * St :=
  (mk 1 true false, startGame gravity None now st).

(** [handleGameEnd(victory)], the flag being [isVictory] here. *)
Definition handleGameEnd (isVictory : bool) (pg : t) (st : St) (pt : Pt) : t * St * Pt :=
  if negb isVictory then
    (mk (difficulty pg) (isStarted pg) true,
     endGame false st,
     addCoins (difficulty pg * 5) (addExp (difficulty pg * 10) pt))
  else (mk (difficulty pg + 1) (isStarted pg) (isGameOver pg), st, pt).

(** [handleRestart] *)
Definition handleRestart (now : Z) (pg : t) (st : St) : t * St :=
  (mk 1 (isStarted pg) false, startGame gravity None now (resetGame st)).

(** The effect that resets the store when the page is left. *)
Definition unmount (st : St) : St := resetGame st.

End handlers.
End EndlessPage.

(** ** The page in play *)

Module EndlessWorld.
Import GameSession TypingInput EndlessPage.

Record t {St Pt : Type} : Type := mk {
  page : EndlessPage.t;
  canvas : Refs.t;
  game : St;
  playerStore : Pt;
  currentInput : string;
}.
Arguments t : clear implicits.
Arguments mk {St Pt}.

(** What the browser delivers; [random] are the draws of the render whose
    words the canvas sees. *)
Inductive Event : Type :=
| AnimationFrame (now : Z) (d : Draws.t) (random : nat → Q)
| LoopEffect (now : Z) (d : Draws.t) (random : nat → Q)
| KeyDown (e : KeyboardEvent.t) (now : Z)
| ClickStart (now : Z)
| ClickRestart (now : Z)
| WindowResize (rect : option (Q * Q)).

Section step.
Context {St Pt : Type} `{GameStore St} `{PlayerStore Pt}.

(** The world when the page has been mounted at [now]. *)
Definition init (now : Z) (st : St) (pt : Pt) : t St Pt :=
  mk EndlessPage.init (Refs.init now) st pt EmptyString.

(** [<GameCanvas words={words} onGameEnd={handleGameEnd} endless />] *)
Definition props (random : nat → Q) (w : t St Pt) : Props.t :=
  Props.mk (EndlessWords.generateEndlessWords random (difficulty (page w))) true.

(** The typing input is mounted while the session is playing. *)
Definition render (w : t St Pt) : t St Pt :=
  if bool_decide (state (session (game w)) = playing) then w
  else mk (page w) (canvas w) (game w) (playerStore w) EmptyString.

(** What follows a frame: the loop goes on, or the page is told that the
    game has ended. *)
Definition afterFrame (w : t St Pt) (r : FrameOutcome * Refs.t * St) : t St Pt :=
  let '(o, c, st) := r in
  match o with
  | GameEnded isVictory =>
      let '(pg', st', pt') := handleGameEnd isVictory (page w) st (playerStore w) in
      mk pg' c st' pt' (currentInput w)
  | _ => mk (page w) c st (playerStore w) (currentInput w)
  end.

Definition step (ev : Event) (w : t St Pt) : result (t St Pt) :=
  render <$>
  match ev with
  | AnimationFrame now d random =>
      r ← gameLoop (props random w) now d (canvas w) (game w);
      Ok (afterFrame w r)
  | LoopEffect now d random =>
      r ← startLoop (props random w) now d (canvas w) (game w);
      Ok (afterFrame w r)
  | KeyDown e now =>
      if bool_decide (state (session (game w)) = playing) then
        '(input, c, st) ←
          handleKeyDown e (combo (session (game w))) now (currentInput w)
            (canvas w) (game w);
        Ok (mk (page w) c st (playerStore w) input)
      else Ok w
  | ClickStart now =>
      if negb (isStarted (page w)) then
        let '(pg, st) := handleStart now (page w) (game w) in
        Ok (mk pg (canvas w) st (playerStore w) (currentInput w))
      else Ok w
  | ClickRestart now =>
      if isGameOver (page w) then
        let '(pg, st) := handleRestart now (page w) (game w) in
        Ok (mk pg (canvas w) st (playerStore w) (currentInput w))
      else Ok w
  | WindowResize rect =>
      Ok (mk (page w) (handleResize rect (canvas w)) (game w) (playerStore w)
            (currentInput w))
  end.

(** A run: the events in order, stopping at the first exception. *)
Fixpoint steps (evs : list Event) (w : t St Pt) : result (t St Pt) :=
  match evs with
  | [] => Ok w
  | ev :: rest => w' ← step ev w; steps rest w'
  end.

End step.
End EndlessWorld.

(** * Theorems *)

Import GameSession.

(** ** The words *)

Section endless_words.
Import EndlessWords.

Lemma wordLength_range (difficulty : Z) :
  0 <= difficulty → 3 <= wordLength difficulty <= 8.
Proof.
  intros Hd. unfold wordLength.
  change (Math_floor _) with (Math_floor (inject_Z difficulty / inject_Z 5)).
  rewrite Math_floor_div. pose proof (Z.div_pos difficulty 5 Hd). lia.
Qed.

Lemma wordLength_step (difficulty : Z) :
  wordLength difficulty = Z.min (3 + difficulty / 5) 8.
Proof.
  unfold wordLength.
  change (Math_floor _) with (Math_floor (inject_Z difficulty / inject_Z 5)).
  by rewrite Math_floor_div.
Qed.

Lemma allKeys_single : Forall (λ c, String.length c = 1%nat) allKeys.
Proof. by apply Forall_forall; intros c (a & -> & _)%list_elem_of_fmap. Qed.

Lemma words_loop_spec random len n k :
  (∀ k, (0 <= random k < 1)%Q) →
  length (words_loop random len n k) = n ∧
  Forall (λ w, String.length w = len) (words_loop random len n k).
Proof.
  intros Hr. revert k. induction n as [|n IH]; intros k; simpl; [done|].
  destruct (IH (k + len)%nat) as [Hl Hall]. split; [by rewrite Hl|].
  constructor; [|done].
  by rewrite generateRandomWord_loop_length by (done || apply allKeys_single).
Qed.

End endless_words.

(** [generateEndlessWords] makes thirty words, each as long as the
    difficulty asks: three letters, one more for every five levels, eight
    at most. *)
Theorem endless_words_spec (random : nat → Q) (difficulty : Z) :
  (∀ k, (0 <= random k < 1)%Q) → 0 <= difficulty →
  let ws := EndlessWords.generateEndlessWords random difficulty in
  length ws = 30%nat ∧
  Forall (λ w, Z.of_nat (String.length w) = Z.min (3 + difficulty / 5) 8) ws ∧
  Forall (λ w, w ≠ EmptyString) ws.
Proof.
  intros Hr Hd ws.
  destruct (words_loop_spec random (Z.to_nat (EndlessWords.wordLength difficulty))
              EndlessWords.wordCount 0 Hr) as [Hl Hall].
  pose proof (wordLength_range difficulty Hd) as Hw.
  split_and!; [done| |]; (eapply Forall_impl; [exact Hall|]); simpl; intros w Hlen.
  - rewrite <- wordLength_step. lia.
  - intros ->. simpl in Hlen. lia.
Qed.

Lemma endless_words_spec_witness :
  let ws := EndlessWords.generateEndlessWords (λ k, if Nat.even k then 0 else 3 # 4)%Q 12 in
  length ws = 30%nat ∧
  Forall (λ w, Z.of_nat (String.length w) = Z.min (3 + 12 / 5) 8) ws ∧
  Forall (λ w, w ≠ EmptyString) ws.
Proof.
  refine (endless_words_spec _ 12 _ _); [|lia].
  intros k. destruct (Nat.even k); lra.
Defined.

(** ** The page in play *)

Section endless_world.
Context {St Pt : Type} `{GameStoreLaws St} `{PlayerStore Pt}.
Import EndlessWorld EndlessPage Refs.
Implicit Types (w : EndlessWorld.t St Pt) (ev : EndlessWorld.Event).

(** The events a browser can deliver: the draws are below one. *)
Definition endless_event_ok ev : Prop :=
  match ev with
  | AnimationFrame _ d random | LoopEffect _ d random =>
      Draws.valid d ∧ ∀ k, (0 <= random k < 1)%Q
  | _ => True
  end.

(** The invariant of the page in play: the entities can be typed, there
    are five at most, the difficulty is the first one and the game-over
    panel is not shown. *)
Record endless_inv w : Prop := {
  einv_entities : Forall entity_ok (entitiesRef (canvas w));
  einv_cap : (length (entitiesRef (canvas w)) ≤ 5)%nat;
  einv_index : (wordIndexRef (canvas w) ≤ 30)%nat;
  einv_difficulty : difficulty (page w) = 1;
  einv_gameOver : isGameOver (page w) = false;
}.

Lemma endless_inv_init now st pt : endless_inv (EndlessWorld.init now st pt).
Proof. split; simpl; [constructor|lia|lia|done|done]. Qed.

Lemma endless_props_ok random w :
  (∀ k, (0 <= random k < 1)%Q) → endless_inv w →
  words_ok (props random w) ∧ canvas_ok (props random w) (canvas w) ∧
  Props.words (props random w) ≠ [] ∧ Props.endless (props random w) = true.
Proof.
  intros Hr [He Hc Hi Hd _].
  destruct (endless_words_spec random (difficulty (page w)) Hr ltac:(lia))
    as (Hl & _ & Hne).
  unfold props. cbn [Props.words Props.endless].
  split_and!; [exact Hne| |by intros E; rewrite E in Hl|done].
  split; [done..|]. cbn [Props.words]. by rewrite Hl.
Qed.

Lemma endless_render w :
  page (render w) = page w ∧ canvas (render w) = canvas w ∧
  game (render w) = game w ∧ playerStore (render w) = playerStore w.
Proof. unfold render. by case_bool_decide. Qed.

(** A frame of the endless canvas never reports the end of the game. *)
Lemma endless_afterFrame random now d w r :
  (∀ k, (0 <= random k < 1)%Q) → endless_inv w →
  gameLoop (props random w) now d (canvas w) (game w) = Ok r →
  afterFrame w r = EndlessWorld.mk (page w) r.1.2 r.2 (playerStore w) (currentInput w) ∧
  canvas_ok (props random w) r.1.2.
Proof.
  intros Hr Hw Hg. destruct r as [[o c] st].
  destruct (endless_props_ok random w Hr Hw) as (Hwo & Hco & _ & He).
  split; [|by eapply gameLoop_ok].
  apply gameLoop_inv in Hg as [(_ & -> & _)|[(_ & Hl & _)|(_ & -> & _)]]; [done| |done].
  congruence.
Qed.

Definition estamped (now : Z) w : EndlessWorld.t St Pt :=
  EndlessWorld.mk (page w) (set_gameStartTimeRef now (canvas w)) (game w) (playerStore w)
     (currentInput w).

Lemma endless_inv_stamped now w : endless_inv w → endless_inv (estamped now w).
Proof. by intros []. Qed.

(** What a step can change: never the page state besides [isStarted], and
    never the player. *)
Record endless_same w w' : Prop := {
  same_player : playerStore w' = playerStore w;
  same_difficulty : difficulty (page w') = difficulty (page w);
  same_gameOver : isGameOver (page w') = isGameOver (page w);
}.

Lemma endless_frame_step random now d w r :
  (∀ k, (0 <= random k < 1)%Q) → endless_inv w →
  gameLoop (props random w) now d (canvas w) (game w) = Ok r →
  endless_inv (afterFrame w r) ∧ endless_same w (afterFrame w r).
Proof.
  intros Hr Hw Hg. destruct (endless_afterFrame random now d w r Hr Hw Hg) as [-> Hc].
  destruct Hw, Hc as [He Hcap Hi]. split; [|done]. by split.
Qed.

Lemma endless_inv_step ev w w' :
  endless_event_ok ev → endless_inv w → step ev w = Ok w' →
  endless_inv w' ∧ endless_same w w'.
Proof.
  intros Hev Hw. unfold step. intros (w1 & Hstep & <-)%fmap_Ok.
  destruct (endless_render w1) as (Ep & Ec & Eg & Ex).
  cut (endless_inv w1 ∧ endless_same w w1).
  { intros [[] []]. split; split; congruence. }
  destruct ev as [now d random|now d random|e now|now|now|rect]; simpl in Hev.
  - apply bind_Ok in Hstep as (r & Hg & [= <-]).
    exact (endless_frame_step random now d w r (proj2 Hev) Hw Hg).
  - apply bind_Ok in Hstep as (r & Hg & [= <-]). unfold startLoop in Hg.
    case_bool_decide; [simplify_eq; by destruct Hw|].
    destruct (endless_frame_step random now d (estamped now w) r (proj2 Hev)
                (endless_inv_stamped now w Hw) Hg) as [Hi Hs]. by destruct Hs.
  - case_bool_decide; [|by simplify_eq].
    apply bind_Ok in Hstep as ([[input c] st] & Hk & [= <-]).
    apply handleKeyDown_inv in Hk as [[-> ->]|[b Hk]]; [by destruct Hw|].
    pose proof (handleKeyPress_ok _ _ _ _ _ _ _ _ (einv_entities w Hw) Hk) as Hok.
    destruct (handleKeyPress_frame _ _ _ _ _ _ _ _ Hk) as (Hids & _ & Hidx & _).
    assert (length (entitiesRef c) = length (entitiesRef (canvas w))) as Hlen
      by (rewrite <- (length_fmap FallingWord.id (entitiesRef c)), Hids;
          apply length_fmap).
    destruct Hw. split; [|done]. split; simpl; try done; [lia|congruence].
  - destruct (isStarted (page w)); simplify_eq/=; [by destruct Hw|].
    destruct Hw. by split.
  - destruct Hw as [? ? ? ? Hgo]. rewrite Hgo in Hstep. by simplify_eq.
  - simplify_eq. destruct Hw. split; [|done]. split; simpl; try done;
      unfold handleResize; by destruct rect as [[]|].
Qed.

Lemma endless_step_safe ev w :
  endless_event_ok ev → endless_inv w → is_Ok (step ev w).
Proof.
  intros Hev Hw. unfold step. apply is_Ok_fmap.
  destruct ev as [now d random|now d random|e now|now|now|rect]; simpl in Hev.
  - destruct Hev as [Hd Hr]. destruct (endless_props_ok random w Hr Hw) as (_ & _ & Hne & _).
    destruct (gameLoop_safe (props random w) now d (canvas w) (game w)) as [r ->];
      [by right|by eexists].
  - destruct Hev as [Hd Hr]. destruct (endless_props_ok random w Hr Hw) as (_ & _ & Hne & _).
    unfold startLoop. case_bool_decide; [by eexists|].
    destruct (gameLoop_safe (props random w) now d (set_gameStartTimeRef now (canvas w))
                (game w)) as [r ->]; [by right|by eexists].
  - case_bool_decide; [|by eexists].
    destruct (handleKeyDown_safe e (combo (session (game w))) now (currentInput w)
                (canvas w) (game w) (einv_entities w Hw)) as [[[input c] st] ->].
    by eexists.
  - destruct (negb _); by eexists.
  - destruct (isGameOver _); by eexists.
  - by eexists.
Qed.

Lemma endless_steps_inv evs w :
  Forall endless_event_ok evs → endless_inv w →
  ∃ w', steps evs w = Ok w' ∧ endless_inv w' ∧ endless_same w w'.
Proof.
  intros Hevs. revert w. induction Hevs as [|ev evs Hev _ IH]; intros w Hw.
  - exists w. by split.
  - destruct (endless_step_safe ev w Hev Hw) as [w1 Hs].
    destruct (endless_inv_step ev w w1 Hev Hw Hs) as [Hw1 [S1 S2 S3]].
    destruct (IH w1 Hw1) as (w' & Hsteps & Hw' & [T1 T2 T3]).
    exists w'. simpl. rewrite Hs. split; [done|]. split; [done|].
    split; congruence.
Qed.

End endless_world.

(** ** Sample values *)

Module EndlessSample.
Import EndlessWorld.

Definition random : nat → Q := λ k, (if Nat.even k then 0 else 3 # 4)%Q.

Definition w0 : EndlessWorld.t GameSession.t UsePlayerStore.t :=
  EndlessWorld.init 1000 Session.initialSession PlaySample.pt0.

Definition evs : list Event :=
  [ ClickStart 2000;
    LoopEffect 2010 Sample.draws random;
    AnimationFrame 4500 Sample.draws random;
    KeyDown (KeyboardEvent.plain "a") 4600;
    AnimationFrame 700000 Sample.draws random;
    ClickRestart 700100 ].

Lemma random_unit k : (0 <= random k < 1)%Q.
Proof. unfold random. destruct (Nat.even k); lra. Qed.

Lemma draws_valid : Draws.valid Sample.draws.
Proof. repeat split; simpl; lra. Qed.

Lemma evs_fit : Forall endless_event_ok evs.
Proof.
  unfold evs.
  repeat first [apply Forall_nil_2
               |apply Forall_cons_2;
                [first [exact I|exact (conj draws_valid random_unit)]|]].
Qed.

End EndlessSample.

(** C14: Endless mode: whatever the browser delivers after the page is mounted
    (frames, keys, clicks, resizes, in any order and at any time), no
    handler throws. *)
Theorem endless_play_safe {St Pt : Type} `{GameStoreLaws St} `{PlayerStore Pt}
    (evs : list EndlessWorld.Event) (now : Z) (st : St) (pt : Pt) :
  Forall endless_event_ok evs →
  is_Ok (EndlessWorld.steps evs (EndlessWorld.init now st pt)).
Proof.
  intros Hevs.
  destruct (endless_steps_inv evs _ Hevs (endless_inv_init now st pt)) as (w' & -> & _).
  by eexists.
Qed.

Lemma endless_play_safe_witness :
  is_Ok (EndlessWorld.steps EndlessSample.evs EndlessSample.w0).
Proof.
  exact (endless_play_safe (St := GameSession.t) (Pt := UsePlayerStore.t)
           EndlessSample.evs 1000 Session.initialSession PlaySample.pt0
           EndlessSample.evs_fit).
Defined.

(** C15: Endless mode never ends and never gets harder: the canvas does not
    call [onGameEnd] in endless mode, so however long the game runs and
    whatever is typed, the difficulty stays at 1, the game-over panel is not
    shown (and with it the only restart button), and the player receives
    neither experience nor coins. *)
Theorem endless_never_ends {St Pt : Type} `{GameStoreLaws St} `{PlayerStore Pt}
    (evs : list EndlessWorld.Event) (now : Z) (st : St) (pt : Pt)
    (w : EndlessWorld.t St Pt) :
  Forall endless_event_ok evs →
  EndlessWorld.steps evs (EndlessWorld.init now st pt) = Ok w →
  EndlessPage.difficulty (EndlessWorld.page w) = 1 ∧
  EndlessPage.isGameOver (EndlessWorld.page w) = false ∧
  EndlessWorld.playerStore w = pt ∧
  ∀ now' random,
    Props.words (EndlessWorld.props random w) =
      EndlessWords.generateEndlessWords random 1 ∧
    EndlessWorld.step (EndlessWorld.ClickRestart now') w = Ok (EndlessWorld.render w).
Proof.
  intros Hevs Hs.
  destruct (endless_steps_inv evs _ Hevs (endless_inv_init now st pt))
    as (w' & Hs' & [_ _ _ Hd Hg] & [Hp _ _]).
  rewrite Hs in Hs'. injection Hs' as <-. split_and!; try done.
  intros now' random. unfold EndlessWorld.props, EndlessWorld.step.
  by rewrite Hd, Hg.
Qed.

Lemma endless_never_ends_witness :
  ∃ w, EndlessWorld.steps EndlessSample.evs EndlessSample.w0 = Ok w ∧
    EndlessPage.difficulty (EndlessWorld.page w) = 1 ∧
    EndlessPage.isGameOver (EndlessWorld.page w) = false ∧
    EndlessWorld.playerStore w = PlaySample.pt0 ∧
    ∀ now' random,
      Props.words (EndlessWorld.props random w) =
        EndlessWords.generateEndlessWords random 1 ∧
      EndlessWorld.step (EndlessWorld.ClickRestart now') w = Ok (EndlessWorld.render w).
Proof.
  destruct (EndlessWorld.steps EndlessSample.evs EndlessSample.w0) as [w|e] eqn:E;
    [|exfalso; vm_compute in E; discriminate].
  exists w. split; [done|].
  exact (endless_never_ends (St := GameSession.t) (Pt := UsePlayerStore.t)
           EndlessSample.evs 1000 Session.initialSession PlaySample.pt0 w
           EndlessSample.evs_fit E).
Defined.

(** What [handleGameEnd] of the endless page would do, were it called: a
    defeat ends the game and pays ten experience points and five coins per
    level of difficulty; a victory raises the difficulty. *)
Theorem endless_handleGameEnd_spec {St Pt : Type} `{GameStoreLaws St} `{PlayerStoreLaws Pt}
    (isVictory : bool) (pg : EndlessPage.t) (st : St) (pt : Pt) :
  let '(pg', st', pt') := EndlessPage.handleGameEnd isVictory pg st pt in
  if isVictory
  then EndlessPage.difficulty pg' = EndlessPage.difficulty pg + 1 ∧ st' = st ∧ pt' = pt
  else EndlessPage.isGameOver pg' = true ∧
       session st' = Session.endGame false (session st) ∧
       PlayerData.exp (player pt') =
         PlayerData.exp (player pt) + EndlessPage.difficulty pg * 10 ∧
       PlayerData.coins (player pt') =
         PlayerData.coins (player pt) + EndlessPage.difficulty pg * 5.
Proof.
  destruct isVictory; simpl; [done|]. autorewrite with store player.
  rewrite addCoins_coins.
  destruct (addExp_frame (EndlessPage.difficulty pg * 10) (player pt))
    as (_ & _ & -> & _).
  split_and!; [done..|apply addExp_exp|done].
Qed.
