(* ===== verification/Hooks.v ===== *)
(** * Hooks: the hooks of [src/hooks]

    No page of the program uses these hooks, but they are part of it and
    each holds state of its own:

    - [Module Timer] and [Module Stopwatch]: [useTimer] and [useStopwatch]
      of [useTimer.ts], a countdown and a count of seconds driven by an
      interval;
    - [Module GameHook]: [useGame.ts], which starts, pauses, resumes and
      ends a game in the store and measures the time played;
    - [Module TypingHook]: [useTyping.ts], a second keystroke dispatcher
      that reads the entities the canvas exposes;
    - [Module Keyboard]: [useKeyboard], [useHotkey] and [useEscapeKey] of
      [useKeyboard.ts].

    A state of React is a field of a record, a call of a setter is a function
    on the record, and what an interval or an event listener runs is a
    function of its own.  A callback an option passes in ([onEnd]) is
    counted, so that a theorem can say how often it was called.  Sound is
    output only and left out. *)

From Stdlib Require Import ZArith QArith Qround Lqa Lia String Ascii.
From stdpp Require Import base tactics option list strings gmap.
From S2P Require Import Prelude Types Metrics Store PlayerSlice GameCanvas Play.

Local Open Scope Z_scope.

(** ** [useTimer] *)

Module Timer.

Record Options : Type := mkOptions {
  initialTime : Z;
  autoStart : bool;
}.

(** The two states of the hook, and the number of calls of [onEnd]. *)
Record t : Type := mk {
  time : Z;
  isRunning : bool;
  onEndCalls : nat;
}.

Definition init (o : Options) : t := mk (initialTime o) (autoStart o) 0.

(** The effect installs the interval while [isRunning && time > 0]. *)
Definition installed (s : t) : bool := isRunning s && bool_decide (time s > 0).

(** What the interval runs every second. *)
Definition onInterval (s : t) : t :=
  if bool_decide (time s <= 1) then mk 0 false (S (onEndCalls s))
  else mk (time s - 1) (isRunning s) (onEndCalls s).

(** A second passes. *)
Definition tick (s : t) : t := if installed s then onInterval s else s.

Definition start (s : t) : t := mk (time s) true (onEndCalls s).

Definition pause (s : t) : t := mk (time s) false (onEndCalls s).

Definition reset (o : Options) (s : t) : t := mk (initialTime o) false (onEndCalls s).

Definition setTime (v : Z) (s : t) : t := mk v (isRunning s) (onEndCalls s).

Inductive Event : Type := Start | Pause | Reset | SetTime (v : Z) | Tick.

Definition step (o : Options) (ev : Event) (s : t) : t :=
  match ev with
  | Start => start s
  | Pause => pause s
  | Reset => reset o s
  | SetTime v => setTime v s
  | Tick => tick s
  end.

Definition run (o : Options) (evs : list Event) (s : t) : t :=
  foldl (λ s ev, step o ev s) s evs.

End Timer.

(** ** [useStopwatch] *)

Module Stopwatch.

Record t : Type := mk {
  time : Z;
  isRunning : bool;
}.

Definition init : t := mk 0 false.

Definition tick (s : t) : t :=
  if isRunning s then mk (time s + 1) (isRunning s) else s.

Definition start (s : t) : t := mk (time s) true.

Definition pause (s : t) : t := mk (time s) false.

Definition reset (s : t) : t := mk 0 false.

End Stopwatch.

(** ** [useGame] *)

Module GameHook.
Import GameSession.

Record Options : Type := mkOptions {
  mode : GameMode;
  levelId : option string;
}.

(** The seconds played, and the start time the interval measures from. *)
Record t : Type := mk {
  elapsedTime : Z;
  startTimeRef : Z;
}.

Definition init : t := mk 0 0.

Section hook.
Context {St Pt : Type} `{GameStore St} `{PlayerStore Pt}.

(** The effect that runs when [session.state] has changed: while playing,
    the start time is set back by the seconds already played. *)
Definition stateEffect (now : Z) (h : t) (st : St) : t :=
  if bool_decide (state (session st) = playing)
  then mk (elapsedTime h) (now - elapsedTime h * 1000)
  else h.

(** What the interval runs every second while playing. *)
Definition onInterval (now : Z) (h : t) : t :=
  mk (Math_floor (inject_Z (now - startTimeRef h) / 1000)) (startTimeRef h).

Definition tick (now : Z) (h : t) (st : St) : t :=
  if bool_decide (state (session st) = playing) then onInterval now h else h.

(** The effect runs after a change of the state of the session. *)
Definition afterStore (now : Z) (h : t) (old : St) (st : St) : t :=
  if bool_decide (state (session st) = state (session old)) then h
  else stateEffect now h st.

Definition start (o : Options) (now : Z) (h : t) (st : St) : t * St :=
  let h1 := mk 0 (startTimeRef h) in
  let st1 := startGame (mode o) (levelId o) now st in
  (afterStore now h1 st st1, st1).

Definition pause (now : Z) (h : t) (st : St) : t * St :=
  let st1 := pauseGame st in (afterStore now h st st1, st1).

Definition resume (now : Z) (h : t) (st : St) : t * St :=
  let st1 := resumeGame st in (afterStore now h st st1, st1).

(** The statistics [end] writes: the totals grow by what the session seen
    by the callback counted, the best combo is the larger one. *)
Definition endStats (seen : GameSession.t) (h : t) (pt : Pt) : PartialStats.t :=
  let s := PlayerData.stats (player pt) in
  {| PartialStats.totalGamesPlayed := Some (PlayerStats.totalGamesPlayed s + 1);
     PartialStats.totalTimePlayed := Some (PlayerStats.totalTimePlayed s + elapsedTime h);
     PartialStats.totalWordsTyped :=
       Some (PlayerStats.totalWordsTyped s + wordsCompleted seen);
     PartialStats.totalCharactersTyped :=
       Some (PlayerStats.totalCharactersTyped s + charactersTyped seen);
     PartialStats.totalCorrectChars :=
       Some (PlayerStats.totalCorrectChars s + correctChars seen);
     PartialStats.maxCombo := Some (Z.max (PlayerStats.maxCombo s) (maxCombo seen));
     PartialStats.averageWPM := None;
     PartialStats.averageAccuracy := None;
     PartialStats.perfectLevels := None |}.

(** [end(victory)], the flag being [isVictory] here. *)
Definition end_ (isVictory : bool) (seen : GameSession.t) (now : Z)
    (h : t) (st : St) (pt : Pt) : t * St * Pt :=
  let st1 := endGame isVictory st in
  let pt1 := updateStats (endStats seen h pt) pt in
  let pt2 := if isVictory then addCoins 50 (addExp 100 pt1) else pt1 in
  (afterStore now h st st1, st1, pt2).

Definition reset (now : Z) (h : t) (st : St) : t * St :=
  let st1 := resetGame st in
  let h1 := afterStore now h st st1 in
  (mk 0 (startTimeRef h1), st1).

End hook.
End GameHook.

(** ** [useTyping] *)

Module TypingHook.
Import FallingWord Typing.

(** The input line, and the word being typed; [None] is [null]. *)
Record t : Type := mk {
  currentInput : string;
  currentWord : option string;
}.

Definition init : t := mk EmptyString None.

(** [!currentWord]: [null] and the empty string are both falsy. *)
Definition noWord (h : t) : bool :=
  match currentWord h with
  | None => true
  | Some w => bool_decide (w = EmptyString)
  end.

(** [nextChar?.toLowerCase() === key.toLowerCase()]: an undefined character
    matches nothing. *)
Definition matchesKey (c : option ascii) (key : string) : bool :=
  match c with
  | None => false
  | Some c => bool_decide (toLowerCase (str1 c) = toLowerCase key)
  end.

Section hook.
Context {St : Type} `{GameStore St}.

(** The loop over the entities the canvas exposes, when no word is being
    typed: the first active entity whose next character matches takes the
    key and becomes the current word. *)
Fixpoint scan (key : string) (session_combo now : Z) (h : t)
    (es : list FallingWord.t) (st : St) : option (t * list FallingWord.t * St) :=
  match es with
  | [] => None
  | entity :: rest =>
      let continue :=
        match scan key session_combo now h rest st with
        | Some (h', es', st') => Some (h', entity :: es', st')
        | None => None
        end in
      if active entity then
        match nextChar entity with
        | Some c =>
            if bool_decide (toLowerCase (str1 c) = toLowerCase key) then
              let entity1 := typeChar c entity in
              let st1 := incrementCombo (recordKeystroke true now st) in
              if complete entity1 then
                let entity2 := set_active false entity1 in
                let st2 :=
                  completeWord (updateScore (comboPoints entity2 session_combo) st1) in
                Some (mk EmptyString None, entity2 :: rest, st2)
              else
                Some (mk (currentInput h +:+ key) (Some (word entity)),
                      entity1 :: rest, st1)
            else continue
        | None => continue
        end
      else continue
  end.

(** [handleKeyPress(key)]; [entities] is [window.__gameEntities], [None]
    when the canvas is not mounted. *)
Definition handleKeyPress (key : string) (session_combo now : Z) (h : t)
    (entities : option (list FallingWord.t)) (st : St)
    : bool * t * option (list FallingWord.t) * St :=
  if noWord h then
    match
      match entities with
      | Some es => if bool_decide (0 < length es)%nat
                   then scan key session_combo now h es st else None
      | None => None
      end
    with
    | Some (h', es', st') => (true, h', Some es', st')
    | None => (false, h, entities, breakCombo (recordKeystroke false now st))
    end
  else
    let w := default EmptyString (currentWord h) in
    if matchesKey (charAt w (String.length (currentInput h))) key then
      let st1 := incrementCombo (recordKeystroke true now st) in
      if bool_decide (String.length (currentInput h) + 1 = String.length w)%nat then
        let points :=
          (inject_Z (Z.of_nat (String.length w)) * 10 *
           (1 + inject_Z session_combo * (1 # 10)))%Q in
        (true, mk EmptyString None, entities, completeWord (updateScore points st1))
      else (true, mk (currentInput h +:+ key) (currentWord h), entities, st1)
    else (false, h, entities, breakCombo (recordKeystroke false now st)).

End hook.

Definition resetInput (h : t) : t := mk EmptyString None.

Definition setInput (input : string) (h : t) : t := mk input (currentWord h).

End TypingHook.

(** ** [useKeyboard], [useHotkey], [useEscapeKey] *)

Module Keyboard.
Import KeyboardEvent.

(** The options of [useKeyboard] that decide what a listener does; the
    handlers themselves are arguments of [handleKeyDown]. *)
Record Options : Type := mkOptions {
  preventDefault : bool;
  onWindow : bool;
}.

Definition defaults : Options := mkOptions false true.

(** What a listener of [useKeyboard] does with an event: whether it calls
    [preventDefault], and the handler's result when there is a handler. *)
Definition handleKeyDown {A : Type} (o : Options) (onKeyDown : option (KeyboardEvent.t → A))
    (e : KeyboardEvent.t) : bool * option A :=
  (preventDefault o, (λ f, f e) <$> onKeyDown).

Definition handleKeyUp {A : Type} (o : Options) (onKeyUp : option (KeyboardEvent.t → A))
    (e : KeyboardEvent.t) : bool * option A :=
  (preventDefault o, (λ f, f e) <$> onKeyUp).

(** The modifiers a hotkey asks for. *)
Record HotkeyOptions : Type := mkHotkey {
  needCtrl : bool;
  needShift : bool;
  needAlt : bool;
}.

Definition noModifiers : HotkeyOptions := mkHotkey false false false.

(** The test of [useHotkey]: the key, whatever its case, and each modifier
    that is asked for; Meta counts as Ctrl. *)
Definition hotkeyMatches (k : string) (o : HotkeyOptions) (e : KeyboardEvent.t) : bool :=
  let matchCtrl := if needCtrl o then ctrlKey e || metaKey e else true in
  let matchShift := if needShift o then shiftKey e else true in
  let matchAlt := if needAlt o then altKey e else true in
  bool_decide (toLowerCase (key e) = toLowerCase k) && matchCtrl && matchShift && matchAlt.

(** The handler of [useHotkey]: on a match the default is prevented and
    the callback runs on the state [A]. *)
Definition hotkeyDown {A : Type} (k : string) (o : HotkeyOptions) (callback : A → A)
    (e : KeyboardEvent.t) (a : A) : bool * A :=
  if hotkeyMatches k o e then (true, callback a) else (false, a).

(** [useEscapeKey(callback)] *)
Definition escapeDown {A : Type} (callback : A → A) (e : KeyboardEvent.t) (a : A)
    : bool * A :=
  hotkeyDown "Escape" noModifiers callback e a.

End Keyboard.

(** * The countdown *)

Section timer.
Import Timer.
Implicit Types (s : Timer.t) (o : Timer.Options).

Lemma tick_counts s :
  isRunning s = true → 1 < time s →
  tick s = mk (time s - 1) true (onEndCalls s).
Proof.
  intros Hr Ht. unfold tick, installed, onInterval. rewrite Hr. cbn [andb].
  rewrite bool_decide_eq_true_2, bool_decide_eq_false_2 by lia. done.
Qed.

Lemma tick_ends s :
  isRunning s = true → 0 < time s <= 1 →
  tick s = mk 0 false (S (onEndCalls s)).
Proof.
  intros Hr Ht. unfold tick, installed, onInterval. rewrite Hr. cbn [andb].
  by rewrite !bool_decide_eq_true_2 by lia.
Qed.

Lemma tick_idle s : isRunning s = false ∨ time s <= 0 → tick s = s.
Proof.
  intros [Hr|Ht]; unfold tick, installed; [by rewrite Hr|].
  rewrite (bool_decide_eq_false_2 (time s > 0)) by lia. by rewrite andb_false_r.
Qed.

(** A running countdown of [n] seconds and the ticks it takes to finish. *)
Lemma countdown_iter (n : nat) s :
  isRunning s = true → time s = Z.of_nat (S n) →
  Nat.iter (S n) tick s = mk 0 false (S (onEndCalls s)).
Proof.
  revert s. induction n as [|n IH]; intros s Hr Ht.
  - simpl. apply tick_ends; [done|lia].
  - rewrite Nat.iter_succ_r, tick_counts by (done || lia).
    rewrite IH; [done|done|]. simpl. lia.
Qed.

(** The time stays between 0 and the initial time, and [onEnd] is called at
    most once per start, as long as the time is not set from outside. *)
Definition within (o : Timer.Options) (s : Timer.t) : Prop :=
  0 <= time s <= initialTime o.

Definition internal (ev : Timer.Event) : bool :=
  match ev with SetTime _ => false | _ => true end.

Lemma within_step o ev s :
  0 <= initialTime o → internal ev = true → within o s → within o (step o ev s).
Proof.
  intros Ho Hev [H0 H1]. unfold within. destruct ev; simpl in *; try done; try lia.
  unfold tick, onInterval. repeat case_match; simpl; try lia.
  case_bool_decide; lia.
Qed.

Lemma within_run o evs s :
  0 <= initialTime o → forallb internal evs = true → within o s → within o (run o evs s).
Proof.
  intros Ho. revert s. induction evs as [|ev evs IH]; intros s Hevs Hs; [done|].
  simpl in Hevs. apply andb_true_iff in Hevs as [Hev Hevs].
  apply IH; [done|]. by apply within_step.
Qed.

End timer.

(** C22: [useTimer]: a running countdown of [n >= 1] seconds reaches 0 after
    exactly [n] ticks, stops, and calls [onEnd] once; further ticks do
    nothing. *)
Theorem timer_runs_out (n : nat) (s : Timer.t) :
  Timer.isRunning s = true → Timer.time s = Z.of_nat (S n) →
  Nat.iter (S n) Timer.tick s = Timer.mk 0 false (S (Timer.onEndCalls s)) ∧
  Timer.tick (Nat.iter (S n) Timer.tick s) = Nat.iter (S n) Timer.tick s.
Proof.
  intros Hr Ht. rewrite countdown_iter by done. split; [done|]. by apply tick_idle; left.
Qed.

Lemma timer_runs_out_witness :
  Nat.iter 3 Timer.tick (Timer.mk 3 true 0) = Timer.mk 0 false 1 ∧
  Timer.tick (Nat.iter 3 Timer.tick (Timer.mk 3 true 0)) =
    Nat.iter 3 Timer.tick (Timer.mk 3 true 0).
Proof.
  exact (timer_runs_out 2 (Timer.mk 3 true 0) eq_refl eq_refl).
Defined.

(** [useTimer]: whatever is started, paused, reset and ticked, the time
    stays between 0 and the initial time. *)
Theorem timer_within_bounds (o : Timer.Options) (evs : list Timer.Event) :
  0 <= Timer.initialTime o → forallb internal evs = true →
  0 <= Timer.time (Timer.run o evs (Timer.init o)) <= Timer.initialTime o.
Proof. intros Ho Hevs. apply within_run; [done..|]. unfold within. simpl. lia. Qed.

Lemma timer_within_bounds_witness :
  0 <= Timer.time (Timer.run (Timer.mkOptions 5 false)
                     [Timer.Start; Timer.Tick; Timer.Pause; Timer.Tick; Timer.Reset]
                     (Timer.init (Timer.mkOptions 5 false))) <= 5.
Proof.
  refine (timer_within_bounds (Timer.mkOptions 5 false)
            [Timer.Start; Timer.Tick; Timer.Pause; Timer.Tick; Timer.Reset] _ eq_refl).
  simpl. lia.
Defined.

(** [useTimer]: started at time 0 the timer reports that it is running but
    nothing ever happens: no interval is installed and [onEnd] is not
    called. *)
Theorem timer_started_at_zero_is_stuck (s : Timer.t) (n : nat) :
  Timer.time s = 0 →
  Nat.iter n Timer.tick (Timer.start s) = Timer.mk 0 true (Timer.onEndCalls s).
Proof.
  intros Ht. induction n as [|n IH]; simpl; [by unfold Timer.start; rewrite Ht|].
  rewrite IH. apply tick_idle. right. simpl. lia.
Qed.

Lemma timer_started_at_zero_is_stuck_witness :
  Nat.iter 10 Timer.tick (Timer.start (Timer.mk 0 false 0)) = Timer.mk 0 true 0.
Proof. exact (timer_started_at_zero_is_stuck (Timer.mk 0 false 0) 10 eq_refl). Defined.

(** [useStopwatch]: [n] ticks of a running stopwatch add [n] seconds; a
    paused stopwatch keeps its time. *)
Theorem stopwatch_counts (s : Stopwatch.t) (n : nat) :
  Nat.iter n Stopwatch.tick (Stopwatch.start s) =
    Stopwatch.mk (Stopwatch.time s + Z.of_nat n) true ∧
  Nat.iter n Stopwatch.tick (Stopwatch.pause s) = Stopwatch.pause s.
Proof.
  split; induction n as [|n IH]; simpl; rewrite ?IH; try done.
  - unfold Stopwatch.start. by rewrite Z.add_0_r.
  - unfold Stopwatch.tick. simpl. f_equal. lia.
Qed.

(** * The game hook *)

Section game_hook.
Context {St Pt : Type} `{GameStoreLaws St} `{PlayerStoreLaws Pt}.
Import GameHook GameSession.
Implicit Types (h : GameHook.t) (st : St) (pt : Pt).

Lemma onInterval_elapsed now h :
  elapsedTime (onInterval now h) = (now - startTimeRef h) / 1000.
Proof. apply (Math_floor_div (now - startTimeRef h) 1000). Qed.

Lemma resume_paused now h st :
  state (session st) = paused →
  resume now h st = (GameHook.mk (elapsedTime h) (now - elapsedTime h * 1000), resumeGame st) ∧
  state (session (resumeGame st)) = playing.
Proof.
  intros Hs.
  assert (state (session (resumeGame st)) = playing) as Hp.
  { autorewrite with store. rewrite resumeGame_state, Hs. by case_decide. }
  split; [|done]. unfold resume, afterStore, stateEffect. rewrite Hp, Hs.
  rewrite bool_decide_eq_false_2 by done. by rewrite bool_decide_eq_true_2.
Qed.

Lemma pause_playing now h st :
  state (session st) = playing →
  pause now h st = (h, pauseGame st) ∧ state (session (pauseGame st)) = paused.
Proof.
  intros Hs.
  assert (state (session (pauseGame st)) = paused) as Hp.
  { autorewrite with store. rewrite pauseGame_state, Hs. by case_decide. }
  split; [|done]. unfold pause, afterStore, stateEffect. rewrite Hp, Hs.
  by rewrite !bool_decide_eq_false_2.
Qed.

Lemma tick_not_playing now h st : state (session st) ≠ playing → tick now h st = h.
Proof. intros Hs. unfold tick. by rewrite bool_decide_eq_false_2. Qed.

Lemma tick_playing now h st :
  state (session st) = playing →
  tick now h st = GameHook.mk ((now - startTimeRef h) / 1000) (startTimeRef h).
Proof.
  intros Hs. unfold tick. rewrite bool_decide_eq_true_2 by done.
  unfold onInterval. f_equal. apply (Math_floor_div (now - startTimeRef h) 1000).
Qed.

Lemma end_player isVictory seen now h st pt :
  player (end_ isVictory seen now h st pt).2 =
    (let p1 := Player.updateStats (endStats seen h pt) (player pt) in
     if isVictory then Player.addCoins 50 (Player.addExp 100 p1) else p1) ∧
  session (end_ isVictory seen now h st pt).1.2 = Session.endGame isVictory (session st).
Proof.
  unfold end_. cbn [fst snd]. autorewrite with store. split; [|done].
  destruct isVictory; by autorewrite with player.
Qed.

End game_hook.

(** [useGame]: the seconds played do not include the time the game was
    paused: paused at [e] seconds and resumed at [t0], the hook shows
    [e + (t - t0) / 1000] seconds at every later tick, and while paused the
    ticks change nothing. *)
Theorem elapsed_excludes_pause {St : Type} `{GameStoreLaws St}
    (t0 t1 t : Z) (h : GameHook.t) (st : St) :
  GameSession.state (session st) = playing → t0 <= t →
  let '(h1, st1) := GameHook.pause t0 h st in
  let '(h2, st2) := GameHook.resume t1 (GameHook.tick t1 h1 st1) st1 in
  GameHook.tick t1 h1 st1 = h ∧
  GameHook.elapsedTime (GameHook.tick (t1 + (t - t0)) h2 st2) =
    GameHook.elapsedTime h + (t - t0) / 1000.
Proof.
  intros Hs Ht. destruct (pause_playing t0 h st Hs) as [-> Hp].
  rewrite tick_not_playing by (rewrite Hp; done).
  destruct (resume_paused t1 h (pauseGame st) Hp) as [-> Hr].
  split; [done|]. rewrite tick_playing by done. simpl.
  replace (t1 + (t - t0) - (t1 - GameHook.elapsedTime h * 1000))
    with ((t - t0) + GameHook.elapsedTime h * 1000) by lia.
  rewrite Z.div_add by done. lia.
Qed.

Lemma elapsed_excludes_pause_witness :
  let '(h1, st1) := GameHook.pause 20000 (GameHook.mk 7 13000) Sample.session0 in
  let '(h2, st2) := GameHook.resume 90000 (GameHook.tick 90000 h1 st1) st1 in
  GameHook.tick 90000 h1 st1 = GameHook.mk 7 13000 ∧
  GameHook.elapsedTime (GameHook.tick (90000 + (23500 - 20000)) h2 st2) =
    7 + (23500 - 20000) / 1000.
Proof.
  refine (elapsed_excludes_pause (St := GameSession.t) 20000 90000 23500
            (GameHook.mk 7 13000) Sample.session0 eq_refl _).
  lia.
Defined.

(** [useGame]: ending a game adds the counters of the session to the
    totals of the player, counts one more game, keeps the larger best combo
    and, for a victory, pays a hundred experience points and fifty coins;
    the averages and the count of perfect levels are never written. *)
Theorem end_accumulates_stats {St Pt : Type} `{GameStoreLaws St} `{PlayerStoreLaws Pt}
    (isVictory : bool) (seen : GameSession.t) (now : Z) (h : GameHook.t)
    (st : St) (pt : Pt) :
  let s := PlayerData.stats (player pt) in
  let p' := player (GameHook.end_ isVictory seen now h st pt).2 in
  let s' := PlayerData.stats p' in
  PlayerStats.totalGamesPlayed s' = PlayerStats.totalGamesPlayed s + 1 ∧
  PlayerStats.totalTimePlayed s' = PlayerStats.totalTimePlayed s + GameHook.elapsedTime h ∧
  PlayerStats.totalWordsTyped s' =
    PlayerStats.totalWordsTyped s + GameSession.wordsCompleted seen ∧
  PlayerStats.totalCharactersTyped s' =
    PlayerStats.totalCharactersTyped s + GameSession.charactersTyped seen ∧
  PlayerStats.totalCorrectChars s' =
    PlayerStats.totalCorrectChars s + GameSession.correctChars seen ∧
  PlayerStats.maxCombo s' = Z.max (PlayerStats.maxCombo s) (GameSession.maxCombo seen) ∧
  PlayerStats.averageWPM s' = PlayerStats.averageWPM s ∧
  PlayerStats.averageAccuracy s' = PlayerStats.averageAccuracy s ∧
  PlayerStats.perfectLevels s' = PlayerStats.perfectLevels s ∧
  PlayerData.exp p' = PlayerData.exp (player pt) + (if isVictory then 100 else 0) ∧
  PlayerData.coins p' = PlayerData.coins (player pt) + (if isVictory then 50 else 0).
Proof.
  cbv zeta. destruct (end_player isVictory seen now h st pt) as [-> _]. cbv zeta.
  destruct isVictory.
  - rewrite addCoins_coins. unfold Player.addCoins.
    cbn [PlayerData.stats PlayerData.exp Player.set_coins].
    rewrite addExp_exp.
    destruct (addExp_frame 100 (Player.updateStats (GameHook.endStats seen h pt) (player pt)))
      as (_ & _ & -> & -> & _).
    simpl. split_and!; try done; lia.
  - simpl. split_and!; try done; lia.
Qed.

Lemma end_accumulates_stats_witness :
  let pt := PlaySample.pt0 in
  let s := PlayerData.stats (UsePlayerStore.current pt) in
  let p' := UsePlayerStore.current
              (GameHook.end_ true Sample.session0 5000 (GameHook.mk 42 0)
                 Sample.session0 pt).2 in
  let s' := PlayerData.stats p' in
  PlayerStats.totalGamesPlayed s' = 0 + 1 ∧ PlayerStats.totalTimePlayed s' = 0 + 42 ∧
  PlayerStats.totalWordsTyped s' = 0 + 0 ∧ PlayerStats.totalCharactersTyped s' = 0 + 0 ∧
  PlayerStats.totalCorrectChars s' = 0 + 0 ∧ PlayerStats.maxCombo s' = Z.max 0 0 ∧
  PlayerStats.averageWPM s' = 0 ∧ PlayerStats.averageAccuracy s' = 100%Q ∧
  PlayerStats.perfectLevels s' = 0 ∧
  PlayerData.exp p' = 0 + 100 ∧ PlayerData.coins p' = 0 + 50.
Proof.
  exact (end_accumulates_stats (St := GameSession.t) (Pt := UsePlayerStore.t)
           true Sample.session0 5000 (GameHook.mk 42 0) Sample.session0 PlaySample.pt0).
Defined.

(** * The typing hook *)

Section typing_hook.
Context {St : Type} `{GameStoreLaws St}.
Import TypingHook FallingWord Typing Scan.
Implicit Types (h : TypingHook.t) (st : St) (es : list FallingWord.t).

(** What the hook leaves undone after a hit of the loop: the canvas also
    removes a completed entity from the store. *)
Definition hookStore (e : FallingWord.t) (c : ascii) (sc now : Z) st : St :=
  let st1 := incrementCombo (recordKeystroke true now st) in
  if complete (typeChar c e)
  then completeWord (updateScore (comboPoints e sc) st1) else st1.

Definition hookAfter (key : string) (e : FallingWord.t) (c : ascii) h : TypingHook.t :=
  if complete (typeChar c e) then TypingHook.mk EmptyString None
  else TypingHook.mk (currentInput h +:+ key) (Some (word e)).

Lemma scan_skip key sc now h e es st :
  passes key e ∨ faults e →
  scan key sc now h (e :: es) st =
    (λ '(h', es', st'), (h', e :: es', st')) <$> scan key sc now h es st.
Proof.
  intros [[Ha|(c & Hc & Hne)]|[Ha Hc]]; cbn [scan]; rewrite ?Ha, ?Hc;
    try rewrite bool_decide_eq_false_2 by done;
    repeat case_match; simplify_eq/=; done.
Qed.

Lemma scan_hit key sc now h e c es st :
  hits key e c →
  scan key sc now h (e :: es) st =
    Some (hookAfter key e c h, advance c e :: es, hookStore e c sc now st).
Proof.
  intros (Ha & Hc & Hk). cbn [scan]. rewrite Ha, Hc, bool_decide_eq_true_2 by done.
  unfold hookAfter, advance, hookStore. by destruct (complete (typeChar c e)).
Qed.

Lemma scan_none key sc now h es st :
  Forall (λ e, passes key e ∨ faults e) es → scan key sc now h es st = None.
Proof.
  induction 1 as [|e es He _ IH]; [done|]. by rewrite scan_skip, IH.
Qed.

Lemma scan_first key sc now h pre e c post st :
  Forall (λ e, passes key e ∨ faults e) pre → hits key e c →
  scan key sc now h (pre ++ e :: post) st =
    Some (hookAfter key e c h, pre ++ advance c e :: post, hookStore e c sc now st).
Proof.
  induction 1 as [|e0 pre He0 _ IH]; intros He; cbn [app].
  - by apply scan_hit.
  - by rewrite scan_skip, IH.
Qed.

Lemma hitStore_hookStore e c sc now st :
  hitStore e c sc now st =
    if complete (typeChar c e) then removeEntity (id e) (hookStore e c sc now st)
    else hookStore e c sc now st.
Proof. unfold hitStore, hookStore. by destruct (complete (typeChar c e)). Qed.

End typing_hook.

(** C21: [useTyping]: with no current word, a key the canvas handler takes is
    taken by the hook at the same entity, with the same change of the
    entity and the same calls of the store, except that the hook never
    removes a completed entity from the store; a key the canvas handler
    counts as a miss is a miss of the hook. *)
Theorem hook_follows_canvas {St : Type} `{GameStoreLaws St}
    (key : string) (sc now : Z) (h : TypingHook.t) (c : Refs.t) (st : St)
    (b : bool) (c' : Refs.t) (st' : St) :
  TypingHook.noWord h = true → Refs.entitiesRef c ≠ [] →
  handleKeyPress key sc now c st = Ok (b, c', st') →
  ∃ h' st'',
    TypingHook.handleKeyPress key sc now h (Some (Refs.entitiesRef c)) st =
      (b, h', Some (Refs.entitiesRef c'), st'') ∧
    (st' = st'' ∨ ∃ i, st' = removeEntity i st'').
Proof.
  intros Hn Hes Hk. unfold TypingHook.handleKeyPress. rewrite Hn.
  rewrite bool_decide_eq_true_2 by (destruct (Refs.entitiesRef c); [done|simpl; lia]).
  apply handleKeyPress_inv in Hk
    as [(-> & -> & -> & Hp)|(-> & pre & e & post & ch & Hsplit & Hp & Hh & -> & ->)].
  - rewrite scan_none by (eapply Forall_impl; [done|]; by left). eauto.
  - rewrite Hsplit, (scan_first _ _ _ _ pre e ch post)
      by (done || (eapply Forall_impl; [done|]; by left)).
    eexists _, _. split; [done|]. rewrite hitStore_hookStore. case_match; eauto.
Qed.

Lemma hook_follows_canvas_witness :
  ∃ h' st'',
    TypingHook.handleKeyPress "c" 0 1000 TypingHook.init
        (Some [Sample.cat]) Sample.session0 =
      (true, h', Some [Scan.advance "c" Sample.cat], st'') ∧
    (hitStore Sample.cat "c" 0 1000 Sample.session0 = st'' ∨
     ∃ i, hitStore Sample.cat "c" 0 1000 Sample.session0 = removeEntity i st'').
Proof.
  refine (hook_follows_canvas (St := GameSession.t) "c" 0 1000 TypingHook.init
            (Sample.refs [Sample.cat]) Sample.session0 true
            (Sample.refs [Scan.advance "c" Sample.cat])
            (hitStore Sample.cat "c" 0 1000 Sample.session0) eq_refl _ eq_refl).
  discriminate.
Defined.

(** [useTyping]: where the canvas handler throws on an active entity with
    nothing left to type, the hook goes past it: every call returns. *)
Theorem hook_passes_finished_entity {St : Type} `{GameStoreLaws St}
    (key : string) (sc now : Z) (h : TypingHook.t) (e : FallingWord.t)
    (es : list FallingWord.t) (st : St) :
  Scan.faults e →
  keyLoop key sc now (e :: es) st = Throw TypeError ∧
  TypingHook.scan key sc now h (e :: es) st =
    (λ '(h', es', st'), (h', e :: es', st')) <$> TypingHook.scan key sc now h es st.
Proof.
  intros He. split; [|apply scan_skip; by right].
  destruct He as [Ha Hc]. cbn [keyLoop]. by rewrite Ha, Hc.
Qed.

Lemma hook_passes_finished_entity_witness :
  keyLoop "c" 0 1000 [Sample.blank] Sample.session0 = Throw TypeError ∧
  TypingHook.scan "c" 0 1000 TypingHook.init [Sample.blank] Sample.session0 = None.
Proof.
  refine (hook_passes_finished_entity (St := GameSession.t) "c" 0 1000 TypingHook.init
            Sample.blank [] Sample.session0 _).
  by split.
Defined.

(** [useTyping]: once a word is current, the keys are compared with the
    word the hook remembers and the entities of the canvas are never
    touched again: the entity keeps the one character the loop typed. *)
Theorem hook_current_word_leaves_entities {St : Type} `{GameStore St}
    (key : string) (sc now : Z) (h : TypingHook.t)
    (entities : option (list FallingWord.t)) (st : St) :
  TypingHook.noWord h = false →
  (TypingHook.handleKeyPress key sc now h entities st).1.2 = entities.
Proof.
  intros Hn. unfold TypingHook.handleKeyPress. rewrite Hn.
  by repeat case_match.
Qed.

Lemma hook_current_word_leaves_entities_witness :
  (TypingHook.handleKeyPress "a" 0 1000 (TypingHook.mk "c" (Some "cat"))
     (Some [Scan.advance "c" Sample.cat]) Sample.session0).1.2
  = Some [Scan.advance "c" Sample.cat].
Proof.
  exact (hook_current_word_leaves_entities (St := GameSession.t) "a" 0 1000
           (TypingHook.mk "c" (Some "cat")) (Some [Scan.advance "c" Sample.cat])
           Sample.session0 eq_refl).
Defined.

(** * The keyboard hooks *)

Section keyboard.
Import Keyboard KeyboardEvent.

(** [useHotkey]: the key is compared whatever its case. *)
Lemma hotkey_case_insensitive k o e :
  hotkeyMatches (toLowerCase k) o e = hotkeyMatches k o e ∧
  hotkeyMatches k o (mk (toLowerCase (key e)) (ctrlKey e) (shiftKey e) (altKey e) (metaKey e))
    = hotkeyMatches k o e.
Proof. unfold hotkeyMatches. simpl. by rewrite !toLowerCase_idemp. Qed.

(** [useHotkey]: a modifier that is not asked for is not looked at, so a
    hotkey without modifiers also fires with any of them held. *)
Lemma hotkey_ignores_other_modifiers k e :
  hotkeyMatches k noModifiers e = bool_decide (toLowerCase (key e) = toLowerCase k).
Proof. unfold hotkeyMatches. simpl. by rewrite !andb_true_r. Qed.

(** [useHotkey]: Meta counts as Ctrl. *)
Lemma hotkey_meta_is_ctrl k o e :
  metaKey e = true →
  hotkeyMatches k o e =
    hotkeyMatches k o (mk (key e) true (shiftKey e) (altKey e) (metaKey e)).
Proof. intros Hm. unfold hotkeyMatches. simpl. rewrite Hm. by rewrite orb_true_r. Qed.

(** [useEscapeKey]: the callback runs exactly on the key Escape, in any
    case and with any modifiers, and the default is prevented exactly
    then. *)
Lemma escapeDown_spec {A} (callback : A → A) e a :
  escapeDown callback e a =
    if bool_decide (toLowerCase (key e) = "escape") then (true, callback a) else (false, a).
Proof. unfold escapeDown, hotkeyDown. by rewrite hotkey_ignores_other_modifiers. Qed.

End keyboard.
