(* ===== verification/LlmProviders.v ===== *)
(** * LlmProviders: the providers of practice content ([services/llm])

    [Class ILLMProvider] is the TypeScript interface of a provider.  A
    method is asynchronous: it takes the time at which it is called and
    returns its result (a value or a rejection), the provider afterwards and
    the time at which the promise settles.  What the browser contributes to
    a call is an [Env.t]: the draws of [Math.random] in order, the outcome of
    each [fetch] and the result of [JSON.parse] on a text.

    [Module Base] is [BaseLLMProvider] ([types.ts]): the configuration, the
    cache with its time to live, and [fetchWithTimeout].  A cache entry
    holds the value whose JSON text the source stores; on strings and arrays
    of strings [JSON.parse] undoes [JSON.stringify].  [Module StaticData] is
    [StaticDataProvider] with its tables, [Module OpenAI] is
    [OpenAIProvider].

    The theorems: the cache returns what was stored until the time to live
    has passed, and nothing afterwards; the static provider always answers,
    with words of the set it chose, each position taken once, as many as
    asked or as the set has; a second request within a minute gets the same
    words; the OpenAI provider is not available without a key and makes no
    request then. *)

From Stdlib Require Import ZArith QArith Qround Lqa Lia String Ascii.
From stdpp Require Import base tactics option list strings gmap pretty.
From S2P Require Import Prelude Types.

#[local] Open Scope Z_scope.
#[local] Open Scope string_scope.

(** ** Strings and values *)

(** [s.includes(c)] for a single character. *)
Fixpoint includes (s : string) (c : ascii) : bool :=
  match s with
  | EmptyString => false
  | String a s' => bool_decide (a = c) || includes s' c
  end.

(** [/[...]/.test(s)] for a class of characters. *)
Definition testClass (class : string) (s : string) : bool :=
  existsb (includes class) (list_ascii_of_string s).

(** [keys.join(sep)] *)
Definition join (sep : string) (l : list string) : string := String.concat sep l.

(** [s.split(/[...]/)] for a class of single characters. *)
Fixpoint split (class : string) (s : string) : list string :=
  match s with
  | EmptyString => [EmptyString]
  | String c s' =>
      if includes class c then EmptyString :: split class s'
      else match split class s' with
           | w :: ws => String c w :: ws
           | [] => [String c EmptyString]
           end
  end.

(** [s.replace(/[...]/g, '')] for a class of single characters. *)
Fixpoint removeAll (class : string) (s : string) : string :=
  match s with
  | EmptyString => EmptyString
  | String c s' => if includes class c then removeAll class s' else String c (removeAll class s')
  end.

(** The double quote, and the two quotes. *)
Definition dquote : string := String (ascii_of_nat 34) EmptyString.
Definition quotes : string := String (ascii_of_nat 34) "'".

(** The last character removed when it is of the class. *)
Fixpoint dropLastOf (class : string) (s : string) : string :=
  match s with
  | EmptyString => EmptyString
  | String c EmptyString => if includes class c then EmptyString else s
  | String c s' => String c (dropLastOf class s')
  end.

(** [s.replace(/^["']|["']$/g, '')]: a quote at the start and a quote at
    the end are removed. *)
Definition stripQuotes (s : string) : string :=
  match s with
  | EmptyString => EmptyString
  | String c s' => if includes quotes c then dropLastOf quotes s' else dropLastOf quotes s
  end.

(** The values the providers cache. *)
Inductive Json : Type :=
| JStr (s : string)
| JArr (l : list string).

#[export] Instance Json_eq_dec : EqDecision Json.
Proof. solve_decision. Defined.

(** [if (cached)]: the empty string is falsy, an array never is. *)
Definition truthy (j : Json) : bool :=
  match j with
  | JStr s => negb (bool_decide (s = EmptyString))
  | JArr _ => true
  end.

Definition asWords (j : Json) : list string :=
  match j with JArr l => l | JStr _ => [] end.

Definition asText (j : Json) : string :=
  match j with JStr s => s | JArr l => join "," l end.

(** ** The environment of a call *)

(** What a response contains for the program: [ok], [status], and of the
    body the content of the first choice. *)
Inductive Body : Type :=
| NotJson                              (* [response.json()] rejects *)
| NoChoices                            (* [data.choices] is undefined *)
| Choices (content : option string).   (* [data.choices[0]?.message?.content] *)

Module Response.
Record t : Type := mk {
  ok : bool;
  status : Z;
  body : Body;
}.
End Response.

(** A request as the provider sends it. *)
Module Request.
Record t : Type := mk {
  url : string;
  authorization : string;
  model : option string;   (* of the body of a completion request *)
  content : option string; (* the prompt *)
}.
End Request.

(** What becomes of a [fetch]: a response or a network failure after some
    milliseconds, or nothing at all. *)
Inductive FetchOutcome : Type :=
| Responds (delay : Z) (r : Response.t)
| Fails (delay : Z)
| Hangs.

(** [JSON.parse(text)] as far as [generateWords] looks at it. *)
Inductive Parsed : Type :=
| ParsedArray (words : list string)
| ParsedOther
| ParseFails.

Module Env.
Record t : Type := mk {
  random : nat → Q;
  fetch : Request.t → FetchOutcome;
  parse : string → Parsed;
}.
End Env.

(** ** The interface *)

(** The TypeScript [interface ILLMProvider]. *)
Class ILLMProvider (P : Type) : Type := {
  name : P → string;
  generateText : Env.t → string → Z → P → result string * P * Z;
  generateWords : Env.t → list string → Z → string → Z → P → result (list string) * P * Z;
  generateSentence : Env.t → string → Z → P → result string * P * Z;
  isAvailable : Env.t → Z → P → result bool * P * Z;
}.

(** ** [LLMServiceConfig] and [BaseLLMProvider] *)

Module LLMServiceConfig.
Record t : Type := mk {
  provider : LLMProvider;
  apiKey : option string;
  baseUrl : option string;
  model : option string;
  cacheEnabled : option bool;
  timeout : option Z;
}.
End LLMServiceConfig.

Module CacheEntry.
Record t : Type := mk {
  result : Json;
  timestamp : Z;
  ttl : Z;
}.
End CacheEntry.

Module Base.
Import LLMServiceConfig.

Record t : Type := mk {
  config : LLMServiceConfig.t;
  cache : gmap string CacheEntry.t;
}.

(** The constructor. *)
Definition new (config : LLMServiceConfig.t) : t := mk config ∅.

(** [getCached(key)] at time [now]: an entry that has expired is
    deleted. *)
Definition getCached (key : string) (now : Z) (b : t) : option Json * t :=
  match cache b !! key with
  | Some entry =>
      if bool_decide (now - CacheEntry.timestamp entry < CacheEntry.ttl entry)
      then (Some (CacheEntry.result entry), b)
      else (None, mk (config b) (delete key (cache b)))
  | None => (None, mk (config b) (delete key (cache b)))
  end.

(** [setCache(key, result, ttl)] at time [now]. *)
Definition setCache (key : string) (result : Json) (ttl : Z) (now : Z) (b : t) : t :=
  if bool_decide (cacheEnabled (config b) ≠ Some false)
  then mk (config b) (<[key := CacheEntry.mk result now ttl]> (cache b))
  else b.

(** The default time to live of [setCache]. *)
Definition defaultTtl : Z := 3600000.

(** [this.config.timeout || 30000] *)
Definition defaultTimeout (b : t) : Z :=
  match timeout (config b) with
  | Some t => if bool_decide (t = 0) then 30000 else t
  | None => 30000
  end.

(** [fetchWithTimeout(url, options)]: the response if it comes before the
    timer aborts the request, with the time at which the promise settles.
    A timer set to a negative time fires at once. *)
Definition fetchWithTimeout (env : Env.t) (req : Request.t) (now : Z) (b : t)
    : result Response.t * Z :=
  let timeout := defaultTimeout b in
  match Env.fetch env req with
  | Responds delay r =>
      if bool_decide (delay < timeout) then (Ok r, now + delay)
      else (Throw AbortError, now + Z.max 0 timeout)
  | Fails delay =>
      if bool_decide (delay < timeout) then (Throw TypeError, now + delay)
      else (Throw AbortError, now + Z.max 0 timeout)
  | Hangs => (Throw AbortError, now + Z.max 0 timeout)
  end.

End Base.

(** ** [StaticDataProvider] *)

Module StaticData.
Import Base.

(** The keys of [wordSets]. *)
Inductive WordSet : Type :=
| asdf_set | jkl_set | home_set | top_set | bottom_set | all_set | numbers_set | symbols_set.

Definition wordSets (k : WordSet) : list string :=
  match k with
  | asdf_set =>
    [ "as"; "df"; "asd"; "fgh"; "sad"; "fad"; "dad"; "had"; "ask"; "gas" ]
  | jkl_set =>
    [ "jk"; "kl"; "jkl"; "llk"; "kjl"; "ljk"; "hjk"; "jlk"; "klj"; "lkj" ]
  | home_set =>
    [ "ask"; "dad"; "fad"; "had"; "lad"; "sad"; "all"; "fall"; "gall"; "halal"; "lass";
      "pass"; "mass"; "jazz"; "kick"; "lick"; "sick"; "tick"; "walk"; "talk" ]
  | top_set =>
    [ "wet"; "per"; "try"; "you"; "our"; "pot"; "top"; "pop"; "wow"; "row"; "tow";
      "qop"; "wee"; "pee"; "tee"; "tree"; "free"; "grew"; "new"; "few" ]
  | bottom_set =>
    [ "zinc"; "vim"; "zen"; "cave"; "maze"; "buzz"; "jazz"; "zoom"; "zone"; "zero";
      "cruz"; "fuzz"; "haze"; "lazy"; "size"; "prize"; "glide"; "blade"; "crane";
      "drake" ]
  | all_set =>
    [ "the"; "and"; "for"; "are"; "but"; "not"; "you"; "all"; "can"; "her"; "was";
      "one"; "our"; "out"; "day"; "get"; "has"; "him"; "his"; "how"; "its"; "may";
      "new"; "now"; "old"; "see"; "way"; "who"; "boy"; "did"; "car"; "let"; "put";
      "say"; "she"; "too"; "use"; "cat"; "dog"; "run"; "jump"; "play"; "game"; "word";
      "type"; "fast"; "slow"; "home"; "work" ]
  | numbers_set =>
    [ "123"; "456"; "789"; "012"; "345"; "678"; "901"; "135"; "246"; "357"; "468";
      "579"; "680"; "791"; "802"; "913"; "024" ]
  | symbols_set =>
    [ "!@#"; "$%^"; "&*()"; "123!"; "abc@"; "test#"; "hello!"; "world@" ]
  end.

(** [this.sentences[difficulty]] *)
Definition sentences (difficulty : string) : option (list string) :=
  match difficulty with
  | "easy" => Some
    [ "asdf jkl;"; "asd fgh jkl"; "the quick brown"; "jump over the"; "hello world";
      "a sad dad"; "all fall down"; "ask for help"; "had a fall"; "let us go" ]
  | "medium" => Some
    [ "the quick brown fox"; "jumps over the lazy dog"; "pack my box with five";
      "dozen liquor jugs"; "how vexingly quick"; "daft zebras jump";
      "the five boxing wizards"; "jump quickly now"; "sphinx of black quartz";
      "judge my vow" ]
  | "hard" => Some
    [ "the quick brown fox jumps over the lazy dog";
      "pack my box with five dozen liquor jugs"; "how vexingly quick daft zebras jump";
      "the five boxing wizards jump quickly"; "sphinx of black quartz judge my vow";
      "two driven jocks help fax my big quiz"; "the jay pig fox zebra and my wolves";
      "quickly go and help them now" ]
  | _ => None
  end.

(** The state of a provider is that of its base class. *)
Definition t : Type := Base.t.

Definition new (config : LLMServiceConfig.t) : t := Base.new config.

Definition name : string := "StaticData".

(** [keyStr] contains every character of [cs]. *)
Definition includesAll (keyStr cs : string) : bool :=
  forallb (includes keyStr) (list_ascii_of_string cs).

(** [keyStr] contains some character of [cs]. *)
Definition includesAny (keyStr cs : string) : bool :=
  existsb (includes keyStr) (list_ascii_of_string cs).

(** The set of words chosen for the keys. *)
Definition chooseSet (keyStr : string) : WordSet :=
  if includesAll keyStr "asdf" then
    if includesAll keyStr "jkl" then home_set else asdf_set
  else if includesAll keyStr "jkl" then jkl_set
  else if includesAny keyStr "qwertyuiop" then top_set
  else if includesAny keyStr "zxcvbnm" then bottom_set
  else if testClass "0123456789" keyStr then numbers_set
  else if testClass "!@#$%^&*()" keyStr then symbols_set
  else all_set.

(** The filter of the difficulty. *)
Definition filterWords (difficulty : string) (wordSet : list string) : list string :=
  if bool_decide (difficulty = "easy")
  then List.filter (λ w, bool_decide (String.length w ≤ 4)%nat) wordSet
  else if bool_decide (difficulty = "hard")
  then List.filter (λ w, bool_decide (4 ≤ String.length w)%nat) wordSet
  else wordSet.

(** [available.splice(index, 1)] *)
Definition splice1 (index : Z) (available : list string) : list string :=
  if (index <? 0)%Z then available else delete (Z.to_nat index) available.

(** The loop that draws the words: [n] more rounds, the next draw being the
    [k]-th.  A draw of [Math.random] is below 1, so the index is one of the
    array; the loop is written for that case. *)
Fixpoint pick (random : nat → Q) (n k : nat) (available result : list string)
    : list string :=
  match n with
  | O => result
  | S n' =>
      if bool_decide (0 < length available)%nat then
        let index := Math_floor (random k * inject_Z (Z.of_nat (length available))) in
        match nthZ available index with
        | Some w => pick random n' (S k) (splice1 index available) (result ++ [w])
        | None => pick random n' (S k) (splice1 index available) result
        end
      else result
  end.

Definition wordsKey (keys : list string) (count : Z) (difficulty : string) : string :=
  "static-words-" +:+ join EmptyString keys +:+ "-" +:+ pretty count +:+ "-" +:+ difficulty.

Definition sentenceKey (difficulty : string) : string :=
  "static-sentence-" +:+ difficulty.

(** [generateText] *)
Definition generateText (env : Env.t) (prompt : string) (now : Z) (p : t)
    : result string * t * Z :=
  (Ok "This is a static response for typing practice.", p, now).

(** [generateWords] *)
Definition generateWords (env : Env.t) (keys : list string) (count : Z)
    (difficulty : string) (now : Z) (p : t) : result (list string) * t * Z :=
  let cacheKey := wordsKey keys count difficulty in
  let '(cached, p1) := getCached cacheKey now p in
  let fresh :=
    let keyStr := toLowerCase (join EmptyString keys) in
    let filtered := filterWords difficulty (wordSets (chooseSet keyStr)) in
    let result := pick (Env.random env) (Z.to_nat count) 0 filtered [] in
    (Ok result, setCache cacheKey (JArr result) 60000 now p1, now) in
  match cached with
  | Some j => if truthy j then (Ok (asWords j), p1, now) else fresh
  | None => fresh
  end.

(** [generateSentence]; the lists of sentences are not empty. *)
Definition generateSentence (env : Env.t) (difficulty : string) (now : Z) (p : t)
    : result string * t * Z :=
  let cacheKey := sentenceKey difficulty in
  let '(cached, p1) := getCached cacheKey now p in
  let fresh :=
    let sentences := default (default [] (sentences "medium")) (sentences difficulty) in
    let result :=
      default EmptyString
        (nthZ sentences
           (Math_floor (Env.random env 0%nat * inject_Z (Z.of_nat (length sentences))))) in
    (Ok result, setCache cacheKey (JStr result) 60000 now p1, now) in
  match cached with
  | Some j => if truthy j then (Ok (asText j), p1, now) else fresh
  | None => fresh
  end.

(** [isAvailable] *)
Definition isAvailable (env : Env.t) (now : Z) (p : t) : result bool * t * Z :=
  (Ok true, p, now).

End StaticData.

#[export] Instance StaticDataProvider : ILLMProvider StaticData.t := {|
  name _ := StaticData.name;
  generateText := StaticData.generateText;
  generateWords := StaticData.generateWords;
  generateSentence := StaticData.generateSentence;
  isAvailable := StaticData.isAvailable;
|}.

(** ** [PromptTemplates] *)

Module PromptTemplates.

(** The line break and the indentation of the templates. *)
Definition nl : string := String (ascii_of_nat 10) "    ".

Definition generateWords (keys : list string) (count : Z) (difficulty : string) : string :=
  "Generate " +:+ pretty count +:+
  " simple typing practice words using only these letters: " +:+ join ", " keys +:+ "." +:+
  nl +:+ "Difficulty level: " +:+ difficulty +:+ "." +:+
  nl +:+ "Return only a JSON array of strings, no explanation." +:+
  nl +:+ "Example: [" +:+ dquote +:+ "word1" +:+ dquote +:+ ", " +:+ dquote +:+ "word2"
     +:+ dquote +:+ ", " +:+ dquote +:+ "word3" +:+ dquote +:+ "]".

Definition generateSentence (difficulty : string) : string :=
  "Generate a simple English sentence for typing practice." +:+
  nl +:+ "Difficulty level: " +:+ difficulty +:+ "." +:+
  nl +:+ "The sentence should be appropriate for children learning to type." +:+
  nl +:+ "Return only the sentence, no quotes or explanation.".

Definition generateQuiz (topic difficulty : string) : string :=
  "Generate a simple " +:+ topic +:+ " question for typing practice." +:+
  nl +:+ "Difficulty: " +:+ difficulty +:+ "." +:+
  nl +:+ "Format as JSON: {" +:+ dquote +:+ "question" +:+ dquote +:+ ": " +:+ dquote
     +:+ "..." +:+ dquote +:+ ", " +:+ dquote +:+ "answer" +:+ dquote +:+ ": " +:+ dquote
     +:+ "..." +:+ dquote +:+ "}" +:+
  nl +:+ "The answer should be a single word or short phrase.".

(** The numbers are printed as integers. *)
Definition adaptDifficulty (currentLevel wpm accuracy : Z) : string :=
  "Based on typing performance:" +:+
  nl +:+ "- Current level: " +:+ pretty currentLevel +:+
  nl +:+ "- WPM: " +:+ pretty wpm +:+
  nl +:+ "- Accuracy: " +:+ pretty accuracy +:+ "%" +:+
  String (ascii_of_nat 10) EmptyString +:+
  nl +:+ "Suggest the next difficulty level (1-10) for practice words." +:+
  nl +:+ "Return only a number.".

(** [mistakes.join(', ') || 'none'] *)
Definition mistakesText (mistakes : list string) : string :=
  let s := join ", " mistakes in
  if bool_decide (s = EmptyString) then "none" else s.

Definition generateFeedback (wpm accuracy : Z) (mistakes : list string) : string :=
  "Provide encouraging feedback for a child who just finished typing practice:" +:+
  nl +:+ "- Speed: " +:+ pretty wpm +:+ " WPM" +:+
  nl +:+ "- Accuracy: " +:+ pretty accuracy +:+ "%" +:+
  nl +:+ "- Common mistakes: " +:+ mistakesText mistakes +:+
  String (ascii_of_nat 10) EmptyString +:+
  nl +:+ "Keep it short (2-3 sentences), positive, and helpful." +:+
  nl +:+ "Use simple language suitable for children.".

End PromptTemplates.

(** ** [OpenAIProvider] *)

Module OpenAI.
Import Base.

Record t : Type := mk {
  base : Base.t;
  baseUrl : string;
}.

Definition set_base (b : Base.t) (p : t) : t := mk b (baseUrl p).

(** The constructor: the address of the configuration, when it has one. *)
Definition new (config : LLMServiceConfig.t) : t :=
  mk (Base.new config)
     (match LLMServiceConfig.baseUrl config with
      | Some u => if bool_decide (u = EmptyString) then "https://api.openai.com/v1" else u
      | None => "https://api.openai.com/v1"
      end).

Definition name : string := "OpenAI".

(** [`Bearer ${this.config.apiKey}`] *)
Definition authorization (p : t) : string :=
  "Bearer " +:+ default "undefined" (LLMServiceConfig.apiKey (config (base p))).

(** [this.config.model || 'gpt-3.5-turbo'] *)
Definition model (p : t) : string :=
  match LLMServiceConfig.model (config (base p)) with
  | Some m => if bool_decide (m = EmptyString) then "gpt-3.5-turbo" else m
  | None => "gpt-3.5-turbo"
  end.

Definition completionRequest (prompt : string) (p : t) : Request.t :=
  Request.mk (baseUrl p +:+ "/chat/completions") (authorization p)
    (Some (model p)) (Some prompt).

Definition modelsRequest (p : t) : Request.t :=
  Request.mk (baseUrl p +:+ "/models") (authorization p) None None.

Definition textKey (prompt : string) : string := "openai-text-" +:+ prompt.

Definition wordsKey (keys : list string) (count : Z) (difficulty : string) : string :=
  "openai-words-" +:+ join EmptyString keys +:+ "-" +:+ pretty count +:+ "-" +:+ difficulty.

Definition sentenceKey (difficulty : string) : string := "openai-sentence-" +:+ difficulty.

(** [generateText] *)
Definition generateText (env : Env.t) (prompt : string) (now : Z) (p : t)
    : result string * t * Z :=
  let cacheKey := textKey prompt in
  let '(cached, b1) := getCached cacheKey now (base p) in
  let p1 := set_base b1 p in
  let request :=
    let '(r, t1) := fetchWithTimeout env (completionRequest prompt p1) now b1 in
    match r with
    | Throw e => (Throw e, p1, t1)
    | Ok response =>
        if negb (Response.ok response)
        then (Throw (Error_ ("OpenAI API error: " +:+ pretty (Response.status response))),
              p1, t1)
        else match Response.body response with
             | NotJson => (Throw SyntaxError, p1, t1)
             | NoChoices => (Throw TypeError, p1, t1)
             | Choices content =>
                 let result := default EmptyString content in
                 (Ok result, set_base (setCache cacheKey (JStr result) defaultTtl t1 b1) p1, t1)
             end
    end in
  match cached with
  | Some j => if truthy j then (Ok (asText j), p1, now) else request
  | None => request
  end.

(** The words of a response that is not JSON: the parts between commas and
    line breaks, without white space around them and without quotes and
    brackets, the empty ones left out. *)
Definition splitWords (response : string) : list string :=
  List.filter (λ w, bool_decide (0 < String.length w)%nat)
    ((λ w, removeAll (dquote +:+ "[]") (trim w)) <$>
       split (String "," (String (ascii_of_nat 10) EmptyString)) response).

(** [generateWords] *)
Definition generateWords (env : Env.t) (keys : list string) (count : Z)
    (difficulty : string) (now : Z) (p : t) : result (list string) * t * Z :=
  let cacheKey := wordsKey keys count difficulty in
  let '(cached, b1) := getCached cacheKey now (base p) in
  let p1 := set_base b1 p in
  let request :=
    let prompt := PromptTemplates.generateWords keys count difficulty in
    let '(r, p2, t2) := generateText env prompt now p1 in
    match r with
    | Throw e => (Throw e, p2, t2)
    | Ok response =>
        match Env.parse env response with
        | ParsedArray words =>
            (Ok words, set_base (setCache cacheKey (JArr words) defaultTtl t2 (base p2)) p2, t2)
        | ParsedOther => (Ok [], p2, t2)
        | ParseFails =>
            let words := splitWords response in
            (Ok words, set_base (setCache cacheKey (JArr words) defaultTtl t2 (base p2)) p2, t2)
        end
    end in
  match cached with
  | Some j => if truthy j then (Ok (asWords j), p1, now) else request
  | None => request
  end.

(** [generateSentence] *)
Definition generateSentence (env : Env.t) (difficulty : string) (now : Z) (p : t)
    : result string * t * Z :=
  let cacheKey := sentenceKey difficulty in
  let '(cached, b1) := getCached cacheKey now (base p) in
  let p1 := set_base b1 p in
  let request :=
    let prompt := PromptTemplates.generateSentence difficulty in
    let '(r, p2, t2) := generateText env prompt now p1 in
    match r with
    | Throw e => (Throw e, p2, t2)
    | Ok result =>
        let sentence := stripQuotes (trim result) in
        (Ok sentence,
         set_base (setCache cacheKey (JStr sentence) defaultTtl t2 (base p2)) p2, t2)
    end in
  match cached with
  | Some j => if truthy j then (Ok (asText j), p1, now) else request
  | None => request
  end.

(** [!this.config.apiKey] *)
Definition noApiKey (p : t) : bool :=
  match LLMServiceConfig.apiKey (config (base p)) with
  | Some k => bool_decide (k = EmptyString)
  | None => true
  end.

(** [isAvailable]: without a key no request is made; a request that fails
    means not available. *)
Definition isAvailable (env : Env.t) (now : Z) (p : t) : result bool * t * Z :=
  if noApiKey p then (Ok false, p, now)
  else
    let '(r, t1) := fetchWithTimeout env (modelsRequest p) now (base p) in
    match r with
    | Ok response => (Ok (Response.ok response), p, t1)
    | Throw _ => (Ok false, p, t1)
    end.

End OpenAI.

#[export] Instance OpenAIProvider : ILLMProvider OpenAI.t := {|
  name _ := OpenAI.name;
  generateText := OpenAI.generateText;
  generateWords := OpenAI.generateWords;
  generateSentence := OpenAI.generateSentence;
  isAvailable := OpenAI.isAvailable;
|}.

(** * Theorems *)

(** ** The cache *)

Section cache.
Import Base.
Implicit Types (b : Base.t) (key : string) (v : Json).

Definition enabled b : Prop := LLMServiceConfig.cacheEnabled (config b) ≠ Some false.

#[export] Instance enabled_dec b : Decision (enabled b).
Proof. unfold enabled. apply _. Defined.

Lemma setCache_enabled key v ttl now b :
  enabled b →
  setCache key v ttl now b = mk (config b) (<[key := CacheEntry.mk v now ttl]> (cache b)).
Proof. intros He. unfold setCache. by rewrite bool_decide_eq_true_2. Qed.

Lemma setCache_disabled key v ttl now b : ¬ enabled b → setCache key v ttl now b = b.
Proof. intros He. unfold setCache. by rewrite bool_decide_eq_false_2. Qed.

Lemma setCache_config key v ttl now b : config (setCache key v ttl now b) = config b.
Proof. unfold setCache. by case_bool_decide. Qed.

Lemma getCached_config key now b : config (getCached key now b).2 = config b.
Proof. unfold getCached. by repeat case_match. Qed.

Lemma getCached_hit key now b e :
  cache b !! key = Some e → now - CacheEntry.timestamp e < CacheEntry.ttl e →
  getCached key now b = (Some (CacheEntry.result e), b).
Proof. intros He Hn. unfold getCached. by rewrite He, bool_decide_eq_true_2. Qed.

Lemma getCached_miss key now b :
  cache b !! key = None → getCached key now b = (None, b).
Proof.
  intros He. unfold getCached. rewrite He, delete_id by done. by destruct b.
Qed.

Lemma getCached_stale key now b e :
  cache b !! key = Some e → CacheEntry.ttl e <= now - CacheEntry.timestamp e →
  getCached key now b = (None, mk (config b) (delete key (cache b))).
Proof. intros He Hn. unfold getCached. by rewrite He, bool_decide_eq_false_2 by lia. Qed.

(** What [getCached] returns was stored under the key and has not
    expired. *)
Lemma getCached_Some key now b v b' :
  getCached key now b = (Some v, b') →
  b' = b ∧ ∃ e, cache b !! key = Some e ∧ CacheEntry.result e = v ∧
    now - CacheEntry.timestamp e < CacheEntry.ttl e.
Proof.
  unfold getCached. destruct (cache b !! key) as [e|]; [|done].
  case_bool_decide; [|done]. intros [= <- <-]. eauto.
Qed.

(** After [getCached] found nothing, the key is not in the cache. *)
Lemma getCached_None key now b b' :
  getCached key now b = (None, b') → cache b' !! key = None ∧ config b' = config b.
Proof.
  unfold getCached. destruct (cache b !! key) as [e|]; [case_bool_decide; [done|]|];
    intros [= <-]; simpl; by rewrite lookup_delete_eq.
Qed.

End cache.

(** [BaseLLMProvider]: a value stored in the cache is returned as long as
    its time to live has not passed, and from then on it is not returned
    but deleted. *)
Theorem cache_roundtrip (key : string) (v : Json) (ttl now now' : Z) (b : Base.t) :
  enabled b →
  let b1 := Base.setCache key v ttl now b in
  (now' - now < ttl → Base.getCached key now' b1 = (Some v, b1)) ∧
  (ttl <= now' - now →
   (Base.getCached key now' b1).1 = None ∧
   Base.cache (Base.getCached key now' b1).2 !! key = None).
Proof.
  intros He b1. unfold b1. rewrite setCache_enabled by done. split; intros Ht.
  - by rewrite (getCached_hit _ _ _ (CacheEntry.mk v now ttl))
      by (apply lookup_insert_eq || (simpl; lia)).
  - rewrite (getCached_stale _ _ _ (CacheEntry.mk v now ttl))
      by (apply lookup_insert_eq || (simpl; lia)).
    simpl. by rewrite lookup_delete_eq.
Qed.

Lemma cache_roundtrip_witness :
  let b := Base.new (LLMServiceConfig.mk static None None None (Some true) None) in
  let b1 := Base.setCache "k" (JArr ["as"; "df"]) 60000 1000 b in
  (60999 - 1000 < 60000 → Base.getCached "k" 60999 b1 = (Some (JArr ["as"; "df"]), b1)) ∧
  (60000 <= 61000 - 1000 →
   (Base.getCached "k" 61000 b1).1 = None ∧
   Base.cache (Base.getCached "k" 61000 b1).2 !! "k" = None).
Proof.
  pose proof (cache_roundtrip "k" (JArr ["as"; "df"]) 60000 1000 60999
    (Base.new (LLMServiceConfig.mk static None None None (Some true) None))
    ltac:(done)) as [H1 _].
  pose proof (cache_roundtrip "k" (JArr ["as"; "df"]) 60000 1000 61000
    (Base.new (LLMServiceConfig.mk static None None None (Some true) None))
    ltac:(done)) as [_ H2].
  exact (conj H1 H2).
Defined.

(** [BaseLLMProvider]: with [cacheEnabled: false] nothing is ever stored. *)
Theorem cache_disabled_stays_empty (key : string) (v : Json) (ttl now : Z) (b : Base.t) :
  LLMServiceConfig.cacheEnabled (Base.config b) = Some false →
  Base.setCache key v ttl now b = b.
Proof. intros Hd. apply setCache_disabled. unfold enabled. rewrite Hd. by intros Hn. Qed.

Lemma cache_disabled_stays_empty_witness :
  let b := Base.new (LLMServiceConfig.mk static None None None (Some false) None) in
  Base.setCache "k" (JStr "x") 60000 1000 b = b.
Proof.
  exact (cache_disabled_stays_empty "k" (JStr "x") 60000 1000
           (Base.new (LLMServiceConfig.mk static None None None (Some false) None)) eq_refl).
Defined.

(** ** The static provider *)

Section static.
Import Base StaticData.
Implicit Types (p : StaticData.t) (env : Env.t) (keys : list string).

(** The words a request draws when the cache has nothing for it. *)
Definition drawn env keys (count : Z) (difficulty : string) : list string :=
  pick (Env.random env) (Z.to_nat count) 0
    (filterWords difficulty (wordSets (chooseSet (toLowerCase (join EmptyString keys))))) [].

Lemma pick_spec random n k available result :
  (∀ k, (0 <= random k < 1)%Q) →
  ∃ picked, pick random n k available result = (result ++ picked)%list ∧
    picked ⊆+ available ∧ length picked = (n `min` length available)%nat.
Proof.
  intros Hr. revert k available result.
  induction n as [|n IH]; intros k available result; cbn [pick].
  { exists []. rewrite app_nil_r. split_and!; [done|apply submseteq_nil_l|done]. }
  case_bool_decide as Hlen.
  - pose proof (random_index (random k) (length available) (Hr k) Hlen) as Hi.
    set (index := Math_floor _) in *.
    destruct (nthZ_is_Some available index Hi) as [w Hw]. rewrite Hw.
    assert (available !! Z.to_nat index = Some w) as Hw'.
    { unfold nthZ in Hw. by destruct (Z.ltb_spec index 0); [lia|]. }
    unfold splice1. destruct (Z.ltb_spec index 0); [lia|].
    destruct (IH (S k) (delete (Z.to_nat index) available) (result ++ [w])%list)
      as (picked & -> & Hsub & Hlen').
    exists (w :: picked). rewrite <- app_assoc. split_and!; [done| |].
    + rewrite (delete_Permutation available _ _ Hw'). by apply submseteq_skip.
    + cbn [length]. rewrite Hlen', length_delete by eauto. lia.
  - exists []. rewrite app_nil_r. split_and!; [done|apply submseteq_nil_l|cbn [length]; lia].
Qed.

Lemma generateWords_miss env keys count difficulty now p :
  cache p !! wordsKey keys count difficulty = None →
  generateWords env keys count difficulty now p =
    (Ok (drawn env keys count difficulty),
     setCache (wordsKey keys count difficulty) (JArr (drawn env keys count difficulty))
       60000 now p, now).
Proof. intros Hk. unfold generateWords. by rewrite getCached_miss. Qed.

Lemma generateWords_hit env keys count difficulty now p e :
  cache p !! wordsKey keys count difficulty = Some e →
  now - CacheEntry.timestamp e < CacheEntry.ttl e →
  CacheEntry.result e = JArr (asWords (CacheEntry.result e)) →
  generateWords env keys count difficulty now p = (Ok (asWords (CacheEntry.result e)), p, now).
Proof.
  intros Hk Ht Hj. unfold generateWords. rewrite (getCached_hit _ _ _ e) by done.
  by rewrite Hj.
Qed.

(** The static provider answers at once, whatever is asked. *)
Lemma static_generateWords_total env keys count difficulty now p :
  ∃ ws p', generateWords env keys count difficulty now p = (Ok ws, p', now).
Proof.
  unfold generateWords. destruct (getCached _ _ _) as [[j|] p1]; [destruct (truthy j)|];
    eauto.
Qed.

Lemma static_generateSentence_total env difficulty now p :
  ∃ s p', generateSentence env difficulty now p = (Ok s, p', now).
Proof.
  unfold generateSentence. destruct (getCached _ _ _) as [[j|] p1]; [destruct (truthy j)|];
    eauto.
Qed.

End static.

(** [StaticDataProvider.generateWords], when the cache has nothing for the
    request: the words are taken from the set chosen for the keys, filtered
    by the difficulty, no position of the set twice, and they are as many
    as were asked for or as the filtered set has. *)
Theorem static_words_from_set (env : Env.t) (keys : list string) (count : Z)
    (difficulty : string) (now : Z) (p : StaticData.t) :
  (∀ k, (0 <= Env.random env k < 1)%Q) →
  Base.cache p !! StaticData.wordsKey keys count difficulty = None →
  let filtered :=
    StaticData.filterWords difficulty
      (StaticData.wordSets (StaticData.chooseSet (toLowerCase (join EmptyString keys)))) in
  ∃ ws p', StaticData.generateWords env keys count difficulty now p = (Ok ws, p', now) ∧
    ws ⊆+ filtered ∧ length ws = (Z.to_nat count `min` length filtered)%nat.
Proof.
  intros Hr Hk filtered. rewrite generateWords_miss by done.
  destruct (pick_spec (Env.random env) (Z.to_nat count) 0 filtered [] Hr)
    as (picked & Hp & Hsub & Hlen).
  eexists _, _. split; [done|]. unfold drawn. fold filtered. by rewrite Hp.
Qed.

(** ** Sample values *)

Module LlmSample.

Definition config : LLMServiceConfig.t :=
  LLMServiceConfig.mk static None None None (Some true) None.

(** An environment without network: every request hangs. *)
Definition offline : Env.t :=
  Env.mk (λ k, if Nat.even k then 0 else 3 # 4)%Q (λ _, Hangs) (λ _, ParseFails).

Definition other : Env.t := Env.mk (λ _, 1 # 2)%Q (λ _, Hangs) (λ _, ParseFails).

Lemma offline_random k : (0 <= Env.random offline k < 1)%Q.
Proof. simpl. destruct (Nat.even k); lra. Qed.

End LlmSample.

Lemma static_words_from_set_witness :
  let filtered :=
    StaticData.filterWords "easy"
      (StaticData.wordSets
         (StaticData.chooseSet (toLowerCase (join EmptyString ["a"; "s"; "d"; "f"])))) in
  ∃ ws p', StaticData.generateWords LlmSample.offline ["a"; "s"; "d"; "f"] 3 "easy" 1000
             (StaticData.new LlmSample.config) = (Ok ws, p', 1000) ∧
    ws ⊆+ filtered ∧ length ws = (Z.to_nat 3 `min` length filtered)%nat.
Proof.
  exact (static_words_from_set LlmSample.offline ["a"; "s"; "d"; "f"] 3 "easy" 1000
           (StaticData.new LlmSample.config) LlmSample.offline_random eq_refl).
Defined.

(** [StaticDataProvider.generateWords]: a request repeated within a minute
    gets the words of the first answer again, whatever [Math.random] draws
    the second time; the words are not drawn afresh. *)
Theorem static_words_repeat (env env' : Env.t) (keys : list string) (count : Z)
    (difficulty : string) (now now' : Z) (p : StaticData.t) :
  enabled p → Base.cache p !! StaticData.wordsKey keys count difficulty = None →
  now' - now < 60000 →
  let '(r, p1, _) := StaticData.generateWords env keys count difficulty now p in
  StaticData.generateWords env' keys count difficulty now' p1 = (r, p1, now').
Proof.
  intros He Hk Ht. rewrite generateWords_miss by done.
  rewrite setCache_enabled by done.
  by rewrite (generateWords_hit _ _ _ _ _ _
                (CacheEntry.mk (JArr (drawn env keys count difficulty)) now 60000))
    by (apply lookup_insert_eq || done).
Qed.

Lemma static_words_repeat_witness :
  let '(r, p1, _) :=
    StaticData.generateWords LlmSample.offline ["j"; "k"; "l"] 2 "easy" 1000
      (StaticData.new LlmSample.config) in
  StaticData.generateWords LlmSample.other ["j"; "k"; "l"] 2 "easy" 50000 p1 = (r, p1, 50000).
Proof.
  refine (static_words_repeat LlmSample.offline LlmSample.other ["j"; "k"; "l"] 2 "easy"
            1000 50000 (StaticData.new LlmSample.config) _ eq_refl _); [done|lia].
Defined.

(** [StaticDataProvider.generateWords] answers with words outside the keys
    it was asked for, and with no word at all for the right hand at the
    difficulty "hard". *)
Example static_words_examples :
  (StaticData.generateWords LlmSample.offline ["a"; "s"; "d"; "f"] 4 "medium" 0
     (StaticData.new LlmSample.config)).1.1 = Ok ["as"; "had"; "df"; "ask"] ∧
  (StaticData.generateWords LlmSample.offline ["j"; "k"; "l"] 5 "hard" 0
     (StaticData.new LlmSample.config)).1.1 = Ok [].
Proof. by vm_compute. Qed.

(** ** The OpenAI provider *)

Section openai.
Import Base OpenAI.
Implicit Types (p : OpenAI.t) (env : Env.t) (b : Base.t).

(** The longest a request can take. *)
Definition patience b : Z := Z.max 0 (defaultTimeout b).

Lemma fetchWithTimeout_bound env req now b :
  (fetchWithTimeout env req now b).2 <= now + patience b.
Proof.
  unfold fetchWithTimeout, patience. destruct (Env.fetch env req);
    repeat case_bool_decide; simpl; lia.
Qed.

(** A provider after a call: the configuration and the address are those
    of its construction, and the promise has settled within the timeout. *)
Record settled (now : Z) p (p' : OpenAI.t) (t : Z) : Prop := {
  settled_config : config (base p') = config (base p);
  settled_baseUrl : baseUrl p' = baseUrl p;
  settled_time : t <= now + patience (base p);
}.

Lemma patience_nonneg b : 0 <= patience b.
Proof. unfold patience. lia. Qed.

Lemma generateText_settled env prompt now p :
  let '(r, p', t) := generateText env prompt now p in settled now p p' t.
Proof.
  unfold generateText.
  pose proof (getCached_config (textKey prompt) now (base p)) as Hc.
  destruct (getCached _ _ _) as [cached b1]. simpl in Hc.
  pose proof (fetchWithTimeout_bound env
                (completionRequest prompt (set_base b1 p)) now b1) as Hb.
  pose proof (patience_nonneg (base p)).
  assert (patience b1 = patience (base p)) as Hp by (unfold patience, defaultTimeout; by rewrite Hc).
  destruct (fetchWithTimeout _ _ _ _) as [r t1]. simpl in Hb. rewrite Hp in Hb.
  assert (settled now p (set_base b1 p) now) by (split; simpl; [done..|lia]).
  assert (settled now p (set_base b1 p) t1) by (split; simpl; done).
  destruct cached as [j|]; [destruct (truthy j); [done|]|];
    (destruct r as [resp|e]; [|done]; destruct (negb _); [done|];
     destruct (Response.body resp); try done;
     split; simpl; [by rewrite setCache_config|done..]).
Qed.

Lemma settled_after_text env prompt now p b1 :
  config b1 = config (base p) →
  let '(r, p2, t2) := generateText env prompt now (set_base b1 p) in
  settled now p p2 t2 ∧ settled now p (set_base b1 p) now.
Proof.
  intros Hc. pose proof (generateText_settled env prompt now (set_base b1 p)) as Hs.
  destruct (generateText _ _ _ _) as [[r p2] t2]. destruct Hs as [H1 H2 H3]. simpl in *.
  assert (patience b1 = patience (base p)) as Hp
    by (unfold patience, defaultTimeout; by rewrite Hc).
  split; split; simpl; try congruence; try lia.
  pose proof (patience_nonneg (base p)). lia.
Qed.

Lemma generateSentence_settled env difficulty now p :
  let '(r, p', t) := generateSentence env difficulty now p in settled now p p' t.
Proof.
  unfold generateSentence.
  pose proof (getCached_config (sentenceKey difficulty) now (base p)) as Hc.
  destruct (getCached _ _ _) as [cached b1]. simpl in Hc.
  pose proof (settled_after_text env (PromptTemplates.generateSentence difficulty)
                now p b1 Hc) as Hs.
  destruct (generateText _ _ _ _) as [[r p2] t2]. destruct Hs as [[H1 H2 H3] Hs1].
  destruct cached as [j|]; [destruct (truthy j); [done|]|];
    (destruct r as [txt|e]; split; simpl; rewrite ?setCache_config; done).
Qed.

Lemma isAvailable_no_key env now p :
  noApiKey p = true → isAvailable env now p = (Ok false, p, now).
Proof. intros Hk. unfold isAvailable. by rewrite Hk. Qed.

Lemma isAvailable_settled env now p :
  ∃ a t, isAvailable env now p = (Ok a, p, t) ∧ t <= now + patience (base p).
Proof.
  unfold isAvailable. pose proof (patience_nonneg (base p)).
  destruct (noApiKey p); [eexists _, _; split; [done|lia]|].
  pose proof (fetchWithTimeout_bound env (modelsRequest p) now (base p)) as Hb.
  destruct (fetchWithTimeout _ _ _ _) as [[r|e] t1]; eauto.
Qed.

End openai.

(** [OpenAIProvider]: without an API key the provider is not available,
    and it finds that out without a request. *)
Theorem openai_needs_key (env env' : Env.t) (now : Z) (p : OpenAI.t) :
  OpenAI.noApiKey p = true →
  OpenAI.isAvailable env now p = (Ok false, p, now) ∧
  OpenAI.isAvailable env now p = OpenAI.isAvailable env' now p.
Proof. intros Hk. by rewrite !isAvailable_no_key. Qed.

Lemma openai_needs_key_witness :
  let p := OpenAI.new (LLMServiceConfig.mk openai (Some EmptyString) None None None None) in
  OpenAI.isAvailable LlmSample.offline 0 p = (Ok false, p, 0) ∧
  OpenAI.isAvailable LlmSample.offline 0 p = OpenAI.isAvailable LlmSample.other 0 p.
Proof.
  exact (openai_needs_key LlmSample.offline LlmSample.other 0
           (OpenAI.new (LLMServiceConfig.mk openai (Some EmptyString) None None None None))
           eq_refl).
Defined.

(** [OpenAIProvider.generateWords]: the promise settles within the timeout
    of the provider, fulfilled or rejected, also when the server never
    answers; the provider keeps its configuration and its address. *)
Theorem openai_words_settle (env : Env.t) (keys : list string) (count : Z)
    (difficulty : string) (now : Z) (p : OpenAI.t) :
  let '(r, p', t) := OpenAI.generateWords env keys count difficulty now p in
  settled now p p' t.
Proof.
  unfold OpenAI.generateWords.
  pose proof (getCached_config (OpenAI.wordsKey keys count difficulty) now (OpenAI.base p))
    as Hc.
  destruct (Base.getCached _ _ _) as [cached b1]. simpl in Hc.
  pose proof (generateText_settled env
                (PromptTemplates.generateWords keys count difficulty) now
                (OpenAI.set_base b1 p)) as Hs.
  destruct (OpenAI.generateText _ _ _ _) as [[r p2] t2].
  assert (settled now p p2 t2) as Hs2.
  { destruct Hs as [H1 H2 H3]. simpl in *. split; [congruence|done|].
    unfold patience, Base.defaultTimeout in *. by rewrite <- Hc. }
  assert (settled now p (OpenAI.set_base b1 p) now)
    by (split; simpl; [done..|pose proof (patience_nonneg (OpenAI.base p)); lia]).
  destruct Hs2 as [H1 H2 H3].
  destruct cached as [j|]; [destruct (truthy j); [done|]|];
    (destruct r as [resp|e]; [|done]; destruct (Env.parse env resp);
     split; simpl; rewrite ?setCache_config; done).
Qed.
