(* ===== verification/LlmService.v ===== *)
(** * LlmService: the entry point of content generation ([LLMService.ts])

    [Module Service] is the class [LLMService]: the provider chosen by the
    configuration, the static fallback provider, and the configuration.
    The provider the service holds is one of the two implementations of
    [ILLMProvider]; [Module Provider] is their sum, with the instance that
    dispatches.  [try]/[catch] around the primary provider becomes a case
    analysis on its result.  [Module Default] is the module-level default
    instance behind [getLLMService].

    The theorems: a request for words, a sentence or a text is always
    answered, within twice the timeout of the provider, by the provider or
    by the fallback; only the OpenAI configuration gets a provider of its
    own; an update of the configuration reaches the provider only when it
    names the provider or the key; the feedback follows its thresholds. *)

From Stdlib Require Import ZArith QArith Lqa Lia String Ascii.
From stdpp Require Import base tactics option list strings gmap.
From S2P Require Import Prelude Types LlmProviders.

#[local] Open Scope Z_scope.
#[local] Open Scope string_scope.

(** ** The providers a service can hold *)

Module Provider.
Inductive t : Type :=
| Static (p : StaticData.t)
| OpenAI_ (p : OpenAI.t).
End Provider.

#[export] Instance Provider_ILLMProvider : ILLMProvider Provider.t := {|
  name p :=
    match p with
    | Provider.Static p => name p
    | Provider.OpenAI_ p => name p
    end;
  generateText env prompt now p :=
    match p with
    | Provider.Static p =>
        let '(r, p', t) := generateText env prompt now p in (r, Provider.Static p', t)
    | Provider.OpenAI_ p =>
        let '(r, p', t) := generateText env prompt now p in (r, Provider.OpenAI_ p', t)
    end;
  generateWords env keys count difficulty now p :=
    match p with
    | Provider.Static p =>
        let '(r, p', t) := generateWords env keys count difficulty now p in
        (r, Provider.Static p', t)
    | Provider.OpenAI_ p =>
        let '(r, p', t) := generateWords env keys count difficulty now p in
        (r, Provider.OpenAI_ p', t)
    end;
  generateSentence env difficulty now p :=
    match p with
    | Provider.Static p =>
        let '(r, p', t) := generateSentence env difficulty now p in (r, Provider.Static p', t)
    | Provider.OpenAI_ p =>
        let '(r, p', t) := generateSentence env difficulty now p in (r, Provider.OpenAI_ p', t)
    end;
  isAvailable env now p :=
    match p with
    | Provider.Static p =>
        let '(r, p', t) := isAvailable env now p in (r, Provider.Static p', t)
    | Provider.OpenAI_ p =>
        let '(r, p', t) := isAvailable env now p in (r, Provider.OpenAI_ p', t)
    end;
|}.

(** [Partial<LLMServiceConfig>]: the fields an update provides. *)
Module PartialConfig.
Record t : Type := mk {
  provider : option LLMProvider;
  apiKey : option string;
  baseUrl : option string;
  model : option string;
  cacheEnabled : option bool;
  timeout : option Z;
}.
Definition empty : t := mk None None None None None None.
End PartialConfig.

(** ** [LLMService] *)

Module Service.

Record t : Type := mk {
  provider : Provider.t;
  fallbackProvider : StaticData.t;
  config : LLMServiceConfig.t;
}.

Definition set_provider (p : Provider.t) (s : t) : t :=
  mk p (fallbackProvider s) (config s).

Definition set_fallbackProvider (f : StaticData.t) (s : t) : t :=
  mk (provider s) f (config s).

(** [createProvider(config)] *)
Definition createProvider (config : LLMServiceConfig.t) : Provider.t :=
  match LLMServiceConfig.provider config with
  | openai => Provider.OpenAI_ (OpenAI.new config)
  | claude => Provider.Static (StaticData.new config)
  | local => Provider.Static (StaticData.new config)
  | static => Provider.Static (StaticData.new config)
  end.

(** The constructor. *)
Definition new (config : LLMServiceConfig.t) : t :=
  mk (createProvider config) (StaticData.new config) config.

(** [{ ...this.config, ...config }] *)
Definition merge (u : PartialConfig.t) (c : LLMServiceConfig.t) : LLMServiceConfig.t :=
  {| LLMServiceConfig.provider :=
       default (LLMServiceConfig.provider c) (PartialConfig.provider u);
     LLMServiceConfig.apiKey := PartialConfig.apiKey u ∪ LLMServiceConfig.apiKey c;
     LLMServiceConfig.baseUrl := PartialConfig.baseUrl u ∪ LLMServiceConfig.baseUrl c;
     LLMServiceConfig.model := PartialConfig.model u ∪ LLMServiceConfig.model c;
     LLMServiceConfig.cacheEnabled :=
       PartialConfig.cacheEnabled u ∪ LLMServiceConfig.cacheEnabled c;
     LLMServiceConfig.timeout := PartialConfig.timeout u ∪ LLMServiceConfig.timeout c |}.

(** [updateConfig(config)]: a new provider is made only when the update
    names the provider or the key. *)
Definition updateConfig (u : PartialConfig.t) (s : t) : t :=
  let config' := merge u (config s) in
  if bool_decide (PartialConfig.provider u ≠ None ∨ PartialConfig.apiKey u ≠ None)
  then mk (createProvider config') (fallbackProvider s) config'
  else mk (provider s) (fallbackProvider s) config'.

(** [getProviderName()] *)
Definition getProviderName (s : t) : string := name (provider s).

(** [isAvailable()]: a rejection of the provider means not available. *)
Definition isAvailable (env : Env.t) (now : Z) (s : t) : result bool * t * Z :=
  let '(r, p', t) := LlmProviders.isAvailable env now (provider s) in
  (Ok (match r with Ok a => a | Throw _ => false end), set_provider p' s, t).

(** The shape the three generating methods share: the provider is asked
    when it says it is available; when it is not, or when it rejects, the
    fallback provider answers. *)
Definition withFallback {A : Type}
    (primary : Z → Provider.t → result A * Provider.t * Z)
    (fallback : Z → StaticData.t → result A * StaticData.t * Z)
    (env : Env.t) (now : Z) (s : t) : result A * t * Z :=
  let useFallback (t : Z) (s : Service.t) :=
    let '(r, f', t') := fallback t (fallbackProvider s) in
    (r, set_fallbackProvider f' s, t') in
  let '(available, p1, t1) := LlmProviders.isAvailable env now (provider s) in
  let s1 := set_provider p1 s in
  match available with
  | Ok true =>
      let '(r, p2, t2) := primary t1 p1 in
      let s2 := set_provider p2 s1 in
      match r with
      | Ok a => (Ok a, s2, t2)
      | Throw _ => useFallback t2 s2
      end
  | Ok false => useFallback t1 s1
  | Throw _ => useFallback t1 s1
  end.

(** [generateWords(keys, count, difficulty)] *)
Definition generateWords (env : Env.t) (keys : list string) (count : Z)
    (difficulty : string) (now : Z) (s : t) : result (list string) * t * Z :=
  withFallback (LlmProviders.generateWords env keys count difficulty)
    (LlmProviders.generateWords env keys count difficulty) env now s.

(** [generateSentence(difficulty)] *)
Definition generateSentence (env : Env.t) (difficulty : string) (now : Z) (s : t)
    : result string * t * Z :=
  withFallback (LlmProviders.generateSentence env difficulty)
    (LlmProviders.generateSentence env difficulty) env now s.

(** [generateText(prompt)] *)
Definition generateText (env : Env.t) (prompt : string) (now : Z) (s : t)
    : result string * t * Z :=
  withFallback (LlmProviders.generateText env prompt)
    (LlmProviders.generateText env prompt) env now s.

(** The five texts of [generateFeedback]. *)
Inductive Feedback : Type :=
| Excellent          (* speed and accuracy are both very good *)
| Accurate           (* the accuracy is high *)
| GoodTry            (* a fair attempt *)
| WatchKeys (keys : list string)  (* the keys to look at, three at most *)
| KeepPractising.

(** [generateFeedback(wpm, accuracy, mistakes)], as the case the text
    belongs to. *)
Definition feedbackCase (wpm accuracy : Q) (mistakes : list string) : Feedback :=
  if (accuracy >=? 95)%js && (wpm >=? 40)%js then Excellent
  else if (accuracy >=? 85)%js then Accurate
  else if (accuracy >=? 70)%js then GoodTry
  else if bool_decide (0 < length mistakes)%nat then WatchKeys (take 3 mistakes)
  else KeepPractising.

(** The text of a case. *)
Definition feedbackText (f : Feedback) : string :=
  match f with
  | Excellent => "太棒了！你的打字速度和准确率都非常出色，继续保持！"
  | Accurate => "做得很好！你的准确率很高，继续练习可以让速度更快。"
  | GoodTry => "不错的尝试！多练习可以让你打字更快更准确。"
  | WatchKeys keys =>
      "继续加油！注意这些键位：" +:+ join "、" keys +:+ "，多练习几次就会熟悉的。"
  | KeepPractising => "继续练习，你会越来越好的！"
  end.

Definition generateFeedback (wpm accuracy : Q) (mistakes : list string) : string :=
  feedbackText (feedbackCase wpm accuracy mistakes).

End Service.

(** ** The default instance *)

Module Default.

(** [defaultService]; [None] is [null]. *)
Definition t : Type := option Service.t.

(** The configuration of a service made without one. *)
Definition defaultConfig : LLMServiceConfig.t :=
  LLMServiceConfig.mk static None None None (Some true) None.

(** [getLLMService(config?)]: a service is made when there is none, and
    whenever a configuration is given. *)
Definition getLLMService (config : option LLMServiceConfig.t) (d : t) : Service.t * t :=
  match d, config with
  | Some s, None => (s, Some s)
  | _, _ =>
      let s := Service.new (default defaultConfig config) in (s, Some s)
  end.

(** [updateLLMServiceConfig(config)] *)
Definition updateLLMServiceConfig (u : PartialConfig.t) (d : t) : t :=
  let '(service, _) := getLLMService None d in
  Some (Service.updateConfig u service).

End Default.

(** * Theorems *)

Section service.
Implicit Types (s : Service.t) (env : Env.t) (p : Provider.t).

(** The longest a provider waits for one request. *)
Definition providerPatience p : Z :=
  match p with
  | Provider.Static _ => 0
  | Provider.OpenAI_ p => patience (OpenAI.base p)
  end.

Definition servicePatience s : Z := providerPatience (Service.provider s).

Lemma providerPatience_nonneg p : 0 <= providerPatience p.
Proof. destruct p; simpl; [lia|apply patience_nonneg]. Qed.

(** A primary method that settles within the patience of the provider. *)
Definition primary_ok {A} (primary : Z → Provider.t → result A * Provider.t * Z) : Prop :=
  ∀ t p, (primary t p).2 <= t + providerPatience p.

(** A fallback method that answers at once. *)
Definition fallback_ok {A} (fallback : Z → StaticData.t → result A * StaticData.t * Z)
    : Prop :=
  ∀ t f, ∃ a f', fallback t f = (Ok a, f', t).

Lemma provider_isAvailable env now p :
  ∃ a t, isAvailable env now p = (Ok a, p, t) ∧ t <= now + providerPatience p.
Proof.
  destruct p as [p|p]; simpl.
  - exists true, now. split; [done|lia].
  - destruct (isAvailable_settled env now p) as (a & t & Ha & Ht).
    exists a, t. by rewrite Ha.
Qed.

(** The shared shape: always an answer, within twice the patience. *)
Lemma withFallback_total {A} primary (fallback : Z → StaticData.t → result A * _ * Z)
    env now s :
  primary_ok primary → fallback_ok fallback →
  ∃ a s' t, Service.withFallback primary fallback env now s = (Ok a, s', t) ∧
    t <= now + 2 * servicePatience s.
Proof.
  intros Hp Hf. unfold Service.withFallback, servicePatience.
  destruct (provider_isAvailable env now (Service.provider s)) as (av & t1 & -> & Ht1).
  pose proof (providerPatience_nonneg (Service.provider s)).
  destruct av.
  - specialize (Hp t1 (Service.provider s)).
    destruct (primary t1 (Service.provider s)) as [[r p2] t2]. simpl in Hp.
    destruct r as [a|e].
    + eexists _, _, _. split; [done|lia].
    + destruct (Hf t2 (Service.fallbackProvider s)) as (a & f' & Hfa). simpl. rewrite Hfa.
      eexists _, _, _. split; [done|lia].
  - destruct (Hf t1 (Service.fallbackProvider s)) as (a & f' & Hfa). simpl. rewrite Hfa.
    eexists _, _, _. split; [done|lia].
Qed.



Lemma primary_generateSentence_ok env difficulty :
  primary_ok (generateSentence (P := Provider.t) env difficulty).
Proof.
  intros t [p|p]; simpl.
  - destruct (static_generateSentence_total env difficulty t p) as (ws & p' & ->).
    simpl. lia.
  - pose proof (generateSentence_settled env difficulty t p) as Hs.
    destruct (OpenAI.generateSentence _ _ _ _) as [[r p'] t']. by destruct Hs.
Qed.

Lemma primary_generateText_ok env prompt :
  primary_ok (generateText (P := Provider.t) env prompt).
Proof.
  intros t [p|p]; simpl; [lia|].
  pose proof (generateText_settled env prompt t p) as Hs.
  destruct (OpenAI.generateText _ _ _ _) as [[r p'] t']. by destruct Hs.
Qed.

Lemma createProvider_static c :
  LLMServiceConfig.provider c ≠ openai →
  Service.createProvider c = Provider.Static (StaticData.new c).
Proof. unfold Service.createProvider. by destruct (LLMServiceConfig.provider c). Qed.

End service.


(** [LLMService.generateSentence] and [generateText] always answer, in the
    same time. *)
Theorem service_text_always_answers (env : Env.t) (difficulty prompt : string) (now : Z)
    (s : Service.t) :
  (∃ a s' t, Service.generateSentence env difficulty now s = (Ok a, s', t) ∧
     t <= now + 2 * servicePatience s) ∧
  (∃ a s' t, Service.generateText env prompt now s = (Ok a, s', t) ∧
     t <= now + 2 * servicePatience s).
Proof.
  split; apply withFallback_total.
  - apply primary_generateSentence_ok.
  - intros t f. apply static_generateSentence_total.
  - apply primary_generateText_ok.
  - intros t f. by eexists _, _.
Qed.

(** An answer of the provider is final, also an empty one: a response that
    is JSON but no array gives no words, and the fallback is not asked. *)
Example empty_answer_is_final :
  let env := Env.mk (λ _, 0%Q)
               (λ _, Responds 10 (Response.mk true 200 (Choices (Some "{}"))))
               (λ _, ParsedOther) in
  let s := Service.new (LLMServiceConfig.mk openai (Some "sk-1") None None None None) in
  (Service.generateWords env ["a"; "s"] 5 "easy" 0 s).1.1 = Ok [] ∧
  (Service.generateWords env ["a"; "s"] 5 "easy" 0 s).2 = 20.
Proof. by vm_compute. Qed.

(** [LLMService]: of the four providers of the settings only "openai" gets
    a provider of its own; "claude" and "local" are served by the static
    tables, under the name of the static provider. *)
Theorem only_openai_has_a_provider (c : LLMServiceConfig.t) :
  Service.getProviderName (Service.new c) =
    if decide (LLMServiceConfig.provider c = openai) then "OpenAI" else "StaticData".
Proof. unfold Service.getProviderName, Service.new, Service.createProvider. by destruct c as [[] ? ? ? ? ?]. Qed.

(** [LLMService.updateConfig]: an update that names neither the provider
    nor the key changes the configuration of the service but not the
    provider, which goes on with the configuration it was made with: a new
    model, address, timeout or cache switch has no effect. *)
Theorem updateConfig_keeps_provider (u : PartialConfig.t) (s : Service.t) :
  PartialConfig.provider u = None → PartialConfig.apiKey u = None →
  Service.provider (Service.updateConfig u s) = Service.provider s ∧
  Service.fallbackProvider (Service.updateConfig u s) = Service.fallbackProvider s ∧
  Service.config (Service.updateConfig u s) = Service.merge u (Service.config s).
Proof.
  intros Hp Hk. unfold Service.updateConfig.
  rewrite bool_decide_eq_false_2 by (rewrite Hp, Hk; intros [?|?]; done). done.
Qed.

Lemma updateConfig_keeps_provider_witness :
  let s := Service.new (LLMServiceConfig.mk openai (Some "sk-1") None None None None) in
  let u := PartialConfig.mk None None None (Some "gpt-4") None (Some 5000) in
  Service.provider (Service.updateConfig u s) = Service.provider s ∧
  Service.fallbackProvider (Service.updateConfig u s) = Service.fallbackProvider s ∧
  Service.config (Service.updateConfig u s) = Service.merge u (Service.config s).
Proof.
  exact (updateConfig_keeps_provider
           (PartialConfig.mk None None None (Some "gpt-4") None (Some 5000))
           (Service.new (LLMServiceConfig.mk openai (Some "sk-1") None None None None))
           eq_refl eq_refl).
Defined.

(** The configuration of the service plays no part in a request: only the
    two providers do. *)
Lemma withFallback_config {A : Type}
    (primary : Z → Provider.t → result A * Provider.t * Z)
    (fallback : Z → StaticData.t → result A * StaticData.t * Z)
    (env : Env.t) (now : Z) (p : Provider.t) (f : StaticData.t)
    (c c' : LLMServiceConfig.t) :
  Service.withFallback primary fallback env now (Service.mk p f c') =
  let '(r, s', t) := Service.withFallback primary fallback env now (Service.mk p f c) in
  (r, Service.mk (Service.provider s') (Service.fallbackProvider s') c', t).
Proof.
  unfold Service.withFallback, Service.set_provider, Service.set_fallbackProvider.
  cbn [Service.provider Service.fallbackProvider Service.config].
  destruct (LlmProviders.isAvailable env now p) as [[[[|]|e] p1] t1].
  - destruct (primary t1 p1) as [[[a|e] p2] t2]; [done|].
    by destruct (fallback t2 f) as [[r f'] t'].
  - by destruct (fallback t1 f) as [[r f'] t'].
  - by destruct (fallback t1 f) as [[r f'] t'].
Qed.

Lemma withFallback_keeps_config {A : Type}
    (primary : Z → Provider.t → result A * Provider.t * Z)
    (fallback : Z → StaticData.t → result A * StaticData.t * Z)
    (env : Env.t) (now : Z) (s : Service.t) :
  Service.config (Service.withFallback primary fallback env now s).1.2 = Service.config s.
Proof.
  destruct s as [p f c]. rewrite (withFallback_config _ _ _ _ _ _ c c).
  by destruct (Service.withFallback _ _ _ _ _) as [[r s'] t].
Qed.

Lemma updateConfig_withFallback {A : Type}
    (primary : Z → Provider.t → result A * Provider.t * Z)
    (fallback : Z → StaticData.t → result A * StaticData.t * Z)
    (env : Env.t) (now : Z) (u : PartialConfig.t) (s : Service.t) :
  PartialConfig.provider u = None → PartialConfig.apiKey u = None →
  Service.withFallback primary fallback env now (Service.updateConfig u s) =
  let '(r, s', t) := Service.withFallback primary fallback env now s in
  (r, Service.updateConfig u s', t).
Proof.
  intros Hp Hk.
  pose proof (withFallback_keeps_config primary fallback env now s) as Hc.
  unfold Service.updateConfig in *.
  rewrite !bool_decide_eq_false_2 by (rewrite Hp, Hk; intros [?|?]; done).
  destruct s as [p f c]. simpl in *. rewrite (withFallback_config _ _ _ _ _ _ c).
  destruct (Service.withFallback _ _ _ _ _) as [[r s'] t]. simpl in *.
  by rewrite Hc.
Qed.

(** C34: [LLMService.updateConfig] without a provider and without a key cannot
    be observed in what the service generates: a request for words, a
    sentence or a text after the update has the result, and settles at the
    time, of the same request without the update, whatever model, address,
    timeout or cache switch the update names. *)
Theorem updateConfig_not_observed (u : PartialConfig.t) (s : Service.t) (env : Env.t)
    (keys : list string) (count : Z) (difficulty prompt : string) (now : Z) :
  PartialConfig.provider u = None → PartialConfig.apiKey u = None →
  Service.generateWords env keys count difficulty now (Service.updateConfig u s) =
    (let '(r, s', t) := Service.generateWords env keys count difficulty now s in
     (r, Service.updateConfig u s', t)) ∧
  Service.generateSentence env difficulty now (Service.updateConfig u s) =
    (let '(r, s', t) := Service.generateSentence env difficulty now s in
     (r, Service.updateConfig u s', t)) ∧
  Service.generateText env prompt now (Service.updateConfig u s) =
    (let '(r, s', t) := Service.generateText env prompt now s in
     (r, Service.updateConfig u s', t)).
Proof. intros Hp Hk. split_and!; by apply updateConfig_withFallback. Qed.

Lemma updateConfig_not_observed_witness :
  let s := Service.new (LLMServiceConfig.mk openai (Some "sk-1") None None None None) in
  let u := PartialConfig.mk None None None (Some "gpt-4") (Some false) (Some 5000) in
  Service.generateWords LlmSample.offline ["f"; "j"] 3 "easy" 0 (Service.updateConfig u s) =
    (let '(r, s', t) := Service.generateWords LlmSample.offline ["f"; "j"] 3 "easy" 0 s in
     (r, Service.updateConfig u s', t)).
Proof.
  exact (proj1 (updateConfig_not_observed
           (PartialConfig.mk None None None (Some "gpt-4") (Some false) (Some 5000))
           (Service.new (LLMServiceConfig.mk openai (Some "sk-1") None None None None))
           LlmSample.offline ["f"; "j"] 3 "easy" EmptyString 0 eq_refl eq_refl)).
Defined.

(** After such an update the requests still name the old model. *)
Example updateConfig_model_not_sent :
  let s := Service.new (LLMServiceConfig.mk openai (Some "sk-1") None None None None) in
  let u := PartialConfig.mk None None None (Some "gpt-4") None None in
  LLMServiceConfig.model (Service.config (Service.updateConfig u s)) = Some "gpt-4" ∧
  match Service.provider (Service.updateConfig u s) with
  | Provider.OpenAI_ p => Request.model (OpenAI.completionRequest "hi" p)
  | Provider.Static _ => None
  end = Some "gpt-3.5-turbo".
Proof. by vm_compute. Qed.

(** [LLMService.generateFeedback]: the case of the text follows the
    accuracy and the speed; the speed matters only for the best text, and
    the mistakes only below an accuracy of 70, where at most three are
    named. *)
Theorem feedback_cases (wpm accuracy : Q) (mistakes : list string) :
  match Service.feedbackCase wpm accuracy mistakes with
  | Service.Excellent => (95 <= accuracy ∧ 40 <= wpm)%Q
  | Service.Accurate => (85 <= accuracy ∧ (accuracy < 95 ∨ wpm < 40))%Q
  | Service.GoodTry => (70 <= accuracy < 85)%Q
  | Service.WatchKeys keys =>
      (accuracy < 70)%Q ∧ mistakes ≠ [] ∧ keys = take 3 mistakes ∧ (length keys ≤ 3)%nat
  | Service.KeepPractising => (accuracy < 70)%Q ∧ mistakes = []
  end.
Proof.
  unfold Service.feedbackCase.
  case_qle 95%Q accuracy; case_qle 40%Q wpm; case_qle 85%Q accuracy;
    case_qle 70%Q accuracy; simpl; try (split; lra); try lra;
    (case_bool_decide;
     [split_and!; [lra|destruct mistakes; [simpl in *; lia|done]|done|rewrite length_take; lia]
     |split; [lra|destruct mistakes; [done|simpl in *; lia]]]).
Qed.

(** [getLLMService]: without a configuration the one default service is
    handed out again and again; with a configuration a new service replaces
    it, and what the old one had cached is gone. *)
Theorem getLLMService_default (config : option LLMServiceConfig.t) (s : Service.t) :
  Default.getLLMService config (Some s) =
    match config with
    | None => (s, Some s)
    | Some c => (Service.new c, Some (Service.new c))
    end ∧
  Default.getLLMService None None =
    (Service.new Default.defaultConfig, Some (Service.new Default.defaultConfig)).
Proof. by destruct config. Qed.
