(* ===== verification/Persistence.v ===== *)
(** * Persistence: the storage service ([services/storage/StorageService.ts])

    [Module StorageService] is the class of that name over the key-value
    store of the browser (idb-keyval), which is a finite map from strings to
    values; a value that was never stored reads as [undefined].  Every
    operation of the store may fail; whether it does is an argument
    ([fails]) of the method, and the method turns the failure into its
    fallback result as the [catch] blocks do.  A method returns its result
    and the store afterwards.

    [Module StoreSpec] states what a client may assume, a finite map from
    its own keys to values, and the relation [refines] between the store
    and that map.

    The theorems: what is set is what is got; [clear] removes the keys of
    the prefix and no others; [getAllKeys] lists the keys of the prefix
    without it; [has] is false for a stored [null]; every sequence of calls
    of a service is a sequence of operations on its map, and leaves the maps
    of the services apart from it untouched. *)

From Stdlib Require Import ZArith Lia String Ascii.
From stdpp Require Import base tactics option list strings gmap.
From S2P Require Import Prelude.

#[local] Open Scope string_scope.

(** A value read from the store. *)
Inductive Stored (V : Type) : Type :=
| Undefined
| Null
| Value (v : V).
Arguments Undefined {V}.
Arguments Null {V}.
Arguments Value {V} v.

Module StorageService.

(** The store of the browser: the values under their full keys. *)
Abbreviation Db V := (gmap string (Stored V)).

Section service.
Context {V : Type}.

(** The service is its prefix. *)
Record t : Type := mk { prefix : string }.

(** The constructor, with its default prefix. *)
Definition new (prefix : option string) : t :=
  mk (default "typing-adventure-" prefix).

(** The default instance [storage]. *)
Definition storage : t := new None.

(** [getKey(key)] *)
Definition getKey (s : t) (key : string) : string := prefix s +:+ key.

(** [String(key).replace(this.prefix, '')] for a key that starts with the
    prefix: the first occurrence is the one at the start. *)
Fixpoint dropPrefix (key pre : string) : string :=
  match pre, key with
  | String _ pre', String _ key' => dropPrefix key' pre'
  | _, _ => key
  end.

(** [get(key)]: the value, [undefined] when there is none, [null] when the
    store fails. *)
Definition get (s : t) (key : string) (fails : bool) (db : Db V) : Stored V :=
  if fails then Null else default Undefined (db !! getKey s key).

(** [set(key, value)] *)
Definition set (s : t) (key : string) (value : Stored V) (fails : bool) (db : Db V)
    : bool * Db V :=
  if fails then (false, db) else (true, <[getKey s key := value]> db).

(** [delete(key)] *)
Definition delete (s : t) (key : string) (fails : bool) (db : Db V) : bool * Db V :=
  if fails then (false, db) else (true, base.delete (getKey s key) db).

(** The loop of [clear] over the keys [keys()] returned; [failAt] is the
    number of deletions that succeed before one fails, if one does. *)
Fixpoint clearLoop (s : t) (allKeys : list string) (failAt : option nat) (db : Db V)
    : bool * Db V :=
  match allKeys with
  | [] => (true, db)
  | key :: rest =>
      if startsWith key (prefix s) then
        match failAt with
        | Some O => (false, db)
        | Some (S n) => clearLoop s rest (Some n) (base.delete key db)
        | None => clearLoop s rest None (base.delete key db)
        end
      else clearLoop s rest failAt db
  end.

(** [clear()]; [keysFail] says that [keys()] itself fails. *)
Definition clear (s : t) (keysFail : bool) (failAt : option nat) (db : Db V) : bool * Db V :=
  if keysFail then (false, db)
  else clearLoop s (map_to_list db).*1 failAt db.

(** [getAllKeys()] *)
Definition getAllKeys (s : t) (fails : bool) (db : Db V) : list string :=
  if fails then []
  else (λ key, dropPrefix key (prefix s)) <$>
         List.filter (λ key, startsWith key (prefix s)) (map_to_list db).*1.

(** [has(key)] *)
Definition has (s : t) (key : string) (fails : bool) (db : Db V) : bool :=
  match get s key fails db with
  | Value _ => true
  | Null | Undefined => false
  end.

(** The exported shorthands of the default instance. *)
Definition storageGet := get storage.
Definition storageSet := set storage.
Definition storageDelete := delete storage.
Definition storageClear := clear storage.

End service.
End StorageService.

(** ** The service as a map *)

(** What a client of one service may assume: a finite map from its own
    keys to values, on a store that does not fail.  [exec] is the service,
    [spec] the map. *)
Module StoreSpec.
Import StorageService.
Section spec.
Context {V : Type}.

Inductive Op : Type :=
| Get (key : string)
| Set_ (key : string) (value : Stored V)
| Delete (key : string)
| Clear
| GetAllKeys
| Has (key : string).

Inductive Ret : Type :=
| RValue (v : Stored V)
| RBool (b : bool)
| RKeys (keys : list string).

Definition exec (s : StorageService.t) (op : Op) (db : Db V) : Ret * Db V :=
  match op with
  | Get key => (RValue (get s key false db), db)
  | Set_ key value => let '(ok, db') := set s key value false db in (RBool ok, db')
  | Delete key => let '(ok, db') := delete s key false db in (RBool ok, db')
  | Clear => let '(ok, db') := clear s false None db in (RBool ok, db')
  | GetAllKeys => (RKeys (getAllKeys s false db), db)
  | Has key => (RBool (has s key false db), db)
  end.

Definition spec (op : Op) (m : gmap string (Stored V)) : Ret * gmap string (Stored V) :=
  match op with
  | Get key => (RValue (default Undefined (m !! key)), m)
  | Set_ key value => (RBool true, <[key := value]> m)
  | Delete key => (RBool true, base.delete key m)
  | Clear => (RBool true, ∅)
  | GetAllKeys => (RKeys (map_to_list m).*1, m)
  | Has key => (RBool (match m !! key with Some (Value _) => true | _ => false end), m)
  end.

(** Results agree; a list of keys is compared up to its order. *)
Definition agree (r r' : Ret) : Prop :=
  match r, r' with
  | RValue v, RValue v' => v = v'
  | RBool b, RBool b' => b = b'
  | RKeys keys, RKeys keys' => keys ≡ₚ keys'
  | _, _ => False
  end.

(** The map a service sees in the store. *)
Definition refines (s : StorageService.t) (db : Db V) (m : gmap string (Stored V)) : Prop :=
  ∀ key, m !! key = db !! getKey s key.

(** Two services whose prefixes do not begin with one another. *)
Definition apart (s s' : StorageService.t) : Prop :=
  startsWith (prefix s) (prefix s') = false ∧ startsWith (prefix s') (prefix s) = false.

(** A sequence of calls, with the results in order. *)
Fixpoint execs (s : StorageService.t) (ops : list Op) (db : Db V) : list Ret * Db V :=
  match ops with
  | [] => ([], db)
  | op :: rest =>
      let '(r, db1) := exec s op db in
      let '(rs, db2) := execs s rest db1 in (r :: rs, db2)
  end.

Fixpoint specs (ops : list Op) (m : gmap string (Stored V))
    : list Ret * gmap string (Stored V) :=
  match ops with
  | [] => ([], m)
  | op :: rest =>
      let '(r, m1) := spec op m in
      let '(rs, m2) := specs rest m1 in (r :: rs, m2)
  end.

End spec.
Arguments Op : clear implicits.
Arguments Ret : clear implicits.
End StoreSpec.

(** * Theorems *)

Section storage.
Context {V : Type}.
Import StorageService.
Implicit Types (s : StorageService.t) (db : Db V) (key pre : string) (v : Stored V).

Lemma startsWith_getKey s key : startsWith (getKey s key) (prefix s) = true.
Proof. apply startsWith_spec. by exists key. Qed.

Lemma dropPrefix_app pre key : dropPrefix (pre +:+ key) pre = key.
Proof. induction pre as [|a pre IH]; simpl; [by destruct key|done]. Qed.

Lemma append_inj pre key key' : pre +:+ key = pre +:+ key' → key = key'.
Proof. induction pre as [|a pre IH]; simpl; [done|]. intros [= ?]. by apply IH. Qed.

Lemma getKey_inj s : Inj (=) (=) (getKey s).
Proof. intros key key'. apply append_inj. Qed.

Lemma clearLoop_lookup s allKeys db k :
  (clearLoop s allKeys None db).1 = true ∧
  (clearLoop s allKeys None db).2 !! k =
    if bool_decide (k ∈ allKeys) && startsWith k (prefix s) then None else db !! k.
Proof.
  revert db. induction allKeys as [|key rest IH]; intros db; simpl; [done|].
  destruct (startsWith key (prefix s)) eqn:Hk.
  - destruct (IH (base.delete key db)) as [-> ->]. split; [done|].
    destruct (decide (k = key)) as [->|Hne].
    + rewrite Hk, (bool_decide_eq_true_2 (key ∈ key :: rest)) by by left.
      rewrite lookup_delete_eq. by destruct (bool_decide (key ∈ rest)).
    + rewrite lookup_delete_ne by done.
      assert (bool_decide (k ∈ key :: rest) = bool_decide (k ∈ rest)) as ->; [|done].
      apply bool_decide_ext. rewrite elem_of_cons. by split; [intros [?|?]|right].
  - destruct (IH db) as [-> ->]. split; [done|].
    destruct (decide (k = key)) as [->|Hne].
    + rewrite Hk, !andb_false_r. done.
    + assert (bool_decide (k ∈ key :: rest) = bool_decide (k ∈ rest)) as ->; [|done].
      apply bool_decide_ext. rewrite elem_of_cons. by split; [intros [?|?]|right].
Qed.

(** Deletions only: whatever fails, [clear] adds and changes nothing. *)
Lemma clearLoop_subseteq s allKeys failAt db : (clearLoop s allKeys failAt db).2 ⊆ db.
Proof.
  revert failAt db. induction allKeys as [|key rest IH]; intros failAt db; simpl; [done|].
  destruct (startsWith key (prefix s)); [|apply IH].
  destruct failAt as [[|n]|]; [done| |]; (etrans; [apply IH|apply delete_subseteq]).
Qed.

Lemma keys_elem db k : k ∈ (map_to_list db).*1 ↔ is_Some (db !! k).
Proof.
  rewrite list_elem_of_fmap. split.
  - intros ([k' v] & -> & Hin%elem_of_map_to_list). by eexists.
  - intros [v Hv]. exists (k, v). split; [done|]. by apply elem_of_map_to_list.
Qed.

Lemma clear_lookup s db k :
  (clear s false None db).1 = true ∧
  (clear s false None db).2 !! k = if startsWith k (prefix s) then None else db !! k.
Proof.
  unfold clear. destruct (clearLoop_lookup s (map_to_list db).*1 db k) as [-> ->].
  split; [done|]. destruct (startsWith k (prefix s)); [|by rewrite andb_false_r].
  rewrite andb_true_r. case_bool_decide as Hin; [done|].
  rewrite keys_elem in Hin. by destruct (db !! k) as [v|]; [destruct Hin|].
Qed.

Lemma getAllKeys_elem s db k :
  k ∈ getAllKeys s false db ↔ is_Some (db !! getKey s k).
Proof.
  unfold getAllKeys. rewrite list_elem_of_fmap. split.
  - intros (key & -> & Hin). apply list_elem_of_In, List.filter_In in Hin as [Hin Hs].
    apply startsWith_spec in Hs as [r ->]. rewrite dropPrefix_app.
    by apply keys_elem, list_elem_of_In.
  - intros Hk. exists (getKey s k). split; [unfold getKey; by rewrite dropPrefix_app|].
    apply list_elem_of_In, List.filter_In. split; [|apply startsWith_getKey].
    by apply list_elem_of_In, keys_elem.
Qed.

End storage.

(** [StorageService]: a value that was set is the value that is got, and
    setting one key does not change what another key of the service holds. *)
Theorem storage_get_set {V : Type} (s : StorageService.t) (key key' : string)
    (v : Stored V) (db : StorageService.Db V) :
  let '(ok, db') := StorageService.set s key v false db in
  ok = true ∧ StorageService.get s key false db' = v ∧
  (key' ≠ key → StorageService.get s key' false db' = StorageService.get s key' false db).
Proof.
  simpl. unfold StorageService.get. rewrite lookup_insert_eq. split_and!; [done..|].
  intros Hne. rewrite lookup_insert_ne; [done|]. by intros ?%getKey_inj.
Qed.

(** [StorageService.clear], when the store does not fail: afterwards no key
    of the service holds a value, and every key of the store that does not
    start with the prefix holds what it held. *)
Theorem storage_clear_spec {V : Type} (s : StorageService.t) (db : StorageService.Db V) :
  let '(ok, db') := StorageService.clear s false None db in
  ok = true ∧
  (∀ key, StorageService.get s key false db' = Undefined) ∧
  (∀ full, startsWith full (StorageService.prefix s) = false →
           db' !! full = db !! full) ∧
  StorageService.getAllKeys s false db' = [].
Proof.
  pose proof (clear_lookup s db) as Hl.
  destruct (StorageService.clear s false None db) as [ok db'] eqn:E. simpl in Hl.
  assert (∀ k, db' !! k = if startsWith k (StorageService.prefix s)
                          then None else db !! k) as Hk by (intros k; apply Hl).
  split_and!.
  - by destruct (Hl EmptyString).
  - intros key. unfold StorageService.get. by rewrite Hk, startsWith_getKey.
  - intros full Hf. by rewrite Hk, Hf.
  - apply elem_of_nil_inv. intros k Hin%getAllKeys_elem.
    rewrite Hk, startsWith_getKey in Hin. by destruct Hin.
Qed.

Lemma storage_get_set_witness :
  let s := StorageService.storage in
  let '(ok, db') := StorageService.set s "name" (Value 7) false (∅ : StorageService.Db nat) in
  ok = true ∧ StorageService.get s "name" false db' = Value 7 ∧
  ("level" ≠ "name" →
   StorageService.get s "level" false db' = StorageService.get s "level" false ∅).
Proof.
  exact (storage_get_set StorageService.storage "name" "level" (Value 7)
           (∅ : StorageService.Db nat)).
Defined.

(** [StorageService.getAllKeys] lists exactly the keys the service holds,
    without the prefix. *)
Theorem storage_getAllKeys_spec {V : Type} (s : StorageService.t) (key : string)
    (db : StorageService.Db V) :
  key ∈ StorageService.getAllKeys s false db ↔
  is_Some (db !! StorageService.getKey s key).
Proof. apply getAllKeys_elem. Qed.

(** [StorageService.clear] reaches beyond the service when the prefix of
    another service begins with its own: the keys of the other service are
    removed as well. *)
Theorem storage_clear_overlap {V : Type} (s s' : StorageService.t) (key : string)
    (db : StorageService.Db V) :
  startsWith (StorageService.prefix s') (StorageService.prefix s) = true →
  StorageService.get s' key false (StorageService.clear s false None db).2 = Undefined.
Proof.
  intros [r Hr]%startsWith_spec. unfold StorageService.get.
  destruct (clear_lookup s db (StorageService.getKey s' key)) as [_ ->].
  assert (startsWith (StorageService.getKey s' key)
            (StorageService.prefix s) = true) as ->; [|done].
  apply startsWith_spec. exists (r +:+ key). unfold StorageService.getKey.
  by rewrite Hr, app_assoc_str.
Qed.

Lemma storage_clear_overlap_witness :
  let s := StorageService.new (Some "app-") in
  let s' := StorageService.new (Some "app-cache-") in
  StorageService.get s' "k" false
    (StorageService.clear s false None
       (StorageService.set s' "k" (Value 1) false (∅ : StorageService.Db nat)).2).2
  = Undefined.
Proof.
  exact (storage_clear_overlap (StorageService.new (Some "app-"))
           (StorageService.new (Some "app-cache-")) "k"
           (StorageService.set (StorageService.new (Some "app-cache-")) "k" (Value 1) false
              (∅ : StorageService.Db nat)).2 eq_refl).
Defined.

(** [StorageService]: a failure of the store and a stored [null] read the
    same, and [has] is false for both, as it is for a key that was never
    set; when the store fails, nothing is changed. *)
Theorem storage_failures {V : Type} (s : StorageService.t) (key : string)
    (v : Stored V) (n : option nat) (db : StorageService.Db V) :
  StorageService.get s key true db = Null ∧
  StorageService.has s key true db = false ∧
  StorageService.has s key false (StorageService.set s key Null false db).2 = false ∧
  StorageService.set s key v true db = (false, db) ∧
  StorageService.delete s key true db = (false, db) ∧
  StorageService.clear s true n db = (false, db) ∧
  StorageService.getAllKeys s true db = [] ∧
  (StorageService.clear s false n db).2 ⊆ db.
Proof.
  split_and!; try done.
  - unfold StorageService.has, StorageService.get. simpl. by rewrite lookup_insert_eq.
  - apply clearLoop_subseteq.
Qed.

(** ** The service implements a map *)

Section refinement.
Context {V : Type}.
Import StorageService StoreSpec.
Implicit Types (s : StorageService.t) (db : Db V) (m : gmap string (Stored V))
  (op : Op V) (key pre : string).

Lemma NoDup_List_filter {A : Type} (f : A → bool) (l : list A) :
  NoDup l → NoDup (List.filter f l).
Proof.
  induction 1 as [|x l Hx _ IH]; simpl; [constructor|]. destruct (f x); [|done].
  constructor; [|done]. by intros [Hin%list_elem_of_In _]%list_elem_of_In%List.filter_In.
Qed.

Lemma getAllKeys_NoDup s db : NoDup (getAllKeys s false db).
Proof.
  unfold getAllKeys. apply NoDup_fmap_2_strong.
  - intros x y [_ [r ->]%startsWith_spec]%list_elem_of_In%List.filter_In
      [_ [r' ->]%startsWith_spec]%list_elem_of_In%List.filter_In.
    rewrite !dropPrefix_app. by intros ->.
  - apply NoDup_List_filter, NoDup_fst_map_to_list.
Qed.

Lemma getAllKeys_refines s db m :
  refines s db m → getAllKeys s false db ≡ₚ (map_to_list m).*1.
Proof.
  intros Hr. apply NoDup_Permutation;
    [apply getAllKeys_NoDup|apply NoDup_fst_map_to_list|].
  intros k. by rewrite getAllKeys_elem, keys_elem, Hr.
Qed.

(** Keys under prefixes that do not begin with one another differ. *)
Lemma append_comparable pre pre' r r' :
  pre +:+ r = pre' +:+ r' → startsWith pre pre' = true ∨ startsWith pre' pre = true.
Proof.
  revert pre'. induction pre as [|a pre IH]; intros [|b pre']; simpl; auto.
  intros [= -> Heq]. rewrite bool_decide_eq_true_2 by done. simpl. by apply IH.
Qed.

Lemma apart_startsWith s s' key :
  apart s s' → startsWith (getKey s' key) (prefix s) = false.
Proof.
  intros [H1 H2]. apply not_true_is_false. intros [r Hr]%startsWith_spec.
  destruct (append_comparable _ _ _ _ Hr) as [H|H]; congruence.
Qed.

Lemma apart_getKey s s' key key' : apart s s' → getKey s key ≠ getKey s' key'.
Proof.
  intros Ha Heq. pose proof (apart_startsWith s s' key' Ha) as Hn.
  by rewrite <- Heq, startsWith_getKey in Hn.
Qed.

(** One call: the results agree and the store still holds the map. *)
Lemma exec_refines s op db m :
  refines s db m →
  agree (exec s op db).1 (spec op m).1 ∧ refines s (exec s op db).2 (spec op m).2.
Proof.
  intros Hr. destruct op as [key|key value|key| | |key]; cbn [exec spec];
    [simpl..| |simpl|simpl].
  - split; [|done]. unfold get. by rewrite Hr.
  - split; [done|]. intros k. destruct (decide (k = key)) as [->|Hne].
    + by rewrite !lookup_insert_eq.
    + rewrite !lookup_insert_ne; [apply Hr|by intros ?%getKey_inj|done].
  - split; [done|]. intros k. destruct (decide (k = key)) as [->|Hne].
    + by rewrite !lookup_delete_eq.
    + rewrite !lookup_delete_ne; [apply Hr|by intros ?%getKey_inj|done].
  - destruct (clear s false None db) as [ok db'] eqn:E.
    pose proof (clear_lookup s db) as Hl. rewrite E in Hl. simpl in *.
    split; [apply (Hl EmptyString)|]. intros k.
    rewrite lookup_empty. destruct (Hl (getKey s k)) as [_ ->].
    by rewrite startsWith_getKey.
  - split; [by apply getAllKeys_refines|done].
  - split; [|done]. unfold has, get. rewrite Hr. by destruct (db !! _) as [[| |v]|].
Qed.

(** One call of a service leaves the map of a service apart from it as it
    was. *)
Lemma exec_frame s s' op db m' :
  apart s s' → refines s' db m' → refines s' (exec s op db).2 m'.
Proof.
  intros Ha Hr. destruct op as [key|key value|key| | |key]; cbn [exec];
    [simpl..| |simpl|simpl]; try done.
  - intros k. rewrite lookup_insert_ne; [apply Hr|by apply apart_getKey].
  - intros k. rewrite lookup_delete_ne; [apply Hr|by apply apart_getKey].
  - destruct (clear s false None db) as [ok db'] eqn:E.
    pose proof (clear_lookup s db) as Hl. rewrite E in Hl. simpl in *.
    intros k. destruct (Hl (getKey s' k)) as [_ ->].
    rewrite apart_startsWith by done. apply Hr.
Qed.

End refinement.

(** C25: [StorageService] implements a finite map: on a store that does not
    fail, every sequence of calls of a service returns what the same calls
    return on a map from its keys to values ([getAllKeys] up to the order
    of the keys), and leaves untouched what any service sees whose prefix
    and its own do not begin with one another. *)
Theorem storage_refines_map {V : Type} (s s' : StorageService.t)
    (ops : list (StoreSpec.Op V)) (db : StorageService.Db V)
    (m m' : gmap string (Stored V)) :
  StoreSpec.refines s db m → StoreSpec.apart s s' → StoreSpec.refines s' db m' →
  Forall2 StoreSpec.agree (StoreSpec.execs s ops db).1 (StoreSpec.specs ops m).1 ∧
  StoreSpec.refines s (StoreSpec.execs s ops db).2 (StoreSpec.specs ops m).2 ∧
  StoreSpec.refines s' (StoreSpec.execs s ops db).2 m'.
Proof.
  intros Hr Ha Hr'. revert db m Hr Hr'.
  induction ops as [|op ops IH]; intros db m Hr Hr'; simpl; [by split_and!|].
  destruct (exec_refines s op db m Hr) as [Hag Hr1].
  pose proof (exec_frame s s' op db m' Ha Hr') as Hr1'.
  destruct (StoreSpec.exec s op db) as [r db1], (StoreSpec.spec op m) as [r' m1].
  destruct (IH db1 m1 Hr1 Hr1') as (Hags & Hr2 & Hr2').
  destruct (StoreSpec.execs s ops db1) as [rs db2], (StoreSpec.specs ops m1) as [rs' m2].
  split_and!; [by constructor|done..].
Qed.

Lemma storage_refines_map_witness :
  let s := StorageService.storage in
  let s' := StorageService.new (Some "other-") in
  let ops := [StoreSpec.Set_ "name" (Value 7); StoreSpec.GetAllKeys; StoreSpec.Clear;
              StoreSpec.Has "name"] in
  Forall2 StoreSpec.agree
    (StoreSpec.execs s ops (∅ : StorageService.Db nat)).1 (StoreSpec.specs ops ∅).1 ∧
  StoreSpec.refines s (StoreSpec.execs s ops ∅).2 (StoreSpec.specs ops ∅).2 ∧
  StoreSpec.refines s' (StoreSpec.execs s ops ∅).2 ∅.
Proof.
  refine (storage_refines_map StorageService.storage (StorageService.new (Some "other-"))
            _ (∅ : StorageService.Db nat) ∅ ∅ _ _ _).
  - intros key. by rewrite !lookup_empty.
  - split; reflexivity.
  - intros key. by rewrite !lookup_empty.
Defined.
