(* ===== verification/Sound.v ===== *)
(** * Sound: the audio service ([services/audio/AudioService.ts])

    [Module AudioService] is the class of that name.  The library it drives
    is modelled by its state: a [Howl.t] per sound (its volume, whether it
    is playing, how often it was started) and the global
    [Howler.t] (the global volume and the global mute switch), which lives
    outside the service and is passed along with it.  What is heard of a
    sound is [loudness]: nothing while the global switch is on, otherwise
    the product of the global volume and the volume of the sound.
    [Module AudioDefault] is the default instance behind [getAudioService].

    The theorems: nothing is started while one of the two mute flags is
    set; the volumes stay between 0 and 1; the first update of the settings
    replaces the volumes the sounds were created with by others; the master
    volume enters the loudness twice; and there are sequences of calls after
    which both mute flags are clear and every sound is inaudible. *)

From Stdlib Require Import ZArith QArith Lqa Lia String.
From stdpp Require Import base tactics option list.
From S2P Require Import Prelude Types SettingsSlice.

#[local] Open Scope Q_scope.

(** ** The state of the library *)

Module SoundType.
Inductive t : Type :=
| keypress | correct | wrong | combo | comboBreak
| levelComplete | gameOver | victory | buttonClick | notification.

#[global] Instance eq_dec : EqDecision t.
Proof. solve_decision. Defined.

Definition all : list t :=
  [keypress; correct; wrong; combo; comboBreak;
   levelComplete; gameOver; victory; buttonClick; notification].
End SoundType.

Module Howl.
Record t : Type := mk {
  volume : Q;
  playing : bool;
  plays : nat;
}.
Definition set_volume (v : Q) (h : t) : t := mk v (playing h) (plays h).
Definition play (h : t) : t := mk (volume h) true (S (plays h)).
Definition stop (h : t) : t := mk (volume h) false (plays h).
End Howl.

Module Howler.
Record t : Type := mk {
  volume : Q;
  muted : bool;
}.
(** The state of the library when the page is loaded. *)
Definition init : t := mk 1 false.
End Howler.

(** What is heard of a sound. *)
Definition loudness (g : Howler.t) (h : Howl.t) : Q :=
  if Howler.muted g then 0 else Howler.volume g * Howl.volume h.

(** ** [AudioService] *)

Module AudioService.
Import AudioSettings.

Record t : Type := mk {
  sounds : SoundType.t → option Howl.t;
  settings : AudioSettings.t;
  muted : bool;
}.

(** The volumes of [soundConfigs]; two sounds have no entry. *)
Definition soundConfigs (type : SoundType.t) : option Q :=
  match type with
  | SoundType.keypress => Some (1 # 10)
  | SoundType.correct => Some (3 # 10)
  | SoundType.wrong => Some (3 # 10)
  | SoundType.combo => Some (5 # 10)
  | SoundType.levelComplete => Some (6 # 10)
  | SoundType.victory => Some (7 # 10)
  | SoundType.gameOver => Some (5 # 10)
  | SoundType.buttonClick => Some (2 # 10)
  | SoundType.comboBreak | SoundType.notification => None
  end.

(** [initSounds()] *)
Definition initSounds (settings : AudioSettings.t) : SoundType.t → option Howl.t :=
  λ type,
    (λ volume, Howl.mk (volume * sfxVolume settings * masterVolume settings) false 0)
      <$> soundConfigs type.

(** The constructor. *)
Definition new (settings : AudioSettings.t) : t :=
  mk (initSounds settings) settings false.

(** [baseVolume] of [applyVolume]. *)
Definition baseVolume (type : SoundType.t) : Q :=
  match type with
  | SoundType.keypress => 1 # 10
  | SoundType.buttonClick => 2 # 10
  | _ => 5 # 10
  end.

(** [applyVolume()] *)
Definition applyVolume (w : Howler.t * t) : Howler.t * t :=
  let '(g, a) := w in
  let g' :=
    Howler.mk (if AudioSettings.muted (settings a) || muted a then 0
               else masterVolume (settings a))
      (Howler.muted g) in
  let sounds' type :=
    Howl.set_volume
      (baseVolume type * sfxVolume (settings a) * masterVolume (settings a))
      <$> sounds a type in
  (g', mk sounds' (settings a) (muted a)).

(** [updateSettings(settings)] *)
Definition updateSettings (u : PartialAudio.t) (w : Howler.t * t) : Howler.t * t :=
  let '(g, a) := w in
  applyVolume (g, mk (sounds a) (Settings.assignAudio u (settings a)) (muted a)).

(** [mute()] *)
Definition mute (w : Howler.t * t) : Howler.t * t :=
  let '(g, a) := w in
  (Howler.mk (Howler.volume g) true, mk (sounds a) (settings a) true).

(** [unmute()] *)
Definition unmute (w : Howler.t * t) : Howler.t * t :=
  let '(g, a) := w in
  let a' := mk (sounds a) (settings a) false in
  if negb (AudioSettings.muted (settings a'))
  then (Howler.mk (Howler.volume g) false, a')
  else (g, a').

(** [toggleMute()], with the flag it returns. *)
Definition toggleMute (w : Howler.t * t) : bool * (Howler.t * t) :=
  let w' := if muted w.2 then unmute w else mute w in
  (muted w'.2, w').

(** [play(type)] *)
Definition play (type : SoundType.t) (w : Howler.t * t) : Howler.t * t :=
  let '(g, a) := w in
  if AudioSettings.muted (settings a) || muted a then w
  else
    match sounds a type with
    | Some sound =>
        (g, mk (λ t, if decide (t = type) then Some (Howl.play sound) else sounds a t)
               (settings a) (muted a))
    | None => w
    end.

(** [stop(type)] *)
Definition stop (type : SoundType.t) (w : Howler.t * t) : Howler.t * t :=
  let '(g, a) := w in
  match sounds a type with
  | Some sound =>
      (g, mk (λ t, if decide (t = type) then Some (Howl.stop sound) else sounds a t)
             (settings a) (muted a))
  | None => w
  end.

(** [stopAll()] *)
Definition stopAll (w : Howler.t * t) : Howler.t * t :=
  let '(g, a) := w in
  (g, mk (λ t, Howl.stop <$> sounds a t) (settings a) (muted a)).

Definition playKeypress := play SoundType.keypress.
Definition playCorrect := play SoundType.correct.
Definition playWrong := play SoundType.wrong.
Definition playCombo := play SoundType.combo.
Definition playLevelComplete := play SoundType.levelComplete.
Definition playVictory := play SoundType.victory.
Definition playGameOver := play SoundType.gameOver.

(** [destroy()] *)
Definition destroy (w : Howler.t * t) : Howler.t * t :=
  let '(g, a) := w in (g, mk (λ _, None) (settings a) (muted a)).

(** The calls of a client. *)
Inductive Call : Type :=
| UpdateSettings (u : PartialAudio.t)
| Mute
| Unmute
| ToggleMute
| Play (type : SoundType.t)
| Stop (type : SoundType.t)
| StopAll.

Definition call (w : Howler.t * t) (c : Call) : Howler.t * t :=
  match c with
  | UpdateSettings u => updateSettings u w
  | Mute => mute w
  | Unmute => unmute w
  | ToggleMute => (toggleMute w).2
  | Play type => play type w
  | Stop type => stop type w
  | StopAll => stopAll w
  end.

Definition run (cs : list Call) (w : Howler.t * t) : Howler.t * t := foldl call w cs.

End AudioService.

(** ** The default instance *)

Module AudioDefault.

(** The settings of a service made without any. *)
Definition defaultSettings : AudioSettings.t :=
  AudioSettings.mk (8 # 10) (5 # 10) (7 # 10) false.

(** All the fields of given settings, as an update. *)
Definition asUpdate (s : AudioSettings.t) : PartialAudio.t :=
  PartialAudio.mk (Some (AudioSettings.masterVolume s)) (Some (AudioSettings.musicVolume s))
    (Some (AudioSettings.sfxVolume s)) (Some (AudioSettings.muted s)).

(** [getAudioService(settings?)] on the library [g] and [defaultService]. *)
Definition getAudioService (settings : option AudioSettings.t)
    (w : Howler.t * option AudioService.t) : Howler.t * AudioService.t :=
  let '(g, d) := w in
  match d with
  | None => (g, AudioService.new (default defaultSettings settings))
  | Some a =>
      match settings with
      | Some s => AudioService.updateSettings (asUpdate s) (g, a)
      | None => (g, a)
      end
  end.

(** [destroyAudioService()] *)
Definition destroyAudioService (w : Howler.t * option AudioService.t)
    : Howler.t * option AudioService.t :=
  let '(g, d) := w in
  match d with
  | Some a => ((AudioService.destroy (g, a)).1, None)
  | None => w
  end.

End AudioDefault.

(** * Theorems *)

Section audio.
Import AudioService.
Implicit Types (w : Howler.t * AudioService.t) (a : AudioService.t) (g : Howler.t)
  (type : SoundType.t) (c : Call).

(** Both flags are clear. *)
Definition unmuted a : Prop :=
  AudioSettings.muted (settings a) = false ∧ muted a = false.

#[export] Instance unmuted_dec a : Decision (unmuted a).
Proof. unfold unmuted. apply _. Defined.

Lemma play_muted type w : ¬ unmuted w.2 → play type w = w.
Proof.
  destruct w as [g a]. unfold unmuted, play. simpl.
  destruct (AudioSettings.muted (settings a)), (muted a); try done.
  intros Hn. by destruct Hn.
Qed.

Lemma play_unmuted type w sound :
  unmuted w.2 → sounds w.2 type = Some sound →
  sounds (play type w).2 type = Some (Howl.play sound) ∧ (play type w).1 = w.1 ∧
  ∀ t, t ≠ type → sounds (play type w).2 t = sounds w.2 t.
Proof.
  destruct w as [g a]. intros [Hs Hm] Ht. unfold play. simpl in *. rewrite Hs, Hm, Ht.
  simpl. split_and!; [by rewrite decide_True|done|]. intros t Hne. by rewrite decide_False.
Qed.

(** The number of times any sound was started. *)
Definition starts a : nat :=
  sum_list ((λ type, from_option Howl.plays 0%nat (sounds a type)) <$> SoundType.all).

(** The volume of every sound and of the library is between 0 and 1. *)
Record volumes_ok w : Prop := {
  vok_settings : audio_ok (settings w.2);
  vok_global : 0 <= Howler.volume w.1 <= 1;
  vok_sounds : ∀ type h, sounds w.2 type = Some h → 0 <= Howl.volume h <= 1;
}.

Lemma product_unit (b x y : Q) :
  0 <= b <= 1 → 0 <= x <= 1 → 0 <= y <= 1 → 0 <= b * x * y <= 1.
Proof.
  intros [Hb0 Hb1] [Hx0 Hx1] [Hy0 Hy1].
  assert (0 <= b * x <= 1) as [? ?] by nra. nra.
Qed.

Lemma baseVolume_unit type : 0 <= baseVolume type <= 1.
Proof. destruct type; simpl; lra. Qed.

Lemma soundConfigs_unit type v : soundConfigs type = Some v → 0 <= v <= 1.
Proof. destruct type; simpl; intros [= <-]; lra. Qed.

Lemma volumes_ok_new s : audio_ok s → volumes_ok (Howler.init, new s).
Proof.
  intros Hs. split; simpl; [done|lra|]. intros type h. unfold initSounds.
  destruct (soundConfigs type) as [v|] eqn:Hv; simpl; [|done]. intros [= <-]. simpl.
  destruct Hs. apply product_unit; [by eapply soundConfigs_unit|done..].
Qed.

Lemma volumes_ok_applyVolume w :
  audio_ok (settings w.2) → 0 <= Howler.volume w.1 <= 1 → volumes_ok (applyVolume w).
Proof.
  destruct w as [g a]. intros Hs Hg. split; simpl in *; [done| |].
  - destruct Hs. destruct (_ || _); [lra|done].
  - intros type h. destruct (sounds a type) as [h0|]; simpl; [|done]. intros [= <-].
    simpl. destruct Hs. apply product_unit; [apply baseVolume_unit|done..].
Qed.

Lemma volumes_ok_call w c :
  (∀ u, c = UpdateSettings u → partial_ok u) → volumes_ok w → volumes_ok (call w c).
Proof.
  destruct w as [g a]. intros Hu [Hs Hg Hh]. simpl in *.
  destruct c as [u| | | |type|type|]; cbn [call].
  - unfold updateSettings. apply volumes_ok_applyVolume; simpl; [|done].
    apply audio_ok_assign; eauto.
  - by split.
  - unfold unmute. simpl. by destruct (negb _); split.
  - unfold toggleMute, unmute, mute. simpl. destruct (muted a); simpl;
      [destruct (negb _)|]; by split.
  - unfold play. simpl. destruct (_ || _); [by split|].
    destruct (sounds a type) as [h|] eqn:Ht; [|by split]. split; simpl; [done..|].
    intros t h'. case_decide as Heq; [intros [= <-]; subst; simpl; by eapply Hh|apply Hh].
  - unfold stop. simpl. destruct (sounds a type) as [h|] eqn:Ht; [|by split].
    split; simpl; [done..|].
    intros t h'. case_decide as Heq; [intros [= <-]; subst; simpl; by eapply Hh|apply Hh].
  - split; simpl; [done..|]. intros t h'. destruct (sounds a t) as [h|] eqn:Ht; [|done].
    intros [= <-]. simpl. by eapply Hh.
Qed.

End audio.

(** ** Sample values *)

Module SoundSample.
Import AudioService.

Definition w0 : Howler.t * AudioService.t :=
  (Howler.init, AudioService.new AudioDefault.defaultSettings).

Definition setMuted (b : bool) : Call :=
  UpdateSettings (PartialAudio.mk None None None (Some b)).

End SoundSample.

(** [AudioService.play]: while the service or the settings are muted a
    call starts nothing and changes nothing; otherwise it starts the sound
    asked for, if the service has it, and touches no other. *)
Theorem play_respects_mute (type : SoundType.t) (w : Howler.t * AudioService.t) :
  (¬ unmuted w.2 → AudioService.play type w = w) ∧
  (unmuted w.2 →
   (AudioService.play type w).1 = w.1 ∧
   AudioService.sounds (AudioService.play type w).2 type =
     Howl.play <$> AudioService.sounds w.2 type ∧
   ∀ t, t ≠ type →
     AudioService.sounds (AudioService.play type w).2 t = AudioService.sounds w.2 t).
Proof.
  split; [apply play_muted|]. intros Hu.
  destruct (AudioService.sounds w.2 type) as [sound|] eqn:Hs.
  - by destruct (play_unmuted type w sound Hu Hs) as (-> & -> & ?).
  - destruct w as [g a], Hu as [H1 H2]. unfold AudioService.play. simpl in *.
    by rewrite H1, H2, Hs.
Qed.

(** C31: [AudioService]: with volumes between 0 and 1 in the settings it is
    created with and in every update, the volume of the library and of every
    sound stays between 0 and 1, whatever is called. *)
Theorem volumes_stay_in_range (s : AudioSettings.t) (cs : list AudioService.Call) :
  audio_ok s →
  Forall (λ c, ∀ u, c = AudioService.UpdateSettings u → partial_ok u) cs →
  volumes_ok (AudioService.run cs (Howler.init, AudioService.new s)).
Proof.
  intros Hs Hcs. unfold AudioService.run.
  generalize (volumes_ok_new s Hs). generalize (Howler.init, AudioService.new s).
  induction Hcs as [|c cs Hc _ IH]; intros w Hw; [done|].
  simpl. by apply IH, volumes_ok_call.
Qed.

Lemma volumes_stay_in_range_witness :
  volumes_ok (AudioService.run [AudioService.Mute; SoundSample.setMuted true;
                                AudioService.Play SoundType.correct]
                (Howler.init, AudioService.new AudioDefault.defaultSettings)).
Proof.
  refine (volumes_stay_in_range AudioDefault.defaultSettings _ _ _).
  - split; simpl; lra.
  - repeat (apply Forall_cons_2; [intros u [= <-] || intros u [=]|]);
      [|apply Forall_nil_2].
    split_and!; by intros v [=].
Defined.

(** [AudioService.updateSettings] does not keep the volumes the sounds
    were created with: after any update, also one that changes nothing,
    every sound but the key press and the button click has the base volume
    0.5, where the table of the constructor has 0.3, 0.6 and 0.7. *)
Theorem update_replaces_base_volumes (u : PartialAudio.t) (w : Howler.t * AudioService.t)
    (type : SoundType.t) (h : Howl.t) :
  AudioService.sounds (AudioService.updateSettings u w).2 type = Some h →
  let s := AudioService.settings (AudioService.updateSettings u w).2 in
  Howl.volume h =
    AudioService.baseVolume type * AudioSettings.sfxVolume s * AudioSettings.masterVolume s.
Proof.
  destruct w as [g a]. simpl. destruct (AudioService.sounds a type); simpl; [|done].
  by intros [= <-].
Qed.

Lemma update_replaces_base_volumes_witness :
  let w := AudioService.updateSettings PartialAudio.empty SoundSample.w0 in
  Howl.volume (Howl.mk ((5 # 10) * (7 # 10) * (8 # 10)) false 0) =
    AudioService.baseVolume SoundType.victory *
    AudioSettings.sfxVolume (AudioService.settings w.2) *
    AudioSettings.masterVolume (AudioService.settings w.2).
Proof.
  exact (update_replaces_base_volumes PartialAudio.empty SoundSample.w0 SoundType.victory
           (Howl.mk ((5 # 10) * (7 # 10) * (8 # 10)) false 0) eq_refl).
Defined.

(** The volumes before and after an update that changes no setting: the
    sound of a victory falls from 0.7 to 0.5 of the effects volume, the
    sound of a correct key rises from 0.3 to 0.5. *)
Example update_changes_volumes :
  let w := AudioService.updateSettings PartialAudio.empty SoundSample.w0 in
  Howl.volume <$> AudioService.sounds SoundSample.w0.2 SoundType.victory
    = Some ((7 # 10) * (7 # 10) * (8 # 10)) ∧
  Howl.volume <$> AudioService.sounds w.2 SoundType.victory
    = Some ((5 # 10) * (7 # 10) * (8 # 10)) ∧
  Howl.volume <$> AudioService.sounds SoundSample.w0.2 SoundType.correct
    = Some ((3 # 10) * (7 # 10) * (8 # 10)) ∧
  Howl.volume <$> AudioService.sounds w.2 SoundType.correct
    = Some ((5 # 10) * (7 # 10) * (8 # 10)).
Proof. done. Qed.

(** [AudioService]: after an update with both mute flags clear and the
    library not muted, the master volume has entered the loudness of a
    sound twice: once as the volume of the library, once in the volume of
    the sound. *)
Theorem master_volume_counts_twice (u : PartialAudio.t) (w : Howler.t * AudioService.t)
    (type : SoundType.t) (h : Howl.t) :
  let w' := AudioService.updateSettings u w in
  unmuted w'.2 → Howler.muted w.1 = false →
  AudioService.sounds w'.2 type = Some h →
  let s := AudioService.settings w'.2 in
  loudness w'.1 h ==
    AudioService.baseVolume type * AudioSettings.sfxVolume s *
    (AudioSettings.masterVolume s * AudioSettings.masterVolume s).
Proof.
  destruct w as [g a]. simpl. intros [Hs Hm] Hg. simpl in Hs, Hm.
  destruct (AudioService.sounds a type); simpl; [|done]. intros [= <-].
  unfold loudness. simpl. rewrite Hg, Hs, Hm. simpl. ring.
Qed.

Lemma master_volume_counts_twice_witness :
  let w' := AudioService.updateSettings PartialAudio.empty SoundSample.w0 in
  loudness w'.1 (Howl.mk ((1 # 10) * (7 # 10) * (8 # 10)) false 0) ==
    AudioService.baseVolume SoundType.keypress *
    AudioSettings.sfxVolume (AudioService.settings w'.2) *
    (AudioSettings.masterVolume (AudioService.settings w'.2) *
     AudioSettings.masterVolume (AudioService.settings w'.2)).
Proof.
  exact (master_volume_counts_twice PartialAudio.empty SoundSample.w0 SoundType.keypress
           (Howl.mk ((1 # 10) * (7 # 10) * (8 # 10)) false 0)
           (conj eq_refl eq_refl) eq_refl eq_refl).
Defined.

(** C32: [AudioService]: muting by the service and by the settings do not
    undo each other.  Unmuting the service while the settings are muted
    leaves the library muted, and unmuting the settings afterwards does not
    clear that switch: both flags are clear, sounds are started, and none is
    heard. *)
Theorem unmute_leaves_library_muted (w : Howler.t * AudioService.t) (type : SoundType.t)
    (sound : Howl.t) :
  let w' := AudioService.run
              [AudioService.Mute; SoundSample.setMuted true; AudioService.Unmute;
               SoundSample.setMuted false; AudioService.Play type] w in
  AudioService.sounds w.2 type = Some sound →
  unmuted w'.2 ∧
  (∃ h, AudioService.sounds w'.2 type = Some h ∧
        Howl.plays h = S (Howl.plays sound) ∧ loudness w'.1 h = 0).
Proof.
  destruct w as [g a]. intros w' Hs. subst w'. unfold AudioService.run.
  simpl in *. rewrite Hs. simpl. split; [done|]. rewrite decide_True by done.
  by eexists.
Qed.

Lemma unmute_leaves_library_muted_witness :
  let w' := AudioService.run
              [AudioService.Mute; SoundSample.setMuted true; AudioService.Unmute;
               SoundSample.setMuted false; AudioService.Play SoundType.correct]
              SoundSample.w0 in
  unmuted w'.2 ∧
  (∃ h, AudioService.sounds w'.2 SoundType.correct = Some h ∧
        Howl.plays h = S (Howl.plays (Howl.mk ((3 # 10) * (7 # 10) * (8 # 10)) false 0)) ∧
        loudness w'.1 h = 0).
Proof.
  exact (unmute_leaves_library_muted SoundSample.w0 SoundType.correct
           (Howl.mk ((3 # 10) * (7 # 10) * (8 # 10)) false 0) eq_refl).
Defined.

(** [AudioService]: unmuting does not restore the volume of the library.
    After [mute], any update of the settings and [unmute], the flags are
    clear and the library is not muted, but its volume is 0 until the
    settings are updated again. *)
Theorem unmute_keeps_volume_zero (u : PartialAudio.t) (w : Howler.t * AudioService.t) :
  let w' := AudioService.run
              [AudioService.Mute; AudioService.UpdateSettings u; AudioService.Unmute] w in
  AudioSettings.muted (Settings.assignAudio u (AudioService.settings w.2)) = false →
  unmuted w'.2 ∧ Howler.muted w'.1 = false ∧ Howler.volume w'.1 = 0 ∧
  ∀ h, loudness w'.1 h == 0.
Proof.
  destruct w as [g a]. unfold AudioService.run. simpl. intros Hm.
  rewrite !Hm. by simpl.
Qed.

Lemma unmute_keeps_volume_zero_witness :
  let w' := AudioService.run
              [AudioService.Mute; AudioService.UpdateSettings PartialAudio.empty;
               AudioService.Unmute] SoundSample.w0 in
  unmuted w'.2 ∧ Howler.muted w'.1 = false ∧ Howler.volume w'.1 = 0 ∧
  ∀ h, loudness w'.1 h == 0.
Proof.
  exact (unmute_keeps_volume_zero PartialAudio.empty SoundSample.w0 eq_refl).
Defined.

(** Two kinds of sound have no entry in the table: playing them does
    nothing, also when nothing is muted. *)
Example sounds_without_entry :
  AudioService.play SoundType.comboBreak SoundSample.w0 = SoundSample.w0 ∧
  AudioService.play SoundType.notification SoundSample.w0 = SoundSample.w0.
Proof. done. Qed.

(** [getAudioService]: the first call makes the service, with the settings
    given or the default ones; a later call with settings updates the one
    service, and without settings returns it as it is. *)
Theorem getAudioService_spec (settings : option AudioSettings.t) (g : Howler.t)
    (a : AudioService.t) :
  AudioDefault.getAudioService settings (g, None) =
    (g, AudioService.new (default AudioDefault.defaultSettings settings)) ∧
  AudioDefault.getAudioService None (g, Some a) = (g, a) ∧
  ∀ s, AudioService.settings (AudioDefault.getAudioService (Some s) (g, Some a)).2 = s.
Proof. split_and!; [done..|]. intros s. by destruct s. Qed.
