(* ===== verification/Views.v ===== *)
(** * Views: what the two pages with a canvas show

    [Module GamePage] is what [pages/Game/index.tsx] returns for a level and
    for an address without one; [Module EndlessView] is what
    [pages/EndlessMode/index.tsx] returns.  A view is a record of what is
    shown: the texts, which of the overlays are there, and the display and
    the result panel of [Display]; the canvas itself is [GameCanvas].

    The theorems: in a level the typing input is shown exactly while the
    result is hidden, the overlay of a pause is never shown, and the label
    of the mode is the one the level selection shows; in endless mode the
    overlay of the start is shown until the start, the panel of the end
    never, and the badge always reads difficulty 1. *)

From Stdlib Require Import ZArith QArith Lia String Ascii.
From stdpp Require Import base tactics option list strings gmap pretty.
From S2P Require Import Prelude Types Metrics Store PlayerSlice GameCanvas.
From S2P Require Import Play Progress Theme Display Endless.

#[local] Open Scope Z_scope.
#[local] Open Scope string_scope.

(** ** The page of a level *)

Module GamePage.

(** The background and the colour of the label of a mode. *)
Definition modeStyle (mode : GameMode) : string * string :=
  match mode with
  | gravity => ("rgba(239, 68, 68, 0.2)", "#f87171")
  | runner => ("rgba(34, 197, 94, 0.2)", "#4ade80")
  | bubble => ("rgba(59, 130, 246, 0.2)", "#60a5fa")
  | boss => ("rgba(168, 85, 247, 0.2)", "#c084fc")
  end.

(** The text of the label: the four conditions of the page, of which one
    holds. *)
Definition modeText (mode : GameMode) : string :=
  (if bool_decide (mode = gravity) then "重力下落" else "") +:+
  (if bool_decide (mode = runner) then "横向跑酷" else "") +:+
  (if bool_decide (mode = bubble) then "气泡上升" else "") +:+
  (if bool_decide (mode = boss) then "BOSS问答" else "").

(** The overlay of a pause: its title and its two buttons. *)
Record Pause : Type := mkPause {
  pauseTitle : string;
  resume : string;
  leave : string * string;
}.

(** What the page shows of a level. *)
Record Level : Type := mkLevel {
  title : string;
  modeLabel : string;
  modeColours : string * string;
  back : string * string;
  hud : GameHUD.t;
  typingInput : bool;
  pauseOverlay : option Pause;
  result : option LevelResult.t;
}.

Inductive View : Type :=
| Missing (message : string) (back : string * string)
| Shown (v : Level).

Section view.
Context {St Pt : Type} `{GameStore St}.

Definition view (levelId : option string) (w : World.t St Pt) : View :=
  match Page.levelConfig levelId with
  | None => Missing "关卡不存在" ("/levels", "返回关卡选择")
  | Some levelConfig =>
      let s := session (World.game w) in
      Shown
        {| title := Words.name levelConfig;
           modeLabel := modeText (Words.mode levelConfig);
           modeColours := modeStyle (Words.mode levelConfig);
           back := ("/levels", "返回");
           hud := GameHUD.render s;
           typingInput := bool_decide (GameSession.state s = playing);
           pauseOverlay :=
             if bool_decide (GameSession.state s = paused)
             then Some (mkPause "游戏暂停" "继续游戏" ("/levels", "退出关卡"))
             else None;
           result := LevelResult.panel (World.showResult w) s |}
  end.

End view.
End GamePage.

(** ** The endless mode *)

Module EndlessView.

(** The panel of the end of the game. *)
Record GameOver : Type := mkGameOver {
  overTitle : string;
  score : Q;
  difficulty : Z;
  wpm : Z;
  accuracy : string;
  restart : string;
}.

Record t : Type := mk {
  title : string;
  badge : option string;
  hud : GameHUD.t;
  typingInput : bool;
  startOverlay : option (string * string);
  gameOver : option GameOver;
}.

Section view.
Context {St Pt : Type} `{GameStore St}.

Definition view (w : EndlessWorld.t St Pt) : t :=
  let s := session (EndlessWorld.game w) in
  let pg := EndlessWorld.page w in
  {| title := "♾️ 无尽模式";
     badge := if EndlessPage.isStarted pg
              then Some ("难度 Lv." +:+ pretty (EndlessPage.difficulty pg))
              else None;
     hud := GameHUD.render s;
     typingInput := bool_decide (GameSession.state s = playing);
     startOverlay := if negb (EndlessPage.isStarted pg)
                     then Some ("无尽模式", "开始挑战")
                     else None;
     gameOver :=
       if EndlessPage.isGameOver pg
       then Some {| overTitle := "游戏结束";
                    score := GameSession.score s;
                    difficulty := EndlessPage.difficulty pg;
                    wpm := GameSession.wpm s;
                    accuracy := toFixed0 (GameSession.accuracy s) +:+ "%";
                    restart := "再来一次" |}
       else None |}.

End view.
End EndlessView.

(** * Theorems *)

(** The label of a mode on the page of a level is the label of the level
    selection. *)
Lemma modeText_modeLabels mode : GamePage.modeText mode = LevelSelect.modeLabels mode.
Proof. by destruct mode. Qed.

(** In a level, whatever the events: the page shows the level (its title
    and the label of its mode as the level selection has them), the typing
    input exactly while the result panel is hidden, and never the overlay of
    a pause, whose two buttons can therefore not be used. *)
Theorem level_view {St Pt : Type} `{GameStoreLaws St} `{PlayerStoreLaws Pt}
    (levelId : option string) (cfg : Words.LevelEntry) (now : Z) (st : St) (pt : Pt)
    (evs : list World.Event) (w' : World.t St Pt) :
  Page.levelConfig levelId = Some cfg → Forall event_ok evs →
  World.steps levelId evs (World.init levelId now st pt) = Ok w' →
  ∃ v, GamePage.view levelId w' = GamePage.Shown v ∧
    GamePage.title v = Words.name cfg ∧
    GamePage.modeLabel v = LevelSelect.modeLabels (Words.mode cfg) ∧
    GamePage.pauseOverlay v = None ∧
    (GamePage.typingInput v = true ↔ GamePage.result v = None).
Proof.
  intros Hcfg Hevs Hs.
  destruct (steps_inv levelId cfg Hcfg evs _ Hevs (inv_init levelId cfg Hcfg now st pt))
    as (w1 & Hw1 & Hinv).
  rewrite Hs in Hw1. simplify_eq. destruct Hinv as [_ _ _ _ Hst].
  unfold GamePage.view. rewrite Hcfg. eexists. split; [done|].
  cbn [GamePage.title GamePage.modeLabel GamePage.pauseOverlay GamePage.typingInput
       GamePage.result].
  split; [done|]. split; [apply modeText_modeLabels|].
  unfold LevelResult.panel. destruct Hst as [[-> ->]|[-> ->]]; by split.
Qed.

Lemma level_view_witness :
  ∃ w' v, World.steps PlaySample.levelId PlaySample.evs PlaySample.w0 = Ok w' ∧
    GamePage.view PlaySample.levelId w' = GamePage.Shown v ∧ GamePage.pauseOverlay v = None.
Proof.
  destruct sample_run as [w' E].
  destruct (level_view (St := GameSession.t) (Pt := UsePlayerStore.t)
              PlaySample.levelId PlaySample.cfg 1000 Session.initialSession PlaySample.pt0
              PlaySample.evs w' eq_refl evs_ok E) as (v & Hv & _ & _ & Hp & _).
  exists w', v. exact (conj E (conj Hv Hp)).
Defined.

(** In endless mode, whatever the events: the panel of the end of the game
    is never shown, the overlay of the start is shown exactly until the
    game is started, and the badge, once it is there, reads difficulty 1. *)
Theorem endless_view {St Pt : Type} `{GameStoreLaws St} `{PlayerStore Pt}
    (evs : list EndlessWorld.Event) (now : Z) (st : St) (pt : Pt)
    (w' : EndlessWorld.t St Pt) :
  Forall endless_event_ok evs →
  EndlessWorld.steps evs (EndlessWorld.init now st pt) = Ok w' →
  let v := EndlessView.view w' in
  EndlessView.gameOver v = None ∧
  (is_Some (EndlessView.startOverlay v) ↔ EndlessView.badge v = None) ∧
  (∀ b, EndlessView.badge v = Some b → b = "难度 Lv.1").
Proof.
  intros Hevs Hs.
  destruct (endless_steps_inv evs _ Hevs (endless_inv_init now st pt)) as (w1 & Hw1 & Hi & _).
  rewrite Hs in Hw1. simplify_eq. destruct Hi as [_ _ _ Hd Hg].
  unfold EndlessView.view.
  cbn [EndlessView.gameOver EndlessView.startOverlay EndlessView.badge].
  rewrite Hg, Hd. destruct (EndlessPage.isStarted _); simpl.
  - split; [done|]. split; [by split; [intros []|]|]. by intros b [= <-].
  - split; [done|]. split; [by split; [|eexists]|done].
Qed.

Lemma endless_view_witness :
  ∃ w', EndlessWorld.steps EndlessSample.evs EndlessSample.w0 = Ok w' ∧
    EndlessView.gameOver (EndlessView.view w') = None.
Proof.
  destruct (endless_steps_inv (St := GameSession.t) (Pt := UsePlayerStore.t)
              EndlessSample.evs EndlessSample.w0 EndlessSample.evs_fit
              (endless_inv_init 1000 Session.initialSession PlaySample.pt0)) as (w' & E & _).
  exists w'. split; [exact E|].
  exact (proj1 (endless_view (St := GameSession.t) (Pt := UsePlayerStore.t)
                  EndlessSample.evs 1000 Session.initialSession PlaySample.pt0 w'
                  EndlessSample.evs_fit E)).
Defined.
