(* ===== verification/Shell.v ===== *)
(** * Shell: the frame around the pages

    [Module Router] is the route table of [app/router.tsx] with the matching
    of a path against it; [Module Location] names the places of the
    application and the addresses the links of the pages are written with.
    [Module Header] is [components/layout/Header.tsx], [Module Layout] is
    [components/layout/Layout.tsx], [Module LoadingSpinner] and
    [Module Button] are the components of [components/common] with those
    names, [Module Dom] is the part of the document a dialogue uses and
    [Module Modal] is [components/common/Modal.tsx].

    The theorems: an address written for a place is matched as that place,
    and a path that is matched is matched as the place whose address it is,
    up to the case of its fixed part and slashes at its end; the header
    marks one link at most, and none on the page of a level; every link of
    the level selection opens the page of a level of the table; a button
    that is loading or disabled does nothing; a dialogue listens to the
    keyboard exactly while it is open and leaves the document as it found
    it. *)

From Stdlib Require Import ZArith QArith Lia String Ascii.
From stdpp Require Import base tactics option list strings gmap pretty.
From S2P Require Import Prelude Types Metrics Store PlayerSlice GameCanvas Play Progress Theme.

#[local] Open Scope Z_scope.
#[local] Open Scope string_scope.

(** ** The router *)

Module Router.

(** The pages the routes show. *)
Inductive Page : Type :=
| HomePage | LevelSelectPage | GamePage | EndlessModePage | SettingsPage | StatsPage.

#[global] Instance Page_eq_dec : EqDecision Page.
Proof. solve_decision. Defined.

(** A child of the route of the layout: the index route, or a route with a
    path. *)
Record RouteObject : Type := mkRoute {
  index : bool;
  path : string;
  element : Page;
}.

(** The children of the route ['/'], whose element is the layout. *)
Definition children : list RouteObject :=
  [ mkRoute true "" HomePage;
    mkRoute false "levels" LevelSelectPage;
    mkRoute false "game/:levelId" GamePage;
    mkRoute false "endless" EndlessModePage;
    mkRoute false "settings" SettingsPage;
    mkRoute false "stats" StatsPage ].

(** [s.split(sep)] for a separator of one character. *)
Fixpoint split (sep : ascii) (s : string) : list string :=
  match s with
  | EmptyString => [EmptyString]
  | String c s' =>
      if bool_decide (c = sep) then EmptyString :: split sep s'
      else
        match split sep s' with
        | seg :: rest => String c seg :: rest
        | [] => [String c EmptyString]
        end
  end.

(** A segment of the path of a route: fixed, or a parameter. *)
Inductive Segment : Type := Static (s : string) | Param (name : string).

Definition pattern (r : RouteObject) : list Segment :=
  if index r then []
  else (λ seg, match seg with
               | String ":" name => Param name
               | _ => Static seg
               end) <$> split "/" (path r).

(** A string without the slashes at its end. *)
Fixpoint stripSlashes (s : string) : string :=
  match s with
  | String c s' =>
      match stripSlashes s' with
      | EmptyString => if bool_decide (c = "/"%char) then EmptyString else String c EmptyString
      | t => String c t
      end
  | EmptyString => EmptyString
  end.

(** The segments of a path name: it starts with a slash, and slashes at its
    end do not count. *)
Definition segments (pathname : string) : option (list string) :=
  match pathname with
  | String c rest =>
      if bool_decide (c = "/"%char) then
        let r := stripSlashes rest in
        Some (if bool_decide (r = EmptyString) then [] else split "/" r)
      else None
  | EmptyString => None
  end.

(** The segments of a path against those of a route: a fixed segment
    matches without regard to case, a parameter takes a segment that is not
    empty. *)
Fixpoint matchSegments (pat : list Segment) (segs : list string)
    (params : list (string * string)) : option (list (string * string)) :=
  match pat, segs with
  | [], [] => Some params
  | Static s :: pat', seg :: segs' =>
      if bool_decide (toLowerCase seg = toLowerCase s)
      then matchSegments pat' segs' params
      else None
  | Param name :: pat', seg :: segs' =>
      if bool_decide (seg = EmptyString) then None
      else matchSegments pat' segs' (params ++ [(name, seg)])
  | _, _ => None
  end.

(** The first route of a list that matches, with its parameters. *)
Fixpoint matchBranches (routes : list RouteObject) (segs : list string)
    : option (Page * list (string * string)) :=
  match routes with
  | [] => None
  | r :: rest =>
      match matchSegments (pattern r) segs [] with
      | Some params => Some (element r, params)
      | None => matchBranches rest segs
      end
  end.

(** The page of a path name, or none: the page that says so is not one of
    the application. *)
Definition matchRoutes (pathname : string) : option (Page * list (string * string)) :=
  segs ← segments pathname; matchBranches children segs.

(** [useParams().levelId] *)
Definition levelId (params : list (string * string)) : option string :=
  snd <$> List.find (λ kv, bool_decide (kv.1 = "levelId")) params.

End Router.

(** ** The places of the application *)

Module Location.
Import Router.

Inductive t : Type :=
| Home | Levels | Game (levelId : string) | Endless | Settings | Stats.

#[global] Instance t_eq_dec : EqDecision t.
Proof. solve_decision. Defined.

(** The address the links and the calls of [navigate] write for a place. *)
Definition href (l : t) : string :=
  match l with
  | Home => "/"
  | Levels => "/levels"
  | Game levelId => "/game/" +:+ levelId
  | Endless => "/endless"
  | Settings => "/settings"
  | Stats => "/stats"
  end.

(** The place the router shows for a path name. *)
Definition locate (pathname : string) : option t :=
  '(page, params) ← matchRoutes pathname;
  match page with
  | HomePage => Some Home
  | LevelSelectPage => Some Levels
  | GamePage => Game <$> levelId params
  | EndlessModePage => Some Endless
  | SettingsPage => Some Settings
  | StatsPage => Some Stats
  end.

(** A level identifier an address can carry: not empty, without a
    slash. *)
Definition segment_ok (s : string) : Prop :=
  s ≠ EmptyString ∧ "/"%char ∉ list_ascii_of_string s.

#[global] Instance segment_ok_dec s : Decision (segment_ok s).
Proof. unfold segment_ok. apply _. Defined.

Definition wf (l : t) : Prop :=
  match l with
  | Game levelId => segment_ok levelId
  | _ => True
  end.

End Location.

(** ** The header *)

Module Header.

(** [isActive(path)] at a location. *)
Definition isActive (pathname path : string) : bool :=
  if bool_decide (path = "/") then bool_decide (pathname = "/")
  else startsWith pathname path.

(** A link of the header, with the colour of its text. *)
Record NavLink : Type := mkNavLink {
  to : string;
  label : string;
  active : bool;
  color : string;
}.

Definition navLink (pathname to label : string) : NavLink :=
  let a := isActive pathname to in
  mkNavLink to label a (if a then "#818cf8" else "#94a3b8").

Record t : Type := mk {
  logo : string * string;
  nav : list NavLink;
  coins : string;
  level : string;
  name : string;
  settings : NavLink;
}.

Definition render (pathname : string) (player : PlayerData.t) : t :=
  {| logo := ("/", "⌨️ 打字冒险");
     nav := [ navLink pathname "/" "首页";
              navLink pathname "/levels" "关卡";
              navLink pathname "/endless" "无尽模式";
              navLink pathname "/stats" "统计" ];
     coins := pretty (PlayerData.coins player);
     level := "Lv." +:+ pretty (PlayerData.level player);
     name := PlayerData.name player;
     settings := navLink pathname "/settings" "⚙️" |}.

(** The links of the header, the one of the settings last. *)
Definition links (h : t) : list NavLink := nav h ++ [settings h].

End Header.

(** ** The layout *)

Module Layout.

(** The header above the page of the route. *)
Record t : Type := mk {
  header : Header.t;
  outlet : option (Router.Page * list (string * string));
}.

Definition render (pathname : string) (player : PlayerData.t) : t :=
  mk (Header.render pathname player) (Router.matchRoutes pathname).

End Layout.

(** ** The spinner shown while a page loads *)

Module LoadingSpinner.

Inductive Size : Type := sm | md | lg.

Record Props : Type := mkProps { size : Size; color : string }.

(** The props with the defaults of the component. *)
Definition props (size : option Size) (color : option string) : Props :=
  mkProps (default md size) (default "#818cf8" color).

(** [--spinner-size] and [--border-width] *)
Definition dimensions (size : Size) : string * string :=
  match size with
  | sm => ("24px", "2px")
  | lg => ("64px", "5px")
  | md => ("40px", "3px")
  end.

Record t : Type := mk {
  spinnerSize : string;
  borderWidth : string;
  borderTopColor : string;
}.

Definition render (p : Props) : t :=
  mk (dimensions (size p)).1 (dimensions (size p)).2 (color p).

End LoadingSpinner.

(** ** [Button] *)

Module Button.

Inductive Variant : Type := primary | secondary | danger | ghost | outline.

Inductive Size : Type := sm | md | lg.

Record Props : Type := mkProps {
  variant : Variant;
  size : Size;
  fullWidth : bool;
  loading : bool;
  icon : option string;
  disabled : option bool;
  children : string;
}.

(** The props with the defaults of the component for what is not given. *)
Definition props (variant : option Variant) (size : option Size) (icon : option string)
    (children : string) : Props :=
  mkProps (default primary variant) (default md size) false false icon None children.

(** The padding and the size of the text. *)
Definition sizeStyle (size : Size) : string * string :=
  match size with
  | sm => ("0.375rem 0.75rem", "0.875rem")
  | lg => ("0.875rem 1.5rem", "1.125rem")
  | md => ("0.625rem 1.25rem", "1rem")
  end.

(** The colours of a variant at rest. *)
Record Colours : Type := mkColours {
  background : string;
  borderColor : string;
  color : string;
}.

Definition variantStyle (variant : Variant) (theme : Theme.t) : Colours :=
  let c := Theme.colors theme in
  match variant with
  | primary =>
      mkColours (Theme.Shade.main (Theme.Colors.primary c)) "transparent" "white"
  | secondary =>
      mkColours (Theme.Shade.main (Theme.Colors.secondary c)) "transparent" "white"
  | danger =>
      mkColours (Theme.Status.danger (Theme.Colors.status c)) "transparent" "white"
  | outline =>
      mkColours "transparent" (Theme.Shade.main (Theme.Colors.primary c))
        (Theme.Shade.light (Theme.Colors.primary c))
  | ghost =>
      mkColours "transparent" "transparent" (Theme.Text.secondary (Theme.Colors.text c))
  end.

(** What stands before the text of the button. *)
Inductive Leading : Type := LoadingDots | Icon (icon : string) | Nothing.

Record t : Type := mk {
  padding : string;
  fontSize : string;
  colours : Colours;
  wide : bool;
  isDisabled : bool;
  leading : Leading;
  text : string;
}.

Definition render (p : Props) (theme : Theme.t) : t :=
  {| padding := (sizeStyle (size p)).1;
     fontSize := (sizeStyle (size p)).2;
     colours := variantStyle (variant p) theme;
     wide := fullWidth p;
     isDisabled := default false (disabled p) || loading p;
     leading := if loading p then LoadingDots
                else match icon p with Some i => Icon i | None => Nothing end;
     text := children p |}.

(** A click on the button: a disabled button has no click. *)
Definition click {A : Type} (b : t) (onClick : A → A) (a : A) : A :=
  if isDisabled b then a else onClick a.

End Button.

(** ** The document, as far as a dialogue uses it *)

Module Dom.
Section dom.
Context {A : Type}.

(** A listener for [keydown]; [ident] stands for the identity of the
    function, which is what the document compares. *)
Record Listener : Type := mkListener {
  ident : nat;
  handler : KeyboardEvent.t → A → A;
}.

Record t : Type := mk {
  keydown : list Listener;
  overflow : string;
}.

(** [document.addEventListener('keydown', l)]: a listener that is there is
    not added again. *)
Definition addEventListener (l : Listener) (d : t) : t :=
  if bool_decide (ident l ∈ ident <$> keydown d) then d
  else mk (keydown d ++ [l]) (overflow d).

(** [document.removeEventListener('keydown', l)] *)
Definition removeEventListener (l : Listener) (d : t) : t :=
  mk (List.filter (λ x, negb (bool_decide (ident x = ident l))) (keydown d)) (overflow d).

(** [document.body.style.overflow = v] *)
Definition setOverflow (v : string) (d : t) : t := mk (keydown d) v.

(** A key is pressed: the listeners run in the order they were added. *)
Definition dispatch (e : KeyboardEvent.t) (d : t) (a : A) : A :=
  foldl (λ a l, handler l e a) a (keydown d).

End dom.
Arguments Listener : clear implicits.
Arguments t : clear implicits.
End Dom.

(** ** [Modal] *)

Module Modal.

Inductive Size : Type := sm | md | lg.

Section modal.
Context {A : Type}.

(** A callback of the page that shows the dialogue, with its identity. *)
Record Callback : Type := mkCallback {
  ident : nat;
  call : A → A;
}.

Record Props : Type := mkProps {
  isOpen : bool;
  onClose : Callback;
  title : option string;
  size : Size;
  showCloseButton : bool;
}.

(** The props with the defaults of the component for what is not given. *)
Definition props (isOpen : bool) (onClose : Callback) (title : option string) : Props :=
  mkProps isOpen onClose title md true.

(** [handleEscape], which is a new function whenever [onClose] is one. *)
Definition handleEscape (onClose : Callback) : Dom.Listener A :=
  Dom.mkListener (ident onClose)
    (λ e a, if bool_decide (KeyboardEvent.key e = "Escape") then call onClose a else a).

(** The effect of the dialogue, and what it leaves to be run before it runs
    again and when the dialogue is taken away. *)
Definition effect (p : Props) (d : Dom.t A) : Dom.t A :=
  if isOpen p
  then Dom.setOverflow "hidden" (Dom.addEventListener (handleEscape (onClose p)) d)
  else d.

Definition cleanup (p : Props) (d : Dom.t A) : Dom.t A :=
  Dom.setOverflow "" (Dom.removeEventListener (handleEscape (onClose p)) d).

(** A dialogue on the page: the props its effect ran with last. *)
Record t : Type := mk { effectProps : Props }.

(** The first render. *)
Definition mount (p : Props) (d : Dom.t A) : t * Dom.t A := (mk p, effect p d).

(** A later render: the effect runs again when [isOpen] or [handleEscape]
    has changed. *)
Definition update (p : Props) (m : t) (d : Dom.t A) : t * Dom.t A :=
  if bool_decide (isOpen p = isOpen (effectProps m) ∧
                  ident (onClose p) = ident (onClose (effectProps m)))
  then (m, d)
  else (mk p, effect p (cleanup (effectProps m) d)).

Definition unmount (m : t) (d : Dom.t A) : Dom.t A := cleanup (effectProps m) d.

(** The renders of a dialogue after the first, in order. *)
Definition updates (ps : list Props) (md : t * Dom.t A) : t * Dom.t A :=
  foldl (λ md p, update p md.1 md.2) md ps.

(** [title || showCloseButton] *)
Definition hasHeader (p : Props) : bool :=
  match title p with
  | Some s => negb (bool_decide (s = EmptyString)) || showCloseButton p
  | None => showCloseButton p
  end.

(** What is shown of an open dialogue: its size, and the title and whether
    there is a button to close it when it has a header. *)
Record View : Type := mkView {
  viewSize : Size;
  header : option (option string * bool);
}.

Definition render (p : Props) : option View :=
  if isOpen p
  then Some (mkView (size p)
               (if hasHeader p then Some (title p, showCloseButton p) else None))
  else None.

(** Where a click can land. *)
Inductive Target : Type := Overlay | Container | CloseButton.

(** A click: the container keeps a click from reaching the overlay. *)
Definition click (target : Target) (p : Props) (a : A) : A :=
  if isOpen p then
    match target with
    | Overlay => call (onClose p) a
    | Container => a
    | CloseButton => if showCloseButton p then call (onClose p) a else a
    end
  else a.

End modal.
Arguments Callback : clear implicits.
Arguments Props : clear implicits.
Arguments t : clear implicits.
End Modal.

(** * Theorems *)

(** ** Addresses and places *)

Section router.
Import Router Location.
Implicit Types (s u r id pathname : string) (c sep : ascii) (l : Location.t).

Lemma split_nosep sep s : sep ∉ list_ascii_of_string s → split sep s = [s].
Proof.
  induction s as [|c s IH]; [done|]. simpl. intros [Hc Hs]%not_elem_of_cons.
  rewrite bool_decide_eq_false_2 by done. by rewrite IH.
Qed.

Lemma split_app sep u s :
  sep ∉ list_ascii_of_string u → split sep (u +:+ String sep s) = u :: split sep s.
Proof.
  induction u as [|c u IH]; rewrite ?app_cons_str, ?app_nil_str; simpl.
  - intros _. by rewrite bool_decide_eq_true_2.
  - intros [Hc Hu]%not_elem_of_cons. rewrite bool_decide_eq_false_2 by done.
    by rewrite IH.
Qed.

(** No segment of a split string holds the separator. *)
Lemma split_segments sep s :
  Forall (λ seg, sep ∉ list_ascii_of_string seg) (split sep s).
Proof.
  induction s as [|c s IH]; simpl; [repeat constructor; apply not_elem_of_nil|].
  case_bool_decide as Hc; [constructor; [apply not_elem_of_nil|done]|].
  assert (∀ seg, sep ∉ list_ascii_of_string seg →
            sep ∉ list_ascii_of_string (String c seg)) as Hcons.
  { intros seg Hseg. simpl. apply not_elem_of_cons. by split; [intros ->|]. }
  destruct (split sep s) as [|seg rest].
  - constructor; [|done]. apply Hcons, not_elem_of_nil.
  - apply Forall_cons in IH as [Hseg Hrest]. constructor; [by apply Hcons|done].
Qed.

Lemma stripSlashes_noslash s : "/"%char ∉ list_ascii_of_string s → stripSlashes s = s.
Proof.
  induction s as [|c s IH]; [done|]. simpl. intros [Hc Hs]%not_elem_of_cons.
  rewrite IH by done. destruct s; [|done]. by rewrite bool_decide_eq_false_2.
Qed.

Lemma stripSlashes_app u s :
  segment_ok s → stripSlashes (u +:+ s) = u +:+ s.
Proof.
  intros [Hne Hs]. induction u as [|c u IH]; rewrite ?app_cons_str, ?app_nil_str;
    [by apply stripSlashes_noslash|].
  simpl. rewrite IH. destruct (u +:+ s) eqn:E; [|done].
  by destruct u, s.
Qed.

Lemma segments_game id :
  segment_ok id → segments ("/game/" +:+ id) = Some ["game"; id].
Proof.
  intros Hid. change ("/game/" +:+ id) with (String "/" ("game/" +:+ id)).
  unfold segments. rewrite bool_decide_eq_true_2 by done. cbv zeta.
  rewrite stripSlashes_app by done.
  rewrite bool_decide_eq_false_2 by done.
  change ("game/" +:+ id) with ("game" +:+ String "/" id).
  rewrite split_app by by apply (bool_decide_unpack _).
  by rewrite split_nosep by apply Hid.
Qed.

Lemma locate_game id : segment_ok id → locate (href (Game id)) = Some (Game id).
Proof.
  intros Hid. unfold locate, matchRoutes. cbn [href]. rewrite segments_game by done.
  simpl. by rewrite bool_decide_eq_false_2 by apply Hid.
Qed.

(** The parameters of a path that is matched as the page of a level. *)
Lemma matchRoutes_game pathname params :
  matchRoutes pathname = Some (GamePage, params) →
  ∃ id, params = [("levelId", id)] ∧ segment_ok id.
Proof.
  unfold matchRoutes. destruct (segments pathname) as [segs|] eqn:Es; [|done]. simpl.
  assert (Forall (λ seg, "/"%char ∉ list_ascii_of_string seg) segs) as Hsegs.
  { unfold segments in Es. destruct pathname as [|c rest]; [done|].
    case_bool_decide; [|done]. simplify_eq. case_bool_decide; [constructor|].
    apply split_segments. }
  destruct segs as [|s1 [|s2 [|s3 segs]]]; simpl; repeat case_bool_decide; try done.
  all: intros [= <-]; exists s2; (split; [done|]); split; [done|].
  all: by apply Forall_cons in Hsegs as [_ [? _]%Forall_cons].
Qed.

End router.

Lemma locate_href (l : Location.t) :
  Location.wf l → Location.locate (Location.href l) = Some l.
Proof. destruct l; [done..| |done|done|done]; first [apply locate_game|done]. Qed.

Lemma locate_wf (pathname : string) (l : Location.t) :
  Location.locate pathname = Some l → Location.wf l.
Proof.
  unfold Location.locate. intros Hl.
  destruct (Router.matchRoutes pathname) as [[page params]|] eqn:Em; [|done].
  simpl in Hl. destruct page; simplify_eq; try done.
  apply matchRoutes_game in Em as (id & -> & Hid). by simplify_eq/=.
Qed.

(** C26: Addresses and places go round.  An address written for a place is
    matched as that place: for the page of a level, whatever the identifier
    of the level, as long as it is not empty and holds no slash.  And a path
    that is matched names a place that is well formed, whose address is
    matched as the same place: matching forgets the case of the fixed part of
    a path and the slashes at its end, and nothing else. *)
Theorem address_roundtrip (pathname : string) (l : Location.t) :
  (Location.wf l → Location.locate (Location.href l) = Some l) ∧
  (Location.locate pathname = Some l →
   Location.wf l ∧ Location.locate (Location.href l) = Some l).
Proof.
  split; [apply locate_href|]. intros Hl%locate_wf. split; [done|by apply locate_href].
Qed.

(** The address of a level, and a path that differs from it in case and
    slashes. *)
Example address_samples :
  Location.locate (Location.href (Location.Game "2-3")) = Some (Location.Game "2-3") ∧
  Location.locate "/GAME/1-1//" = Some (Location.Game "1-1") ∧
  Location.href (Location.Game "1-1") = "/game/1-1".
Proof. done. Qed.

(** Paths that name no place: the page of a level without a level, a path
    below a page, a path that does not start with a slash. *)
Example locate_nowhere :
  Location.locate "/game" = None ∧ Location.locate "/game/" = None ∧
  Location.locate "/game/1-1/x" = None ∧ Location.locate "/levels/1" = None ∧
  Location.locate "levels" = None ∧ Location.locate "/game//1-1" = None.
Proof. done. Qed.

(** ** The links of the header *)

Section header.
Import Header.
Implicit Types (pathname : string) (player : PlayerData.t).

Lemma isActive_root pathname : isActive pathname "/" = bool_decide (pathname = "/").
Proof. done. Qed.

Lemma isActive_prefix pathname path :
  path ≠ "/" → isActive pathname path = true ↔ ∃ r, pathname = path +:+ r.
Proof.
  intros Hp. unfold isActive. rewrite bool_decide_eq_false_2 by done.
  apply startsWith_spec.
Qed.

(** Where a link of the header is marked: the first on the home page only,
    the others on every path that starts with theirs. *)
Lemma link_active pathname player (k : nat) x :
  links (render pathname player) !! k = Some x → active x = true →
  match k with
  | 0%nat => pathname = "/"
  | 1%nat => ∃ r, pathname = "/levels" +:+ r
  | 2%nat => ∃ r, pathname = "/endless" +:+ r
  | 3%nat => ∃ r, pathname = "/stats" +:+ r
  | 4%nat => ∃ r, pathname = "/settings" +:+ r
  | _ => False
  end.
Proof.
  destruct k as [|[|[|[|[|k]]]]]; [..|done]; intros [= <-]; unfold navLink; cbn [active].
  - rewrite isActive_root. apply bool_decide_eq_true.
  - by intros ?%isActive_prefix.
  - by intros ?%isActive_prefix.
  - by intros ?%isActive_prefix.
  - by intros ?%isActive_prefix.
Qed.

(** Two different links are never both marked. *)
Lemma links_exclusive pathname player (i j : nat) a b :
  links (render pathname player) !! i = Some a →
  links (render pathname player) !! j = Some b →
  active a = true → active b = true → i = j.
Proof.
  intros Hi Hj Ha Hb.
  pose proof (link_active pathname player i a Hi Ha) as Hx.
  pose proof (link_active pathname player j b Hj Hb) as Hy.
  destruct i as [|[|[|[|[|i]]]]], j as [|[|[|[|[|j]]]]]; try done;
    destruct_and?; destruct_or?; repeat match goal with H : ∃ _, _ |- _ => destruct H end;
    by simplify_eq.
Qed.

(** On the page of a level no link is marked. *)
Lemma links_unmarked_in_game pathname player r x :
  pathname = "/game" +:+ r → x ∈ links (render pathname player) → active x = false.
Proof.
  intros -> [k Hk]%list_elem_of_lookup. destruct (active x) eqn:Ha; [|done].
  pose proof (link_active _ player k x Hk Ha) as Hx.
  destruct k as [|[|[|[|[|k]]]]]; try done;
    repeat match goal with H : ∃ _, _ |- _ => destruct H end; by simplify_eq.
Qed.

End header.

(** The header marks at most one of its five links, whatever the path: the
    link of the home page on the path of the home page, another link on
    every path that starts with its own.  On the page of a level no link is
    marked; on a path that the router takes for a page without regard to
    case, such as [/LEVELS], none is either. *)
Theorem header_marks_one (pathname : string) (player : PlayerData.t) :
  (length (List.filter Header.active (Header.links (Header.render pathname player))) ≤ 1)%nat ∧
  (∀ l, Location.wf l → pathname = Location.href l →
     Header.active <$> Header.links (Header.render pathname player) =
       [ bool_decide (l = Location.Home); bool_decide (l = Location.Levels);
         bool_decide (l = Location.Endless); bool_decide (l = Location.Stats);
         bool_decide (l = Location.Settings) ]).
Proof.
  split.
  - pose proof (links_exclusive pathname player) as Hex.
    unfold Header.links, Header.render in *. cbn [Header.nav Header.settings app] in *.
    unfold Header.navLink in *.
    destruct (Header.isActive pathname "/") eqn:E0,
      (Header.isActive pathname "/levels") eqn:E1,
      (Header.isActive pathname "/endless") eqn:E2,
      (Header.isActive pathname "/stats") eqn:E3,
      (Header.isActive pathname "/settings") eqn:E4; simpl; try lia; exfalso.
    all: first
      [ by specialize (Hex 0%nat 1%nat _ _ eq_refl eq_refl eq_refl eq_refl)
      | by specialize (Hex 0%nat 2%nat _ _ eq_refl eq_refl eq_refl eq_refl)
      | by specialize (Hex 0%nat 3%nat _ _ eq_refl eq_refl eq_refl eq_refl)
      | by specialize (Hex 0%nat 4%nat _ _ eq_refl eq_refl eq_refl eq_refl)
      | by specialize (Hex 1%nat 2%nat _ _ eq_refl eq_refl eq_refl eq_refl)
      | by specialize (Hex 1%nat 3%nat _ _ eq_refl eq_refl eq_refl eq_refl)
      | by specialize (Hex 1%nat 4%nat _ _ eq_refl eq_refl eq_refl eq_refl)
      | by specialize (Hex 2%nat 3%nat _ _ eq_refl eq_refl eq_refl eq_refl)
      | by specialize (Hex 2%nat 4%nat _ _ eq_refl eq_refl eq_refl eq_refl)
      | by specialize (Hex 3%nat 4%nat _ _ eq_refl eq_refl eq_refl eq_refl) ].
  - intros l Hl ->. by destruct l.
Qed.

Lemma header_marks_one_witness :
  Header.active <$> Header.links (Header.render "/stats" (Player.initialPlayer "" 0)) =
    [false; false; false; true; false].
Proof.
  exact (proj2 (header_marks_one "/stats" (Player.initialPlayer "" 0)) Location.Stats I eq_refl).
Defined.

(** The router takes [/LEVELS] and [/levels/] for the level selection; the
    header marks its link on the second only.  A path below a link, which
    is no page, marks the link. *)
Example header_case :
  Location.locate "/LEVELS" = Some Location.Levels ∧
  Header.isActive "/LEVELS" "/levels" = false ∧
  Location.locate "/levels/" = Some Location.Levels ∧
  Header.isActive "/levels/" "/levels" = true ∧
  Location.locate "/levelsx" = None ∧
  Header.isActive "/levelsx" "/levels" = true.
Proof. done. Qed.

(** ** The links of the level selection *)

Section card_links.
Import LevelSelect Location.
Implicit Types (player : PlayerData.t) (world : WorldInfo.t) (c : Card).

(** A card is the card of its level; its link, when it has one, is the
    address of the page of that level. *)
Definition card_of (level : LevelInfo.t) c : Prop :=
  LevelSelect.level c = level ∧
  link c = if unlocked c then Some (href (Game (LevelInfo.id level))) else None.

Lemma cards_of player world index levels cs :
  cards player world index levels = Ok cs → Forall2 card_of levels cs.
Proof.
  revert index cs. induction levels as [|level rest IH]; intros index cs; simpl;
    [intros [= <-]; constructor|].
  intros (c & Hc & (cs' & Hcs & [= <-])%bind_Ok)%bind_Ok.
  constructor; [|by eapply IH].
  unfold card in Hc. apply bind_Ok in Hc as (u & _ & [= <-]). by split.
Qed.

Lemma sections_of player ws ss :
  sections player ws = Ok ss →
  Forall2 (λ world s, s.1 = world ∧ Forall2 card_of (WorldInfo.levels world) s.2) ws ss.
Proof.
  revert ss. induction ws as [|world rest IH]; intros ss; simpl;
    [intros [= <-]; constructor|].
  intros (cs & Hcs & (ss' & Hss & [= <-])%bind_Ok)%bind_Ok.
  constructor; [|by apply IH]. split; [done|]. by eapply cards_of.
Qed.

(** Every level of the level selection has an address that is matched as
    its page, and an entry in the table of the game page. *)
Lemma levels_open :
  Forall (λ level,
            locate (href (Game (LevelInfo.id level))) = Some (Game (LevelInfo.id level)) ∧
            Words.mode <$> Page.levelConfig (Some (LevelInfo.id level)) =
              Some (LevelInfo.mode level))
    (worlds ≫= WorldInfo.levels).
Proof. apply (bool_decide_unpack _). by vm_compute. Qed.

End card_links.

(** Every link of the level selection opens a level: the card has a link
    exactly when its level is unlocked, the router matches the address of
    the link as the page of that level, and the game page finds the level
    in its table, with the mode the card shows. *)
Theorem card_links_open_levels (player : PlayerData.t)
    (ss : list (WorldInfo.t * list LevelSelect.Card)) (world : WorldInfo.t)
    (cs : list LevelSelect.Card) (c : LevelSelect.Card) :
  LevelSelect.render player = Ok ss → (world, cs) ∈ ss → c ∈ cs →
  (is_Some (LevelSelect.link c) ↔ LevelSelect.unlocked c = true) ∧
  (∀ to, LevelSelect.link c = Some to →
     Location.locate to = Some (Location.Game (LevelInfo.id (LevelSelect.level c))) ∧
     Words.mode <$> Page.levelConfig (Some (LevelInfo.id (LevelSelect.level c))) =
       Some (LevelInfo.mode (LevelSelect.level c))).
Proof.
  intros Hr Hs Hc. apply sections_of in Hr.
  apply list_elem_of_lookup in Hs as [i Hi].
  destruct (Forall2_lookup_r _ _ _ _ _ Hr Hi) as (w & Hw & Hw1 & Hcs). simpl in *. subst w.
  apply list_elem_of_lookup in Hc as [j Hj].
  destruct (Forall2_lookup_r _ _ _ _ _ Hcs Hj) as (level & Hlevel & <- & Hlink).
  assert (LevelSelect.level c ∈ LevelSelect.worlds ≫= WorldInfo.levels) as Hin.
  { apply list_elem_of_bind. exists world. split; by eapply list_elem_of_lookup_2. }
  pose proof (proj1 (Forall_forall _ _) levels_open _ Hin) as [Hloc Hcfg].
  rewrite Hlink. destruct (LevelSelect.unlocked c).
  - split; [split; [done|by eexists]|]. intros to [= <-]. by split.
  - split; [split; [by intros []|done]|]. by intros to.
Qed.

Lemma card_links_open_levels_witness :
  match LevelSelect.render (Player.initialPlayer "" 0) with
  | Ok ((world, c :: cs) :: ss) =>
      is_Some (LevelSelect.link c) ↔ LevelSelect.unlocked c = true
  | _ => False
  end.
Proof.
  assert (∃ world c cs ss,
            LevelSelect.render (Player.initialPlayer "" 0) = Ok ((world, c :: cs) :: ss))
    as (world & c & cs & ss & E) by (vm_compute; eauto 10).
  rewrite E.
  exact (proj1 (card_links_open_levels (Player.initialPlayer "" 0) _ world (c :: cs) c E
                  (list_elem_of_here _ _) (list_elem_of_here _ _))).
Defined.

(** ** Buttons *)

(** A button that is loading or disabled shows dots or its icon and does
    nothing when it is clicked; any other button runs its handler. *)
Theorem button_click (A : Type) (p : Button.Props) (theme : Theme.t) (onClick : A → A) (a : A) :
  let b := Button.render p theme in
  Button.click b onClick a =
    (if Button.loading p || default false (Button.disabled p) then a else onClick a) ∧
  (Button.leading b = Button.LoadingDots ↔ Button.loading p = true).
Proof.
  unfold Button.click, Button.render. cbn [Button.isDisabled Button.leading].
  destruct (Button.loading p), (Button.disabled p) as [[]|], (Button.icon p); by split.
Qed.

(** ** Dialogues *)

#[local] Open Scope list_scope.

Section modal.
Context {A : Type}.
Import Modal.
Implicit Types (p : Props A) (m : Modal.t A) (d : Dom.t A)
  (base : list (Dom.Listener A)) (l : Dom.Listener A).

(** The callback of a render is none of the listeners of the page. *)
Definition fresh base p : Prop := ident (onClose p) ∉ Dom.ident <$> base.

(** The document of a page with a dialogue whose last render had the props
    [p]: next to the listeners of the page there is the listener of the
    dialogue when it is open, and the page scrolls when it is closed. *)
Record installed base p m d : Prop := {
  inst_open : isOpen (effectProps m) = isOpen p;
  inst_ident : ident (onClose (effectProps m)) = ident (onClose p);
  inst_keydown :
    Dom.keydown d =
      base ++ (if isOpen p then [handleEscape (onClose (effectProps m))] else []);
  inst_overflow : Dom.overflow d = if isOpen p then "hidden" else "";
}.

Lemma filter_fresh base (n : nat) :
  n ∉ Dom.ident <$> base →
  List.filter (λ x, negb (bool_decide (Dom.ident x = n))) base = base.
Proof.
  intros Hn. apply List.forallb_filter_id, List.forallb_forall.
  intros x Hx%list_elem_of_In. apply negb_true_iff, bool_decide_eq_false.
  intros <-. apply Hn, list_elem_of_fmap. by exists x.
Qed.

Lemma removeEventListener_fresh base l o :
  Dom.ident l ∉ Dom.ident <$> base →
  Dom.removeEventListener l (Dom.mk base o) = Dom.mk base o.
Proof. intros Hl. unfold Dom.removeEventListener. simpl. by rewrite filter_fresh. Qed.

Lemma removeEventListener_last base l l' o :
  Dom.ident l ∉ Dom.ident <$> base → Dom.ident l' = Dom.ident l →
  Dom.removeEventListener l (Dom.mk (base ++ [l']) o) = Dom.mk base o.
Proof.
  intros Hl Hid. unfold Dom.removeEventListener. simpl.
  rewrite List.filter_app, filter_fresh by done. simpl.
  rewrite bool_decide_eq_true_2 by done. by rewrite app_nil_r.
Qed.

Lemma addEventListener_fresh base l o :
  Dom.ident l ∉ Dom.ident <$> base →
  Dom.addEventListener l (Dom.mk base o) = Dom.mk (base ++ [l]) o.
Proof. intros Hl. unfold Dom.addEventListener. simpl. by rewrite bool_decide_eq_false_2. Qed.

Lemma cleanup_installed base p m d :
  fresh base p → installed base p m d → cleanup (effectProps m) d = Dom.mk base "".
Proof.
  intros Hf [Ho Hi Hk Hv]. unfold cleanup, fresh in *. destruct d as [ks o]. simpl in *.
  subst ks. destruct (isOpen p).
  - rewrite removeEventListener_last; [done|simpl; by rewrite Hi|done].
  - rewrite app_nil_r, removeEventListener_fresh; [done|simpl; by rewrite Hi].
Qed.

Lemma effect_installed base p : fresh base p → installed base p (mk p) (effect p (Dom.mk base "")).
Proof.
  intros Hf. unfold effect. split; try done; destruct (isOpen p); try done.
  - by rewrite addEventListener_fresh.
  - simpl. by rewrite app_nil_r.
Qed.

Lemma update_installed base p' p m d :
  fresh base p' → fresh base p → installed base p' m d →
  installed base p (update p m d).1 (update p m d).2.
Proof.
  intros Hf' Hf Hi. unfold update. case_bool_decide as Hd.
  - destruct Hd as [Ho Hid]. destruct Hi as [Ho' Hid' Hk Hv]. simpl.
    split; [congruence|congruence| |]; rewrite Ho, Ho'; [exact Hk|exact Hv].
  - simpl. rewrite (cleanup_installed base p' m d) by done. by apply effect_installed.
Qed.

Lemma updates_installed base p0 ps m d :
  Forall (fresh base) (p0 :: ps) → installed base p0 m d →
  installed base (default p0 (last ps)) (updates ps (m, d)).1 (updates ps (m, d)).2.
Proof.
  revert p0 m d. induction ps as [|p ps IH]; intros p0 m d Hf Hi; [done|].
  apply Forall_cons in Hf as [Hf0 Hf]. pose proof Hf as [Hfp _]%Forall_cons.
  unfold updates. simpl. destruct (update p m d) as [m1 d1] eqn:E.
  pose proof (update_installed base p0 p m d Hf0 Hfp Hi) as H1. rewrite E in H1.
  specialize (IH p m1 d1 Hf H1). rewrite last_cons. by destruct (last ps).
Qed.

End modal.

(** C30: A dialogue listens to the keyboard exactly while it is open.  After
    the first render and any number of later ones, with whatever props, the
    document holds the listeners it had and, when the last render was one of
    an open dialogue, the listener of the dialogue; the page does not scroll
    exactly when the dialogue is open; and when the dialogue is taken away
    the document is as it was.  The callbacks of the renders are none of the
    listeners the document had, and the page scrolled at the start. *)
Theorem modal_listens_while_open (A : Type) (base : list (Dom.Listener A))
    (p0 : Modal.Props A) (ps : list (Modal.Props A)) :
  Forall (fresh base) (p0 :: ps) →
  let p := default p0 (last ps) in
  let md := Modal.updates ps (Modal.mount p0 (Dom.mk base "")) in
  Dom.ident <$> Dom.keydown md.2 =
    (Dom.ident <$> base) ++ (if Modal.isOpen p then [Modal.ident (Modal.onClose p)] else []) ∧
  Dom.overflow md.2 = (if Modal.isOpen p then "hidden" else "") ∧
  Modal.unmount md.1 md.2 = Dom.mk base "".
Proof.
  intros Hf. cbv zeta. pose proof Hf as [Hf0 _]%Forall_cons.
  pose proof (updates_installed base p0 ps _ _ Hf (effect_installed base p0 Hf0)) as Hi.
  assert (fresh base (default p0 (last ps))) as Hfp.
  { destruct (last ps) as [pl|] eqn:El; [|done].
    apply last_Some in El as [ps' ->]. apply Forall_cons in Hf as [_ Hf].
    by apply Forall_app in Hf as [_ [? _]%Forall_cons]. }
  unfold Modal.mount in *. revert Hi Hfp. generalize (default p0 (last ps)).
  intros p [Ho Hid Hk Hv] Hfp. split; [|split; [done|]].
  - rewrite Hk, fmap_app. f_equal. destruct (Modal.isOpen p); [|done]. simpl. by rewrite Hid.
  - by apply (cleanup_installed base p).
Qed.

Lemma modal_listens_while_open_witness :
  let cb (n : nat) := Modal.mkCallback n (λ open : bool, false) in
  let md := Modal.updates
              [Modal.props true (cb 1%nat) None; Modal.props true (cb 2%nat) None;
               Modal.props false (cb 3%nat) None]
              (Modal.mount (Modal.props false (cb 0%nat) None) (Dom.mk [] "")) in
  Dom.overflow md.2 = "" ∧ Modal.unmount md.1 md.2 = Dom.mk [] "".
Proof.
  intros cb md.
  exact (proj2 (modal_listens_while_open bool [] (Modal.props false (cb 0%nat) None)
    [Modal.props true (cb 1%nat) None; Modal.props true (cb 2%nat) None;
     Modal.props false (cb 3%nat) None]
    ltac:(repeat constructor; apply not_elem_of_nil))).
Defined.

(** A key on a page whose only listener is a dialogue: Escape runs
    [onClose] once when the dialogue is open, and nothing else does
    anything.  A click on the overlay or on the button closes an open
    dialogue, a click inside it does not. *)
Theorem modal_escape (A : Type) (p0 : Modal.Props A) (ps : list (Modal.Props A))
    (e : KeyboardEvent.t) (a : A) :
  let p := default p0 (last ps) in
  let md := Modal.updates ps (Modal.mount p0 (Dom.mk [] "")) in
  Modal.ident (Modal.onClose (Modal.effectProps md.1)) = Modal.ident (Modal.onClose p) ∧
  Dom.dispatch e md.2 a =
    (if Modal.isOpen p && bool_decide (KeyboardEvent.key e = "Escape")
     then Modal.call (Modal.onClose (Modal.effectProps md.1)) a else a) ∧
  Modal.click Modal.Overlay p a = (if Modal.isOpen p then Modal.call (Modal.onClose p) a else a) ∧
  Modal.click Modal.Container p a = a.
Proof.
  cbv zeta.
  assert (Forall (fresh (A := A) []) (p0 :: ps)) as Hf
    by (apply Forall_forall; intros ? _; apply not_elem_of_nil).
  pose proof Hf as [Hf0 _]%Forall_cons.
  pose proof (updates_installed [] p0 ps _ _ Hf (effect_installed [] p0 Hf0)) as Hi.
  unfold Modal.mount in *. revert Hi. generalize (default p0 (last ps)).
  intros p [Ho Hid Hk Hv].
  split; [done|]. split; [|split; unfold Modal.click; by destruct (Modal.isOpen p)].
  unfold Dom.dispatch. rewrite Hk. by destruct (Modal.isOpen p).
Qed.
