(* ===== verification/Styles.v ===== *)
(** * Styles: the style sheets of the components

    Every styled component of [components/] is a function from the props
    and the theme it reads to its style sheet: the declarations of its
    template in their order, a nested rule ([&:hover], [@keyframes]) as a
    block, and the text every interpolated function returns for the props.
    A component made from another ([styled(StatValue)]) starts with the
    sheet of that component.  White space within a value is one space; a
    number that is interpolated is kept as a number with its unit.
    [Module Css] has the sheets and the declaration that is in force for a
    property, which is the last one.

    The theorems: the colours a sheet names are colours; where two
    components state the same rule they agree; the sheet of a button and of
    a bar agree with the colours [Shell] and [Display] give them. *)

From Stdlib Require Import ZArith QArith Qround Lia String Ascii.
From stdpp Require Import base tactics option list strings.
From S2P Require Import Prelude Types Theme Display Shell.

#[local] Open Scope Z_scope.
#[local] Open Scope string_scope.
#[local] Open Scope list_scope.

(** ** Style sheets *)

Module Css.

(** An item of a sheet: a declaration, a declaration of a number with its
    unit, or the rule of a nested selector. *)
#[warnings="-register-all"]
Inductive item : Type :=
| decl (property value : string)
| number (property : string) (value : Q) (unit : string)
| block (selector : string) (body : list item).

Definition t : Type := list item.

(** The declarations of a property at the top of a sheet, in order. *)
Definition declared (property : string) (sheet : t) : list string :=
  omap (λ i, match i with
             | decl p v => if bool_decide (p = property) then Some v else None
             | _ => None
             end) sheet.

(** The value in force for a property: the last one declared. *)
Definition inForce (property : string) (sheet : t) : option string :=
  last (declared property sheet).

(** The body of the nested rules of a selector. *)
Definition nested (selector : string) (sheet : t) : t :=
  sheet ≫= λ i, match i with
                | block s body => if bool_decide (s = selector) then body else []
                | _ => []
                end.

(** The declarations of an item, those of its nested rules with them. *)
Fixpoint itemDeclarations (i : item) : list (string * string) :=
  match i with
  | decl p v => [(p, v)]
  | number _ _ _ => []
  | block _ body =>
      (fix go (l : list item) : list (string * string) :=
         match l with
         | [] => []
         | x :: r => itemDeclarations x ++ go r
         end) body
  end.

(** All the declarations of a sheet. *)
Definition declarations (sheet : t) : list (string * string) :=
  sheet ≫= itemDeclarations.

End Css.

Export Css (decl, number, block).

Declare Scope css_scope.
Notation "p :- v" := (Css.decl p v) (at level 65, no associativity) : css_scope.
#[global] Open Scope css_scope.

(** ** Colours *)

(** What follows a prefix. *)
Fixpoint after (pre s : string) : option string :=
  match pre, s with
  | EmptyString, _ => Some s
  | String a pre', String b s' => if bool_decide (a = b) then after pre' s' else None
  | String _ _, EmptyString => None
  end.

(** An integer from 0 to 255; a number from 0 to 1. *)
Definition isByte (q : Q) : bool :=
  Qle_bool 0 q && Qle_bool q 255 && Qeq_bool (inject_Z (Qfloor q)) q.

Definition isAlpha (q : Q) : bool := Qle_bool 0 q && Qle_bool q 1.

(** [rgba(r, g, b, a)] *)
Definition isRgba (v : string) : bool :=
  match after "rgba(" v with
  | Some rest =>
      match Router.split ")" rest with
      | [args; EmptyString] =>
          match (λ a, JsNumber.decimal (trim a)) <$> Router.split "," args with
          | [Some r; Some g; Some b; Some a] => isByte r && isByte g && isByte b && isAlpha a
          | _ => false
          end
      | _ => false
      end
  | None => false
  end.

(** The names of colours the sheets use. *)
Definition colourNames : list string := ["transparent"; "white"; "currentColor"].

Definition isColour (v : string) : bool :=
  isHexColor v || isRgba v || bool_decide (v ∈ colourNames).

Definition isGradient (v : string) : bool :=
  bool_decide (is_Some (after "linear-gradient(" v)).

(** What follows the first space. *)
Fixpoint dropWord (s : string) : option string :=
  match s with
  | EmptyString => None
  | String c r => if bool_decide (c = " "%char) then Some r else dropWord r
  end.

(** A border: a width, a style and a colour, or [none]. *)
Definition isBorder (v : string) : bool :=
  bool_decide (v = "none") ||
  match dropWord v ≫= dropWord with
  | Some c => isColour c
  | None => false
  end.

(** The properties whose value is a colour, and those whose value is a
    border. *)
Definition colourProperties : list string :=
  ["color"; "border-color"; "border-top-color"; "accent-color"].

Definition borderProperties : list string :=
  ["border"; "border-top"; "border-bottom"; "outline"].

(** Every declaration of a colour has a colour, every border a colour at
    its end, and every background a colour or a gradient. *)
Definition wellFormed (sheet : Css.t) : bool :=
  forallb (λ d : string * string,
    if bool_decide (d.1 ∈ colourProperties) then isColour d.2
    else if bool_decide (d.1 ∈ borderProperties) then isBorder d.2
    else if bool_decide (d.1 = "background") then isColour d.2 || isGradient d.2
    else true) (Css.declarations sheet).

Import Theme.

(** ** [components/common/Button.tsx] *)

Module ButtonStyle.

(** [StyledButton] *)
Definition StyledButton (variant : Button.Variant) (size : Button.Size) (fullWidth : bool) (theme : Theme.t)
    : Css.t :=
  [ "display" :- "inline-flex";
    "align-items" :- "center";
    "justify-content" :- "center";
    "gap" :- "0.5rem";
    "font-weight" :- "600";
    "border-radius" :- "0.5rem";
    "transition" :- "all 0.2s ease";
    "cursor" :- "pointer";
    "border" :- "2px solid transparent";
    "white-space" :- "nowrap" ] ++
  (match size with
   | Button.sm =>
         [ "padding" :- "0.375rem 0.75rem";
           "font-size" :- "0.875rem" ]
   | Button.lg =>
         [ "padding" :- "0.875rem 1.5rem";
           "font-size" :- "1.125rem" ]
   | Button.md =>
         [ "padding" :- "0.625rem 1.25rem";
           "font-size" :- "1rem" ]
   end) ++
  (match variant with
   | Button.primary =>
         [ "background" :- Shade.main (Colors.primary (colors theme));
           "color" :- "white";
           block "&:hover:not(:disabled)"
               [ "background" :- Shade.light (Colors.primary (colors theme));
                 "transform" :- "translateY(-1px)";
                 "box-shadow" :- "0 4px 12px rgba(79, 70, 229, 0.4)" ] ]
   | Button.secondary =>
         [ "background" :- Shade.main (Colors.secondary (colors theme));
           "color" :- "white";
           block "&:hover:not(:disabled)"
               [ "background" :- Shade.light (Colors.secondary (colors theme));
                 "transform" :- "translateY(-1px)" ] ]
   | Button.danger =>
         [ "background" :- Status.danger (Colors.status (colors theme));
           "color" :- "white";
           block "&:hover:not(:disabled)"
               [ "opacity" :- "0.9" ] ]
   | Button.outline =>
         [ "background" :- "transparent";
           "border-color" :- Shade.main (Colors.primary (colors theme));
           "color" :- Shade.light (Colors.primary (colors theme));
           block "&:hover:not(:disabled)"
               [ "background" :- "rgba(79, 70, 229, 0.1)" ] ]
   | Button.ghost =>
         [ "background" :- "transparent";
           "color" :- Text.secondary (Colors.text (colors theme));
           block "&:hover:not(:disabled)"
               [ "background" :- "rgba(148, 163, 184, 0.1)";
                 "color" :- Text.primary (Colors.text (colors theme)) ] ]
   end) ++
  (if fullWidth then
      [ "width" :- "100%" ] else []) ++
  [ block "&:disabled"
        [ "opacity" :- "0.5";
          "cursor" :- "not-allowed";
          "transform" :- "none" ];
    block "&:active:not(:disabled)"
        [ "transform" :- "translateY(0)" ];
    block "&:focus-visible"
        [ "outline" :- "2px solid " +:+ Shade.light (Colors.primary (colors theme));
          "outline-offset" :- "2px" ] ].

(** [LoadingDots]: [styled.span] *)
Definition LoadingDots : Css.t :=
  [ "display" :- "inline-flex";
    "gap" :- "2px";
    block "&::before, &::after"
        [ "content" :- "''";
          "width" :- "6px";
          "height" :- "6px";
          "background" :- "currentColor";
          "border-radius" :- "50%";
          "animation" :- "pulse 1s infinite" ];
    block "&::after"
        [ "animation-delay" :- "0.3s" ];
    block "@keyframes pulse"
        [ block "0%, 100%"
              [ "opacity" :- "1" ];
          block "50%"
              [ "opacity" :- "0.4" ] ] ].

(** The sheets of the file, for every value of the props that have finitely
    many. *)
Definition sheets (theme : Theme.t) : list Css.t :=
  [ StyledButton Button.primary Button.sm true theme;
    StyledButton Button.primary Button.sm false theme;
    StyledButton Button.primary Button.md true theme;
    StyledButton Button.primary Button.md false theme;
    StyledButton Button.primary Button.lg true theme;
    StyledButton Button.primary Button.lg false theme;
    StyledButton Button.secondary Button.sm true theme;
    StyledButton Button.secondary Button.sm false theme;
    StyledButton Button.secondary Button.md true theme;
    StyledButton Button.secondary Button.md false theme;
    StyledButton Button.secondary Button.lg true theme;
    StyledButton Button.secondary Button.lg false theme;
    StyledButton Button.danger Button.sm true theme;
    StyledButton Button.danger Button.sm false theme;
    StyledButton Button.danger Button.md true theme;
    StyledButton Button.danger Button.md false theme;
    StyledButton Button.danger Button.lg true theme;
    StyledButton Button.danger Button.lg false theme;
    StyledButton Button.ghost Button.sm true theme;
    StyledButton Button.ghost Button.sm false theme;
    StyledButton Button.ghost Button.md true theme;
    StyledButton Button.ghost Button.md false theme;
    StyledButton Button.ghost Button.lg true theme;
    StyledButton Button.ghost Button.lg false theme;
    StyledButton Button.outline Button.sm true theme;
    StyledButton Button.outline Button.sm false theme;
    StyledButton Button.outline Button.md true theme;
    StyledButton Button.outline Button.md false theme;
    StyledButton Button.outline Button.lg true theme;
    StyledButton Button.outline Button.lg false theme; LoadingDots ].

End ButtonStyle.

(** ** [components/common/LoadingSpinner.tsx] *)

Module LoadingSpinnerStyle.

(** [spin]: [keyframes] *)
Definition spin : Css.t :=
  [ block "0%"
        [ "transform" :- "rotate(0deg)" ];
    block "100%"
        [ "transform" :- "rotate(360deg)" ] ].

(** [SpinnerContainer]: [styled.div<{ $size: 'sm' | 'md' | 'lg' }>] *)
Definition SpinnerContainer (size : LoadingSpinner.Size) : Css.t :=
  [ "display" :- "flex";
    "align-items" :- "center";
    "justify-content" :- "center";
    "padding" :- "2rem" ] ++
  (match size with
   | LoadingSpinner.sm =>
         [ "--spinner-size" :- "24px";
           "--border-width" :- "2px" ]
   | LoadingSpinner.lg =>
         [ "--spinner-size" :- "64px";
           "--border-width" :- "5px" ]
   | LoadingSpinner.md =>
         [ "--spinner-size" :- "40px";
           "--border-width" :- "3px" ]
   end).

(** [Spinner]: [styled.div<{ $color: string }>] *)
Definition Spinner (color : string) : Css.t :=
  [ "width" :- "var(--spinner-size)";
    "height" :- "var(--spinner-size)";
    "border" :- "var(--border-width) solid rgba(148, 163, 184, 0.2)";
    "border-top-color" :- color;
    "border-radius" :- "50%";
    "animation" :- "spin" +:+ " 0.8s linear infinite" ].

(** The sheets of the file, for every value of the props that have finitely
    many. *)
Definition sheets (color : string) (theme : Theme.t) : list Css.t :=
  [ spin; SpinnerContainer LoadingSpinner.sm; SpinnerContainer LoadingSpinner.md;
    SpinnerContainer LoadingSpinner.lg; Spinner color ].

End LoadingSpinnerStyle.

(** ** [components/common/Modal.tsx] *)

Module ModalStyle.

(** [Overlay]: [styled(motion.div)] *)
Definition Overlay : Css.t :=
  [ "position" :- "fixed";
    "inset" :- "0";
    "background" :- "rgba(0, 0, 0, 0.7)";
    "backdrop-filter" :- "blur(4px)";
    "display" :- "flex";
    "align-items" :- "center";
    "justify-content" :- "center";
    "z-index" :- "1000";
    "padding" :- "1rem" ].

(** [ModalContainer]: [styled(motion.div)<{ $size: 'sm' | 'md' | 'lg' }>] *)
Definition ModalContainer (size : Modal.Size) (theme : Theme.t) : Css.t :=
  [ "background" :- Background.secondary (Colors.background (colors theme));
    "border-radius" :- "1rem";
    "border" :- "1px solid rgba(148, 163, 184, 0.1)";
    "box-shadow" :- "0 25px 50px -12px rgba(0, 0, 0, 0.5)";
    "max-height" :- "90vh";
    "overflow" :- "hidden";
    "display" :- "flex";
    "flex-direction" :- "column" ] ++
  (match size with
   | Modal.sm =>
         [ "width" :- "100%";
           "max-width" :- "360px" ]
   | Modal.lg =>
         [ "width" :- "100%";
           "max-width" :- "800px" ]
   | Modal.md =>
         [ "width" :- "100%";
           "max-width" :- "500px" ]
   end).

(** [ModalHeader]: [styled.div] *)
Definition ModalHeader : Css.t :=
  [ "display" :- "flex";
    "align-items" :- "center";
    "justify-content" :- "space-between";
    "padding" :- "1.25rem 1.5rem";
    "border-bottom" :- "1px solid rgba(148, 163, 184, 0.1)" ].

(** [ModalTitle]: [styled.h2] *)
Definition ModalTitle (theme : Theme.t) : Css.t :=
  [ "font-size" :- "1.25rem";
    "font-weight" :- "700";
    "color" :- Text.primary (Colors.text (colors theme));
    "margin" :- "0" ].

(** [CloseButton]: [styled.button] *)
Definition CloseButton (theme : Theme.t) : Css.t :=
  [ "display" :- "flex";
    "align-items" :- "center";
    "justify-content" :- "center";
    "width" :- "32px";
    "height" :- "32px";
    "background" :- "transparent";
    "border-radius" :- "0.5rem";
    "color" :- Text.secondary (Colors.text (colors theme));
    "font-size" :- "1.25rem";
    "transition" :- "all 0.2s ease";
    block "&:hover"
        [ "background" :- "rgba(148, 163, 184, 0.1)";
          "color" :- Text.primary (Colors.text (colors theme)) ] ].

(** [ModalBody]: [styled.div] *)
Definition ModalBody : Css.t :=
  [ "padding" :- "1.5rem";
    "overflow-y" :- "auto";
    "flex" :- "1" ].

(** The sheets of the file, for every value of the props that have finitely
    many. *)
Definition sheets (theme : Theme.t) : list Css.t :=
  [ Overlay; ModalContainer Modal.sm theme; ModalContainer Modal.md theme;
    ModalContainer Modal.lg theme; ModalHeader; ModalTitle theme; CloseButton theme;
    ModalBody ].

End ModalStyle.

(** ** [components/common/ProgressBar.tsx] *)

Module ProgressBarStyle.

(** [ProgressContainer]: [styled.div<{ $size: 'sm' | 'md' | 'lg' }>] *)
Definition ProgressContainer (size : ProgressBar.Size) : Css.t :=
  [ "display" :- "flex";
    "flex-direction" :- "column";
    "gap" :- "0.25rem";
    "width" :- "100%" ] ++
  (match size with
   | ProgressBar.sm =>
         [ "--bar-height" :- "6px" ]
   | ProgressBar.lg =>
         [ "--bar-height" :- "16px" ]
   | ProgressBar.md =>
         [ "--bar-height" :- "10px" ]
   end).

(** [LabelContainer]: [styled.div] *)
Definition LabelContainer : Css.t :=
  [ "display" :- "flex";
    "justify-content" :- "space-between";
    "align-items" :- "center";
    "font-size" :- "0.875rem" ].

(** [Label]: [styled.span] *)
Definition Label (theme : Theme.t) : Css.t :=
  [ "color" :- Text.secondary (Colors.text (colors theme));
    "font-weight" :- "500" ].

(** [ValueLabel]: [styled.span] *)
Definition ValueLabel (theme : Theme.t) : Css.t :=
  [ "color" :- Text.primary (Colors.text (colors theme));
    "font-weight" :- "600" ].

(** [Track]: [styled.div] *)
Definition Track : Css.t :=
  [ "height" :- "var(--bar-height)";
    "background" :- "rgba(148, 163, 184, 0.2)";
    "border-radius" :- "9999px";
    "overflow" :- "hidden";
    "position" :- "relative" ].

(** [Fill] *)
Definition Fill (percentage : Q) (variant : ProgressBar.Variant) (animated : bool) (theme : Theme.t)
    : Css.t :=
  [ "height" :- "100%";
    number "width" (Math_min 100 (Math_max 0 percentage)) "%";
    "border-radius" :- "9999px";
    "transition" :- "width 0.3s ease";
    "position" :- "relative" ] ++
  (match variant with
   | ProgressBar.health =>
         [ "background" :- "linear-gradient(90deg, #ef4444, #f87171)" ]
   | ProgressBar.mana =>
         [ "background" :- "linear-gradient(90deg, #3b82f6, #60a5fa)" ]
   | ProgressBar.exp =>
         [ "background" :- "linear-gradient(90deg, #a855f7, #c084fc)" ]
   | ProgressBar.combo =>
         [ "background" :- "linear-gradient(90deg, #f97316, #fb923c)" ]
   | ProgressBar.timer =>
         [ "background" :- "linear-gradient(90deg, #10b981, #34d399)" ]
   | ProgressBar.default_ =>
         [ "background" :-
               "linear-gradient(90deg, " +:+ Shade.main (Colors.primary (colors theme)) +:+
               ", " +:+ Shade.light (Colors.primary (colors theme)) +:+ ")" ]
   end) ++
  (if animated then
      [ block "&::after"
            [ "content" :- "''";
              "position" :- "absolute";
              "inset" :- "0";
              "background" :- "linear-gradient( 90deg, transparent, rgba(255, 255, 255, 0.3), transparent )";
              "animation" :- "shimmer 1.5s infinite" ];
        block "@keyframes shimmer"
            [ block "0%"
                  [ "transform" :- "translateX(-100%)" ];
              block "100%"
                  [ "transform" :- "translateX(100%)" ] ] ] else []).

(** The sheets of the file, for every value of the props that have finitely
    many. *)
Definition sheets (percentage : Q) (theme : Theme.t) : list Css.t :=
  [ ProgressContainer ProgressBar.sm; ProgressContainer ProgressBar.md;
    ProgressContainer ProgressBar.lg; LabelContainer; Label theme; ValueLabel theme;
    Track; Fill percentage ProgressBar.default_ true theme;
    Fill percentage ProgressBar.default_ false theme;
    Fill percentage ProgressBar.health true theme;
    Fill percentage ProgressBar.health false theme;
    Fill percentage ProgressBar.mana true theme;
    Fill percentage ProgressBar.mana false theme;
    Fill percentage ProgressBar.exp true theme;
    Fill percentage ProgressBar.exp false theme;
    Fill percentage ProgressBar.combo true theme;
    Fill percentage ProgressBar.combo false theme;
    Fill percentage ProgressBar.timer true theme;
    Fill percentage ProgressBar.timer false theme ].

End ProgressBarStyle.

(** ** [components/game/GameCanvas.tsx] *)

Module GameCanvasStyle.

(** [CanvasContainer]: [styled.div] *)
Definition CanvasContainer : Css.t :=
  [ "flex" :- "1";
    "position" :- "relative";
    "overflow" :- "hidden" ].

(** [Canvas]: [styled.canvas] *)
Definition Canvas : Css.t :=
  [ "width" :- "100%";
    "height" :- "100%";
    "display" :- "block" ].

(** The sheets of the file, for every value of the props that have finitely
    many. *)
Definition sheets (theme : Theme.t) : list Css.t :=
  [ CanvasContainer; Canvas ].

End GameCanvasStyle.

(** ** [components/game/GameHUD.tsx] *)

Module GameHUDStyle.

(** [HUDContainer]: [styled.div] *)
Definition HUDContainer : Css.t :=
  [ "display" :- "grid";
    "grid-template-columns" :- "repeat(auto-fit, minmax(150px, 1fr))";
    "gap" :- "1rem";
    "margin-bottom" :- "1rem" ].

(** [StatCard]: [styled.div] *)
Definition StatCard : Css.t :=
  [ "background" :- "rgba(30, 41, 59, 0.8)";
    "border" :- "1px solid rgba(148, 163, 184, 0.1)";
    "border-radius" :- "0.75rem";
    "padding" :- "1rem";
    "display" :- "flex";
    "flex-direction" :- "column";
    "gap" :- "0.5rem" ].

(** [StatHeader]: [styled.div] *)
Definition StatHeader : Css.t :=
  [ "display" :- "flex";
    "align-items" :- "center";
    "gap" :- "0.5rem" ].

(** [StatIcon]: [styled.span] *)
Definition StatIcon : Css.t :=
  [ "font-size" :- "1.25rem" ].

(** [StatLabel]: [styled.span] *)
Definition StatLabel (theme : Theme.t) : Css.t :=
  [ "font-size" :- "0.75rem";
    "color" :- Text.secondary (Colors.text (colors theme));
    "text-transform" :- "uppercase";
    "letter-spacing" :- "0.05em" ].

(** [StatValue]: [styled.div] *)
Definition StatValue (theme : Theme.t) : Css.t :=
  [ "font-size" :- "1.5rem";
    "font-weight" :- "800";
    "color" :- Text.primary (Colors.text (colors theme)) ].

(** [ComboValue]: [styled(StatValue)<{ $active: boolean }>] *)
Definition ComboValue (active : bool) (theme : Theme.t) : Css.t :=
  StatValue theme ++
  [ "color" :-
        (if active then Game.combo (Colors.game (colors theme))
         else Text.muted (Colors.text (colors theme)));
    "transition" :- "all 0.2s ease" ] ++
  (if active then
      [ "text-shadow" :- "0 0 20px rgba(249, 115, 22, 0.5)" ] else []).

(** [AccuracyValue]: [styled(StatValue)] *)
Definition AccuracyValue (children : string) (theme : Theme.t) : Css.t :=
  StatValue theme ++
  [ "color" :- GameHUD.accuracyColor children ].

(** The sheets of the file, for every value of the props that have finitely
    many. *)
Definition sheets (children : string) (theme : Theme.t) : list Css.t :=
  [ HUDContainer; StatCard; StatHeader; StatIcon; StatLabel theme; StatValue theme;
    ComboValue true theme; ComboValue false theme; AccuracyValue children theme ].

End GameHUDStyle.

(** ** [components/game/TypingInput.tsx] *)

Module TypingInputStyle.

(** [InputContainer]: [styled.div] *)
Definition InputContainer : Css.t :=
  [ "position" :- "absolute";
    "bottom" :- "0";
    "left" :- "0";
    "right" :- "0";
    "padding" :- "1rem";
    "background" :- "linear-gradient(to top, rgba(15, 23, 42, 0.95), transparent)" ].

(** [InputWrapper]: [styled.div] *)
Definition InputWrapper : Css.t :=
  [ "max-width" :- "600px";
    "margin" :- "0 auto" ].

(** [HiddenInput]: [styled.input] *)
Definition HiddenInput : Css.t :=
  [ "position" :- "absolute";
    "opacity" :- "0";
    "pointer-events" :- "none" ].

(** [DisplayArea]: [styled.div] *)
Definition DisplayArea (theme : Theme.t) : Css.t :=
  [ "background" :- "rgba(30, 41, 59, 0.9)";
    "border" :- "2px solid rgba(79, 70, 229, 0.5)";
    "border-radius" :- "0.75rem";
    "padding" :- "1rem 1.5rem";
    "display" :- "flex";
    "align-items" :- "center";
    "gap" :- "1rem";
    "cursor" :- "text";
    "transition" :- "border-color 0.2s ease";
    block "&:focus-within"
        [ "border-color" :- Shade.light (Colors.primary (colors theme));
          "box-shadow" :- "0 0 20px rgba(79, 70, 229, 0.3)" ] ].

(** [PromptText]: [styled.span] *)
Definition PromptText (theme : Theme.t) : Css.t :=
  [ "color" :- Text.secondary (Colors.text (colors theme));
    "font-size" :- "0.875rem" ].

(** [TypedText]: [styled.span] *)
Definition TypedText : Css.t :=
  [ "font-family" :- "'Fira Code', monospace";
    "font-size" :- "1.5rem";
    "color" :- "#4ade80";
    "letter-spacing" :- "2px" ].

(** [Cursor]: [styled.span] *)
Definition Cursor (theme : Theme.t) : Css.t :=
  [ "display" :- "inline-block";
    "width" :- "2px";
    "height" :- "1.5rem";
    "background" :- Shade.light (Colors.primary (colors theme));
    "animation" :- "blink 1s infinite";
    "margin-left" :- "2px";
    block "@keyframes blink"
        [ block "0%, 100%"
              [ "opacity" :- "1" ];
          block "50%"
              [ "opacity" :- "0" ] ] ].

(** [KeyboardHint]: [styled.div] *)
Definition KeyboardHint (theme : Theme.t) : Css.t :=
  [ "margin-top" :- "0.5rem";
    "text-align" :- "center";
    "font-size" :- "0.75rem";
    "color" :- Text.muted (Colors.text (colors theme)) ].

(** The sheets of the file, for every value of the props that have finitely
    many. *)
Definition sheets (theme : Theme.t) : list Css.t :=
  [ InputContainer; InputWrapper; HiddenInput; DisplayArea theme; PromptText theme;
    TypedText; Cursor theme; KeyboardHint theme ].

End TypingInputStyle.

(** ** [components/layout/Header.tsx] *)

Module HeaderStyle.

(** [HeaderContainer]: [styled.header] *)
Definition HeaderContainer : Css.t :=
  [ "display" :- "flex";
    "align-items" :- "center";
    "justify-content" :- "space-between";
    "padding" :- "1rem 2rem";
    "background" :- "rgba(30, 41, 59, 0.8)";
    "backdrop-filter" :- "blur(10px)";
    "border-bottom" :- "1px solid rgba(148, 163, 184, 0.1)";
    "position" :- "sticky";
    "top" :- "0";
    "z-index" :- "100" ].

(** [Logo]: [styled(Link)] *)
Definition Logo : Css.t :=
  [ "font-size" :- "1.5rem";
    "font-weight" :- "800";
    "background" :- "linear-gradient(135deg, #818cf8, #f472b6)";
    "-webkit-background-clip" :- "text";
    "-webkit-text-fill-color" :- "transparent";
    "background-clip" :- "text";
    "text-decoration" :- "none";
    block "&:hover"
        [ "opacity" :- "0.9" ] ].

(** [Nav]: [styled.nav] *)
Definition Nav : Css.t :=
  [ "display" :- "flex";
    "align-items" :- "center";
    "gap" :- "1.5rem" ].

(** [NavLink]: [styled(Link)<{ $active?: boolean }>] *)
Definition NavLink (active : bool) : Css.t :=
  [ "color" :- (if active then "#818cf8" else "#94a3b8");
    "text-decoration" :- "none";
    "font-weight" :- "500";
    "transition" :- "color 0.2s ease";
    "position" :- "relative";
    block "&:hover"
        [ "color" :- "#818cf8" ] ] ++
  (if active then
      [ block "&::after"
            [ "content" :- "''";
              "position" :- "absolute";
              "bottom" :- "-4px";
              "left" :- "0";
              "right" :- "0";
              "height" :- "2px";
              "background" :- "#818cf8";
              "border-radius" :- "1px" ] ] else []).

(** [PlayerInfo]: [styled.div] *)
Definition PlayerInfo : Css.t :=
  [ "display" :- "flex";
    "align-items" :- "center";
    "gap" :- "1rem" ].

(** [PlayerStat]: [styled.div] *)
Definition PlayerStat : Css.t :=
  [ "display" :- "flex";
    "align-items" :- "center";
    "gap" :- "0.25rem";
    "font-size" :- "0.875rem";
    "color" :- "#94a3b8" ].

(** [StatIcon]: [styled.span] *)
Definition StatIcon : Css.t :=
  [ "font-size" :- "1rem" ].

(** [PlayerLevel]: [styled.div] *)
Definition PlayerLevel : Css.t :=
  [ "display" :- "flex";
    "align-items" :- "center";
    "gap" :- "0.5rem";
    "padding" :- "0.25rem 0.75rem";
    "background" :- "rgba(79, 70, 229, 0.2)";
    "border-radius" :- "9999px";
    "font-size" :- "0.875rem";
    "color" :- "#818cf8";
    "font-weight" :- "600" ].

(** [PlayerName]: [styled.span] *)
Definition PlayerName : Css.t :=
  [ "color" :- "#f8fafc";
    "font-weight" :- "500" ].

(** The sheets of the file, for every value of the props that have finitely
    many. *)
Definition sheets (theme : Theme.t) : list Css.t :=
  [ HeaderContainer; Logo; Nav; NavLink true; NavLink false; PlayerInfo; PlayerStat;
    StatIcon; PlayerLevel; PlayerName ].

End HeaderStyle.

(** ** [components/layout/Layout.tsx] *)

Module LayoutStyle.

(** [LayoutContainer]: [styled.div] *)
Definition LayoutContainer : Css.t :=
  [ "display" :- "flex";
    "flex-direction" :- "column";
    "min-height" :- "100vh";
    "background" :- "linear-gradient(135deg, #0f172a 0%, #1e1b4b 50%, #0f172a 100%)" ].

(** [MainContent]: [styled.main] *)
Definition MainContent : Css.t :=
  [ "flex" :- "1";
    "display" :- "flex";
    "flex-direction" :- "column";
    "padding" :- "1rem";
    block "@media (min-width: 768px)"
        [ "padding" :- "2rem" ] ].

(** The sheets of the file, for every value of the props that have finitely
    many. *)
Definition sheets (theme : Theme.t) : list Css.t :=
  [ LayoutContainer; MainContent ].

End LayoutStyle.

(** ** [components/level/LevelResult.tsx] *)

Module LevelResultStyle.

(** [Overlay]: [styled(motion.div)] *)
Definition Overlay : Css.t :=
  [ "position" :- "fixed";
    "inset" :- "0";
    "background" :- "rgba(0, 0, 0, 0.9)";
    "display" :- "flex";
    "align-items" :- "center";
    "justify-content" :- "center";
    "z-index" :- "1000";
    "padding" :- "1rem" ].

(** [ResultCard]: [styled(motion.div)] *)
Definition ResultCard (className : string) (theme : Theme.t) : Css.t :=
  [ "background" :- Background.secondary (Colors.background (colors theme));
    "border" :-
        "2px solid " +:+ (if bool_decide (className = "victory")
         then Shade.main (Colors.secondary (colors theme))
         else Status.danger (Colors.status (colors theme)));
    "border-radius" :- "1.5rem";
    "padding" :- "2rem";
    "max-width" :- "500px";
    "width" :- "100%";
    "text-align" :- "center" ].

(** [Title]: [styled.h2<{ $victory: boolean }>] *)
Definition Title (victory : bool) (theme : Theme.t) : Css.t :=
  [ "font-size" :- "2.5rem";
    "font-weight" :- "800";
    "margin-bottom" :- "0.5rem";
    "color" :-
        (if victory then Shade.main (Colors.secondary (colors theme))
         else Status.danger (Colors.status (colors theme))) ].

(** [Subtitle]: [styled.p] *)
Definition Subtitle (theme : Theme.t) : Css.t :=
  [ "font-size" :- "1.125rem";
    "color" :- Text.secondary (Colors.text (colors theme));
    "margin-bottom" :- "1.5rem" ].

(** [StatsGrid]: [styled.div] *)
Definition StatsGrid : Css.t :=
  [ "display" :- "grid";
    "grid-template-columns" :- "repeat(2, 1fr)";
    "gap" :- "1rem";
    "margin-bottom" :- "2rem" ].

(** [StatItem]: [styled.div] *)
Definition StatItem : Css.t :=
  [ "background" :- "rgba(15, 23, 42, 0.5)";
    "border-radius" :- "0.75rem";
    "padding" :- "1rem" ].

(** [StatValue]: [styled.div] *)
Definition StatValue (theme : Theme.t) : Css.t :=
  [ "font-size" :- "1.75rem";
    "font-weight" :- "800";
    "color" :- Shade.light (Colors.primary (colors theme)) ].

(** [StatLabel]: [styled.div] *)
Definition StatLabel (theme : Theme.t) : Css.t :=
  [ "font-size" :- "0.875rem";
    "color" :- Text.secondary (Colors.text (colors theme));
    "margin-top" :- "0.25rem" ].

(** [StarRating]: [styled.div] *)
Definition StarRating : Css.t :=
  [ "font-size" :- "3rem";
    "margin-bottom" :- "1.5rem";
    "display" :- "flex";
    "justify-content" :- "center";
    "gap" :- "0.5rem" ].

(** [ButtonGroup]: [styled.div] *)
Definition ButtonGroup : Css.t :=
  [ "display" :- "flex";
    "gap" :- "1rem";
    "justify-content" :- "center" ].

(** The sheets of the file, for every value of the props that have finitely
    many. *)
Definition sheets (className : string) (theme : Theme.t) : list Css.t :=
  [ Overlay; ResultCard className theme; Title true theme; Title false theme;
    Subtitle theme; StatsGrid; StatItem; StatValue theme; StatLabel theme; StarRating;
    ButtonGroup ].

End LevelResultStyle.

(** ** All the sheets of the components *)

Definition sheets (color children className : string) (percentage : Q) (theme : Theme.t)
    : list Css.t :=
  ButtonStyle.sheets theme ++ LoadingSpinnerStyle.sheets color theme ++
  ModalStyle.sheets theme ++ ProgressBarStyle.sheets percentage theme ++
  GameCanvasStyle.sheets theme ++ GameHUDStyle.sheets children theme ++
  TypingInputStyle.sheets theme ++ HeaderStyle.sheets theme ++ LayoutStyle.sheets theme ++
  LevelResultStyle.sheets className theme.

(** * Lemmas *)

Section css.
Implicit Types (sheet : Css.t) (p v : string).

Lemma declared_app p sheet sheet' :
  Css.declared p (sheet ++ sheet') = Css.declared p sheet ++ Css.declared p sheet'.
Proof. apply omap_app. Qed.

(** In a sheet made from another, what the second part declares is in
    force, and what it does not declare is as in the first. *)
Lemma Css_inForce_app p sheet sheet' :
  Css.inForce p (sheet ++ sheet') =
    match Css.inForce p sheet' with
    | Some v => Some v
    | None => Css.inForce p sheet
    end.
Proof.
  unfold Css.inForce. rewrite declared_app.
  destruct (Css.declared p sheet') as [|v l] using rev_ind; [by rewrite app_nil_r|].
  by rewrite app_assoc, !last_snoc.
Qed.

Lemma wellFormed_Forall (sheets : list Css.t) :
  forallb wellFormed sheets = true → Forall (λ sheet, wellFormed sheet = true) sheets.
Proof.
  intros H. apply Forall_forall. intros sheet Hin.
  rewrite forallb_forall in H. by apply H, list_elem_of_In.
Qed.

(** The colour of the accuracy is one of three. *)
Lemma accuracyColor_cases children :
  GameHUD.accuracyColor children ∈ ["#4ade80"; "#fbbf24"; "#f87171"].
Proof. unfold GameHUD.accuracyColor. repeat case_match; rewrite !elem_of_cons; auto. Qed.

(** The sheets of a file without props of an infinite type are checked by
    evaluation. *)
Lemma button_sheets_wellFormed :
  Forall (λ sheet, wellFormed sheet = true) (ButtonStyle.sheets Theme.theme).
Proof. apply wellFormed_Forall. vm_compute. reflexivity. Qed.

Lemma modal_sheets_wellFormed :
  Forall (λ sheet, wellFormed sheet = true) (ModalStyle.sheets Theme.theme).
Proof. apply wellFormed_Forall. vm_compute. reflexivity. Qed.

Lemma bar_sheets_wellFormed (percentage : Q) :
  Forall (λ sheet, wellFormed sheet = true) (ProgressBarStyle.sheets percentage Theme.theme).
Proof. apply wellFormed_Forall. vm_compute. reflexivity. Qed.

Lemma plain_sheets_wellFormed :
  Forall (λ sheet, wellFormed sheet = true)
    (GameCanvasStyle.sheets Theme.theme ++ TypingInputStyle.sheets Theme.theme ++
     HeaderStyle.sheets Theme.theme ++ LayoutStyle.sheets Theme.theme).
Proof. apply wellFormed_Forall. vm_compute. reflexivity. Qed.

Lemma spinner_sheets_wellFormed color :
  isColour color = true →
  Forall (λ sheet, wellFormed sheet = true) (LoadingSpinnerStyle.sheets color Theme.theme).
Proof.
  intros Hc. unfold LoadingSpinnerStyle.sheets. rewrite !Forall_cons.
  split_and!; try reflexivity; [|done]. unfold wellFormed. simpl. by rewrite Hc.
Qed.

Lemma hud_sheets_wellFormed children :
  Forall (λ sheet, wellFormed sheet = true) (GameHUDStyle.sheets children Theme.theme).
Proof.
  unfold GameHUDStyle.sheets. rewrite !Forall_cons. split_and!; try reflexivity; [|done].
  pose proof (accuracyColor_cases children) as H.
  unfold GameHUDStyle.AccuracyValue. revert H. generalize (GameHUD.accuracyColor children).
  intros c Hc. rewrite !elem_of_cons in Hc. by destruct Hc as [->|[->|[->|?%elem_of_nil]]].
Qed.

Lemma result_sheets_wellFormed className :
  Forall (λ sheet, wellFormed sheet = true) (LevelResultStyle.sheets className Theme.theme).
Proof.
  unfold LevelResultStyle.sheets. rewrite !Forall_cons. split_and!; try reflexivity; [|done].
  unfold LevelResultStyle.ResultCard. by case_bool_decide.
Qed.

End css.


(** * Theorems *)

(** Every colour of every sheet of the components is a colour, every border
    ends in one and every background is a colour or a gradient, under the
    theme of the application: for every value of the props, given that the
    colour of the spinner is a colour. *)
Theorem component_sheets_wellFormed (color children className : string) (percentage : Q) :
  isColour color = true →
  Forall (λ sheet, wellFormed sheet = true)
    (sheets color children className percentage Theme.theme).
Proof.
  intros Hc. unfold sheets. pose proof plain_sheets_wellFormed as Hp.
  rewrite !Forall_app in *.
  split_and!; auto using button_sheets_wellFormed, modal_sheets_wellFormed,
    bar_sheets_wellFormed, spinner_sheets_wellFormed, hud_sheets_wellFormed,
    result_sheets_wellFormed; apply Hp.
Qed.

Lemma component_sheets_wellFormed_witness :
  Forall (λ sheet, wellFormed sheet = true) (sheets "#818cf8" "97%" "victory" 50 Theme.theme).
Proof. by apply component_sheets_wellFormed. Defined.

(** The checks accept the colours of the sheets and no others. *)
Example wellFormed_samples :
  isColour "#4ade80" = true ∧ isColour "rgba(148, 163, 184, 0.1)" = true ∧
  isColour "#4ade8" = false ∧ isColour "rgba(148, 263, 184, 0.1)" = false ∧
  isColour "rgba(148, 163, 184)" = false ∧ isColour "undefined" = false ∧
  isBorder "1px solid rgba(148, 163, 184, 0.1)" = true ∧ isBorder "1px solid" = false ∧
  wellFormed [ "color" :- "red"; block "&:hover" [ "color" :- "#4ade80" ] ] = false ∧
  wellFormed [ "color" :- "white"; block "&:hover" [ "color" :- "#4ade80" ] ] = true.
Proof. by vm_compute. Qed.

(** The sheet of a button has the padding, the size of the text and the
    colours [Button.render] gives the button, and its full width. *)
Theorem button_sheet_agrees (p : Button.Props) (theme : Theme.t) :
  let sheet :=
    ButtonStyle.StyledButton (Button.variant p) (Button.size p) (Button.fullWidth p) theme in
  let b := Button.render p theme in
  Css.inForce "padding" sheet = Some (Button.padding b) ∧
  Css.inForce "font-size" sheet = Some (Button.fontSize b) ∧
  Css.inForce "background" sheet = Some (Button.background (Button.colours b)) ∧
  Css.inForce "color" sheet = Some (Button.color (Button.colours b)) ∧
  Css.inForce "border" sheet = Some "2px solid transparent" ∧
  default "transparent" (Css.inForce "border-color" sheet)
    = Button.borderColor (Button.colours b) ∧
  Css.inForce "width" sheet = (if Button.wide b then Some "100%" else None).
Proof. destruct p as [[] [] [] ? ? ? ?]; by split_and!. Qed.

(** The sheets of a bar have the height, the width and the background
    [ProgressBar.render] gives it. *)
Theorem bar_sheet_agrees (p : ProgressBar.Props) (theme : Theme.t) :
  let bar := ProgressBar.render p in
  let fill :=
    ProgressBarStyle.Fill (ProgressBar.fill bar) (ProgressBar.fillVariant bar)
      (ProgressBar.fillAnimated bar) theme in
  Css.inForce "--bar-height" (ProgressBarStyle.ProgressContainer (ProgressBar.size p))
    = Some (ProgressBar.height bar) ∧
  Css.number "width" (ProgressBar.width (ProgressBar.fill bar)) "%" ∈ fill ∧
  Css.inForce "background" fill
    = Some (ProgressBar.background (ProgressBar.fillVariant bar) theme) ∧
  (Css.nested "&::after" fill ≠ [] ↔ ProgressBar.fillAnimated bar = true).
Proof.
  destruct p as [value max variant showLabel label size animated]. simpl.
  split_and!; [by destruct size|
    unfold ProgressBarStyle.Fill; rewrite elem_of_app, !elem_of_cons; auto|
    by destruct variant, animated|by destruct variant, animated].
Qed.

(** The sheet of the spinner has the dimensions and the colour
    [LoadingSpinner.render] gives it. *)
Theorem spinner_sheet_agrees (p : LoadingSpinner.Props) :
  let s := LoadingSpinner.render p in
  let container := LoadingSpinnerStyle.SpinnerContainer (LoadingSpinner.size p) in
  Css.inForce "--spinner-size" container = Some (LoadingSpinner.spinnerSize s) ∧
  Css.inForce "--border-width" container = Some (LoadingSpinner.borderWidth s) ∧
  Css.inForce "border-top-color" (LoadingSpinnerStyle.Spinner (LoadingSpinner.color p))
    = Some (LoadingSpinner.borderTopColor s).
Proof. by destruct p as [[] ?]. Qed.

(** In the display the accuracy is red, whatever the session: the colour of
    its sheet that is in force is the one computed from its text, and the
    rest of the sheet is the one of the values beside it.  The combo has
    the colour of the game when there is one. *)
Theorem hud_sheet_colours (s : GameSession.t) (theme : Theme.t) :
  let hud := GameHUD.render s in
  let accuracy := GameHUDStyle.AccuracyValue (GameHUD.accuracy hud) theme in
  let combo := GameHUDStyle.ComboValue (GameHUD.comboActive hud) theme in
  Css.inForce "color" accuracy = Some "#f87171" ∧
  Css.inForce "font-size" accuracy = Css.inForce "font-size" (GameHUDStyle.StatValue theme) ∧
  Css.inForce "color" combo
    = Some (if bool_decide (GameSession.combo s > 0)
            then Game.combo (Colors.game (colors theme))
            else Text.muted (Colors.text (colors theme))).
Proof.
  simpl. split_and!; [|done|by case_bool_decide].
  unfold GameHUDStyle.AccuracyValue, GameHUD.accuracyColor, GameHUD.formatAccuracy.
  by rewrite Css_inForce_app, Number_percent.
Qed.
