(* ===== verification/PageStyles.v ===== *)
(** * PageStyles: the style sheets of the pages

    The styled components of [pages/], as [Styles] has those of
    [components/]: a function from props and theme to the sheet.

    The theorems: the colours the sheets name are colours; the label of a
    mode has the same colours on the page of a level and on its card, which
    are the ones of [Views], and no card has the grey of an unknown mode; a
    card of a locked level takes no pointer and has no link, a card of an
    unlocked one has both. *)

From Stdlib Require Import ZArith QArith Lia String Ascii.
From stdpp Require Import base tactics option list strings.
From S2P Require Import Prelude Types PlayerSlice Progress Theme Display Views Shell Styles.

#[local] Open Scope Z_scope.
#[local] Open Scope string_scope.
#[local] Open Scope list_scope.

Import Theme.

(** The text of a mode: the member of the type [GameMode]. *)
Definition modeName (mode : GameMode) : string :=
  match mode with
  | gravity => "gravity"
  | runner => "runner"
  | bubble => "bubble"
  | boss => "boss"
  end.

(** ** [pages/Home/index.tsx] *)

Module HomeStyle.

(** [HomeContainer]: [styled.div] *)
Definition HomeContainer : Css.t :=
  [ "display" :- "flex";
    "flex-direction" :- "column";
    "align-items" :- "center";
    "justify-content" :- "center";
    "flex" :- "1";
    "text-align" :- "center";
    "padding" :- "2rem" ].

(** [HeroSection]: [styled(motion.div)] *)
Definition HeroSection : Css.t :=
  [ "max-width" :- "800px" ].

(** [Title]: [styled.h1] *)
Definition Title : Css.t :=
  [ "font-size" :- "clamp(2rem, 5vw, 3.5rem)";
    "font-weight" :- "800";
    "margin-bottom" :- "1rem";
    "background" :- "linear-gradient(135deg, #818cf8 0%, #f472b6 50%, #fbbf24 100%)";
    "-webkit-background-clip" :- "text";
    "-webkit-text-fill-color" :- "transparent";
    "background-clip" :- "text" ].

(** [Subtitle]: [styled.p] *)
Definition Subtitle (theme : Theme.t) : Css.t :=
  [ "font-size" :- "1.25rem";
    "color" :- Text.secondary (Colors.text (colors theme));
    "margin-bottom" :- "2rem";
    "line-height" :- "1.8" ].

(** [ButtonGroup]: [styled.div] *)
Definition ButtonGroup : Css.t :=
  [ "display" :- "flex";
    "flex-wrap" :- "wrap";
    "gap" :- "1rem";
    "justify-content" :- "center";
    "margin-bottom" :- "3rem" ].

(** [FeaturesGrid]: [styled(motion.div)] *)
Definition FeaturesGrid : Css.t :=
  [ "display" :- "grid";
    "grid-template-columns" :- "repeat(auto-fit, minmax(250px, 1fr))";
    "gap" :- "1.5rem";
    "width" :- "100%";
    "max-width" :- "900px";
    "margin-top" :- "2rem" ].

(** [FeatureCard]: [styled(motion.div)] *)
Definition FeatureCard : Css.t :=
  [ "background" :- "rgba(30, 41, 59, 0.6)";
    "border" :- "1px solid rgba(148, 163, 184, 0.1)";
    "border-radius" :- "1rem";
    "padding" :- "1.5rem";
    "text-align" :- "left" ].

(** [FeatureIcon]: [styled.div] *)
Definition FeatureIcon : Css.t :=
  [ "font-size" :- "2rem";
    "margin-bottom" :- "0.75rem" ].

(** [FeatureTitle]: [styled.h3] *)
Definition FeatureTitle (theme : Theme.t) : Css.t :=
  [ "font-size" :- "1.125rem";
    "font-weight" :- "700";
    "color" :- Text.primary (Colors.text (colors theme));
    "margin-bottom" :- "0.5rem" ].

(** [FeatureDescription]: [styled.p] *)
Definition FeatureDescription (theme : Theme.t) : Css.t :=
  [ "font-size" :- "0.875rem";
    "color" :- Text.secondary (Colors.text (colors theme));
    "line-height" :- "1.6" ].

(** [StatsSection]: [styled.div] *)
Definition StatsSection : Css.t :=
  [ "display" :- "flex";
    "gap" :- "2rem";
    "margin-top" :- "3rem";
    "flex-wrap" :- "wrap";
    "justify-content" :- "center" ].

(** [StatItem]: [styled.div] *)
Definition StatItem : Css.t :=
  [ "text-align" :- "center" ].

(** [StatValue]: [styled.div] *)
Definition StatValue (theme : Theme.t) : Css.t :=
  [ "font-size" :- "2rem";
    "font-weight" :- "800";
    "color" :- Shade.light (Colors.primary (colors theme)) ].

(** [StatLabel]: [styled.div] *)
Definition StatLabel (theme : Theme.t) : Css.t :=
  [ "font-size" :- "0.875rem";
    "color" :- Text.secondary (Colors.text (colors theme)) ].

(** The sheets of the file, for every value of the props that have finitely
    many. *)
Definition sheets (theme : Theme.t) : list Css.t :=
  [ HomeContainer; HeroSection; Title; Subtitle theme; ButtonGroup; FeaturesGrid;
    FeatureCard; FeatureIcon; FeatureTitle theme; FeatureDescription theme; StatsSection;
    StatItem; StatValue theme; StatLabel theme ].

End HomeStyle.

(** ** [pages/LevelSelect/index.tsx] *)

Module LevelSelectStyle.

(** [PageContainer]: [styled.div] *)
Definition PageContainer : Css.t :=
  [ "max-width" :- "1200px";
    "margin" :- "0 auto";
    "width" :- "100%" ].

(** [PageTitle]: [styled.h1] *)
Definition PageTitle : Css.t :=
  [ "font-size" :- "2rem";
    "font-weight" :- "800";
    "margin-bottom" :- "0.5rem";
    "background" :- "linear-gradient(135deg, #818cf8, #f472b6)";
    "-webkit-background-clip" :- "text";
    "-webkit-text-fill-color" :- "transparent";
    "background-clip" :- "text" ].

(** [PageDescription]: [styled.p] *)
Definition PageDescription (theme : Theme.t) : Css.t :=
  [ "color" :- Text.secondary (Colors.text (colors theme));
    "margin-bottom" :- "2rem" ].

(** [WorldSection]: [styled.section] *)
Definition WorldSection : Css.t :=
  [ "margin-bottom" :- "3rem" ].

(** [WorldHeader]: [styled.div] *)
Definition WorldHeader : Css.t :=
  [ "display" :- "flex";
    "align-items" :- "center";
    "gap" :- "1rem";
    "margin-bottom" :- "1.5rem" ].

(** [WorldIcon]: [styled.span] *)
Definition WorldIcon : Css.t :=
  [ "font-size" :- "2rem" ].

(** [WorldTitle]: [styled.h2] *)
Definition WorldTitle (theme : Theme.t) : Css.t :=
  [ "font-size" :- "1.5rem";
    "font-weight" :- "700";
    "color" :- Text.primary (Colors.text (colors theme)) ].

(** [WorldDescription]: [styled.span] *)
Definition WorldDescription (theme : Theme.t) : Css.t :=
  [ "color" :- Text.secondary (Colors.text (colors theme));
    "font-size" :- "0.875rem" ].

(** [LevelsGrid]: [styled.div] *)
Definition LevelsGrid : Css.t :=
  [ "display" :- "grid";
    "grid-template-columns" :- "repeat(auto-fill, minmax(280px, 1fr))";
    "gap" :- "1rem" ].

(** [LevelCard] *)
Definition LevelCard (locked completed : bool) (theme : Theme.t) : Css.t :=
  [ "background" :- "rgba(30, 41, 59, 0.8)";
    "border" :-
        "2px solid " +:+ (if locked then "rgba(148, 163, 184, 0.2)"
         else if completed then Shade.main (Colors.secondary (colors theme))
         else "transparent");
    "border-radius" :- "1rem";
    "padding" :- "1.25rem";
    "position" :- "relative";
    "transition" :- "all 0.3s ease" ] ++
  (if locked then
      [ "opacity" :- "0.6";
        "pointer-events" :- "none" ] else
      [ block "&:hover"
            [ "transform" :- "translateY(-4px)";
              "border-color" :- Shade.main (Colors.primary (colors theme));
              "box-shadow" :- "0 10px 30px rgba(79, 70, 229, 0.3)" ] ]).

(** [LevelHeader]: [styled.div] *)
Definition LevelHeader : Css.t :=
  [ "display" :- "flex";
    "justify-content" :- "space-between";
    "align-items" :- "flex-start";
    "margin-bottom" :- "0.75rem" ].

(** [LevelNumber]: [styled.span] *)
Definition LevelNumber : Css.t :=
  [ "font-size" :- "0.75rem";
    "font-weight" :- "600";
    "padding" :- "0.25rem 0.5rem";
    "background" :- "rgba(79, 70, 229, 0.2)";
    "color" :- "#818cf8";
    "border-radius" :- "0.25rem" ].

(** [LevelMode]: [styled.span<{ $mode: string }>] *)
Definition LevelMode (mode : string) : Css.t :=
  [ "font-size" :- "0.75rem";
    "font-weight" :- "500";
    "padding" :- "0.25rem 0.5rem";
    "border-radius" :- "0.25rem" ] ++
  (if bool_decide (mode = "gravity") then
      [ "background" :- "rgba(239, 68, 68, 0.2)";
        "color" :- "#f87171" ]
   else if bool_decide (mode = "runner") then
         [ "background" :- "rgba(34, 197, 94, 0.2)";
           "color" :- "#4ade80" ]
   else if bool_decide (mode = "bubble") then
         [ "background" :- "rgba(59, 130, 246, 0.2)";
           "color" :- "#60a5fa" ]
   else if bool_decide (mode = "boss") then
         [ "background" :- "rgba(168, 85, 247, 0.2)";
           "color" :- "#c084fc" ]
   else
         [ "background" :- "rgba(148, 163, 184, 0.2)";
           "color" :- "#94a3b8" ]).

(** [LevelTitle]: [styled.h3] *)
Definition LevelTitle (theme : Theme.t) : Css.t :=
  [ "font-size" :- "1.125rem";
    "font-weight" :- "700";
    "color" :- Text.primary (Colors.text (colors theme));
    "margin-bottom" :- "0.25rem" ].

(** [LevelDescription]: [styled.p] *)
Definition LevelDescription (theme : Theme.t) : Css.t :=
  [ "font-size" :- "0.875rem";
    "color" :- Text.secondary (Colors.text (colors theme));
    "margin-bottom" :- "0.75rem";
    "line-height" :- "1.5" ].

(** [LevelMeta]: [styled.div] *)
Definition LevelMeta (theme : Theme.t) : Css.t :=
  [ "display" :- "flex";
    "gap" :- "1rem";
    "margin-bottom" :- "0.75rem";
    "font-size" :- "0.8rem";
    "color" :- Text.muted (Colors.text (colors theme)) ].

(** [StarRating]: [styled.div] *)
Definition StarRating : Css.t :=
  [ "display" :- "flex";
    "gap" :- "0.25rem" ].

(** [Star]: [styled.span<{ $filled: boolean }>] *)
Definition Star (filled : bool) : Css.t :=
  [ "font-size" :- "1.25rem";
    "opacity" :- (if filled then "1" else "0.3") ].

(** [LockOverlay]: [styled.div] *)
Definition LockOverlay : Css.t :=
  [ "position" :- "absolute";
    "inset" :- "0";
    "display" :- "flex";
    "align-items" :- "center";
    "justify-content" :- "center";
    "background" :- "rgba(15, 23, 42, 0.5)";
    "border-radius" :- "1rem";
    "font-size" :- "2rem" ].

(** [StyledLink]: [styled(Link)] *)
Definition StyledLink : Css.t :=
  [ "text-decoration" :- "none";
    "display" :- "block" ].

(** The sheets of the file, for every value of the props that have finitely
    many. *)
Definition sheets (mode : string) (theme : Theme.t) : list Css.t :=
  [ PageContainer; PageTitle; PageDescription theme; WorldSection; WorldHeader; WorldIcon;
    WorldTitle theme; WorldDescription theme; LevelsGrid; LevelCard true true theme;
    LevelCard true false theme; LevelCard false true theme; LevelCard false false theme;
    LevelHeader; LevelNumber; LevelMode mode; LevelTitle theme; LevelDescription theme;
    LevelMeta theme; StarRating; Star true; Star false; LockOverlay; StyledLink ].

End LevelSelectStyle.

(** ** [pages/Game/index.tsx] *)

Module GameStyle.

(** [GameContainer]: [styled.div] *)
Definition GameContainer : Css.t :=
  [ "display" :- "flex";
    "flex-direction" :- "column";
    "flex" :- "1";
    "max-width" :- "1200px";
    "margin" :- "0 auto";
    "width" :- "100%" ].

(** [GameHeader]: [styled.div] *)
Definition GameHeader : Css.t :=
  [ "display" :- "flex";
    "justify-content" :- "space-between";
    "align-items" :- "center";
    "margin-bottom" :- "1rem" ].

(** [LevelInfo]: [styled.div] *)
Definition LevelInfo : Css.t :=
  [ "display" :- "flex";
    "align-items" :- "center";
    "gap" :- "1rem" ].

(** [LevelTitle]: [styled.h1] *)
Definition LevelTitle (theme : Theme.t) : Css.t :=
  [ "font-size" :- "1.5rem";
    "font-weight" :- "700";
    "color" :- Text.primary (Colors.text (colors theme)) ].

(** [GameModeLabel]: [styled.span<{ $mode: GameMode }>] *)
Definition GameModeLabel (mode : GameMode) : Css.t :=
  [ "font-size" :- "0.75rem";
    "font-weight" :- "600";
    "padding" :- "0.25rem 0.75rem";
    "border-radius" :- "9999px" ] ++
  (match mode with
   | gravity =>
         [ "background" :- "rgba(239, 68, 68, 0.2)";
           "color" :- "#f87171" ]
   | runner =>
         [ "background" :- "rgba(34, 197, 94, 0.2)";
           "color" :- "#4ade80" ]
   | bubble =>
         [ "background" :- "rgba(59, 130, 246, 0.2)";
           "color" :- "#60a5fa" ]
   | boss =>
         [ "background" :- "rgba(168, 85, 247, 0.2)";
           "color" :- "#c084fc" ]
   end).

(** [GameArea]: [styled.div] *)
Definition GameArea : Css.t :=
  [ "flex" :- "1";
    "display" :- "flex";
    "flex-direction" :- "column";
    "background" :- "rgba(15, 23, 42, 0.5)";
    "border" :- "1px solid rgba(148, 163, 184, 0.1)";
    "border-radius" :- "1rem";
    "overflow" :- "hidden";
    "min-height" :- "400px" ].

(** [PauseOverlay]: [styled.div] *)
Definition PauseOverlay : Css.t :=
  [ "position" :- "absolute";
    "inset" :- "0";
    "background" :- "rgba(0, 0, 0, 0.8)";
    "display" :- "flex";
    "flex-direction" :- "column";
    "align-items" :- "center";
    "justify-content" :- "center";
    "gap" :- "1.5rem";
    "z-index" :- "100" ].

(** [PauseTitle]: [styled.h2] *)
Definition PauseTitle (theme : Theme.t) : Css.t :=
  [ "font-size" :- "2rem";
    "font-weight" :- "800";
    "color" :- Text.primary (Colors.text (colors theme)) ].

(** [ButtonGroup]: [styled.div] *)
Definition ButtonGroup : Css.t :=
  [ "display" :- "flex";
    "gap" :- "1rem" ].

(** The sheets of the file, for every value of the props that have finitely
    many. *)
Definition sheets (theme : Theme.t) : list Css.t :=
  [ GameContainer; GameHeader; LevelInfo; LevelTitle theme; GameModeLabel gravity;
    GameModeLabel runner; GameModeLabel bubble; GameModeLabel boss; GameArea;
    PauseOverlay; PauseTitle theme; ButtonGroup ].

End GameStyle.

(** ** [pages/EndlessMode/index.tsx] *)

Module EndlessModeStyle.

(** [EndlessContainer]: [styled.div] *)
Definition EndlessContainer : Css.t :=
  [ "display" :- "flex";
    "flex-direction" :- "column";
    "flex" :- "1";
    "max-width" :- "1200px";
    "margin" :- "0 auto";
    "width" :- "100%" ].

(** [Header]: [styled.div] *)
Definition Header : Css.t :=
  [ "display" :- "flex";
    "justify-content" :- "space-between";
    "align-items" :- "center";
    "margin-bottom" :- "1rem" ].

(** [Title]: [styled.h1] *)
Definition Title : Css.t :=
  [ "font-size" :- "1.5rem";
    "font-weight" :- "700";
    "background" :- "linear-gradient(135deg, #f97316, #fbbf24)";
    "-webkit-background-clip" :- "text";
    "-webkit-text-fill-color" :- "transparent";
    "background-clip" :- "text" ].

(** [DifficultyBadge]: [styled.span<{ $level: number }>] *)
Definition DifficultyBadge (level : Z) : Css.t :=
  [ "font-size" :- "0.75rem";
    "font-weight" :- "600";
    "padding" :- "0.25rem 0.75rem";
    "border-radius" :- "9999px";
    "background" :- "rgba(249, 115, 22, 0.2)";
    "color" :- "#fb923c" ].

(** [GameArea]: [styled.div] *)
Definition GameArea : Css.t :=
  [ "flex" :- "1";
    "display" :- "flex";
    "flex-direction" :- "column";
    "background" :- "rgba(15, 23, 42, 0.5)";
    "border" :- "1px solid rgba(148, 163, 184, 0.1)";
    "border-radius" :- "1rem";
    "overflow" :- "hidden";
    "min-height" :- "400px";
    "position" :- "relative" ].

(** [StartOverlay]: [styled.div] *)
Definition StartOverlay : Css.t :=
  [ "position" :- "absolute";
    "inset" :- "0";
    "background" :- "rgba(0, 0, 0, 0.8)";
    "display" :- "flex";
    "flex-direction" :- "column";
    "align-items" :- "center";
    "justify-content" :- "center";
    "gap" :- "1.5rem";
    "z-index" :- "100" ].

(** [GameOverOverlay]: [styled.div] *)
Definition GameOverOverlay : Css.t :=
  [ "position" :- "absolute";
    "inset" :- "0";
    "background" :- "rgba(0, 0, 0, 0.9)";
    "display" :- "flex";
    "flex-direction" :- "column";
    "align-items" :- "center";
    "justify-content" :- "center";
    "gap" :- "1rem";
    "z-index" :- "100" ].

(** [GameOverTitle]: [styled.h2] *)
Definition GameOverTitle (theme : Theme.t) : Css.t :=
  [ "font-size" :- "2rem";
    "font-weight" :- "800";
    "color" :- Status.danger (Colors.status (colors theme)) ].

(** [Stats]: [styled.div] *)
Definition Stats : Css.t :=
  [ "display" :- "grid";
    "grid-template-columns" :- "repeat(2, 1fr)";
    "gap" :- "1rem";
    "text-align" :- "center" ].

(** [StatItem]: [styled.div] *)
Definition StatItem : Css.t :=
  [ "background" :- "rgba(30, 41, 59, 0.8)";
    "padding" :- "1rem";
    "border-radius" :- "0.5rem" ].

(** [StatValue]: [styled.div] *)
Definition StatValue (theme : Theme.t) : Css.t :=
  [ "font-size" :- "1.5rem";
    "font-weight" :- "800";
    "color" :- Shade.light (Colors.primary (colors theme)) ].

(** [StatLabel]: [styled.div] *)
Definition StatLabel (theme : Theme.t) : Css.t :=
  [ "font-size" :- "0.875rem";
    "color" :- Text.secondary (Colors.text (colors theme)) ].

(** [ButtonGroup]: [styled.div] *)
Definition ButtonGroup : Css.t :=
  [ "display" :- "flex";
    "gap" :- "1rem";
    "margin-top" :- "1rem" ].

(** The sheets of the file, for every value of the props that have finitely
    many. *)
Definition sheets (level : Z) (theme : Theme.t) : list Css.t :=
  [ EndlessContainer; Header; Title; DifficultyBadge level; GameArea; StartOverlay;
    GameOverOverlay; GameOverTitle theme; Stats; StatItem; StatValue theme;
    StatLabel theme; ButtonGroup ].

End EndlessModeStyle.

(** ** [pages/Stats/index.tsx] *)

Module StatsStyle.

(** [StatsContainer]: [styled.div] *)
Definition StatsContainer : Css.t :=
  [ "max-width" :- "800px";
    "margin" :- "0 auto";
    "width" :- "100%" ].

(** [PageTitle]: [styled.h1] *)
Definition PageTitle : Css.t :=
  [ "font-size" :- "2rem";
    "font-weight" :- "800";
    "margin-bottom" :- "2rem";
    "background" :- "linear-gradient(135deg, #818cf8, #f472b6)";
    "-webkit-background-clip" :- "text";
    "-webkit-text-fill-color" :- "transparent";
    "background-clip" :- "text" ].

(** [StatsGrid]: [styled.div] *)
Definition StatsGrid : Css.t :=
  [ "display" :- "grid";
    "grid-template-columns" :- "repeat(auto-fit, minmax(200px, 1fr))";
    "gap" :- "1rem";
    "margin-bottom" :- "2rem" ].

(** [StatCard]: [styled.div] *)
Definition StatCard : Css.t :=
  [ "background" :- "rgba(30, 41, 59, 0.6)";
    "border" :- "1px solid rgba(148, 163, 184, 0.1)";
    "border-radius" :- "1rem";
    "padding" :- "1.5rem";
    "text-align" :- "center" ].

(** [StatValue]: [styled.div] *)
Definition StatValue : Css.t :=
  [ "font-size" :- "2rem";
    "font-weight" :- "800";
    "background" :- "linear-gradient(135deg, #818cf8, #f472b6)";
    "-webkit-background-clip" :- "text";
    "-webkit-text-fill-color" :- "transparent";
    "background-clip" :- "text";
    "margin-bottom" :- "0.5rem" ].

(** [StatLabel]: [styled.div] *)
Definition StatLabel (theme : Theme.t) : Css.t :=
  [ "font-size" :- "0.875rem";
    "color" :- Text.secondary (Colors.text (colors theme)) ].

(** [Section]: [styled.section] *)
Definition Section : Css.t :=
  [ "background" :- "rgba(30, 41, 59, 0.6)";
    "border" :- "1px solid rgba(148, 163, 184, 0.1)";
    "border-radius" :- "1rem";
    "padding" :- "1.5rem";
    "margin-bottom" :- "1.5rem" ].

(** [SectionTitle]: [styled.h2] *)
Definition SectionTitle (theme : Theme.t) : Css.t :=
  [ "font-size" :- "1.25rem";
    "font-weight" :- "700";
    "color" :- Text.primary (Colors.text (colors theme));
    "margin-bottom" :- "1rem" ].

(** [LevelProgressList]: [styled.div] *)
Definition LevelProgressList : Css.t :=
  [ "display" :- "flex";
    "flex-direction" :- "column";
    "gap" :- "0.75rem" ].

(** [LevelProgressItem]: [styled.div] *)
Definition LevelProgressItem : Css.t :=
  [ "display" :- "flex";
    "align-items" :- "center";
    "gap" :- "1rem" ].

(** [LevelName]: [styled.span] *)
Definition LevelName (theme : Theme.t) : Css.t :=
  [ "min-width" :- "80px";
    "color" :- Text.primary (Colors.text (colors theme));
    "font-weight" :- "500" ].

(** [StarDisplay]: [styled.span] *)
Definition StarDisplay : Css.t :=
  [ "font-size" :- "1rem";
    "min-width" :- "60px" ].

(** [AchievementGrid]: [styled.div] *)
Definition AchievementGrid : Css.t :=
  [ "display" :- "grid";
    "grid-template-columns" :- "repeat(auto-fill, minmax(150px, 1fr))";
    "gap" :- "1rem" ].

(** [AchievementCard]: [styled.div<{ $unlocked: boolean }>] *)
Definition AchievementCard (unlocked : bool) (theme : Theme.t) : Css.t :=
  [ "background" :- (if unlocked then "rgba(79, 70, 229, 0.2)" else "rgba(30, 41, 59, 0.8)");
    "border" :-
        "1px solid " +:+ (if unlocked then Shade.main (Colors.primary (colors theme))
         else "rgba(148, 163, 184, 0.1)");
    "border-radius" :- "0.75rem";
    "padding" :- "1rem";
    "text-align" :- "center";
    "opacity" :- (if unlocked then "1" else "0.5") ].

(** [AchievementIcon]: [styled.div] *)
Definition AchievementIcon : Css.t :=
  [ "font-size" :- "2rem";
    "margin-bottom" :- "0.5rem" ].

(** [AchievementName]: [styled.div] *)
Definition AchievementName (theme : Theme.t) : Css.t :=
  [ "font-size" :- "0.875rem";
    "font-weight" :- "600";
    "color" :- Text.primary (Colors.text (colors theme)) ].

(** The sheets of the file, for every value of the props that have finitely
    many. *)
Definition sheets (theme : Theme.t) : list Css.t :=
  [ StatsContainer; PageTitle; StatsGrid; StatCard; StatValue; StatLabel theme; Section;
    SectionTitle theme; LevelProgressList; LevelProgressItem; LevelName theme;
    StarDisplay; AchievementGrid; AchievementCard true theme; AchievementCard false theme;
    AchievementIcon; AchievementName theme ].

End StatsStyle.

(** ** [pages/Settings/index.tsx] *)

Module SettingsStyle.

(** [SettingsContainer]: [styled.div] *)
Definition SettingsContainer : Css.t :=
  [ "max-width" :- "600px";
    "margin" :- "0 auto";
    "width" :- "100%" ].

(** [PageTitle]: [styled.h1] *)
Definition PageTitle : Css.t :=
  [ "font-size" :- "2rem";
    "font-weight" :- "800";
    "margin-bottom" :- "2rem";
    "background" :- "linear-gradient(135deg, #818cf8, #f472b6)";
    "-webkit-background-clip" :- "text";
    "-webkit-text-fill-color" :- "transparent";
    "background-clip" :- "text" ].

(** [SettingsSection]: [styled.section] *)
Definition SettingsSection : Css.t :=
  [ "background" :- "rgba(30, 41, 59, 0.6)";
    "border" :- "1px solid rgba(148, 163, 184, 0.1)";
    "border-radius" :- "1rem";
    "padding" :- "1.5rem";
    "margin-bottom" :- "1.5rem" ].

(** [SectionTitle]: [styled.h2] *)
Definition SectionTitle (theme : Theme.t) : Css.t :=
  [ "font-size" :- "1.125rem";
    "font-weight" :- "700";
    "color" :- Text.primary (Colors.text (colors theme));
    "margin-bottom" :- "1rem";
    "display" :- "flex";
    "align-items" :- "center";
    "gap" :- "0.5rem" ].

(** [SettingRow]: [styled.div] *)
Definition SettingRow : Css.t :=
  [ "display" :- "flex";
    "justify-content" :- "space-between";
    "align-items" :- "center";
    "padding" :- "0.75rem 0";
    "border-bottom" :- "1px solid rgba(148, 163, 184, 0.1)";
    block "&:last-child"
        [ "border-bottom" :- "none" ] ].

(** [SettingLabel]: [styled.div] *)
Definition SettingLabel : Css.t :=
  [ "display" :- "flex";
    "flex-direction" :- "column" ].

(** [SettingName]: [styled.span] *)
Definition SettingName (theme : Theme.t) : Css.t :=
  [ "color" :- Text.primary (Colors.text (colors theme));
    "font-weight" :- "500" ].

(** [SettingDescription]: [styled.span] *)
Definition SettingDescription (theme : Theme.t) : Css.t :=
  [ "font-size" :- "0.875rem";
    "color" :- Text.secondary (Colors.text (colors theme)) ].

(** [Slider]: [styled.input] *)
Definition Slider (theme : Theme.t) : Css.t :=
  [ "width" :- "120px";
    "accent-color" :- Shade.main (Colors.primary (colors theme)) ].

(** [Toggle]: [styled.button<{ $active: boolean }>] *)
Definition Toggle (active : bool) (theme : Theme.t) : Css.t :=
  [ "width" :- "48px";
    "height" :- "24px";
    "border-radius" :- "12px";
    "background" :-
        (if active then Shade.main (Colors.primary (colors theme))
         else "rgba(148, 163, 184, 0.3)");
    "position" :- "relative";
    "transition" :- "background 0.2s ease";
    block "&::after"
        [ "content" :- "''";
          "position" :- "absolute";
          "width" :- "20px";
          "height" :- "20px";
          "border-radius" :- "50%";
          "background" :- "white";
          "top" :- "2px";
          "left" :- (if active then "26px" else "2px");
          "transition" :- "left 0.2s ease" ] ].

(** [Select]: [styled.select] *)
Definition Select (theme : Theme.t) : Css.t :=
  [ "background" :- "rgba(30, 41, 59, 0.8)";
    "border" :- "1px solid rgba(148, 163, 184, 0.2)";
    "border-radius" :- "0.5rem";
    "padding" :- "0.5rem 1rem";
    "color" :- Text.primary (Colors.text (colors theme));
    "font-size" :- "0.875rem";
    "cursor" :- "pointer";
    block "&:focus"
        [ "outline" :- "none";
          "border-color" :- Shade.main (Colors.primary (colors theme)) ] ].

(** [Input]: [styled.input] *)
Definition Input (theme : Theme.t) : Css.t :=
  [ "background" :- "rgba(30, 41, 59, 0.8)";
    "border" :- "1px solid rgba(148, 163, 184, 0.2)";
    "border-radius" :- "0.5rem";
    "padding" :- "0.5rem 1rem";
    "color" :- Text.primary (Colors.text (colors theme));
    "font-size" :- "0.875rem";
    "width" :- "200px";
    block "&:focus"
        [ "outline" :- "none";
          "border-color" :- Shade.main (Colors.primary (colors theme)) ] ].

(** [DangerZone]: [styled(SettingsSection)] *)
Definition DangerZone : Css.t :=
  SettingsSection ++
  [ "border-color" :- "rgba(239, 68, 68, 0.3)" ].

(** [DangerTitle]: [styled(SectionTitle)] *)
Definition DangerTitle (theme : Theme.t) : Css.t :=
  SectionTitle theme ++
  [ "color" :- Status.danger (Colors.status (colors theme)) ].

(** The sheets of the file, for every value of the props that have finitely
    many. *)
Definition sheets (theme : Theme.t) : list Css.t :=
  [ SettingsContainer; PageTitle; SettingsSection; SectionTitle theme; SettingRow;
    SettingLabel; SettingName theme; SettingDescription theme; Slider theme;
    Toggle true theme; Toggle false theme; Select theme; Input theme; DangerZone;
    DangerTitle theme ].

End SettingsStyle.

(** ** All the sheets of the pages *)

Definition sheets (mode : string) (level : Z) (theme : Theme.t) : list Css.t :=
  HomeStyle.sheets theme ++ LevelSelectStyle.sheets mode theme ++ GameStyle.sheets theme ++
  EndlessModeStyle.sheets level theme ++ StatsStyle.sheets theme ++
  SettingsStyle.sheets theme.

(** * Lemmas *)

Section pages.

Lemma closed_page_sheets_wellFormed :
  Forall (λ sheet, wellFormed sheet = true)
    (HomeStyle.sheets Theme.theme ++ GameStyle.sheets Theme.theme ++
     StatsStyle.sheets Theme.theme ++ SettingsStyle.sheets Theme.theme).
Proof. apply wellFormed_Forall. vm_compute. reflexivity. Qed.

Lemma endless_sheets_wellFormed (level : Z) :
  Forall (λ sheet, wellFormed sheet = true) (EndlessModeStyle.sheets level Theme.theme).
Proof. apply wellFormed_Forall. vm_compute. reflexivity. Qed.

Lemma select_sheets_wellFormed (mode : string) :
  Forall (λ sheet, wellFormed sheet = true) (LevelSelectStyle.sheets mode Theme.theme).
Proof.
  unfold LevelSelectStyle.sheets. rewrite !Forall_cons. split_and!; try reflexivity; [|done].
  unfold LevelSelectStyle.LevelMode. by repeat case_bool_decide.
Qed.

(** The colours of the label of a mode on the page of a level. *)
Lemma label_colours (mode : GameMode) :
  Css.inForce "background" (GameStyle.GameModeLabel mode) = Some (GamePage.modeStyle mode).1 ∧
  Css.inForce "color" (GameStyle.GameModeLabel mode) = Some (GamePage.modeStyle mode).2.
Proof. by destruct mode. Qed.

(** The colours of the tag of a mode on a card are the ones of the label. *)
Lemma tag_colours (mode : GameMode) :
  Css.inForce "background" (LevelSelectStyle.LevelMode (modeName mode))
    = Css.inForce "background" (GameStyle.GameModeLabel mode) ∧
  Css.inForce "color" (LevelSelectStyle.LevelMode (modeName mode))
    = Css.inForce "color" (GameStyle.GameModeLabel mode).
Proof. by destruct mode. Qed.

End pages.

(** * Theorems *)

(** Every colour of every sheet of the pages is a colour, every border ends
    in one and every background is a colour or a gradient, under the theme
    of the application, whatever the mode and the difficulty shown. *)
Theorem page_sheets_wellFormed (mode : string) (level : Z) :
  Forall (λ sheet, wellFormed sheet = true) (sheets mode level Theme.theme).
Proof.
  unfold sheets. pose proof closed_page_sheets_wellFormed as Hp.
  rewrite !Forall_app in *.
  split_and!; auto using endless_sheets_wellFormed, select_sheets_wellFormed; apply Hp.
Qed.

(** The label of a mode has the same colours on the page of a level and on
    the card of the level, and they are the ones of [GamePage.modeStyle];
    the grey of a mode that is not one of the four is on no card of the
    level selection. *)
Theorem mode_colours_agree (mode : GameMode) :
  let label := GameStyle.GameModeLabel mode in
  let tag := LevelSelectStyle.LevelMode (modeName mode) in
  (Css.inForce "background" label = Some (GamePage.modeStyle mode).1 ∧
   Css.inForce "color" label = Some (GamePage.modeStyle mode).2) ∧
  (Css.inForce "background" tag = Css.inForce "background" label ∧
   Css.inForce "color" tag = Css.inForce "color" label) ∧
  Css.inForce "color" tag ≠ Css.inForce "color" (LevelSelectStyle.LevelMode "practice").
Proof. split_and!; try apply label_colours; try apply tag_colours. by destruct mode. Qed.


