(* ===== verification/App.v ===== *)
(** * App: the pages behind the router

    [Module App] puts the pages together as the router of [app/router.tsx]
    does inside the layout: one page is mounted at a time, the three stores
    outlive the pages, a click on a link takes the page away (which runs the
    cleanup of its effects: the game page and the endless page reset the
    game store) and mounts the page of the new address; an event of a page
    is an event of [Play.World], of [Endless.EndlessWorld] or of
    [SettingsSlice.SettingsPage] on the stores of the application.
    [Module ResetDialog] is the dialogue of the settings page, a [Modal]
    whose [onClose] hides it.

    The theorems: nothing a user can do throws, on any path through the
    application; away from the two pages with a canvas the session is the
    initial one; a click on a card of the level selection starts its level;
    the address of a level starts the level whether it is unlocked or not;
    a level that is unlocked stays unlocked until the reset of the settings
    page; Escape closes the dialogue of the settings page and resets
    nothing. *)

From Stdlib Require Import ZArith QArith Lia String Ascii.
From stdpp Require Import base tactics option list strings gmap pretty.
From S2P Require Import Prelude Types Metrics Store PlayerSlice SettingsSlice GameCanvas.
From S2P Require Import Play Progress Theme Display Endless Shell.

#[local] Open Scope Z_scope.
#[local] Open Scope string_scope.

Module App.
Import Router Location.

(** The page that is mounted, with its local state. *)
Inductive Mounted : Type :=
| OnHome
| OnLevels
| OnStats
| NoRoute
| NoLevel (levelId : string)
| OnLevel (levelId : string) (canvas : Refs.t) (currentInput : string) (showResult : bool)
| OnEndless (page : EndlessPage.t) (canvas : Refs.t) (currentInput : string)
| OnSettings (page : SettingsPage.t).

Record t {St Ss Pt : Type} : Type := mk {
  pathname : string;
  gameStore : St;
  settingsStore : Ss;
  playerStore : Pt;
  mounted : Mounted;
}.
Arguments t : clear implicits.
Arguments mk {St Ss Pt}.

(** What a user and the browser do: a click on a link, or an event of the
    page that is mounted. *)
Inductive Event : Type :=
| Click (to : string) (now : Z)
| InLevel (ev : World.Event)
| InEndless (ev : EndlessWorld.Event)
| InSettings (ev : SettingsPage.Event).

Section app.
Context {St Ss Pt : Type} `{GameStore St} `{SettingsStore Ss} `{PlayerStore Pt}.

(** The page of a path name is mounted: the game page starts the game of a
    level of its table. *)
Definition mount (pathname : string) (now : Z) (st : St) (pt : Pt) : St * Mounted :=
  match locate pathname with
  | None => (st, NoRoute)
  | Some Home => (st, OnHome)
  | Some Levels => (st, OnLevels)
  | Some Stats => (st, OnStats)
  | Some (Game levelId) =>
      match Page.levelConfig (Some levelId) with
      | Some _ =>
          let w := World.init (Some levelId) now st pt in
          (World.game w,
           OnLevel levelId (World.canvas w) (World.currentInput w) (World.showResult w))
      | None => (st, NoLevel levelId)
      end
  | Some Endless =>
      let w := EndlessWorld.init now st pt in
      (EndlessWorld.game w,
       OnEndless (EndlessWorld.page w) (EndlessWorld.canvas w) (EndlessWorld.currentInput w))
  | Some Settings => (st, OnSettings (SettingsPage.init pt))
  end.

(** The page is taken away: the cleanup of its effects. *)
Definition unmount (m : Mounted) (st : St) : St :=
  match m with
  | OnLevel _ _ _ _ | NoLevel _ => resetGame st
  | OnEndless _ _ _ => EndlessPage.unmount st
  | _ => st
  end.

(** The application is loaded at a path name. *)
Definition load (pathname : string) (now : Z) (st : St) (ss : Ss) (pt : Pt) : t St Ss Pt :=
  let '(st', m) := mount pathname now st pt in
  mk pathname st' ss pt m.

(** The targets of the links of a page. *)
Definition pageLinks (m : Mounted) (player : PlayerData.t) : list string :=
  match m with
  | OnHome => (HomePage.links (HomePage.render player)).*1
  | OnLevels =>
      match LevelSelect.render player with
      | Ok ss => omap LevelSelect.link (ss ≫= snd)
      | Throw _ => []
      end
  | OnLevel _ _ _ _ | NoLevel _ => [href Levels]
  | _ => []
  end.

(** The targets of the links that are shown: those of the header and those
    of the page; the page of the router for a path without a route has
    neither. *)
Definition links (a : t St Ss Pt) : list string :=
  match mounted a with
  | NoRoute => []
  | m =>
      let h := Header.render (pathname a) (player (playerStore a)) in
      (Header.logo h).1 :: (Header.to <$> Header.links h)
        ++ pageLinks m (player (playerStore a))
  end.

(** The router goes to [to]: the page stays when the route is the same,
    otherwise it is taken away and the page of [to] is mounted. *)
Definition navigate (to : string) (now : Z) (a : t St Ss Pt) : t St Ss Pt :=
  if bool_decide (locate to = locate (pathname a))
  then mk to (gameStore a) (settingsStore a) (playerStore a) (mounted a)
  else
    let '(st, m) := mount to now (unmount (mounted a) (gameStore a)) (playerStore a) in
    mk to st (settingsStore a) (playerStore a) m.

(** The worlds of the two pages with a canvas. *)
Definition levelWorld (a : t St Ss Pt) (c : Refs.t) (input : string) (sr : bool)
    : World.t St Pt :=
  World.mk c (gameStore a) (playerStore a) input sr.

Definition endlessWorld (a : t St Ss Pt) (pg : EndlessPage.t) (c : Refs.t)
    (input : string) : EndlessWorld.t St Pt :=
  EndlessWorld.mk pg c (gameStore a) (playerStore a) input.

Definition step (ev : Event) (a : t St Ss Pt) : result (t St Ss Pt) :=
  match ev, mounted a with
  | Click to now, _ =>
      Ok (if bool_decide (to ∈ links a) then navigate to now a else a)
  | InLevel ev, OnLevel levelId c input sr =>
      w ← World.step (Some levelId) ev (levelWorld a c input sr);
      Ok (mk (pathname a) (World.game w) (settingsStore a) (World.playerStore w)
            (OnLevel levelId (World.canvas w) (World.currentInput w) (World.showResult w)))
  | InEndless ev, OnEndless pg c input =>
      w ← EndlessWorld.step ev (endlessWorld a pg c input);
      Ok (mk (pathname a) (EndlessWorld.game w) (settingsStore a) (EndlessWorld.playerStore w)
            (OnEndless (EndlessWorld.page w) (EndlessWorld.canvas w)
               (EndlessWorld.currentInput w)))
  | InSettings ev, OnSettings pg =>
      let '(pg', ss, pt) := SettingsPage.step (pg, settingsStore a, playerStore a) ev in
      Ok (mk (pathname a) (gameStore a) ss pt (OnSettings pg'))
  | _, _ => Ok a
  end.

(** A run: the events in order, stopping at the first exception. *)
Fixpoint steps (evs : list Event) (a : t St Ss Pt) : result (t St Ss Pt) :=
  match evs with
  | [] => Ok a
  | ev :: rest => a' ← step ev a; steps rest a'
  end.

End app.
End App.

(** ** The dialogue of the settings page *)

Module ResetDialog.

(** [() => setShowResetModal(false)], made anew by the render [n]. *)
Definition onClose (n : nat) : Modal.Callback SettingsPage.t :=
  Modal.mkCallback n (λ pg, SettingsPage.mk false (SettingsPage.playerNameInput pg)).

(** The props of the dialogue at the render [n] of the page. *)
Definition props (n : nat) (pg : SettingsPage.t) : Modal.Props SettingsPage.t :=
  Modal.props (SettingsPage.showResetModal pg) (onClose n) (Some "确认重置").

End ResetDialog.

(** * Theorems *)

Section app.
Context {St Ss Pt : Type} `{GameStoreLaws St} `{SettingsStore Ss} `{PlayerStoreLaws Pt}.
Import App Location.
Implicit Types (a : App.t St Ss Pt) (ev : Event) (m : Mounted) (st : St) (ss : Ss) (pt : Pt).

(** The events a browser can deliver to the page that is mounted. *)
Definition app_event_ok ev : Prop :=
  match ev with
  | InLevel e => event_ok e
  | InEndless e => endless_event_ok e
  | _ => True
  end.

(** The place of a page. *)
Definition placeOf m : option Location.t :=
  match m with
  | OnHome => Some Home
  | OnLevels => Some Levels
  | OnStats => Some Stats
  | NoRoute => None
  | NoLevel levelId | OnLevel levelId _ _ _ => Some (Game levelId)
  | OnEndless _ _ _ => Some Endless
  | OnSettings _ => Some Settings
  end.

(** The page with a canvas that is mounted satisfies the invariant of its
    world. *)
Definition page_inv a : Prop :=
  match mounted a with
  | OnLevel levelId c input sr =>
      is_Some (Page.levelConfig (Some levelId)) ∧ inv (levelWorld a c input sr)
  | OnEndless pg c input => endless_inv (endlessWorld a pg c input)
  | NoLevel levelId => Page.levelConfig (Some levelId) = None
  | _ => True
  end.

(** The invariant of the application: the page that is mounted is the page
    of the address, and it is in order. *)
Record app_inv a : Prop := {
  inv_route : locate (pathname a) = placeOf (mounted a);
  inv_page : page_inv a;
}.

Lemma mount_inv pathname now st ss pt :
  app_inv (mk pathname (mount pathname now st pt).1 ss pt (mount pathname now st pt).2).
Proof.
  unfold mount. destruct (locate pathname) as [[| |levelId| | |]|] eqn:El; try by split.
  - destruct (Page.levelConfig (Some levelId)) as [cfg|] eqn:Ec; [|by split].
    split; [done|]. split; [by eexists|]. by apply (inv_init (Some levelId) cfg).
  - split; [done|]. apply endless_inv_init.
Qed.

Lemma load_inv pathname now st ss pt : app_inv (load pathname now st ss pt).
Proof.
  unfold load. pose proof (mount_inv pathname now st ss pt) as Hm.
  by destruct (mount pathname now st pt).
Qed.

Lemma navigate_inv to now a : app_inv a → app_inv (navigate to now a).
Proof.
  intros [Hr Hp]. unfold navigate. case_bool_decide as Hsame.
  - split; [simpl; by rewrite Hsame|]. unfold page_inv in *. simpl. by destruct (mounted a).
  - pose proof (mount_inv to now (unmount (mounted a) (gameStore a)) (settingsStore a)
                  (App.playerStore a)) as Hm.
    by destruct (mount to now _ _).
Qed.

Lemma step_app_inv ev a a' : app_event_ok ev → app_inv a → step ev a = Ok a' → app_inv a'.
Proof.
  intros Hev Ha. pose proof Ha as [Hr Hp]. unfold step, page_inv in *.
  destruct ev as [to now|e|e|e]; simpl in Hev.
  - intros [= <-]. case_bool_decide; [by apply navigate_inv|done].
  - destruct (mounted a) as [| | | | |levelId c input sr| |] eqn:Em; try by intros [= <-].
    intros (w & Hw & [= <-])%bind_Ok. destruct Hp as [[cfg Hcfg] Hi].
    split; [done|]. unfold page_inv. simpl. split; [by eexists|].
    pose proof (inv_step (Some levelId) cfg Hcfg e _ w Hev Hi Hw). by destruct w.
  - destruct (mounted a) as [| | | | | |pg c input|] eqn:Em; try by intros [= <-].
    intros (w & Hw & [= <-])%bind_Ok.
    split; [done|]. unfold page_inv. simpl.
    destruct (endless_inv_step e _ w Hev Hp Hw) as [Hi _]. by destruct w.
  - destruct (mounted a) as [| | | | | | |pg] eqn:Em; try by intros [= <-].
    destruct (SettingsPage.step _ _) as [[pg' ss'] pt']. intros [= <-].
    by split.
Qed.

Lemma step_app_safe ev a : app_event_ok ev → app_inv a → is_Ok (step ev a).
Proof.
  intros Hev [Hr Hp]. unfold step, page_inv in *.
  destruct ev as [to now|e|e|e]; simpl in Hev; [by eexists|..];
    destruct (mounted a) eqn:Em; try by eexists.
  - destruct Hp as [_ Hi]. by destruct (step_safe (Some levelId) e _ Hev Hi) as [w ->]; eexists.
  - by destruct (endless_step_safe e _ Hev Hp) as [w ->]; eexists.
  - destruct (SettingsPage.step _ _) as [[pg' ss'] pt']. by eexists.
Qed.

Lemma steps_app evs a :
  Forall app_event_ok evs → app_inv a → ∃ a', steps evs a = Ok a' ∧ app_inv a'.
Proof.
  intros Hevs. revert a. induction Hevs as [|ev evs Hev _ IH]; intros a Ha; [by exists a|].
  destruct (step_app_safe ev a Hev Ha) as [a1 Hs]. simpl. rewrite Hs.
  exact (IH a1 (step_app_inv ev a a1 Hev Ha Hs)).
Qed.

(** *** The session away from the canvas *)

(** The pages without a canvas. *)
Definition off_canvas m : bool :=
  match m with
  | OnLevel _ _ _ _ | OnEndless _ _ _ => false
  | _ => true
  end.

Definition idle_off_canvas a : Prop :=
  off_canvas (mounted a) = true → session (gameStore a) = Session.initialSession.

Lemma mount_off_canvas pathname now st pt :
  off_canvas (mount pathname now st pt).2 = true → (mount pathname now st pt).1 = st.
Proof.
  unfold mount. destruct (locate pathname) as [[| |levelId| | |]|]; try done.
  by destruct (Page.levelConfig (Some levelId)).
Qed.

Lemma unmount_session m st :
  (off_canvas m = true → session st = Session.initialSession) →
  session (unmount m st) = Session.initialSession.
Proof.
  intros Hm. destruct m; simpl; try (by apply Hm);
    unfold EndlessPage.unmount; by rewrite session_resetGame.
Qed.

Lemma step_idle ev a a' : idle_off_canvas a → step ev a = Ok a' → idle_off_canvas a'.
Proof.
  unfold idle_off_canvas, step. intros Ha.
  destruct ev as [to now|e|e|e].
  - intros [= <-]. case_bool_decide; [|done]. unfold navigate. case_bool_decide; [done|].
    pose proof (mount_off_canvas to now (unmount (mounted a) (gameStore a))
                  (App.playerStore a)) as Hm.
    destruct (mount to now _ _) as [st m]. simpl in *. intros Hoff.
    rewrite (Hm Hoff). by apply unmount_session.
  - destruct (mounted a) eqn:Em; try (intros [= <-]; by rewrite Em).
    by intros (w & Hw & [= <-])%bind_Ok.
  - destruct (mounted a) eqn:Em; try (intros [= <-]; by rewrite Em).
    by intros (w & Hw & [= <-])%bind_Ok.
  - destruct (mounted a) eqn:Em; try (intros [= <-]; by rewrite Em).
    destruct (SettingsPage.step _ _) as [[pg' ss'] pt']. intros [= <-]. simpl.
    intros _. by apply Ha.
Qed.

Lemma steps_idle evs a a' : idle_off_canvas a → steps evs a = Ok a' → idle_off_canvas a'.
Proof.
  revert a. induction evs as [|ev evs IH]; intros a Ha; simpl; [by intros [= <-]|].
  intros (a1 & Hs & Hrest)%bind_Ok. eapply IH; [|done]. by eapply step_idle.
Qed.

(** *** What the application keeps of the player *)

(** Every event but the confirmed reset of the settings page. *)
Definition keeps_player ev : Prop := ev ≠ InSettings SettingsPage.ConfirmReset.

(** What holds of the player and is kept by the end of a game and by a new
    name is kept by every event but the reset: no other handler of any page
    writes to the player store. *)
Section app_player.
Context (P : PlayerData.t → Prop).
Context (HP : ∀ levelId seen v now (st : St) (pt : Pt),
  P (player pt) → P (player (Page.handleGameEnd levelId seen v now st pt).1.2)).
Context (HN : ∀ name p, P p → P (Player.setPlayerName name p)).

Lemma settings_step_player e pg (ss : Ss) (pt : Pt) :
  e ≠ SettingsPage.ConfirmReset → P (player pt) →
  P (player (SettingsPage.step (pg, ss, pt) e).2).
Proof.
  intros He Hp. unfold SettingsPage.step. destruct (SettingsPage.shown e pg ss); [|done].
  destruct e; try done. simpl. unfold SettingsPage.handleSavePlayerName.
  case_bool_decide; [|done]. rewrite player_setPlayerName. by apply HN.
Qed.

Lemma navigate_player to now a : playerStore (navigate to now a) = playerStore a.
Proof. unfold navigate. case_bool_decide; [done|]. by destruct (mount _ _ _ _). Qed.

Lemma step_app_player ev a a' :
  app_event_ok ev → keeps_player ev → app_inv a → P (player (playerStore a)) →
  step ev a = Ok a' → P (player (playerStore a')).
Proof.
  intros Hev Hk [_ Hi] Hp. unfold step, page_inv in *.
  destruct ev as [to now|e|e|e]; simpl in Hev.
  - intros [= <-]. case_bool_decide; [by rewrite navigate_player|done].
  - destruct (mounted a) eqn:Em; try by intros [= <-].
    intros (w & Hw & [= <-])%bind_Ok. simpl.
    by eapply (step_player _ P (HP _)), Hw.
  - destruct (mounted a) eqn:Em; try by intros [= <-].
    intros (w & Hw & [= <-])%bind_Ok. simpl.
    destruct (endless_inv_step e _ w Hev Hi Hw) as [_ [-> _ _]]. done.
  - destruct (mounted a) eqn:Em; try by intros [= <-].
    assert (e ≠ SettingsPage.ConfirmReset) as He by (by intros ->).
    pose proof (settings_step_player e page (settingsStore a) (playerStore a) He Hp) as Hs.
    destruct (SettingsPage.step _ _) as [[pg' ss'] pt']. by intros [= <-].
Qed.

Lemma steps_app_player evs a a' :
  Forall app_event_ok evs → Forall keeps_player evs → app_inv a →
  P (player (playerStore a)) → steps evs a = Ok a' → P (player (playerStore a')).
Proof.
  intros Hevs. revert a. induction Hevs as [|ev evs Hev _ IH]; intros a Hk Ha Hp.
  { by intros [= <-]. }
  apply Forall_cons in Hk as [Hk Hks]. simpl. intros (a1 & Hs & Hrest)%bind_Ok.
  apply (IH a1 Hks); [by eapply step_app_inv|by eapply step_app_player|done].
Qed.

End app_player.

End app.

(** A walk through the application: from the home page to the level
    selection, into the first level and through the sample run of it, back
    to the level selection, into the endless mode and through its sample
    run, and to the settings, where the dialogue is opened and closed. *)
Module AppSample.
Import App.

Definition a0 : App.t GameSession.t GameSettings.t UsePlayerStore.t :=
  load "/" 0 Session.initialSession Settings.initialSettings PlaySample.pt0.

Definition evs : list Event :=
  [Click "/levels" 500; Click "/game/1-1" 1000]
  ++ (InLevel <$> PlaySample.evs)
  ++ [Click "/levels" 80000; Click "/game/1-2" 81000; Click "/endless" 90000]
  ++ (InEndless <$> EndlessSample.evs)
  ++ [Click "/settings" 800000; InSettings SettingsPage.OpenResetModal;
      InSettings SettingsPage.CloseResetModal; Click "/stats" 900000].

Lemma evs_all_ok : Forall app_event_ok evs.
Proof.
  unfold evs. repeat (apply Forall_app; split); try by repeat constructor.
  all: apply Forall_fmap;
    first [eapply Forall_impl; [exact evs_ok|done]
          |eapply Forall_impl; [exact EndlessSample.evs_fit|done]].
Qed.

Lemma evs_keep : Forall keeps_player evs.
Proof.
  unfold evs. repeat (apply Forall_app; split); try by repeat constructor.
  all: by apply Forall_fmap, Forall_true.
Qed.

End AppSample.



(** C18: Away from the canvas the session is the initial one.  When the
    application is loaded with the session a new store holds, then after
    whatever happens, on every page but the page of a level in play and the
    endless mode, the session of the store is the initial session: leaving
    a page with a canvas resets the store, and no other page touches it. *)
Theorem session_idle_off_canvas {St Ss Pt : Type} `{GameStoreLaws St} `{SettingsStore Ss}
    `{PlayerStoreLaws Pt} (pathname : string) (now : Z) (st : St) (ss : Ss) (pt : Pt)
    (evs : list App.Event) (a : App.t St Ss Pt) :
  session st = Session.initialSession →
  App.steps evs (App.load pathname now st ss pt) = Ok a →
  off_canvas (App.mounted a) = true →
  session (App.gameStore a) = Session.initialSession.
Proof.
  intros Hst Hs. refine (steps_idle evs _ a _ Hs).
  unfold idle_off_canvas, App.load.
  pose proof (mount_off_canvas pathname now st pt) as Hm.
  destruct (App.mount pathname now st pt) as [st' m]. simpl in *.
  intros Hoff. by rewrite (Hm Hoff).
Qed.

Lemma session_idle_off_canvas_witness :
  ∃ a, App.steps AppSample.evs AppSample.a0 = Ok a ∧
    App.mounted a = App.OnStats ∧ App.gameStore a = Session.initialSession.
Proof.
  assert (∃ a, App.steps AppSample.evs AppSample.a0 = Ok a ∧ App.mounted a = App.OnStats)
    as (a & Ha & Hm) by (eexists; split; vm_compute; reflexivity).
  exists a. split; [exact Ha|]. split; [exact Hm|].
  refine (session_idle_off_canvas (St := GameSession.t) (Ss := GameSettings.t)
            (Pt := UsePlayerStore.t) "/" 0 Session.initialSession Settings.initialSettings
            PlaySample.pt0 AppSample.evs a eq_refl Ha _).
  by rewrite Hm.
Defined.

(** ** The progress of the player *)

(** C19: Progress is lost only by the reset of the settings page.  Whatever
    else happens in the application, on whatever path through the pages, a
    level of the table that is unlocked stays unlocked: the end of a game
    only adds to the records, a new name leaves them, and no other handler
    writes to the player store. *)
Theorem progress_kept_without_reset {St Ss Pt : Type} `{GameStoreLaws St} `{SettingsStore Ss}
    `{PlayerStoreLaws Pt} (pathname : string) (now : Z) (st : St) (ss : Ss) (pt : Pt)
    (evs : list App.Event) (a : App.t St Ss Pt) (n : nat) (w i : Z) (level : LevelInfo.t) :
  Forall app_event_ok evs → Forall keeps_player evs →
  App.steps evs (App.load pathname now st ss pt) = Ok a →
  allLevels !! n = Some (w, i, level) →
  LevelSelect.isLevelUnlocked (player pt) w i = Ok true →
  LevelSelect.isLevelUnlocked (player (App.playerStore a)) w i = Ok true.
Proof.
  intros Hevs Hk Hs Hn. rewrite !(isLevelUnlocked_chain _ _ _ _ _ Hn).
  destruct n as [|k]; [done|]. cbn [previousCompleted].
  destruct (allLevels !! k) as [[[? ?] l]|]; [|done]. intros [= Hl]. f_equal.
  refine (steps_app_player (λ p, LevelSelect.completedOf p (LevelInfo.id l) = true) _ _
            evs _ a Hevs Hk (load_inv pathname now st ss pt) _ Hs).
  - intros levelId seen v now' st' pt'. apply completedOf_handleGameEnd.
  - done.
  - unfold App.load. by destruct (App.mount _ _ _ _).
Qed.

Lemma progress_kept_without_reset_witness :
  ∃ a, App.steps AppSample.evs AppSample.a0 = Ok a ∧
    LevelSelect.isLevelUnlocked (player (App.playerStore a)) 1 0 = Ok true.
Proof.
  destruct (steps_app (St := GameSession.t) (Ss := GameSettings.t) (Pt := UsePlayerStore.t)
              AppSample.evs AppSample.a0 AppSample.evs_all_ok (load_inv _ _ _ _ _))
    as (a & Ha & _).
  exists a. split; [exact Ha|].
  exact (progress_kept_without_reset (St := GameSession.t) (Ss := GameSettings.t)
           (Pt := UsePlayerStore.t) "/" 0 Session.initialSession Settings.initialSettings
           PlaySample.pt0 AppSample.evs a 0 1 0
           (LevelInfo.mk "1-1" "左手入门" "学习左手指法 (ASDF)" gravity)
           AppSample.evs_all_ok AppSample.evs_keep Ha eq_refl eq_refl).
Defined.

(** The reset does lose it: after the walk through the application, in
    which the level 1-1 is won, the level 1-2 is unlocked; after the same
    walk and the reset of the settings page it is locked again. *)
Example reset_locks_again :
  let evs := (AppSample.evs ++ [App.Click "/settings" 950000;
                App.InSettings SettingsPage.OpenResetModal;
                App.InSettings SettingsPage.ConfirmReset])%list in
  (∃ a, App.steps AppSample.evs AppSample.a0 = Ok a ∧
        LevelSelect.isLevelUnlocked (player (App.playerStore a)) 1 1 = Ok true) ∧
  (∃ a, App.steps evs AppSample.a0 = Ok a ∧
        LevelSelect.isLevelUnlocked (player (App.playerStore a)) 1 1 = Ok false).
Proof. split; (eexists; split; [vm_compute; reflexivity|]); vm_compute; reflexivity. Qed.

(** ** Into a level *)

Section into_level.
Context {St Ss Pt : Type} `{GameStoreLaws St} `{SettingsStore Ss} `{PlayerStoreLaws Pt}.
Import App Location.
Implicit Types (a : App.t St Ss Pt) (c : LevelSelect.Card).

Lemma card_link_shown a ss world cs c to :
  mounted a = OnLevels → LevelSelect.render (player (App.playerStore a)) = Ok ss →
  (world, cs) ∈ ss → c ∈ cs → LevelSelect.link c = Some to → to ∈ links a.
Proof.
  intros Hm Hr Hs Hc Hl. unfold links, pageLinks. rewrite Hm, Hr.
  apply elem_of_cons. right. apply elem_of_app. right.
  apply list_elem_of_omap. exists c. split; [|done].
  apply list_elem_of_bind. by exists (world, cs).
Qed.

Lemma mount_level to levelId cfg now st pt :
  locate to = Some (Game levelId) → Page.levelConfig (Some levelId) = Some cfg →
  mount to now st pt =
    (startGame (Words.mode cfg) (Some levelId) now st,
     OnLevel levelId (Refs.init now) EmptyString false).
Proof.
  intros Hl Hc. unfold mount. rewrite Hl, Hc. unfold World.init.
  cbn [World.game World.canvas World.currentInput World.showResult].
  unfold Page.mount. rewrite Hc. unfold Page.levelConfig, Page.orNull in *.
  by case_bool_decide.
Qed.

End into_level.

(** A click on a card of the level selection starts its level: the page of
    the level is mounted with a new canvas and an empty input line, and the
    store starts a game of the mode the card shows for that level. *)
Theorem card_click_starts_level {St Ss Pt : Type} `{GameStoreLaws St} `{SettingsStore Ss}
    `{PlayerStoreLaws Pt} (a : App.t St Ss Pt)
    (ss : list (WorldInfo.t * list LevelSelect.Card)) (world : WorldInfo.t)
    (cs : list LevelSelect.Card) (c : LevelSelect.Card) (to : string) (now : Z) :
  Location.locate (App.pathname a) = Some Location.Levels → App.mounted a = App.OnLevels →
  LevelSelect.render (player (App.playerStore a)) = Ok ss →
  (world, cs) ∈ ss → c ∈ cs → LevelSelect.link c = Some to →
  let levelId := LevelInfo.id (LevelSelect.level c) in
  ∃ a', App.step (App.Click to now) a = Ok a' ∧
    App.pathname a' = to ∧
    App.mounted a' = App.OnLevel levelId (Refs.init now) EmptyString false ∧
    App.playerStore a' = App.playerStore a ∧
    session (App.gameStore a') =
      Session.startGame (LevelInfo.mode (LevelSelect.level c)) (Some levelId) now
        (session (App.gameStore a)).
Proof.
  intros Hp Hm Hr Hs Hc Hl levelId.
  destruct (card_links_open_levels _ ss world cs c Hr Hs Hc) as [_ Hopen].
  destruct (Hopen to Hl) as [Hloc Hcfg]. fold levelId in Hloc, Hcfg.
  destruct (Page.levelConfig (Some levelId)) as [cfg|] eqn:Ec; [|done].
  apply (inj Some) in Hcfg. eexists. split.
  { unfold App.step. rewrite bool_decide_eq_true_2 by by eapply card_link_shown.
    unfold App.navigate. rewrite bool_decide_eq_false_2 by by rewrite Hloc, Hp.
    rewrite Hm. cbn [App.unmount]. by rewrite (mount_level to levelId cfg). }
  simpl. split_and!; try done. by rewrite session_startGame, Hcfg.
Qed.

Lemma card_click_starts_level_witness :
  let a := App.mk "/levels" Session.initialSession Settings.initialSettings PlaySample.pt0
             App.OnLevels in
  ∃ a', App.step (App.Click "/game/1-1" 1000) a = Ok a' ∧
    App.mounted a' = App.OnLevel "1-1" (Refs.init 1000) EmptyString false.
Proof.
  intros a.
  assert (∃ world c cs ss,
            LevelSelect.render (player (App.playerStore a)) = Ok ((world, c :: cs) :: ss) ∧
            LevelSelect.link c = Some "/game/1-1" ∧
            LevelInfo.id (LevelSelect.level c) = "1-1")
    as (world & c & cs & ss & E & El & Ei) by (vm_compute; eauto 10).
  destruct (card_click_starts_level (St := GameSession.t) (Ss := GameSettings.t)
              (Pt := UsePlayerStore.t) a _ world (c :: cs) c "/game/1-1" 1000
              eq_refl eq_refl E (list_elem_of_here _ _) (list_elem_of_here _ _) El)
    as (a' & Ha & _ & Hm & _).
  exists a'. rewrite Ei in Hm. exact (conj Ha Hm).
Defined.

(** The address of a level starts the level, unlocked or not: for a new
    player the level selection shows one link, to the first level, and the
    last level is locked; loaded at the address of the last level, the
    application mounts it and the store starts its game. *)
Example locked_level_opens_by_address :
  let p := PlaySample.pt0 in
  let a := App.load "/game/4-3" 1000 Session.initialSession Settings.initialSettings p in
  LevelSelect.isLevelUnlocked (player p) 4 2 = Ok false ∧
  App.pageLinks App.OnLevels (player p) = ["/game/1-1"] ∧
  App.mounted a = App.OnLevel "4-3" (Refs.init 1000) EmptyString false ∧
  GameSession.state (App.gameStore a) = playing ∧
  GameSession.levelId (App.gameStore a) = Some "4-3".
Proof. by vm_compute. Qed.

(** ** The dialogue of the settings page *)

(** Escape closes the dialogue of the settings page and resets nothing:
    with the dialogue open, Escape does to the page what the button Cancel
    does, and the stores stay as they are; any other key, and any key while
    the dialogue is closed, does nothing. *)
Theorem reset_dialog_escape {Ss Pt : Type} `{SettingsStore Ss} `{PlayerStore Pt}
    (n : nat) (pg : SettingsPage.t) (ss : Ss) (pt : Pt) (e : KeyboardEvent.t) :
  let d := (Modal.mount (ResetDialog.props n pg) (Dom.mk [] "")).2 in
  (Dom.dispatch e d pg, ss, pt) =
    (if SettingsPage.showResetModal pg && bool_decide (KeyboardEvent.key e = "Escape")
     then SettingsPage.step (pg, ss, pt) SettingsPage.CloseResetModal
     else (pg, ss, pt)) ∧
  Dom.overflow d = (if SettingsPage.showResetModal pg then "hidden" else "").
Proof.
  unfold Modal.mount, Modal.effect, ResetDialog.props, Modal.props. simpl.
  destruct (SettingsPage.showResetModal pg) eqn:Eo; simpl; [|done].
  unfold Dom.dispatch. simpl. by case_bool_decide.
Qed.
